(** * The DID catalog core of Rucio: a shallow embedding of
      [lib/rucio/core/did.py] and the properties of its graph engine.

    The catalog is relational: every table the engine reads or writes is a
    list of rows held in a [Session], and every operation of [did.py] is a
    computation in a small monad of session state and Python exceptions.
    Queries keep the order in which rows were inserted.  The manager of
    temporary tables of [lib/rucio/db/sqla/util.py], from which [did.py]
    obtains its staging tables, is embedded apart, in [TempTables]. *)

From Stdlib Require Import List String ZArith Bool Lia Arith DecimalString DecimalNat.
From Stdlib Require Import Relations Wellfounded Sorted Permutation.
Import ListNotations.

Set Implicit Arguments.
Open Scope string_scope.
Open Scope list_scope.
Open Scope Z_scope.

(** ** Python values *)

(** The scalar values that travel in the dictionaries of the callers and in
    message payloads. *)
Inductive pyval : Type :=
| PyNone
| PyBool (b : bool)
| PyInt (z : Z)
| PyStr (s : string).

(** [str(z)] for an integer. *)
Definition str_of_Z (z : Z) : string := NilZero.string_of_int (Z.to_int z).

(** Python's [str(v)]. *)
Definition py_str (v : pyval) : string :=
  match v with
  | PyNone => "None"
  | PyBool true => "True"
  | PyBool false => "False"
  | PyInt z => str_of_Z z
  | PyStr s => s
  end.

Definition py_of_int (o : option Z) : pyval :=
  match o with Some z => PyInt z | None => PyNone end.

Definition py_of_str (o : option string) : pyval :=
  match o with Some s => PyStr s | None => PyNone end.

(** Truth value of an optional integer ([None] and [0] are false). *)
Definition truthy (o : option Z) : bool :=
  match o with Some z => negb (z =? 0) | None => false end.

(** Truth value of a nullable boolean column. *)
Definition is_true (o : option bool) : bool :=
  match o with Some b => b | None => false end.

(** [x or 0]. *)
Definition or0 (o : option Z) : Z :=
  match o with Some z => z | None => 0 end.

(** A Python dictionary with string keys, in insertion order. *)
Definition pydict : Type := list (string * pyval).

Fixpoint dict_get (k : string) (d : pydict) : option pyval :=
  match d with
  | [] => None
  | (k', v) :: d' => if String.eqb k k' then Some v else dict_get k d'
  end.

Definition dict_has (k : string) (d : pydict) : bool :=
  match dict_get k d with Some _ => true | None => false end.

(** [d.get(k)]: a missing key reads as [None]. *)
Definition dict_get_none (k : string) (d : pydict) : pyval :=
  match dict_get k d with Some v => v | None => PyNone end.

(** ** Enumerations of [rucio.db.sqla.constants] *)

Inductive DIDType : Type := FILE | DATASET | CONTAINER.

Inductive DIDAvailability : Type := AVAILABLE | LOST | DELETED.

Inductive DIDReEvaluation : Type := ATTACH | DETACH.

Module BadFilesStatus.
Inductive t : Type := BAD | DELETED | LOST | RECOVERED | SUSPICIOUS | TEMPORARY_UNAVAILABLE.
End BadFilesStatus.

Definition DIDType_eqb (a b : DIDType) : bool :=
  match a, b with
  | FILE, FILE | DATASET, DATASET | CONTAINER, CONTAINER => true
  | _, _ => false
  end.

Definition DIDAvailability_eqb (a b : DIDAvailability) : bool :=
  match a, b with
  | AVAILABLE, AVAILABLE | LOST, LOST | DELETED, DELETED => true
  | _, _ => false
  end.

Definition DIDReEvaluation_eqb (a b : DIDReEvaluation) : bool :=
  match a, b with
  | ATTACH, ATTACH | DETACH, DETACH => true
  | _, _ => false
  end.

(** [str(did_type)] as it appears in message payloads. *)
Definition DIDType_str (t : DIDType) : string :=
  match t with FILE => "FILE" | DATASET => "DATASET" | CONTAINER => "CONTAINER" end.

(** Comparison of a nullable type column with an enumeration member. *)
Definition type_is (o : option DIDType) (t : DIDType) : bool :=
  match o with Some t' => DIDType_eqb t' t | None => false end.

(** ** Scopes, accounts and keys *)

(** An [InternalScope]: the external name and the VO it belongs to. *)
Record InternalScope : Type := { external : string; vo : string }.

(** An [InternalAccount] has the same two components. *)
Definition InternalAccount : Type := InternalScope.

Definition scope_eqb (a b : InternalScope) : bool :=
  String.eqb (external a) (external b) && String.eqb (vo a) (vo b).

(** A DID is named by its scope and name. *)
Definition key : Type := (InternalScope * string)%type.

Definition key_eqb (a b : key) : bool :=
  scope_eqb (fst a) (fst b) && String.eqb (snd a) (snd b).

Definition key_in (k : key) (l : list key) : bool := existsb (key_eqb k) l.

(** Instants are integers (seconds); a nullable time column is [option Z]. *)
Definition datetime : Type := Z.

(** ** The tables of [rucio.db.sqla.models]

    One record per model, one field per column the engine touches.  A
    nullable column is an [option].  Setters are derived from the
    eta-expansion of the record, one per column that [did.py] assigns. *)

Ltac derive_setter eta proj :=
  let v := fresh "v" in
  let r := fresh "r" in
  intros v r;
  let body := eval cbv beta delta [eta] in (eta r) in
  match eval pattern (proj r) in body with
  | ?f _ => exact (f v)
  end.

(** The domain-specific columns of a DID, which the engine only copies. *)
Record DomainColumns : Type := {
  project : option string;
  datatype : option string;
  run_number : option Z;
  stream_name : option string;
  prod_step : option string;
  version : option string;
  campaign : option string;
  task_id : option Z;
  panda_id : option Z;
  lumiblocknr : option Z;
  provenance : option string;
  phys_group : option string;
  transient : option bool
}.

Module DataIdentifier.
Record t : Type := {
  scope : InternalScope;
  name : string;
  account : option InternalAccount;
  did_type : option DIDType;
  is_open : option bool;
  monotonic : option bool;
  hidden : option bool;
  obsolete : option bool;
  complete : option bool;
  is_new : option bool;
  availability : option DIDAvailability;
  suppressed : option bool;
  bytes : option Z;
  length : option Z;
  md5 : option string;
  adler32 : option string;
  expired_at : option datetime;
  purge_replicas : option bool;
  deleted_at : option datetime;
  events : option Z;
  guid : option string;
  domain : DomainColumns;
  accessed_at : option datetime;
  closed_at : option datetime;
  eol_at : option datetime;
  is_archive : option bool;
  constituent : option bool;
  access_cnt : option Z;
  created_at : option datetime;
  updated_at : option datetime
}.

Definition eta (d : t) : t :=
  {| scope := scope d; name := name d; account := account d;
     did_type := did_type d; is_open := is_open d; monotonic := monotonic d;
     hidden := hidden d; obsolete := obsolete d; complete := complete d;
     is_new := is_new d; availability := availability d;
     suppressed := suppressed d; bytes := bytes d; length := length d;
     md5 := md5 d; adler32 := adler32 d; expired_at := expired_at d;
     purge_replicas := purge_replicas d; deleted_at := deleted_at d;
     events := events d; guid := guid d; domain := domain d;
     accessed_at := accessed_at d; closed_at := closed_at d;
     eol_at := eol_at d; is_archive := is_archive d;
     constituent := constituent d; access_cnt := access_cnt d;
     created_at := created_at d; updated_at := updated_at d |}.

Definition set_is_open : option bool -> t -> t.
Proof. derive_setter eta is_open. Defined.
Definition set_is_new : option bool -> t -> t.
Proof. derive_setter eta is_new. Defined.
Definition set_bytes : option Z -> t -> t.
Proof. derive_setter eta bytes. Defined.
Definition set_length : option Z -> t -> t.
Proof. derive_setter eta length. Defined.
Definition set_events : option Z -> t -> t.
Proof. derive_setter eta events. Defined.
Definition set_expired_at : option datetime -> t -> t.
Proof. derive_setter eta expired_at. Defined.
Definition set_closed_at : option datetime -> t -> t.
Proof. derive_setter eta closed_at. Defined.
Definition set_is_archive : option bool -> t -> t.
Proof. derive_setter eta is_archive. Defined.
Definition set_constituent : option bool -> t -> t.
Proof. derive_setter eta constituent. Defined.
Definition set_accessed_at : option datetime -> t -> t.
Proof. derive_setter eta accessed_at. Defined.
Definition set_access_cnt : option Z -> t -> t.
Proof. derive_setter eta access_cnt. Defined.

(** The primary key [DIDS_PK]. *)
Definition pk (d : t) : key := (scope d, name d).
End DataIdentifier.

(** [models.DataIdentifierAssociation], the table [contents]. *)
Module DataIdentifierAssociation.
Record t : Type := {
  scope : InternalScope;
  name : string;
  child_scope : InternalScope;
  child_name : string;
  did_type : option DIDType;
  child_type : option DIDType;
  bytes : option Z;
  adler32 : option string;
  md5 : option string;
  guid : option string;
  events : option Z;
  rule_evaluation : option bool;
  created_at : option datetime;
  updated_at : option datetime
}.

Definition parent (a : t) : key := (scope a, name a).
Definition child (a : t) : key := (child_scope a, child_name a).
End DataIdentifierAssociation.

(** [models.DataIdentifierAssociationHistory]: a removed association, with
    the creation time of its parent and the time of removal. *)
Module DataIdentifierAssociationHistory.
Record t : Type := {
  scope : InternalScope;
  name : string;
  child_scope : InternalScope;
  child_name : string;
  did_type : option DIDType;
  child_type : option DIDType;
  bytes : option Z;
  adler32 : option string;
  md5 : option string;
  guid : option string;
  events : option Z;
  rule_evaluation : option bool;
  did_created_at : option datetime;
  created_at : option datetime;
  updated_at : option datetime;
  deleted_at : option datetime
}.

Definition parent (a : t) : key := (scope a, name a).
Definition child (a : t) : key := (child_scope a, child_name a).
End DataIdentifierAssociationHistory.

(** [models.ConstituentAssociation], the table [archive_contents]. *)
Module ConstituentAssociation.
Record t : Type := {
  scope : InternalScope;
  name : string;
  child_scope : InternalScope;
  child_name : string;
  bytes : pyval;
  adler32 : pyval;
  md5 : pyval;
  guid : pyval;
  length : pyval
}.
End ConstituentAssociation.

(** [models.UpdatedDID]: a pending re-evaluation of the rules of a DID. *)
Module UpdatedDID.
Record t : Type := {
  scope : InternalScope;
  name : string;
  rule_evaluation_action : DIDReEvaluation
}.

Definition eqb (a b : t) : bool :=
  key_eqb (scope a, name a) (scope b, name b)
  && DIDReEvaluation_eqb (rule_evaluation_action a) (rule_evaluation_action b).
End UpdatedDID.

(** A message handed to [add_message]: the event type and its payload. *)
Record Message : Type := { event_type : string; payload : pydict }.

Module ReplicationRule.
Record t : Type := {
  id : string;
  scope : InternalScope;
  name : string;
  rse_expression : string;
  locked : option bool;
  locks_ok_cnt : Z;
  locks_replicating_cnt : Z;
  locks_stuck_cnt : Z
}.
End ReplicationRule.

Module DatasetLock.
Record t : Type := {
  scope : InternalScope;
  name : string;
  rule_id : string;
  rse_id : string;
  length : option Z;
  bytes : option Z
}.
End DatasetLock.

Module DidMeta.
Record t : Type := { scope : InternalScope; name : string; meta : pydict }.
End DidMeta.

Module BadReplica.
Record t : Type := {
  scope : InternalScope;
  name : string;
  rse_id : string;
  state : BadFilesStatus.t;
  updated_at : option datetime
}.
End BadReplica.

Module RSEFileAssociation.
Record t : Type := {
  scope : InternalScope;
  name : string;
  rse_id : string;
  lock_cnt : option Z;
  tombstone : option datetime
}.
End RSEFileAssociation.

Module CollectionReplica.
Record t : Type := { scope : InternalScope; name : string; rse_id : string }.
End CollectionReplica.

Module DidFollowed.
Record t : Type := { scope : InternalScope; name : string; account : InternalAccount }.
End DidFollowed.

(** ** The session *)

(** The configuration options the engine reads, with their defaults
    already applied ([config_get_bool] and [config_get_int]). *)
Record Config : Type := {
  archive_dids : bool;
  archive_content : bool;
  expire_rules_locks_size : Z;
  purge_all_replicas : bool;
  reevaluate_dids_at_close : bool
}.

(** The database as one transaction sees it, the dialect of the bound
    engine and the clock read by [datetime.utcnow()]. *)
Record Session : Type := {
  dialect : string;
  oracle_version : Z;
  utcnow : datetime;
  config : Config;
  dids : list DataIdentifier.t;
  contents : list DataIdentifierAssociation.t;
  contents_history : list DataIdentifierAssociationHistory.t;
  archive_contents : list ConstituentAssociation.t;
  deleted_dids : list DataIdentifier.t;
  updated_dids : list UpdatedDID.t;
  messages : list Message;
  rules : list ReplicationRule.t;
  dataset_locks : list DatasetLock.t;
  did_meta : list DidMeta.t;
  bad_replicas : list BadReplica.t;
  replicas : list RSEFileAssociation.t;
  collection_replicas : list CollectionReplica.t;
  dids_followed : list DidFollowed.t
}.

Definition eta_session (s : Session) : Session :=
  {| dialect := dialect s; oracle_version := oracle_version s;
     utcnow := utcnow s; config := config s; dids := dids s;
     contents := contents s; contents_history := contents_history s;
     archive_contents := archive_contents s; deleted_dids := deleted_dids s;
     updated_dids := updated_dids s; messages := messages s;
     rules := rules s; dataset_locks := dataset_locks s;
     did_meta := did_meta s; bad_replicas := bad_replicas s;
     replicas := replicas s; collection_replicas := collection_replicas s;
     dids_followed := dids_followed s |}.

Definition set_dids : list DataIdentifier.t -> Session -> Session.
Proof. derive_setter eta_session dids. Defined.
Definition set_contents : list DataIdentifierAssociation.t -> Session -> Session.
Proof. derive_setter eta_session contents. Defined.
Definition set_contents_history :
  list DataIdentifierAssociationHistory.t -> Session -> Session.
Proof. derive_setter eta_session contents_history. Defined.
Definition set_archive_contents : list ConstituentAssociation.t -> Session -> Session.
Proof. derive_setter eta_session archive_contents. Defined.
Definition set_deleted_dids : list DataIdentifier.t -> Session -> Session.
Proof. derive_setter eta_session deleted_dids. Defined.
Definition set_updated_dids : list UpdatedDID.t -> Session -> Session.
Proof. derive_setter eta_session updated_dids. Defined.
Definition set_messages : list Message -> Session -> Session.
Proof. derive_setter eta_session messages. Defined.
Definition set_dataset_locks : list DatasetLock.t -> Session -> Session.
Proof. derive_setter eta_session dataset_locks. Defined.
Definition set_did_meta : list DidMeta.t -> Session -> Session.
Proof. derive_setter eta_session did_meta. Defined.
Definition set_bad_replicas : list BadReplica.t -> Session -> Session.
Proof. derive_setter eta_session bad_replicas. Defined.
Definition set_replicas : list RSEFileAssociation.t -> Session -> Session.
Proof. derive_setter eta_session replicas. Defined.
Definition set_collection_replicas : list CollectionReplica.t -> Session -> Session.
Proof. derive_setter eta_session collection_replicas. Defined.
Definition set_dids_followed : list DidFollowed.t -> Session -> Session.
Proof. derive_setter eta_session dids_followed. Defined.

(** ** Exceptions and the monad of the engine *)

Inductive exn : Type :=
| DataIdentifierNotFound
| UnsupportedOperation
| UnsupportedStatus
| FileConsistencyMismatch
| FileAlreadyExists
| DuplicateContent
| DatabaseException
| RucioException
| UndefinedPolicy
| KeyError
| TypeError
| IntegrityError.

Definition exn_eqb (a b : exn) : bool :=
  match a, b with
  | DataIdentifierNotFound, DataIdentifierNotFound
  | UnsupportedOperation, UnsupportedOperation
  | UnsupportedStatus, UnsupportedStatus
  | FileConsistencyMismatch, FileConsistencyMismatch
  | FileAlreadyExists, FileAlreadyExists
  | DuplicateContent, DuplicateContent
  | DatabaseException, DatabaseException
  | RucioException, RucioException
  | UndefinedPolicy, UndefinedPolicy
  | KeyError, KeyError
  | TypeError, TypeError
  | IntegrityError, IntegrityError => true
  | _, _ => false
  end.

(** A computation ends with a value, or with an exception raised in the
    state reached so far, or it has used up the recursion budget it was
    given (only the recursive traversals of the graph can). *)
Inductive outcome (A : Type) : Type :=
| Ok (a : A) (s : Session)
| Raise (e : exn) (s : Session)
| OutOfFuel.

Arguments Raise {A} e s.
Arguments OutOfFuel {A}.

Definition M (A : Type) : Type := Session -> outcome A.

Definition ret {A} (a : A) : M A := fun s => Ok a s.

Definition bind {A B} (m : M A) (k : A -> M B) : M B :=
  fun s =>
    match m s with
    | Ok a s' => k a s'
    | Raise e s' => Raise e s'
    | OutOfFuel => OutOfFuel
    end.

Definition raise {A} (e : exn) : M A := fun s => Raise e s.

Definition get : M Session := fun s => Ok s s.

Definition modify (f : Session -> Session) : M unit := fun s => Ok tt (f s).

Declare Scope session_scope.
Delimit Scope session_scope with session.
Notation "x <- m ;; k" := (bind m (fun x => k))
  (at level 61, m at next level, right associativity) : session_scope.
Notation "m ;; k" := (bind m (fun _ => k))
  (at level 61, right associativity) : session_scope.
Open Scope session_scope.

(** A [for] loop whose body can raise. *)
Fixpoint for_each {A} (l : list A) (body : A -> M unit) : M unit :=
  match l with
  | [] => ret tt
  | x :: l' => body x ;; for_each l' body
  end.

(** [if c: body]. *)
Definition when (c : bool) (body : M unit) : M unit :=
  if c then body else ret tt.

(** [try: m  except e: handler]; the handler runs in the state reached
    when the exception was raised. *)
Definition try_except {A} (m : M A) (e : exn) (handler : M A) : M A :=
  fun s =>
    match m s with
    | Raise e' s' => if exn_eqb e' e then handler s' else Raise e' s'
    | r => r
    end.

(** The decorator [transactional_session] at the outermost call: an
    exception rolls the session back to where the transaction began. *)
Definition transactional_session {A} (m : M A) : M A :=
  fun s =>
    match m s with
    | Ok a s' => Ok a s'
    | Raise e _ => Raise e s
    | OutOfFuel => OutOfFuel
    end.

(** [add_message(event_type, payload)]: the message is queued in the
    transaction. *)
Definition add_message (ev : string) (p : pydict) : M unit :=
  modify (fun s => set_messages (messages s ++ [{| event_type := ev; payload := p |}]) s).

(** The key [vo] is added to a payload only outside the default VO. *)
Definition with_vo (DEFAULT_VO : string) (v : string) (p : pydict) : pydict :=
  if String.eqb v DEFAULT_VO then p else p ++ [("vo", PyStr v)].

(** ** A child as the caller names it *)

(** One entry of [attachment['dids']]: the scope and name, the other
    top-level keys, and the dictionary under [meta] when there is one. *)
Record ChildDict : Type := {
  c_scope : InternalScope;
  c_name : string;
  c_attrs : pydict;
  c_meta : option pydict
}.

Definition c_key (c : ChildDict) : key := (c_scope c, c_name c).

(** One attachment: the parent, its new children and the RSE on which
    replicas are to be registered. *)
Record Attachment : Type := {
  a_scope : InternalScope;
  a_name : string;
  a_dids : list ChildDict;
  a_rse_id : option string
}.

(** ** Collaborators

    What [did.py] imports from outside the catalog core: the rule engine,
    the replica engine, the metadata plugins, helpers of [rucio.common],
    the constants, the hash of [hashlib] and the hash a database applies
    in a sharding predicate. *)
Record Collaborators : Type := {
  DEFAULT_VO : string;
  (** [rucio.common.utils.is_archive(name)] *)
  is_archive : string -> bool;
  (** [validate_name(scope, name, did_type='D')]; [None] when it raises *)
  validate_name : InternalScope -> string -> option pydict;
  (** [rucio.core.replica.add_replicas(rse_id, files, dataset_meta, account)] *)
  add_replicas : string -> list ChildDict -> option pydict -> InternalAccount -> M unit;
  (** [rucio.core.rule.archive_localgroupdisk_datasets(scope, name)] *)
  archive_localgroupdisk_datasets : InternalScope -> string -> M unit;
  (** [rucio.core.rule.delete_rule(rule_id, purge_replicas, soft,
      delete_parent=True, nowait=True)] *)
  delete_rule : string -> bool -> bool -> M unit;
  (** [did_meta_plugins.set_metadata(scope, name, key, value)] *)
  set_metadata_plugin : InternalScope -> string -> string -> pyval -> M unit;
  (** [rucio.core.rule.generate_rule_notifications(rule)] *)
  generate_rule_notifications : ReplicationRule.t -> M unit;
  (** [int(md5(name).hexdigest(), 16)]; [None] when [md5] rejects its
      argument with a [TypeError] *)
  md5_int : string -> option Z;
  (** the hash of a name computed by the database *)
  db_hash : string -> Z;
  (** the value the model base class gives [created_at] and [updated_at]
      of a row inserted at a given instant *)
  model_timestamp : datetime -> option datetime
}.

(** ** Queries shared by the operations *)

(** The live row of a DID, if any ([DIDS_PK] makes it unique). *)
Definition find_did (k : key) (s : Session) : option DataIdentifier.t :=
  find (fun d => key_eqb (DataIdentifier.pk d) k) (dids s).

(** An [UPDATE] of the rows of [dids] selected by [sel]. *)
Definition update_dids (sel : DataIdentifier.t -> bool)
    (f : DataIdentifier.t -> DataIdentifier.t) : M unit :=
  modify (fun s => set_dids (map (fun d => if sel d then f d else d) (dids s)) s).

(** Assignment to attributes of the mapped object of one DID. *)
Definition update_did (k : key) (f : DataIdentifier.t -> DataIdentifier.t) : M unit :=
  update_dids (fun d => key_eqb (DataIdentifier.pk d) k) f.

(** Stable insertion sort of rows by an integer key ([ORDER BY]). *)
Fixpoint insert_by {A} (f : A -> Z) (x : A) (l : list A) : list A :=
  match l with
  | [] => [x]
  | y :: l' => if f x <? f y then x :: l else y :: insert_by f x l'
  end.

Definition order_by {A} (f : A -> Z) (l : list A) : list A :=
  fold_right (insert_by f) [] l.

(** ** Scan of expired DIDs *)

(** A row of the result of [list_expired_dids]. *)
Record ExpiredDid : Type := {
  e_scope : InternalScope;
  e_name : string;
  e_did_type : option DIDType;
  e_created_at : option datetime;
  e_purge_replicas : option bool
}.

Definition expired_row (d : DataIdentifier.t) : ExpiredDid :=
  {| e_scope := DataIdentifier.scope d;
     e_name := DataIdentifier.name d;
     e_did_type := DataIdentifier.did_type d;
     e_created_at := DataIdentifier.created_at d;
     e_purge_replicas := DataIdentifier.purge_replicas d |}.

(** The sub-query: a rule on the DID with [locked == true()]. *)
Definition has_locked_rule (s : Session) (d : DataIdentifier.t) : bool :=
  existsb (fun r =>
             key_eqb (ReplicationRule.scope r, ReplicationRule.name r)
                     (DataIdentifier.pk d)
             && is_true (ReplicationRule.locked r))
          (rules s).

(** [expired_at < datetime.utcnow()]; a null column never compares. *)
Definition is_expired (s : Session) (d : DataIdentifier.t) : bool :=
  match DataIdentifier.expired_at d with
  | Some t => t <? utcnow s
  | None => false
  end.

(** [list_stmt]: the expired DIDs no locked rule protects, by [expired_at]. *)
Definition list_stmt (s : Session) : list DataIdentifier.t :=
  order_by (fun d => or0 (DataIdentifier.expired_at d))
           (filter (fun d => is_expired s d && negb (has_locked_rule s d)) (dids s)).

Section Engine.

Variable ext : Collaborators.

(** Modelled from the spec: [filter_thread_work] of [rucio.db.sqla], which
    is not among the sources.  On a backend with a pushdown hash predicate
    the statement keeps the rows with
    [hash(name) mod total_workers == worker]. *)
Definition filter_thread_work (total_threads thread_id : option Z)
    (rows : list DataIdentifier.t) : list DataIdentifier.t :=
  match total_threads, thread_id with
  | Some n, Some k =>
      filter (fun d => db_hash ext (DataIdentifier.name d) mod n =? k) rows
  | _, _ => rows
  end.

(** The loop of the SQLite branch over the rows of the statement, with
    its two accumulators. *)
Fixpoint sqlite_scan (worker_number total_workers : Z) (limit : option Z)
    (rows : list DataIdentifier.t) (row_count : Z) (acc : list ExpiredDid)
    : M (list ExpiredDid) :=
  match rows with
  | [] => ret acc
  | d :: rows' =>
      match md5_int ext (DataIdentifier.name d) with
      | None => raise TypeError
      | Some h =>
          let hit := h mod total_workers =? worker_number in
          let acc' := if hit then acc ++ [expired_row d] else acc in
          let row_count' := if hit then row_count + 1 else row_count in
          if truthy limit && (row_count' >=? or0 limit) then ret acc'
          else sqlite_scan worker_number total_workers limit rows' row_count' acc'
      end
  end.

Definition server_dialect (n : string) : bool :=
  String.eqb n "oracle" || String.eqb n "mysql" || String.eqb n "postgresql".

Definition apply_limit {A} (limit : option Z) (rows : list A) : list A :=
  if truthy limit then firstn (Z.to_nat (or0 limit)) rows else rows.

Definition list_expired_dids (worker_number total_workers limit : option Z)
    : M (list ExpiredDid) :=
  s <- get ;;
  if server_dialect (dialect s) then
    ret (map expired_row
             (apply_limit limit
                (filter_thread_work total_workers worker_number (list_stmt s))))
  else if String.eqb (dialect s) "sqlite"
          && truthy worker_number && truthy total_workers
          && (or0 total_workers >? 0) then
    sqlite_scan (or0 worker_number) (or0 total_workers) limit (list_stmt s) 0 []
  else if truthy worker_number && truthy total_workers then
    raise DatabaseException
  else
    ret (map expired_row (apply_limit limit (list_stmt s))).

(** ** Detach *)

(** The association row of a parent and a child ([CONTENTS_PK]). *)
Definition find_association (p c : key) (s : Session)
    : option DataIdentifierAssociation.t :=
  find (fun a => key_eqb (DataIdentifierAssociation.parent a) p
                 && key_eqb (DataIdentifierAssociation.child a) c)
       (contents s).

Definition is_collection (d : DataIdentifier.t) : bool :=
  type_is (DataIdentifier.did_type d) CONTAINER
  || type_is (DataIdentifier.did_type d) DATASET.

(** The three guarded decrements of the cached aggregates of the parent. *)
Definition decrement_aggregates (child_size child_events : option Z)
    (did : DataIdentifier.t) : DataIdentifier.t :=
  let did1 :=
    if truthy (DataIdentifier.length did)
    then DataIdentifier.set_length (Some (or0 (DataIdentifier.length did) - 1)) did
    else did in
  let did2 :=
    if truthy (DataIdentifier.bytes did1) && truthy child_size
    then DataIdentifier.set_bytes
           (Some (or0 (DataIdentifier.bytes did1) - or0 child_size)) did1
    else did1 in
  if truthy (DataIdentifier.events did2) && truthy child_events
  then DataIdentifier.set_events
         (Some (or0 (DataIdentifier.events did2) - or0 child_events)) did2
  else did2.

(** The history row written for a removed association. *)
Definition new_detach (a : DataIdentifierAssociation.t)
    (did_created_at : option datetime) (now : datetime)
    : DataIdentifierAssociationHistory.t :=
  {| DataIdentifierAssociationHistory.scope := DataIdentifierAssociation.scope a;
     DataIdentifierAssociationHistory.name := DataIdentifierAssociation.name a;
     DataIdentifierAssociationHistory.child_scope := DataIdentifierAssociation.child_scope a;
     DataIdentifierAssociationHistory.child_name := DataIdentifierAssociation.child_name a;
     DataIdentifierAssociationHistory.did_type := DataIdentifierAssociation.did_type a;
     DataIdentifierAssociationHistory.child_type := DataIdentifierAssociation.child_type a;
     DataIdentifierAssociationHistory.bytes := DataIdentifierAssociation.bytes a;
     DataIdentifierAssociationHistory.adler32 := DataIdentifierAssociation.adler32 a;
     DataIdentifierAssociationHistory.md5 := DataIdentifierAssociation.md5 a;
     DataIdentifierAssociationHistory.guid := DataIdentifierAssociation.guid a;
     DataIdentifierAssociationHistory.events := DataIdentifierAssociation.events a;
     DataIdentifierAssociationHistory.rule_evaluation := DataIdentifierAssociation.rule_evaluation a;
     DataIdentifierAssociationHistory.did_created_at := did_created_at;
     DataIdentifierAssociationHistory.created_at := DataIdentifierAssociation.created_at a;
     DataIdentifierAssociationHistory.updated_at := DataIdentifierAssociation.updated_at a;
     DataIdentifierAssociationHistory.deleted_at := Some now |}.

Definition chld_type_name (t : option DIDType) : string :=
  match t with
  | Some CONTAINER => "CONTAINER"
  | Some DATASET => "DATASET"
  | _ => "UNKNOWN"
  end.

Definition type_str (t : option DIDType) : string :=
  match t with Some t' => DIDType_str t' | None => "None" end.

(** The body of the loop of [detach_dids] for one requested child. *)
Definition detach_one (p : key) (source : key) : M unit :=
  if key_eqb p source then raise UnsupportedOperation else
  s <- get ;;
  match find_association p source s, find_did p s with
  | None, _ => raise DataIdentifierNotFound
  | Some _, None => raise DataIdentifierNotFound
  | Some associ_did, Some did =>
      let child_type := DataIdentifierAssociation.child_type associ_did in
      update_did p (decrement_aggregates
                      (DataIdentifierAssociation.bytes associ_did)
                      (DataIdentifierAssociation.events associ_did)) ;;
      modify (fun s =>
        set_contents
          (filter (fun a => negb (key_eqb (DataIdentifierAssociation.parent a) p
                                  && key_eqb (DataIdentifierAssociation.child a) source))
                  (contents s)) s) ;;
      modify (fun s =>
        set_contents_history
          (contents_history s
           ++ [new_detach associ_did (DataIdentifier.created_at did) (utcnow s)]) s) ;;
      when (type_is (DataIdentifier.did_type did) CONTAINER)
        (add_message "ERASE_CNT"
           (with_vo (DEFAULT_VO ext) (vo (fst p))
              [("scope", PyStr (external (fst p)));
               ("name", PyStr (snd p));
               ("childscope", PyStr (external (fst source)));
               ("childname", PyStr (snd source));
               ("childtype", PyStr (chld_type_name child_type))])) ;;
      add_message "DETACH"
        (with_vo (DEFAULT_VO ext) (vo (fst p))
           [("scope", PyStr (external (fst p)));
            ("name", PyStr (snd p));
            ("did_type", PyStr (type_str (DataIdentifier.did_type did)));
            ("child_scope", PyStr (external (fst source)));
            ("child_name", PyStr (snd source));
            ("child_type", PyStr (type_str child_type))])
  end.

Definition detach_dids (scope : InternalScope) (name : string) (children : list key)
    : M unit :=
  s <- get ;;
  match find (fun d => key_eqb (DataIdentifier.pk d) (scope, name) && is_collection d)
             (dids s) with
  | None => raise DataIdentifierNotFound
  | Some _ =>
      modify (fun s =>
        set_updated_dids
          (updated_dids s
           ++ [{| UpdatedDID.scope := scope; UpdatedDID.name := name;
                  UpdatedDID.rule_evaluation_action := DETACH |}]) s) ;;
      s <- get ;;
      if existsb (fun a => key_eqb (DataIdentifierAssociation.parent a) (scope, name))
                 (contents s)
      then for_each children (detach_one (scope, name))
      else raise DataIdentifierNotFound
  end.

(** ** Recursive resolution over the association graph *)

(** The concatenation of results that may each have run out of budget. *)
Fixpoint concat_results {A} (l : list (option (list A))) : option (list A) :=
  match l with
  | [] => Some []
  | None :: _ => None
  | Some x :: l' =>
      match concat_results l' with
      | Some r => Some (x ++ r)
      | None => None
      end
  end.

(** [list_all_parent_dids]: for every association whose child is the DID,
    the parent and then, recursively, all the parents of that parent.  The
    generator is recursive in Python; [fuel] bounds the depth of the
    recursion and [None] means the bound was reached. *)
Fixpoint all_parents (fuel : nat) (tbl : list DataIdentifierAssociation.t)
    (k : key) : option (list (key * option DIDType)) :=
  match fuel with
  | O => None
  | S fuel' =>
      concat_results
        (map (fun a =>
                option_map
                  (cons (DataIdentifierAssociation.parent a,
                         DataIdentifierAssociation.did_type a))
                  (all_parents fuel' tbl (DataIdentifierAssociation.parent a)))
             (filter (fun a => key_eqb (DataIdentifierAssociation.child a) k) tbl))
  end.

Definition list_all_parent_dids (fuel : nat) (scope : InternalScope) (name : string)
    : M (list (key * option DIDType)) :=
  fun s =>
    match all_parents fuel (contents s) (scope, name) with
    | Some l => Ok l s
    | None => OutOfFuel
    end.

(** The types a recursive listing descends through. *)
Definition dids_to_resolve (did_type : DIDType) : list DIDType :=
  match did_type with
  | DATASET => [CONTAINER]
  | _ => [CONTAINER; DATASET]
  end.

Definition type_in (o : option DIDType) (l : list DIDType) : bool :=
  existsb (type_is o) l.

(** A row of the common table expression: a child and its cached type. *)
Definition cte_row : Type := (key * option DIDType)%type.

(** The associations of one parent that the expression follows. *)
Definition resolved_children (tbl : list DataIdentifierAssociation.t)
    (resolve : list DIDType) (p : key) : list cte_row :=
  map (fun a => (DataIdentifierAssociation.child a,
                 DataIdentifierAssociation.child_type a))
      (filter (fun a => key_eqb (DataIdentifierAssociation.parent a) p
                        && type_in (DataIdentifierAssociation.did_type a) resolve)
              tbl).

(** Evaluation of the recursive expression with [UNION ALL]: the working
    table is joined with [contents] until it comes out empty, and every
    working table is part of the result.  [fuel] bounds the number of
    rounds. *)
Fixpoint cte_rounds (fuel : nat) (tbl : list DataIdentifierAssociation.t)
    (resolve : list DIDType) (working : list cte_row) : option (list cte_row) :=
  match working with
  | [] => Some []
  | _ :: _ =>
      match fuel with
      | O => None
      | S fuel' =>
          match cte_rounds fuel' tbl resolve
                  (flat_map (fun r => resolved_children tbl resolve (fst r)) working) with
          | Some rest => Some (working ++ rest)
          | None => None
          end
      end
  end.

(** [SELECT DISTINCT] on keys, keeping first occurrences. *)
Fixpoint distinct (l : list key) : list key :=
  match l with
  | [] => []
  | k :: l' => k :: filter (fun k' => negb (key_eqb k' k)) (distinct l')
  end.

(** The rows of [list_one_did_childs_stmt(scope, name, did_type)]. *)
Definition list_one_did_childs (fuel : nat) (tbl : list DataIdentifierAssociation.t)
    (k : key) (did_type : DIDType) : option (list key) :=
  match cte_rounds fuel tbl (dids_to_resolve did_type)
          (resolved_children tbl (dids_to_resolve did_type) k) with
  | Some rows =>
      Some (distinct (map fst (filter (fun r => type_is (snd r) did_type) rows)))
  | None => None
  end.

(** [func.sum] over a column: nulls are skipped, and the sum of no value
    is null. *)
Definition sql_sum (l : list (option Z)) : option Z :=
  fold_left (fun acc o =>
               match o, acc with
               | Some z, Some t => Some (t + z)
               | Some z, None => Some z
               | None, _ => acc
               end) l None.

Definition sql_count {A} (l : list A) : option Z := Some (Z.of_nat (List.length l)).

(** The join of a list of keys with [contents] on the parent. *)
Definition associations_of (ks : list key) (s : Session)
    : list DataIdentifierAssociation.t :=
  flat_map (fun k => filter (fun a => key_eqb (DataIdentifierAssociation.parent a) k)
                            (contents s)) ks.

(** The join of a list of keys with [dids]. *)
Definition dids_of (ks : list key) (s : Session) : list DataIdentifier.t :=
  flat_map (fun k => filter (fun d => key_eqb (DataIdentifier.pk d) k) (dids s)) ks.

(** [__resolve_bytes_length_events_did]; the result is
    [(bytes, length, events)]. *)
Definition resolve_bytes_length_events_did (fuel : nat) (did : DataIdentifier.t)
    (dynamic_depth : DIDType) : M (Z * Z * Z) :=
  let t := DataIdentifier.did_type did in
  let finish (row : option Z * option Z * option Z) : M (Z * Z * Z) :=
    let '(length, bytes_, events) := row in
    ret (or0 bytes_, or0 length, or0 events) in
  s <- get ;;
  if (type_is t DATASET && DIDType_eqb dynamic_depth FILE)
     || (type_is t CONTAINER
         && (DIDType_eqb dynamic_depth FILE || DIDType_eqb dynamic_depth DATASET))
  then
    if type_is t DATASET && DIDType_eqb dynamic_depth FILE then
      let rows := associations_of [DataIdentifier.pk did] s in
      finish (sql_count rows,
              sql_sum (map DataIdentifierAssociation.bytes rows),
              sql_sum (map DataIdentifierAssociation.events rows))
    else
      match list_one_did_childs fuel (contents s) (DataIdentifier.pk did) DATASET with
      | None => fun _ => OutOfFuel
      | Some child_did_stmt =>
          if type_is t CONTAINER && DIDType_eqb dynamic_depth DATASET then
            let rows := dids_of child_did_stmt s in
            finish (sql_sum (map DataIdentifier.length rows),
                    sql_sum (map DataIdentifier.bytes rows),
                    sql_sum (map DataIdentifier.events rows))
          else
            let rows := associations_of child_did_stmt s in
            finish (sql_count rows,
                    sql_sum (map DataIdentifierAssociation.bytes rows),
                    sql_sum (map DataIdentifierAssociation.events rows))
      end
  else if type_is t FILE then
    ret (or0 (DataIdentifier.bytes did), 1, or0 (DataIdentifier.events did))
  else
    ret (or0 (DataIdentifier.bytes did), or0 (DataIdentifier.length did),
         or0 (DataIdentifier.events did)).

(** [__get_did]. *)
Definition get_did_row (scope : InternalScope) (name : string) : M DataIdentifier.t :=
  s <- get ;;
  match find_did (scope, name) s with
  | Some d => ret d
  | None => raise DataIdentifierNotFound
  end.

(** ** Status *)

(** [set_new_dids]. *)
Definition set_new_dids (l : list key) (new_flag : option bool) : M bool :=
  s <- get ;;
  let new_flag :=
    if String.eqb (dialect s) "postgresql" then Some (is_true new_flag) else new_flag in
  for_each l (fun k =>
    s <- get ;;
    update_did k (DataIdentifier.set_is_new new_flag) ;;
    if existsb (fun d => key_eqb (DataIdentifier.pk d) k) (dids s)
    then ret tt else raise DataIdentifierNotFound) ;;
  ret true.

(** Truth value of a Python scalar. *)
Definition py_truthy (v : pyval) : bool :=
  match v with
  | PyNone => false
  | PyBool b => b
  | PyInt z => negb (z =? 0)
  | PyStr s => negb (String.eqb s "")
  end.

(** The dictionary [values] of [set_status]: a field is [None] while its
    key is absent. *)
Record StatusValues : Type := {
  v_is_open : option bool;
  v_closed_at : option datetime;
  v_bytes : option Z;
  v_length : option Z;
  v_events : option Z
}.

Definition no_values : StatusValues :=
  {| v_is_open := None; v_closed_at := None; v_bytes := None;
     v_length := None; v_events := None |}.

Definition assign {A} (v : option A) (set : option A -> DataIdentifier.t -> DataIdentifier.t)
    (d : DataIdentifier.t) : DataIdentifier.t :=
  match v with Some _ => set v d | None => d end.

Definition apply_values (v : StatusValues) (d : DataIdentifier.t) : DataIdentifier.t :=
  assign (v_events v) DataIdentifier.set_events
    (assign (v_length v) DataIdentifier.set_length
       (assign (v_bytes v) DataIdentifier.set_bytes
          (assign (v_closed_at v) DataIdentifier.set_closed_at
             (assign (v_is_open v) DataIdentifier.set_is_open d)))).

(** The loop of [set_status] over its keyword arguments: it extends the
    [WHERE] clause of the update and fills [values]. *)
Fixpoint set_status_kwargs (fuel : nat) (scope : InternalScope) (name : string)
    (kwargs : pydict) (where_ : DataIdentifier.t -> bool) (values : StatusValues)
    : M ((DataIdentifier.t -> bool) * StatusValues) :=
  match kwargs with
  | [] => ret (where_, values)
  | (k, v) :: kwargs' =>
      if negb (String.eqb k "open") then raise UnsupportedStatus else
      if negb (py_truthy v) then
        let where1 d :=
          where_ d && is_true (DataIdentifier.is_open d)
          && negb (type_is (DataIdentifier.did_type d) FILE) in
        s <- get ;;
        did <- get_did_row scope name ;;
        r <- resolve_bytes_length_events_did fuel did FILE ;;
        let '(bytes_, length, events) := r in
        let values1 :=
          {| v_is_open := Some false; v_closed_at := Some (utcnow s);
             v_bytes := Some bytes_; v_length := Some length;
             v_events := Some events |} in
        modify (fun s =>
          set_dataset_locks
            (map (fun l =>
                    if key_eqb (DatasetLock.scope l, DatasetLock.name l) (scope, name)
                    then {| DatasetLock.scope := DatasetLock.scope l;
                            DatasetLock.name := DatasetLock.name l;
                            DatasetLock.rule_id := DatasetLock.rule_id l;
                            DatasetLock.rse_id := DatasetLock.rse_id l;
                            DatasetLock.length := Some length;
                            DatasetLock.bytes := Some bytes_ |}
                    else l)
                 (dataset_locks s)) s) ;;
        add_message "CLOSE"
          (with_vo (DEFAULT_VO ext) (vo scope)
             [("scope", PyStr (external scope)); ("name", PyStr name);
              ("bytes", PyInt bytes_); ("length", PyInt length);
              ("events", PyInt events)]) ;;
        (if reevaluate_dids_at_close (config s)
         then set_new_dids [(scope, name)] (Some true) ;; ret tt
         else ret tt) ;;
        set_status_kwargs fuel scope name kwargs' where1 values1
      else
        let where1 d :=
          where_ d && is_true (option_map negb (DataIdentifier.is_open d))
          && negb (type_is (DataIdentifier.did_type d) FILE) in
        let values1 :=
          {| v_is_open := Some true; v_closed_at := v_closed_at values;
             v_bytes := v_bytes values; v_length := v_length values;
             v_events := v_events values |} in
        add_message "OPEN"
          (with_vo (DEFAULT_VO ext) (vo scope)
             [("scope", PyStr (external scope)); ("name", PyStr name)]) ;;
        set_status_kwargs fuel scope name kwargs' where1 values1
  end.

Definition set_status (fuel : nat) (scope : InternalScope) (name : string)
    (kwargs : pydict) : M unit :=
  r <- set_status_kwargs fuel scope name kwargs
         (fun d => key_eqb (DataIdentifier.pk d) (scope, name) && is_collection d)
         no_values ;;
  let '(where_, values) := r in
  s <- get ;;
  update_dids where_ (apply_values values) ;;
  if negb (existsb where_ (dids s)) then
    match find_did (scope, name) s with
    | None => raise DataIdentifierNotFound
    | Some _ => raise UnsupportedOperation
    end
  else
    match v_is_open values with
    | None => raise KeyError
    | Some true => ret tt
    | Some false =>
        s <- get ;;
        for_each
          (filter (fun r => key_eqb (ReplicationRule.scope r, ReplicationRule.name r)
                                    (scope, name))
                  (rules s))
          (generate_rule_notifications ext)
    end.

(** ** Attach *)

(** The dictionary [children] of one attachment, keyed by scope and name:
    a repeated key keeps its first position and takes the last value. *)
Fixpoint children_set (c : ChildDict) (d : list ChildDict) : list ChildDict :=
  match d with
  | [] => [c]
  | c' :: d' => if key_eqb (c_key c) (c_key c') then c :: d' else c' :: children_set c d'
  end.

Definition children_of (l : list ChildDict) : list ChildDict :=
  fold_left (fun d c => children_set c d) l [].

(** A DID row with nothing but its key. *)
Definition blank_domain : DomainColumns :=
  {| project := None; datatype := None; run_number := None; stream_name := None;
     prod_step := None; version := None; campaign := None; task_id := None;
     panda_id := None; lumiblocknr := None; provenance := None;
     phys_group := None; transient := None |}.

Definition to_int (v : pyval) : option Z :=
  match v with PyInt z => Some z | _ => None end.

Definition to_string (v : pyval) : option string :=
  match v with PyStr x => Some x | _ => None end.

(** The row inserted for a new constituent from the dictionary [new_did];
    of the keys of the caller the model keeps the file attributes. *)
Definition new_constituent_did (file : ChildDict) (account : InternalAccount)
    (now : option datetime) : DataIdentifier.t :=
  let new_did :=
    match c_meta file with
    | Some meta => meta ++ c_attrs file
    | None => c_attrs file
    end in
  {| DataIdentifier.scope := c_scope file;
     DataIdentifier.name := c_name file;
     DataIdentifier.account := Some account;
     DataIdentifier.did_type := Some FILE;
     DataIdentifier.is_open := None;
     DataIdentifier.monotonic := None;
     DataIdentifier.hidden := None;
     DataIdentifier.obsolete := None;
     DataIdentifier.complete := None;
     DataIdentifier.is_new := None;
     DataIdentifier.availability := None;
     DataIdentifier.suppressed := None;
     DataIdentifier.bytes := to_int (dict_get_none "bytes" new_did);
     DataIdentifier.length := None;
     DataIdentifier.md5 := to_string (dict_get_none "md5" new_did);
     DataIdentifier.adler32 := to_string (dict_get_none "adler32" new_did);
     DataIdentifier.expired_at := None;
     DataIdentifier.purge_replicas := None;
     DataIdentifier.deleted_at := None;
     DataIdentifier.events := to_int (dict_get_none "events" new_did);
     DataIdentifier.guid := to_string (dict_get_none "guid" new_did);
     DataIdentifier.domain := blank_domain;
     DataIdentifier.accessed_at := None;
     DataIdentifier.closed_at := None;
     DataIdentifier.eol_at := None;
     DataIdentifier.is_archive := None;
     DataIdentifier.constituent := Some true;
     DataIdentifier.access_cnt := None;
     DataIdentifier.created_at := now;
     DataIdentifier.updated_at := now |}.

Definition find_constituent (p c : key) (s : Session) : option ConstituentAssociation.t :=
  find (fun a => key_eqb (ConstituentAssociation.scope a, ConstituentAssociation.name a) p
                 && key_eqb (ConstituentAssociation.child_scope a,
                             ConstituentAssociation.child_name a) c)
       (archive_contents s).

(** The accumulators of the loop of [__add_files_to_archive]. *)
Record ArchiveAcc : Type := {
  dids_to_add : list DataIdentifier.t;
  must_set_constituent : bool;
  archive_contents_to_add : list ConstituentAssociation.t
}.

Definition archive_row (parent_did : DataIdentifier.t) (account : InternalAccount)
    (ignore_duplicate : bool) (s : Session) (acc : ArchiveAcc) (file : ChildDict)
    : M ArchiveAcc :=
  let k := c_key file in
  if ignore_duplicate
     && match find_constituent (DataIdentifier.pk parent_did) k s with
        | Some _ => true | None => false end
  then ret acc
  else if existsb (fun a => key_eqb (ConstituentAssociation.child_scope a,
                                     ConstituentAssociation.child_name a) k)
                  (archive_contents_to_add acc)
  then ret acc
  else
    match find_did k s with
    | None =>
        match dict_get "bytes" (c_attrs file) with
        | None => raise KeyError
        | Some b =>
            ret {| dids_to_add :=
                     dids_to_add acc
                     ++ [new_constituent_did file account (model_timestamp ext (utcnow s))];
                   must_set_constituent := must_set_constituent acc;
                   archive_contents_to_add :=
                     archive_contents_to_add acc
                     ++ [{| ConstituentAssociation.scope := DataIdentifier.scope parent_did;
                            ConstituentAssociation.name := DataIdentifier.name parent_did;
                            ConstituentAssociation.child_scope := c_scope file;
                            ConstituentAssociation.child_name := c_name file;
                            ConstituentAssociation.bytes := b;
                            ConstituentAssociation.adler32 := dict_get_none "adler32" (c_attrs file);
                            ConstituentAssociation.md5 := dict_get_none "md5" (c_attrs file);
                            ConstituentAssociation.guid := dict_get_none "guid" (c_attrs file);
                            ConstituentAssociation.length := dict_get_none "events" (c_attrs file) |}] |}
        end
    | Some row =>
        if negb (type_is (DataIdentifier.did_type row) FILE)
        then raise UnsupportedOperation
        else
          ret {| dids_to_add := dids_to_add acc;
                 must_set_constituent :=
                   must_set_constituent acc || negb (is_true (DataIdentifier.constituent row));
                 archive_contents_to_add :=
                   archive_contents_to_add acc
                   ++ [{| ConstituentAssociation.scope := DataIdentifier.scope parent_did;
                          ConstituentAssociation.name := DataIdentifier.name parent_did;
                          ConstituentAssociation.child_scope := fst k;
                          ConstituentAssociation.child_name := snd k;
                          ConstituentAssociation.bytes := py_of_int (DataIdentifier.bytes row);
                          ConstituentAssociation.adler32 := py_of_str (DataIdentifier.adler32 row);
                          ConstituentAssociation.md5 := py_of_str (DataIdentifier.md5 row);
                          ConstituentAssociation.guid := py_of_str (DataIdentifier.guid row);
                          ConstituentAssociation.length := py_of_int (DataIdentifier.events row) |}] |}
    end.

(** A loop that threads an accumulator through a body that can raise. *)
Fixpoint fold_rows {A B} (body : B -> A -> M B) (l : list A) (acc : B) : M B :=
  match l with
  | [] => ret acc
  | x :: l' => acc' <- body acc x ;; fold_rows body l' acc'
  end.

Definition add_files_to_archive (parent_did : DataIdentifier.t)
    (files : list ChildDict) (account : InternalAccount) (ignore_duplicate : bool)
    : M unit :=
  s <- get ;;
  acc <- fold_rows (archive_row parent_did account ignore_duplicate s) files
           {| dids_to_add := []; must_set_constituent := false;
              archive_contents_to_add := [] |} ;;
  modify (fun s => set_dids (dids s ++ dids_to_add acc) s) ;;
  (if existsb (fun a =>
        match find_constituent
                (ConstituentAssociation.scope a, ConstituentAssociation.name a)
                (ConstituentAssociation.child_scope a, ConstituentAssociation.child_name a)
                s with
        | Some _ => true | None => false end)
        (archive_contents_to_add acc)
   then raise RucioException
   else modify (fun s =>
          set_archive_contents (archive_contents s ++ archive_contents_to_add acc) s)) ;;
  when (must_set_constituent acc)
    (update_dids (fun d => key_in (DataIdentifier.pk d) (map c_key files)
                           && negb (is_true (DataIdentifier.constituent d)))
                 (DataIdentifier.set_constituent (Some true))) ;;
  when (negb (is_true (DataIdentifier.is_archive parent_did)))
    (update_did (DataIdentifier.pk parent_did) (DataIdentifier.set_is_archive (Some true)) ;;
     s <- get ;;
     update_dids
       (fun d => match find_association (DataIdentifier.pk d)
                         (DataIdentifier.pk parent_did) s with
                 | Some _ => negb (is_true (DataIdentifier.is_archive d))
                 | None => false
                 end)
       (DataIdentifier.set_is_archive (Some true))).

(** The three consistency checks of a file against its stored row. *)
Definition metadata_mismatch (file : ChildDict) (row : DataIdentifier.t) : bool :=
  existsb (fun kv : string * pyval =>
             match dict_get (fst kv) (c_attrs file) with
             | Some v => negb (String.eqb (py_str v) (py_str (snd kv)))
             | None => false
             end)
          [("bytes", py_of_int (DataIdentifier.bytes row));
           ("adler32", py_of_str (DataIdentifier.adler32 row));
           ("md5", py_of_str (DataIdentifier.md5 row))].

(** The association staged for a file of a dataset. *)
Definition file_association (parent_did row : DataIdentifier.t)
    (now : option datetime) : DataIdentifierAssociation.t :=
  {| DataIdentifierAssociation.scope := DataIdentifier.scope parent_did;
     DataIdentifierAssociation.name := DataIdentifier.name parent_did;
     DataIdentifierAssociation.child_scope := DataIdentifier.scope row;
     DataIdentifierAssociation.child_name := DataIdentifier.name row;
     DataIdentifierAssociation.did_type := Some DATASET;
     DataIdentifierAssociation.child_type := Some FILE;
     DataIdentifierAssociation.bytes := DataIdentifier.bytes row;
     DataIdentifierAssociation.adler32 := DataIdentifier.adler32 row;
     DataIdentifierAssociation.md5 := DataIdentifier.md5 row;
     DataIdentifierAssociation.guid := DataIdentifier.guid row;
     DataIdentifierAssociation.events := DataIdentifier.events row;
     DataIdentifierAssociation.rule_evaluation := Some true;
     DataIdentifierAssociation.created_at := now;
     DataIdentifierAssociation.updated_at := now |}.

Definition has_association (p c : key) (s : Session) : bool :=
  match find_association p c s with Some _ => true | None => false end.

(** What the loop of [__add_files_to_dataset] carries: the staged
    associations and the attribute [is_archive] of the parent object. *)
Record DatasetAcc : Type := {
  files_to_add : list DataIdentifierAssociation.t;
  parent_is_archive : option bool
}.

(** The body of the loop of [__add_files_to_dataset] for one joined row;
    [s0] is the session the statement was executed in. *)
Definition dataset_row (parent_did : DataIdentifier.t) (ignore_duplicate : bool)
    (s0 : Session) (acc : DatasetAcc) (file : ChildDict) : M DatasetAcc :=
  let parent := DataIdentifier.pk parent_did in
  match find_did (c_key file) s0 with
  | None => raise DataIdentifierNotFound
  | Some row =>
      if match DataIdentifier.availability row with Some LOST => true | _ => false end
      then raise UnsupportedOperation
      else if negb (type_is (DataIdentifier.did_type row) FILE)
      then raise UnsupportedOperation
      else if metadata_mismatch file row
      then raise FileConsistencyMismatch
      else if ignore_duplicate && has_association parent (c_key file) s0
      then ret acc
      else if existsb (fun a => key_eqb (DataIdentifierAssociation.child a) (c_key file))
                      (files_to_add acc)
      then ret acc
      else
        s <- get ;;
        let mark := is_true (DataIdentifier.is_archive row)
                    && negb (is_true (parent_is_archive acc)) in
        when mark (update_did parent (DataIdentifier.set_is_archive (Some true))) ;;
        ret {| files_to_add :=
                 files_to_add acc
                 ++ [file_association parent_did row (model_timestamp ext (utcnow s))];
               parent_is_archive :=
                 if mark then Some true else parent_is_archive acc |}
  end.

(** [INSERT] into [contents]; a row whose primary key is taken violates
    [CONTENTS_PK], which the caller reports as [dup]. *)
Definition insert_contents (dup : exn) (rows : list DataIdentifierAssociation.t)
    : M unit :=
  s <- get ;;
  if existsb (fun a => has_association (DataIdentifierAssociation.parent a)
                                       (DataIdentifierAssociation.child a) s)
             rows
  then raise dup
  else modify (fun s => set_contents (contents s ++ rows) s).

(** The first step of [__add_files_to_dataset]: with an [rse_id], the
    replicas of the files are registered by the replica engine. *)
Definition register_replicas (parent_did : DataIdentifier.t)
    (files : list ChildDict) (account : InternalAccount) (rse_id : option string)
    : M unit :=
  let dataset_meta :=
    validate_name ext (DataIdentifier.scope parent_did) (DataIdentifier.name parent_did) in
  match rse_id with
  | Some r => when (negb (String.eqb r "")) (add_replicas ext r files dataset_meta account)
  | None => ret tt
  end.

Definition add_files_to_dataset (parent_did : DataIdentifier.t)
    (files : list ChildDict) (account : InternalAccount) (rse_id : option string)
    (ignore_duplicate : bool) : M (list DataIdentifierAssociation.t) :=
  register_replicas parent_did files account rse_id ;;
  s0 <- get ;;
  acc <- fold_rows (dataset_row parent_did ignore_duplicate s0) files
           {| files_to_add := [];
              parent_is_archive := DataIdentifier.is_archive parent_did |} ;;
  insert_contents FileAlreadyExists (files_to_add acc) ;;
  ret (files_to_add acc).

(** The accumulators of the loop of [__add_collections_to_container]. *)
Record ContainerAcc : Type := {
  container_parents : option (list key);
  child_type : option DIDType;
  ignore_duplicate_existing_attachments : list key
}.

Definition container_row (fuel : nat) (parent : key) (ignore_duplicate : bool)
    (s0 : Session) (acc : ContainerAcc) (c : ChildDict) : M ContainerAcc :=
  match find_did (c_key c) s0 with
  | None => raise DataIdentifierNotFound
  | Some row =>
      if type_is (DataIdentifier.did_type row) FILE
      then raise UnsupportedOperation
      else
        let child_type1 :=
          match child_type acc with
          | None => DataIdentifier.did_type row
          | Some t => Some t
          end in
        if negb match child_type1, DataIdentifier.did_type row with
                | Some a, Some b => DIDType_eqb a b
                | None, None => true
                | _, _ => false
                end
        then raise UnsupportedOperation
        else
          parents <-
            (if type_is child_type1 CONTAINER then
               match container_parents acc with
               | Some l => ret (Some l)
               | None =>
                   l <- list_all_parent_dids fuel (fst parent) (snd parent) ;;
                   ret (Some (map fst l))
               end
             else ret (container_parents acc)) ;;
          if type_is child_type1 CONTAINER
             && match parents with Some l => key_in (c_key c) l | None => false end
          then raise UnsupportedOperation
          else
            ret {| container_parents := parents;
                   child_type := child_type1;
                   ignore_duplicate_existing_attachments :=
                     if ignore_duplicate && has_association parent (c_key c) s0
                     then ignore_duplicate_existing_attachments acc ++ [c_key c]
                     else ignore_duplicate_existing_attachments acc |}
  end.

(** The association saved for a collection of a container. *)
Definition collection_association (parent : key) (c : ChildDict)
    (child_type : option DIDType) (now : option datetime)
    : DataIdentifierAssociation.t :=
  {| DataIdentifierAssociation.scope := fst parent;
     DataIdentifierAssociation.name := snd parent;
     DataIdentifierAssociation.child_scope := c_scope c;
     DataIdentifierAssociation.child_name := c_name c;
     DataIdentifierAssociation.did_type := Some CONTAINER;
     DataIdentifierAssociation.child_type := child_type;
     DataIdentifierAssociation.bytes := None;
     DataIdentifierAssociation.adler32 := None;
     DataIdentifierAssociation.md5 := None;
     DataIdentifierAssociation.guid := None;
     DataIdentifierAssociation.events := None;
     DataIdentifierAssociation.rule_evaluation := Some true;
     DataIdentifierAssociation.created_at := now;
     DataIdentifierAssociation.updated_at := now |}.

Definition add_collections_to_container (fuel : nat) (parent_did : DataIdentifier.t)
    (collections : list ChildDict) (account : InternalAccount)
    (ignore_duplicate : bool) : M unit :=
  let parent := DataIdentifier.pk parent_did in
  if key_in parent (map c_key collections) then raise UnsupportedOperation else
  s0 <- get ;;
  acc <- fold_rows (container_row fuel parent ignore_duplicate s0) collections
           {| container_parents := None; child_type := None;
              ignore_duplicate_existing_attachments := [] |} ;;
  let accepted :=
    filter (fun c => negb (ignore_duplicate
                           && key_in (c_key c) (ignore_duplicate_existing_attachments acc)))
           collections in
  insert_contents DuplicateContent
    (map (fun c => collection_association parent c (child_type acc)
                     (model_timestamp ext (utcnow s0)))
         accepted) ;;
  for_each accepted (fun c =>
    add_message "REGISTER_CNT"
      (with_vo (DEFAULT_VO ext) (vo account)
         [("account", PyStr (external account));
          ("scope", PyStr (external (fst parent)));
          ("name", PyStr (snd parent));
          ("childscope", PyStr (external (c_scope c)));
          ("childname", PyStr (c_name c));
          ("childtype", PyStr (chld_type_name (child_type acc)))])).

(** Removal of duplicated markers. *)
Fixpoint unique_markers (l : list UpdatedDID.t) : list UpdatedDID.t :=
  match l with
  | [] => []
  | u :: l' => u :: filter (fun u' => negb (UpdatedDID.eqb u' u)) (unique_markers l')
  end.

(** The loop of [attach_dids_to_dids] over the attachments.  It ends with
    the markers collected, or with [None] when the function returned from
    inside the loop. *)
Fixpoint attach_loop (fuel : nat) (attachments : list Attachment)
    (account : InternalAccount) (ignore_duplicate : bool)
    (parent_dids : list UpdatedDID.t) : M (option (list UpdatedDID.t)) :=
  match attachments with
  | [] => ret (Some parent_dids)
  | attachment :: rest =>
      let children := children_of (a_dids attachment) in
      s <- get ;;
      match find_did (a_scope attachment, a_name attachment) s with
      | None => raise DataIdentifierNotFound
      | Some parent_did =>
          if type_is (DataIdentifier.did_type parent_did) FILE then
            if is_archive ext (a_name attachment) then
              add_files_to_archive parent_did children account ignore_duplicate ;;
              ret None
            else raise UnsupportedOperation
          else if negb (is_true (DataIdentifier.is_open parent_did)) then
            raise UnsupportedOperation
          else
            update_parent <-
              (if type_is (DataIdentifier.did_type parent_did) DATASET then
                 cont <- add_files_to_dataset parent_did children account
                           (a_rse_id attachment) ignore_duplicate ;;
                 ret (0 <? Z.of_nat (List.length cont))
               else if type_is (DataIdentifier.did_type parent_did) CONTAINER then
                 add_collections_to_container fuel parent_did children account
                   ignore_duplicate ;;
                 ret true
               else ret false) ;;
            attach_loop fuel rest account ignore_duplicate
              (if update_parent
               then parent_dids
                    ++ [{| UpdatedDID.scope := DataIdentifier.scope parent_did;
                           UpdatedDID.name := DataIdentifier.name parent_did;
                           UpdatedDID.rule_evaluation_action := ATTACH |}]
               else parent_dids)
      end
  end.

Definition attach_dids_to_dids (fuel : nat) (attachments : list Attachment)
    (account : InternalAccount) (ignore_duplicate : bool) : M unit :=
  r <- attach_loop fuel attachments account ignore_duplicate [] ;;
  match r with
  | None => ret tt
  | Some parent_dids =>
      let parent_dids := unique_markers parent_dids in
      match parent_dids with
      | [] => ret tt
      | _ :: _ => modify (fun s => set_updated_dids (updated_dids s ++ parent_dids) s)
      end
  end.

Definition attach_dids (fuel : nat) (scope : InternalScope) (name : string)
    (l : list ChildDict) (account : InternalAccount) (ignore_duplicate : bool)
    (rse_id : option string) : M unit :=
  attach_dids_to_dids fuel
    [{| a_scope := scope; a_name := name; a_dids := l; a_rse_id := rse_id |}]
    account ignore_duplicate.

(** ** History and archive of deleted rows *)

(** [insert_content_history]: the associations selected by [filter_] are
    copied to the history; without a creation date of the DID, the one of
    the association is used. *)
Definition insert_content_history (filter_ : DataIdentifierAssociation.t -> bool)
    (did_created_at : option datetime) : M unit :=
  modify (fun s =>
    set_contents_history
      (contents_history s
       ++ map (fun cont =>
                 new_detach cont
                   (match did_created_at with
                    | Some t => Some t
                    | None => DataIdentifierAssociation.created_at cont
                    end)
                   (utcnow s))
              (filter filter_ (contents s))) s).

(** The row of [deleted_dids] built from a live row: the columns are
    copied one by one, [deleted_at] is the time of the call, [access_cnt]
    is not passed on, and the timestamps of the row are those of the
    insertion. *)
Definition deleted_row (did : DataIdentifier.t) (now : datetime)
    : DataIdentifier.t :=
  {| DataIdentifier.scope := DataIdentifier.scope did;
     DataIdentifier.name := DataIdentifier.name did;
     DataIdentifier.account := DataIdentifier.account did;
     DataIdentifier.did_type := DataIdentifier.did_type did;
     DataIdentifier.is_open := DataIdentifier.is_open did;
     DataIdentifier.monotonic := DataIdentifier.monotonic did;
     DataIdentifier.hidden := DataIdentifier.hidden did;
     DataIdentifier.obsolete := DataIdentifier.obsolete did;
     DataIdentifier.complete := DataIdentifier.complete did;
     DataIdentifier.is_new := DataIdentifier.is_new did;
     DataIdentifier.availability := DataIdentifier.availability did;
     DataIdentifier.suppressed := DataIdentifier.suppressed did;
     DataIdentifier.bytes := DataIdentifier.bytes did;
     DataIdentifier.length := DataIdentifier.length did;
     DataIdentifier.md5 := DataIdentifier.md5 did;
     DataIdentifier.adler32 := DataIdentifier.adler32 did;
     DataIdentifier.expired_at := DataIdentifier.expired_at did;
     DataIdentifier.purge_replicas := DataIdentifier.purge_replicas did;
     DataIdentifier.deleted_at := Some now;
     DataIdentifier.events := DataIdentifier.events did;
     DataIdentifier.guid := DataIdentifier.guid did;
     DataIdentifier.domain :=
       {| project := project (DataIdentifier.domain did);
          datatype := datatype (DataIdentifier.domain did);
          run_number := run_number (DataIdentifier.domain did);
          stream_name := stream_name (DataIdentifier.domain did);
          prod_step := prod_step (DataIdentifier.domain did);
          version := version (DataIdentifier.domain did);
          campaign := campaign (DataIdentifier.domain did);
          task_id := task_id (DataIdentifier.domain did);
          panda_id := panda_id (DataIdentifier.domain did);
          lumiblocknr := lumiblocknr (DataIdentifier.domain did);
          provenance := provenance (DataIdentifier.domain did);
          phys_group := phys_group (DataIdentifier.domain did);
          transient := transient (DataIdentifier.domain did) |};
     DataIdentifier.accessed_at := DataIdentifier.accessed_at did;
     DataIdentifier.closed_at := DataIdentifier.closed_at did;
     DataIdentifier.eol_at := DataIdentifier.eol_at did;
     DataIdentifier.is_archive := DataIdentifier.is_archive did;
     DataIdentifier.constituent := DataIdentifier.constituent did;
     DataIdentifier.access_cnt := None;
     DataIdentifier.created_at := model_timestamp ext now;
     DataIdentifier.updated_at := model_timestamp ext now |}.

Definition find_deleted (k : key) (s : Session) : option DataIdentifier.t :=
  find (fun d => key_eqb (DataIdentifier.pk d) k) (deleted_dids s).

(** [insert_deleted_dids]; a key already archived violates
    [DELETED_DIDS_PK]. *)
Definition insert_deleted_dids (filter_ : DataIdentifier.t -> bool) : M unit :=
  s <- get ;;
  let rows := map (fun did => deleted_row did (utcnow s)) (filter filter_ (dids s)) in
  if existsb (fun d => match find_deleted (DataIdentifier.pk d) s with
                       | Some _ => true | None => false end) rows
  then raise IntegrityError
  else modify (fun s => set_deleted_dids (deleted_dids s ++ rows) s).

(** ** Delete *)

(** One entry of the list given to [delete_dids]. *)
Record DeleteDict : Type := {
  d_scope : InternalScope;
  d_name : string;
  d_did_type : DIDType;
  d_purge_replicas : option bool;
  d_created_at : option datetime
}.

Definition d_key (d : DeleteDict) : key := (d_scope d, d_name d).

(** A dictionary keyed by scope and name, reduced to its keys. *)
Definition keys_add (k : key) (l : list key) : list key :=
  if key_in k l then l else l ++ [k].

(** The first loop of [delete_dids], for one entry. *)
Definition delete_prepare (account : InternalAccount) (archive_content : bool)
    (did : DeleteDict) : M unit :=
  when (DIDType_eqb (d_did_type did) DATASET
        && negb (String.eqb (external (d_scope did)) "archive"))
    (try_except (archive_localgroupdisk_datasets ext (d_scope did) (d_name did))
       UndefinedPolicy (ret tt)) ;;
  when archive_content
    (insert_content_history
       (fun a => key_eqb (DataIdentifierAssociation.parent a) (d_key did))
       (d_created_at did)) ;;
  add_message "ERASE"
    (with_vo (DEFAULT_VO ext) (vo (d_scope did))
       [("account", PyStr (external account));
        ("scope", PyStr (external (d_scope did)));
        ("name", PyStr (d_name did))]).

Definition lock_count (r : ReplicationRule.t) : Z :=
  ReplicationRule.locks_ok_cnt r + ReplicationRule.locks_replicating_cnt r
  + ReplicationRule.locks_stuck_cnt r.

(** The rules on the DIDs of the temporary table. *)
Definition rules_of (temp : list key) (s : Session) : list ReplicationRule.t :=
  flat_map (fun k => filter (fun r => key_eqb (ReplicationRule.scope r,
                                               ReplicationRule.name r) k)
                            (rules s)) temp.

(** Whether a rule is expired rather than deleted. *)
Definition expires (expire_rules : bool) (s : Session) (r : ReplicationRule.t) : bool :=
  expire_rules && (lock_count r >? expire_rules_locks_size (config s)).

(** Phase A: the rules of the DIDs; the result is [skip_deletion]. *)
Definition delete_rules (temp not_purge_replicas : list key) (expire_rules : bool)
    : M bool :=
  s <- get ;;
  fold_rows
    (fun skip_deletion r =>
       let purge_replicas :=
         negb (key_in (ReplicationRule.scope r, ReplicationRule.name r)
                      not_purge_replicas) in
       s <- get ;;
       if expires expire_rules s r then
         delete_rule ext (ReplicationRule.id r) purge_replicas true ;;
         set_metadata_plugin ext (ReplicationRule.scope r) (ReplicationRule.name r)
           "lifetime" (PyInt (3600 * 24)) ;;
         ret true
       else
         delete_rule ext (ReplicationRule.id r) purge_replicas false ;;
         ret skip_deletion)
    (rules_of temp s) false.

(** The associations whose child is in the temporary table. *)
Definition parent_associations (temp : list key) (s : Session)
    : list DataIdentifierAssociation.t :=
  flat_map (fun k => filter (fun a => key_eqb (DataIdentifierAssociation.child a) k)
                            (contents s)) temp.

Definition nonempty {A} (l : list A) : bool :=
  match l with [] => false | _ :: _ => true end.

(** Phase B: detachment from the parents; the result is
    [existing_parent_dids]. *)
Definition detach_from_parents (temp : list key) : M bool :=
  s <- get ;;
  let rows := parent_associations temp s in
  for_each rows (fun parent_did =>
    detach_dids (DataIdentifierAssociation.scope parent_did)
                (DataIdentifierAssociation.name parent_did)
                [DataIdentifierAssociation.child parent_did]) ;;
  ret (nonempty rows).

(** The update of the bad replicas of a set of files. *)
Definition mark_bad_replicas_deleted (now : datetime) (files : list key) : M unit :=
  modify (fun s =>
    set_bad_replicas
      (map (fun b =>
              match BadReplica.state b with
              | BadFilesStatus.BAD =>
                  if key_in (BadReplica.scope b, BadReplica.name b) files
                  then {| BadReplica.scope := BadReplica.scope b;
                          BadReplica.name := BadReplica.name b;
                          BadReplica.rse_id := BadReplica.rse_id b;
                          BadReplica.state := BadFilesStatus.DELETED;
                          BadReplica.updated_at := Some now |}
                  else b
              | _ => b
              end)
           (bad_replicas s)) s).

(** Phases D and E for the collections of the input. *)
Definition delete_collection_content (now : datetime) (collection_dids : list key)
    : M unit :=
  s <- get ;;
  let resolved_files :=
    distinct
      (map DataIdentifierAssociation.child
           (filter (fun a => type_is (DataIdentifierAssociation.child_type a) FILE)
                   (flat_map (fun k =>
                                filter (fun a =>
                                          key_eqb (DataIdentifierAssociation.parent a) k)
                                       (contents s))
                             collection_dids))) in
  mark_bad_replicas_deleted now resolved_files ;;
  when (purge_all_replicas (config s))
    (modify (fun s =>
       set_replicas
         (map (fun r =>
                 if key_in (RSEFileAssociation.scope r, RSEFileAssociation.name r)
                           resolved_files
                    && match RSEFileAssociation.lock_cnt r with
                       | Some 0 => true | _ => false end
                    && match RSEFileAssociation.tombstone r with
                       | Some _ => true | None => false end
                 then {| RSEFileAssociation.scope := RSEFileAssociation.scope r;
                         RSEFileAssociation.name := RSEFileAssociation.name r;
                         RSEFileAssociation.rse_id := RSEFileAssociation.rse_id r;
                         RSEFileAssociation.lock_cnt := RSEFileAssociation.lock_cnt r;
                         RSEFileAssociation.tombstone := Some 0 |}
                 else r)
              (replicas s)) s)) ;;
  modify (fun s =>
    set_contents
      (filter (fun a => negb (key_in (DataIdentifierAssociation.parent a) collection_dids))
              (contents s)) s) ;;
  modify (fun s =>
    set_collection_replicas
      (filter (fun r => negb (key_in (CollectionReplica.scope r, CollectionReplica.name r)
                                     collection_dids))
              (collection_replicas s)) s).

(** Phase G for the collections of the input. *)
Definition remove_collections (archive : bool) (collection_dids : list key) : M unit :=
  modify (fun s =>
    set_dids_followed
      (filter (fun f => negb (key_in (DidFollowed.scope f, DidFollowed.name f)
                                     collection_dids))
              (dids_followed s)) s) ;;
  let dids_to_delete_filter (d : DataIdentifier.t) :=
    key_in (DataIdentifier.pk d) collection_dids
    && type_in (DataIdentifier.did_type d) [CONTAINER; DATASET] in
  when archive (insert_deleted_dids dids_to_delete_filter) ;;
  modify (fun s =>
    set_dids (filter (fun d => negb (dids_to_delete_filter d)) (dids s)) s).

(** The three dictionaries of [delete_dids], reduced to their keys, and
    the list of the DIDs whose replicas are not to be purged. *)
Definition file_dids_of (l : list DeleteDict) : list key :=
  fold_left (fun acc d => if DIDType_eqb (d_did_type d) FILE
                          then keys_add (d_key d) acc else acc) l [].

Definition collection_dids_of (l : list DeleteDict) : list key :=
  fold_left (fun acc d => if DIDType_eqb (d_did_type d) FILE
                          then acc else keys_add (d_key d) acc) l [].

Definition all_dids_of (l : list DeleteDict) : list key :=
  fold_left (fun acc d => keys_add (d_key d) acc) l [].

Definition not_purge_replicas_of (l : list DeleteDict) : list key :=
  map d_key (filter (fun d => match d_purge_replicas d with
                              | Some false => true | _ => false end) l).

(** What the temporary table first holds. *)
Definition data_in_temp_table_of (l : list DeleteDict) : list key :=
  match file_dids_of l, collection_dids_of l with
  | [], _ => collection_dids_of l
  | _, [] => file_dids_of l
  | _, _ => all_dids_of l
  end.

Definition delete_dids (l : list DeleteDict) (account : InternalAccount)
    (expire_rules : bool) : M unit :=
  if negb (nonempty l) then ret tt else
  s0 <- get ;;
  let archive_dids_ := archive_dids (config s0) in
  let archive_content_ := archive_content (config s0) in
  let file_dids := file_dids_of l in
  let collection_dids := collection_dids_of l in
  for_each l (delete_prepare account archive_content_) ;;
  let data_in_temp_table := data_in_temp_table_of l in
  skip_deletion <- delete_rules data_in_temp_table (not_purge_replicas_of l)
                     expire_rules ;;
  if skip_deletion then ret tt else
  existing_parent_dids <- detach_from_parents data_in_temp_table ;;
  s <- get ;;
  when (negb (String.eqb (dialect s) "oracle" && (oracle_version s <? 12)))
    (modify (fun s =>
       set_did_meta
         (filter (fun m => negb (key_in (DidMeta.scope m, DidMeta.name m)
                                        data_in_temp_table))
                 (did_meta s)) s)) ;;
  let now := utcnow s in
  when (nonempty file_dids) (mark_bad_replicas_deleted now file_dids) ;;
  when (nonempty collection_dids) (delete_collection_content now collection_dids) ;;
  if existing_parent_dids then ret tt else
  when (nonempty collection_dids) (remove_collections archive_dids_ collection_dids) ;;
  when (nonempty file_dids)
    (update_dids (fun d => key_in (DataIdentifier.pk d) file_dids
                           && type_is (DataIdentifier.did_type d) FILE)
                 (DataIdentifier.set_expired_at None)).

(** ** Resurrect *)



(** ** Listings *)

(** A row of [list_content]. *)
Record ContentRow : Type := {
  lc_scope : InternalScope;
  lc_name : string;
  lc_type : option DIDType;
  lc_bytes : option Z;
  lc_adler32 : option string;
  lc_md5 : option string
}.

Definition content_row (a : DataIdentifierAssociation.t) : ContentRow :=
  {| lc_scope := DataIdentifierAssociation.child_scope a;
     lc_name := DataIdentifierAssociation.child_name a;
     lc_type := DataIdentifierAssociation.child_type a;
     lc_bytes := DataIdentifierAssociation.bytes a;
     lc_adler32 := DataIdentifierAssociation.adler32 a;
     lc_md5 := DataIdentifierAssociation.md5 a |}.

(** [list_content]: the associations of a parent; when there is none,
    [__get_did] tells a DID without content from a DID that does not
    exist. *)
Definition list_content (scope : InternalScope) (name : string)
    : M (list ContentRow) :=
  s <- get ;;
  let rows := filter (fun a => key_eqb (DataIdentifierAssociation.parent a) (scope, name))
                     (contents s) in
  match rows with
  | [] => get_did_row scope name ;; ret []
  | _ :: _ => ret (map content_row rows)
  end.




(** [list_child_datasets]: the statement of [list_one_did_childs_stmt] for
    datasets, executed. *)
Definition list_child_datasets (fuel : nat) (scope : InternalScope) (name : string)
    : M (list key) :=
  fun s =>
    match list_one_did_childs fuel (contents s) (scope, name) DATASET with
    | Some l => Ok l s
    | None => OutOfFuel
    end.

(** [str.upper] on the letters of ASCII, which are those of a GUID. *)
Definition upper_ascii (c : Ascii.ascii) : Ascii.ascii :=
  let n := Ascii.nat_of_ascii c in
  if ((97 <=? n) && (n <=? 122))%nat then Ascii.ascii_of_nat (n - 32) else c.

Fixpoint upper (x : string) : string :=
  match x with
  | EmptyString => EmptyString
  | String c x' => String (upper_ascii c) (upper x')
  end.

(** [guid and guid.upper()]. *)
Definition guid_upper (g : option string) : option string :=
  match g with
  | Some x => if String.eqb x "" then Some x else Some (upper x)
  | None => None
  end.

(** A row of [list_files]; the key [lumiblocknr] is there in the long
    format only. *)
Record FileRow : Type := {
  f_scope : InternalScope;
  f_name : string;
  f_bytes : option Z;
  f_adler32 : option string;
  f_guid : option string;
  f_events : option Z;
  f_lumiblocknr : option (option Z)
}.

(** The rows of one dataset: its associations, joined in the long format
    with the rows of the children for [lumiblocknr]. *)
Definition dataset_files (s : Session) (long : bool) (k : key) : list FileRow :=
  let row (a : DataIdentifierAssociation.t) (l : option (option Z)) :=
    {| f_scope := DataIdentifierAssociation.child_scope a;
       f_name := DataIdentifierAssociation.child_name a;
       f_bytes := DataIdentifierAssociation.bytes a;
       f_adler32 := DataIdentifierAssociation.adler32 a;
       f_guid := guid_upper (DataIdentifierAssociation.guid a);
       f_events := DataIdentifierAssociation.events a;
       f_lumiblocknr := l |} in
  let rows := filter (fun a => key_eqb (DataIdentifierAssociation.parent a) k)
                     (contents s) in
  if long then
    flat_map (fun a =>
                map (fun d => row a (Some (lumiblocknr (DataIdentifier.domain d))))
                    (filter (fun d => key_eqb (DataIdentifier.pk d)
                                              (DataIdentifierAssociation.child a))
                            (dids s)))
             rows
  else map (fun a => row a None) rows.

(** The loop [while dids] of [list_files]: the list is a stack whose top
    is its last element, here the head; a dataset yields its rows, another
    DID pushes its children.  [fuel] bounds the number of iterations. *)
Fixpoint files_walk (fuel : nat) (s : Session) (long : bool)
    (stack : list (key * option DIDType)) : option (list FileRow) :=
  match stack with
  | [] => Some []
  | (k, t) :: rest =>
      match fuel with
      | O => None
      | S fuel' =>
          if type_is t DATASET then
            option_map (app (dataset_files s long k)) (files_walk fuel' s long rest)
          else
            files_walk fuel' s long
              (rev (map (fun a => (DataIdentifierAssociation.child a,
                                   DataIdentifierAssociation.child_type a))
                        (filter (fun a => key_eqb (DataIdentifierAssociation.parent a) k)
                                (contents s)))
               ++ rest)
      end
  end.

(** [list_files]. *)
Definition list_files (fuel : nat) (scope : InternalScope) (name : string)
    (long : bool) : M (list FileRow) :=
  s <- get ;;
  match find_did (scope, name) s with
  | None => raise DataIdentifierNotFound
  | Some did =>
      if type_is (DataIdentifier.did_type did) FILE then
        ret [{| f_scope := DataIdentifier.scope did;
                f_name := DataIdentifier.name did;
                f_bytes := DataIdentifier.bytes did;
                f_adler32 := DataIdentifier.adler32 did;
                f_guid := guid_upper (DataIdentifier.guid did);
                f_events := DataIdentifier.events did;
                f_lumiblocknr :=
                  if long then Some (lumiblocknr (DataIdentifier.domain did))
                  else None |}]
      else
        fun s' =>
          match files_walk fuel s long [((scope, name), DataIdentifier.did_type did)] with
          | Some rows => Ok rows s'
          | None => OutOfFuel
          end
  end.

(** [bulk_list_files]: each row carries the DID it was listed for; a DID
    that does not exist is passed over. *)
Fixpoint bulk_list_files (fuel : nat) (l : list key) (long : bool)
    : M (list (key * FileRow)) :=
  match l with
  | [] => ret []
  | k :: l' =>
      rows <- try_except (list_files fuel (fst k) (snd k) long)
                DataIdentifierNotFound (ret []) ;;
      more <- bulk_list_files fuel l' long ;;
      ret (map (pair k) rows ++ more)
  end.

(** The dictionary returned by [get_did], for a file and for a
    collection. *)
Inductive DidInfo : Type :=
| FileInfo (scope : InternalScope) (name : string) (type : option DIDType)
    (account : option InternalAccount) (bytes : option Z) (length : Z)
    (md5 adler32 : option string)
| CollectionInfo (scope : InternalScope) (name : string) (type : option DIDType)
    (account : option InternalAccount) (open monotonic : option bool)
    (expired_at : option datetime) (length bytes : option Z).

(** [get_did]. *)
Definition get_did (fuel : nat) (scope : InternalScope) (name : string)
    (dynamic_depth : option DIDType) : M DidInfo :=
  did <- get_did_row scope name ;;
  bl <- match dynamic_depth with
        | Some depth =>
            r <- resolve_bytes_length_events_did fuel did depth ;;
            let '(bytes_, length, _) := r in
            ret (Some bytes_, Some length)
        | None => ret (DataIdentifier.bytes did, DataIdentifier.length did)
        end ;;
  let '(bytes_, length) := bl in
  if type_is (DataIdentifier.did_type did) FILE then
    ret (FileInfo (DataIdentifier.scope did) (DataIdentifier.name did)
           (DataIdentifier.did_type did) (DataIdentifier.account did) bytes_ 1
           (DataIdentifier.md5 did) (DataIdentifier.adler32 did))
  else
    ret (CollectionInfo (DataIdentifier.scope did) (DataIdentifier.name did)
           (DataIdentifier.did_type did) (DataIdentifier.account did)
           (DataIdentifier.is_open did) (DataIdentifier.monotonic did)
           (DataIdentifier.expired_at did) length bytes_).

(** ** Access statistics *)

(** One entry of the list given to [touch_dids]. *)
Record TouchDict : Type := {
  t_scope : InternalScope;
  t_name : string;
  t_type : DIDType;
  t_accessed_at : option datetime
}.

(** The [CASE] expression of [touch_dids]. *)
Definition next_access_cnt (cnt : option Z) : option Z :=
  match cnt with
  | None => Some 1
  | Some n => Some (n + 1)
  end.

(** The update of [touch_dids] for one entry. *)
Definition touch (now : datetime) (did : TouchDict) (d : DataIdentifier.t)
    : DataIdentifier.t :=
  DataIdentifier.set_access_cnt (next_access_cnt (DataIdentifier.access_cnt d))
    (DataIdentifier.set_accessed_at
       (Some (match t_accessed_at did with Some t => t | None => now end)) d).

(** [touch_dids]. *)
Definition touch_dids (l : list TouchDict) : M bool :=
  s <- get ;;
  let now := utcnow s in
  for_each l (fun did =>
    update_dids (fun d => key_eqb (DataIdentifier.pk d) (t_scope did, t_name did)
                          && type_is (DataIdentifier.did_type d) (t_type did))
                (touch now did)) ;;
  ret true.

(** ** Archives *)



(** ** Followers *)

(** [get_users_following_did]: the accounts that follow a DID. *)
Definition get_users_following_did (scope : InternalScope) (name : string)
    : M (list InternalAccount) :=
  s <- get ;;
  ret (map DidFollowed.account
           (filter (fun f => key_eqb (DidFollowed.scope f, DidFollowed.name f)
                                     (scope, name))
                   (dids_followed s))).

(** [remove_dids_from_followed]: one [DELETE] for each DID of the
    request. *)
Definition remove_dids_from_followed (l : list key) (account : InternalAccount)
    : M unit :=
  for_each l (fun did =>
    modify (fun s =>
      set_dids_followed
        (filter (fun f => negb (key_eqb (DidFollowed.scope f, DidFollowed.name f) did
                                && scope_eqb (DidFollowed.account f) account))
                (dids_followed s)) s)).

(** [remove_did_from_followed]. *)
Definition remove_did_from_followed (scope : InternalScope) (name : string)
    (account : InternalAccount) : M unit :=
  remove_dids_from_followed [(scope, name)] account.

End Engine.

(** ** Sample catalogs

    Small concrete sessions on which the operations are run. *)
Module Samples.

Definition S : InternalScope := {| external := "S"; vo := "def" |}.

Definition root : InternalAccount := {| external := "root"; vo := "def" |}.

(** A live row with its key, its type and its open flag set, and every
    other column null. *)
Definition did (n : string) (t : DIDType) (open : bool) : DataIdentifier.t :=
  {| DataIdentifier.scope := S; DataIdentifier.name := n;
     DataIdentifier.account := Some root; DataIdentifier.did_type := Some t;
     DataIdentifier.is_open := Some open; DataIdentifier.monotonic := Some false;
     DataIdentifier.hidden := None; DataIdentifier.obsolete := None;
     DataIdentifier.complete := None; DataIdentifier.is_new := None;
     DataIdentifier.availability := Some AVAILABLE;
     DataIdentifier.suppressed := None; DataIdentifier.bytes := None;
     DataIdentifier.length := None; DataIdentifier.md5 := None;
     DataIdentifier.adler32 := None; DataIdentifier.expired_at := None;
     DataIdentifier.purge_replicas := Some true; DataIdentifier.deleted_at := None;
     DataIdentifier.events := None; DataIdentifier.guid := None;
     DataIdentifier.domain := blank_domain; DataIdentifier.accessed_at := None;
     DataIdentifier.closed_at := None; DataIdentifier.eol_at := None;
     DataIdentifier.is_archive := None; DataIdentifier.constituent := None;
     DataIdentifier.access_cnt := Some 4; DataIdentifier.created_at := Some 100;
     DataIdentifier.updated_at := Some 100 |}.

(** A file with its size and number of events. *)
Definition file (n : string) (b e : Z) : DataIdentifier.t :=
  DataIdentifier.set_events (Some e)
    (DataIdentifier.set_bytes (Some b)
       (DataIdentifier.set_length (Some 1) (did n FILE false))).

(** An association between two DIDs of scope [S]. *)
Definition edge (p : string) (pt : DIDType) (c : string) (ct : DIDType)
    (b e : option Z) : DataIdentifierAssociation.t :=
  {| DataIdentifierAssociation.scope := S; DataIdentifierAssociation.name := p;
     DataIdentifierAssociation.child_scope := S;
     DataIdentifierAssociation.child_name := c;
     DataIdentifierAssociation.did_type := Some pt;
     DataIdentifierAssociation.child_type := Some ct;
     DataIdentifierAssociation.bytes := b; DataIdentifierAssociation.adler32 := None;
     DataIdentifierAssociation.md5 := None; DataIdentifierAssociation.guid := None;
     DataIdentifierAssociation.events := e;
     DataIdentifierAssociation.rule_evaluation := Some true;
     DataIdentifierAssociation.created_at := Some 200;
     DataIdentifierAssociation.updated_at := Some 200 |}.

Definition default_config : Config :=
  {| archive_dids := false; archive_content := false;
     expire_rules_locks_size := 10000; purge_all_replicas := false;
     reevaluate_dids_at_close := false |}.

(** A session holding the given DIDs and associations and nothing else. *)
Definition session (dialect_name : string) (ds : list DataIdentifier.t)
    (cs : list DataIdentifierAssociation.t) : Session :=
  {| dialect := dialect_name; oracle_version := 19; utcnow := 1000;
     config := default_config; dids := ds; contents := cs;
     contents_history := []; archive_contents := []; deleted_dids := [];
     updated_dids := []; messages := []; rules := []; dataset_locks := [];
     did_meta := []; bad_replicas := []; replicas := [];
     collection_replicas := []; dids_followed := [] |}.

(** The name of a child in a request, with optional attributes. *)
Definition child (n : string) (attrs : pydict) : ChildDict :=
  {| c_scope := S; c_name := n; c_attrs := attrs; c_meta := None |}.

(** Whether a name ends in [.zip]. *)
Fixpoint ends_in_zip (n : string) : bool :=
  match n with
  | EmptyString => false
  | String _ n' => String.eqb n ".zip" || ends_in_zip n'
  end.

(** Collaborators that do nothing to the session: no rule engine, no
    replica engine, no naming convention.  [md5] is given its argument
    encoded, and its value on the name [a] is the digest of that name. *)
Definition quiet : Collaborators :=
  {| DEFAULT_VO := "def";
     is_archive := ends_in_zip;
     validate_name := fun _ _ => None;
     add_replicas := fun _ _ _ _ => ret tt;
     archive_localgroupdisk_datasets := fun _ _ => ret tt;
     delete_rule := fun _ _ _ => ret tt;
     set_metadata_plugin := fun _ _ _ _ => ret tt;
     generate_rule_notifications := fun _ => ret tt;
     md5_int := fun n =>
       if String.eqb n "a" then Some 0x0cc175b9c0f1b6a831c399e269772661
       else Some 0;
     db_hash := fun n => Z.of_nat (String.length n);
     model_timestamp := fun now => Some now |}.

(** The same collaborators with the [md5] of Python 3, which raises
    [TypeError] on a [str]. *)
Definition quiet_py3 : Collaborators :=
  {| DEFAULT_VO := DEFAULT_VO quiet;
     is_archive := is_archive quiet;
     validate_name := validate_name quiet;
     add_replicas := add_replicas quiet;
     archive_localgroupdisk_datasets := archive_localgroupdisk_datasets quiet;
     delete_rule := delete_rule quiet;
     set_metadata_plugin := set_metadata_plugin quiet;
     generate_rule_notifications := generate_rule_notifications quiet;
     md5_int := fun _ => None;
     db_hash := db_hash quiet;
     model_timestamp := model_timestamp quiet |}.

(** One expired DID named [a] behind an SQLite engine. *)
Definition expired_catalog : Session :=
  session "sqlite" [DataIdentifier.set_expired_at (Some 500) (did "a" DATASET true)] [].

(** An open dataset, a file, and an archive file. *)
Definition archive_batch_catalog : Session :=
  session "sqlite"
    [did "D" DATASET true; file "f1" 10 3; file "A.zip" 50 0] [].

(** A request that attaches [f1] to the dataset [D] and then a new
    constituent to the archive [A.zip]. *)
Definition archive_batch : list Attachment :=
  [{| a_scope := S; a_name := "D"; a_dids := [child "f1" []]; a_rse_id := None |};
   {| a_scope := S; a_name := "A.zip";
      a_dids := [child "c1" [("bytes", PyInt 5)]]; a_rse_id := None |}].

(** An open container [C] that holds the dataset [D], and a second
    container [C2]. *)
Definition mixed_catalog : Session :=
  session "sqlite"
    [did "C" CONTAINER true; did "D" DATASET true; did "C2" CONTAINER true]
    [edge "C" CONTAINER "D" DATASET None None].

(** An open container [C] with one dataset [D] of one file; the stored
    aggregates of [D] are not those of its content. *)
Definition stale_catalog : Session :=
  session "sqlite"
    [did "C" CONTAINER true;
     DataIdentifier.set_events (Some 7)
       (DataIdentifier.set_bytes (Some 100)
          (DataIdentifier.set_length (Some 5) (did "D" DATASET true)));
     file "f1" 10 3]
    [edge "C" CONTAINER "D" DATASET None None;
     edge "D" DATASET "f1" FILE (Some 10) (Some 3)].





(** An open dataset and a file of 10 bytes that is lost. *)
Definition lost_catalog : Session :=
  session "sqlite"
    [did "D" DATASET true;
     {| DataIdentifier.scope := S; DataIdentifier.name := "f1";
        DataIdentifier.account := Some root; DataIdentifier.did_type := Some FILE;
        DataIdentifier.is_open := Some false; DataIdentifier.monotonic := None;
        DataIdentifier.hidden := None; DataIdentifier.obsolete := None;
        DataIdentifier.complete := None; DataIdentifier.is_new := None;
        DataIdentifier.availability := Some LOST;
        DataIdentifier.suppressed := None; DataIdentifier.bytes := Some 10;
        DataIdentifier.length := Some 1; DataIdentifier.md5 := None;
        DataIdentifier.adler32 := None; DataIdentifier.expired_at := None;
        DataIdentifier.purge_replicas := None; DataIdentifier.deleted_at := None;
        DataIdentifier.events := None; DataIdentifier.guid := None;
        DataIdentifier.domain := blank_domain; DataIdentifier.accessed_at := None;
        DataIdentifier.closed_at := None; DataIdentifier.eol_at := None;
        DataIdentifier.is_archive := None; DataIdentifier.constituent := None;
        DataIdentifier.access_cnt := None; DataIdentifier.created_at := Some 100;
        DataIdentifier.updated_at := Some 100 |}]
    [].

(** Three open containers, the first of which holds the second. *)
Definition nested_catalog : Session :=
  session "sqlite"
    [did "C1" CONTAINER true; did "C2" CONTAINER true; did "C3" CONTAINER true]
    [edge "C1" CONTAINER "C2" CONTAINER None None].

(** A rank on the names of the samples: a container comes before what it
    holds. *)
Definition rank (k : key) : nat :=
  if String.eqb (snd k) "C" then 0
  else if String.eqb (snd k) "C1" then 1
  else if String.eqb (snd k) "C2" then 2
  else if String.eqb (snd k) "C3" then 3
  else if String.eqb (snd k) "D" then 4
  else 5.

(** The reverse rank: what is held comes before its container. *)
Definition depth_rank (k : key) : nat := 5 - rank k.

(** A closed dataset and a file. *)
Definition closed_catalog : Session :=
  session "sqlite" [did "D" DATASET false; file "f1" 10 3] [].

End Samples.

(** * Notions of the statements *)

(** ** The association graph *)

(** Every association is an edge of the graph. *)
Definition any_edge (a : DataIdentifierAssociation.t) : bool := true.

(** The edges from a container to a container, as the cached types of the
    association tell. *)
Definition container_edge (a : DataIdentifierAssociation.t) : bool :=
  type_is (DataIdentifierAssociation.did_type a) CONTAINER
  && type_is (DataIdentifierAssociation.child_type a) CONTAINER.

(** [p] is a parent of [c] by an association that [sel] selects. *)
Definition parent_of (sel : DataIdentifierAssociation.t -> bool)
    (tbl : list DataIdentifierAssociation.t) (p c : key) : Prop :=
  exists a, In a tbl /\ sel a = true
            /\ DataIdentifierAssociation.parent a = p
            /\ DataIdentifierAssociation.child a = c.

(** [p] is a parent of [c], or a parent of a parent, and so on. *)
Definition ancestor (sel : DataIdentifierAssociation.t -> bool)
    (tbl : list DataIdentifierAssociation.t) : key -> key -> Prop :=
  clos_trans key (parent_of sel tbl).

(** No DID is its own ancestor. *)
Definition acyclic (sel : DataIdentifierAssociation.t -> bool)
    (tbl : list DataIdentifierAssociation.t) : Prop :=
  forall x, ~ ancestor sel tbl x x.

(** Every chain of parents above any DID is finite: the constructive form
    of acyclicity, which for the finitely many rows of a table says the
    same. *)
Definition cycle_free (sel : DataIdentifierAssociation.t -> bool)
    (tbl : list DataIdentifierAssociation.t) : Prop :=
  well_founded (parent_of sel tbl).

(** The column [did_type] of [dids] is never null. *)
Definition typed (s : Session) : Prop :=
  forall d, In d (dids s) -> DataIdentifier.did_type d <> None.

(** How the list of ancestors kept by the loop was obtained. *)
Definition parents_from (fuel : nat) (parent : key) (s : Session)
    (before : option (list key)) (l : list key) : Prop :=
  match before with
  | Some l0 => l = l0
  | None => exists l', all_parents fuel (contents s) parent = Some l'
                       /\ l = map fst l'
  end.

(** ** Recursive resolution *)

(** A row [(k', t)] is resolved from [k] when [k'] is reached from [k]
    by one association or more whose parent type is among [resolve], the
    last of which caches the type [t] of [k']. *)
Inductive resolves (tbl : list DataIdentifierAssociation.t)
    (resolve : list DIDType) (k : key) : cte_row -> Prop :=
| resolves_child (a : DataIdentifierAssociation.t) :
    In a tbl ->
    DataIdentifierAssociation.parent a = k ->
    type_in (DataIdentifierAssociation.did_type a) resolve = true ->
    resolves tbl resolve k
      (DataIdentifierAssociation.child a, DataIdentifierAssociation.child_type a)
| resolves_next (r : cte_row) (a : DataIdentifierAssociation.t) :
    resolves tbl resolve k r ->
    In a tbl ->
    DataIdentifierAssociation.parent a = fst r ->
    type_in (DataIdentifierAssociation.did_type a) resolve = true ->
    resolves tbl resolve k
      (DataIdentifierAssociation.child a, DataIdentifierAssociation.child_type a).

(** The child datasets of a container: what is reached from it through
    containers and is attached as a dataset. *)
Definition child_dataset (tbl : list DataIdentifierAssociation.t) (k k' : key) : Prop :=
  resolves tbl [CONTAINER] k (k', Some DATASET).

(** A list of the child datasets of [k], each once. *)
Definition lists_child_datasets (tbl : list DataIdentifierAssociation.t) (k : key)
    (l : list key) : Prop :=
  NoDup l /\ forall k', In k' l <-> child_dataset tbl k k'.

(** The sum of a column in which a null counts for nothing. *)
Definition total (l : list (option Z)) : Z :=
  fold_right (fun o acc => or0 o + acc) 0 l.

(** What the spec asks of [resolve_bytes_length_events]: the result
    [(bytes, length, events)] for a DID and a depth. *)
Definition resolution (s : Session) (did : DataIdentifier.t) (depth : DIDType)
    (r : Z * Z * Z) : Prop :=
  match DataIdentifier.did_type did, depth with
  | Some FILE, _ =>
      r = (or0 (DataIdentifier.bytes did), 1, or0 (DataIdentifier.events did))
  | Some DATASET, FILE =>
      let rows := filter (fun a => key_eqb (DataIdentifierAssociation.parent a)
                                           (DataIdentifier.pk did))
                         (contents s) in
      r = (total (map DataIdentifierAssociation.bytes rows),
           Z.of_nat (List.length rows),
           total (map DataIdentifierAssociation.events rows))
  | Some CONTAINER, DATASET =>
      exists l, lists_child_datasets (contents s) (DataIdentifier.pk did) l
                /\ let rows := dids_of l s in
                   r = (total (map DataIdentifier.bytes rows),
                        total (map DataIdentifier.length rows),
                        total (map DataIdentifier.events rows))
  | Some CONTAINER, FILE =>
      exists l, lists_child_datasets (contents s) (DataIdentifier.pk did) l
                /\ let rows := associations_of l s in
                   r = (total (map DataIdentifierAssociation.bytes rows),
                        Z.of_nat (List.length rows),
                        total (map DataIdentifierAssociation.events rows))
  | _, _ =>
      r = (or0 (DataIdentifier.bytes did), or0 (DataIdentifier.length did),
           or0 (DataIdentifier.events did))
  end.

(** [c] is a child of [p] by an association whose parent is cached as a
    container. *)
Definition container_child (tbl : list DataIdentifierAssociation.t) (c p : key) : Prop :=
  parent_of (fun a => type_in (DataIdentifierAssociation.did_type a) [CONTAINER])
            tbl p c.

(** Every row resolved from [k] is at most [n] associations away from the
    end of its chains. *)
Fixpoint height_le (n : nat) (tbl : list DataIdentifierAssociation.t)
    (resolve : list DIDType) (k : key) : Prop :=
  match n with
  | O => resolved_children tbl resolve k = []
  | S m => forall r, In r (resolved_children tbl resolve k) ->
                     height_le m tbl resolve (fst r)
  end.

(** ** Contracts of the collaborators *)

(** A collaborator that only queues messages: it returns, and leaves the
    DIDs and the dataset locks as they are. *)
Definition notifies_only (m : M unit) : Prop :=
  forall s, exists s',
    m s = Ok tt s'
    /\ dids s' = dids s
    /\ dataset_locks s' = dataset_locks s
    /\ exists extra, messages s' = messages s ++ extra.

(** The message of a closed DID. *)
Definition close_message (ext : Collaborators) (scope : InternalScope)
    (name : string) (r : Z * Z * Z) : Message :=
  let '(bytes_, length, events) := r in
  {| event_type := "CLOSE";
     payload :=
       with_vo (DEFAULT_VO ext) (vo scope)
         [("scope", PyStr (external scope)); ("name", PyStr name);
          ("bytes", PyInt bytes_); ("length", PyInt length);
          ("events", PyInt events)] |}.

(** What a collaborator may do to the session: the tables of the catalog
    stay as they are (the history may grow), the clock and the
    configuration are not touched, and no rule is added. *)
Definition keeps_catalog (s s' : Session) : Prop :=
  dids s' = dids s
  /\ contents s' = contents s
  /\ (exists extra, contents_history s' = contents_history s ++ extra)
  /\ deleted_dids s' = deleted_dids s
  /\ utcnow s' = utcnow s
  /\ config s' = config s
  /\ incl (rules s') (rules s).

(** The contract of the rule engine in a deletion: the archive policy
    succeeds or is undefined, a rule is deleted without an error, and both
    keep the catalog. *)
Record rule_engine_keeps_catalog (ext : Collaborators) : Prop := {
  archive_policy_keeps :
    forall scope name s,
      exists s',
        (archive_localgroupdisk_datasets ext scope name s = Ok tt s'
         \/ archive_localgroupdisk_datasets ext scope name s = Raise UndefinedPolicy s')
        /\ keeps_catalog s s';
  delete_rule_keeps :
    forall rule_id purge_replicas soft s,
      exists s',
        delete_rule ext rule_id purge_replicas soft s = Ok tt s'
        /\ keeps_catalog s s'
}.

(** The primary key of an association. *)
Definition association_key (a : DataIdentifierAssociation.t) : key * key :=
  (DataIdentifierAssociation.parent a, DataIdentifierAssociation.child a).

(** Two rows of the same DID: same key, same type, same creation time. *)
Definition same_identity (d d' : DataIdentifier.t) : Prop :=
  DataIdentifier.pk d' = DataIdentifier.pk d
  /\ DataIdentifier.did_type d' = DataIdentifier.did_type d
  /\ DataIdentifier.created_at d' = DataIdentifier.created_at d.

(** Whether two associations have the same primary key. *)
Definition same_association (x a : DataIdentifierAssociation.t) : bool :=
  key_eqb (DataIdentifierAssociation.parent x) (DataIdentifierAssociation.parent a)
  && key_eqb (DataIdentifierAssociation.child x) (DataIdentifierAssociation.child a).

(** A step of the deletion that removes nothing but associations, and no
    DID: it returns, and the rows of the DIDs, the archive of deleted rows
    and the history are as before. *)
Definition removes_content_only (m : M unit) : Prop :=
  forall s, exists s',
    m s = Ok tt s'
    /\ dids s' = dids s
    /\ deleted_dids s' = deleted_dids s
    /\ contents_history s' = contents_history s
    /\ utcnow s' = utcnow s
    /\ incl (contents s') (contents s).

(** ** Guarded decrements *)

(** What a detachment of [children] from the parent [p] may do to the
    cached aggregates of the row [did] of [p], given the associations
    [tbl] of the catalog before the call: a length that is null or zero
    is kept, a non-negative length stays non-negative, and bytes and
    events change only if the stored value is not null and one of the
    associations removed caches a value that is not null. *)
Definition guarded_decrements (tbl : list DataIdentifierAssociation.t) (p : key)
    (children : list key) (did did' : DataIdentifier.t) : Prop :=
  (DataIdentifier.length did = None \/ DataIdentifier.length did = Some 0 ->
   DataIdentifier.length did' = DataIdentifier.length did)
  /\ (forall n, DataIdentifier.length did = Some n -> 0 <= n ->
        exists m, DataIdentifier.length did' = Some m /\ 0 <= m)
  /\ (DataIdentifier.bytes did' <> DataIdentifier.bytes did ->
        DataIdentifier.bytes did <> None
        /\ exists a, In a tbl /\ DataIdentifierAssociation.parent a = p
                     /\ In (DataIdentifierAssociation.child a) children
                     /\ DataIdentifierAssociation.bytes a <> None)
  /\ (DataIdentifier.events did' <> DataIdentifier.events did ->
        DataIdentifier.events did <> None
        /\ exists a, In a tbl /\ DataIdentifierAssociation.parent a = p
                     /\ In (DataIdentifierAssociation.child a) children
                     /\ DataIdentifierAssociation.events a <> None).

(** ** Deletion and resurrection *)



(** ** Cached aggregates *)

(** The key and the type of a row with its cached aggregates. *)
Definition aggregates (d : DataIdentifier.t)
    : key * option DIDType * (option Z * option Z * option Z) :=
  (DataIdentifier.pk d, DataIdentifier.did_type d,
   (DataIdentifier.bytes d, DataIdentifier.length d, DataIdentifier.events d)).

(** ** Access statistics *)

(** The entries of a request to [touch_dids] that select the row [d]. *)
Definition touches (l : list TouchDict) (d : DataIdentifier.t) : list TouchDict :=
  filter (fun t => key_eqb (DataIdentifier.pk d) (t_scope t, t_name t)
                   && type_is (DataIdentifier.did_type d) (t_type t)) l.

(** What [touch_dids] has made of the row [d], at the instant [now]: a
    row that no entry selects is as it was; another has counted one
    access per entry that selects it, from 0 when the counter was null,
    and carries the time of the last of them. *)
Definition touched (now : datetime) (l : list TouchDict) (d d' : DataIdentifier.t)
    : Prop :=
  aggregates d' = aggregates d
  /\ match rev (touches l d) with
     | [] => d' = d
     | t :: _ =>
         DataIdentifier.access_cnt d'
         = Some (or0 (DataIdentifier.access_cnt d)
                 + Z.of_nat (List.length (touches l d)))
         /\ DataIdentifier.accessed_at d'
            = Some (match t_accessed_at t with Some x => x | None => now end)
     end.

(** ** The walk of [list_files] *)

(** A node of the walk: a DID with the type under which it was pushed. *)
Definition walk_node : Type := (key * option DIDType)%type.

(** The nodes pushed when the DID [k] is popped as a collection that is
    not a dataset. *)
Definition pushed (tbl : list DataIdentifierAssociation.t) (k : key) : list walk_node :=
  map (fun a => (DataIdentifierAssociation.child a,
                 DataIdentifierAssociation.child_type a))
      (filter (fun a => key_eqb (DataIdentifierAssociation.parent a) k) tbl).

(** [n'] is pushed when [n] is popped. *)
Definition walk_step (tbl : list DataIdentifierAssociation.t) (n' n : walk_node)
    : Prop :=
  type_is (snd n) DATASET = false /\ In n' (pushed tbl (fst n)).

(** The datasets at which the walk from a node arrives: the node itself
    when it was pushed as a dataset, and otherwise those at which the walk
    from a node pushed for it arrives. *)
Inductive arrives (tbl : list DataIdentifierAssociation.t) : walk_node -> key -> Prop :=
| arrives_here (k : key) (t : option DIDType) :
    type_is t DATASET = true -> arrives tbl (k, t) k
| arrives_below (n n' : walk_node) (k' : key) :
    walk_step tbl n' n -> arrives tbl n' k' -> arrives tbl n k'.

(** * Temporary tables of a session: [lib/rucio/db/sqla/util.py]

    [did.py] stages the DIDs of a request in temporary tables that it
    obtains with [temp_table_mngr(session).create_scope_name_table()];
    [delete_dids] holds two of them at once. *)

Module TempTables.

(** [str(idx)] for an index. *)
Definition str_of_nat (n : nat) : string := NilZero.string_of_uint (Nat.to_uint n).

(** [f'{name}_{idx}']. *)
Definition table_name (name : string) (idx : nat) : string :=
  name ++ "_" ++ str_of_nat idx.

(** The dictionary [next_idx_to_use], from names to indexes. *)
Definition index_dict : Type := list (string * nat).

Fixpoint dict_lookup (d : index_dict) (k : string) : option nat :=
  match d with
  | [] => None
  | (k', v) :: d' => if String.eqb k' k then Some v else dict_lookup d' k
  end.

(** [d[k] = v]. *)
Fixpoint dict_set (d : index_dict) (k : string) (v : nat) : index_dict :=
  match d with
  | [] => [(k, v)]
  | (k', v') :: d' =>
      if String.eqb k' k then (k', v) :: d' else (k', v') :: dict_set d' k v
  end.

(** [d.setdefault(k, v)]: the value and the dictionary afterwards. *)
Definition setdefault (d : index_dict) (k : string) (v : nat) : nat * index_dict :=
  match dict_lookup d k with
  | Some x => (x, d)
  | None => (v, dict_set d k v)
  end.

(** An object of the class [TempTableManager]. *)
Record TempTableManager : Type := { next_idx_to_use : index_dict }.

Section Tables.

(** The rows of a temporary table are of no concern here. *)
Variable Row : Type.

(** The upper-cased names that [list_oracle_global_temp_tables] returns,
    and the values that [generate_uuid] draws, one after the other. *)
Variable oracle_global_temp_tables : list string.
Variable generate_uuid : nat -> string.

(** A session of SQLAlchemy as this module sees it: the dialect of its
    engine, the entry [temp_table_mngr] of [session.info], where the
    manager of the session lives, the temporary tables of the connection by
    name, and the number of identifiers drawn so far. *)
Record SqlaSession : Type := {
  dialect_name : string;
  info : option TempTableManager;
  temp_tables : list (string * list Row);
  uuids_drawn : nat
}.

Definition set_info (m : option TempTableManager) (s : SqlaSession) : SqlaSession :=
  {| dialect_name := dialect_name s; info := m; temp_tables := temp_tables s;
     uuids_drawn := uuids_drawn s |}.

Definition set_temp_tables (t : list (string * list Row)) (s : SqlaSession)
    : SqlaSession :=
  {| dialect_name := dialect_name s; info := info s; temp_tables := t;
     uuids_drawn := uuids_drawn s |}.

Fixpoint table_rows (t : list (string * list Row)) (name : string)
    : option (list Row) :=
  match t with
  | [] => None
  | (n, rows) :: t' => if String.eqb n name then Some rows else table_rows t' name
  end.

(** The table [name] created, or emptied when it is there. *)
Fixpoint empty_table (t : list (string * list Row)) (name : string)
    : list (string * list Row) :=
  match t with
  | [] => [(name, [])]
  | (n, rows) :: t' =>
      if String.eqb n name then (n, []) :: t' else (n, rows) :: empty_table t' name
  end.

(** [session.execute(CreateTable(table))]: an error when the table is
    there. *)
Definition create_table (name : string) (s : SqlaSession)
    : option string * SqlaSession :=
  match table_rows (temp_tables s) name with
  | Some _ => (None, s)
  | None => (Some name, set_temp_tables (empty_table (temp_tables s) name) s)
  end.

(** [_create_temp_table(name, *columns, session=session)]: the name of the
    table behind the class returned, or [None] for an error of the engine.
    Behind Oracle a global temporary table is used as it is, and a private
    one gets a random name; behind PostgreSQL the table is created; behind
    the other engines it is created if it is not there, and emptied. *)
Definition _create_temp_table (name : string) (s : SqlaSession)
    : option string * SqlaSession :=
  if String.eqb (dialect_name s) "oracle" then
    if existsb (String.eqb (upper name)) oracle_global_temp_tables then (Some name, s)
    else
      let name' := ("ORA$PTT_" ++ name)%string in
      let name' := (name' ++ "_" ++ generate_uuid (uuids_drawn s))%string in
      create_table name'
        {| dialect_name := dialect_name s; info := info s;
           temp_tables := temp_tables s; uuids_drawn := S (uuids_drawn s) |}
  else if String.eqb (dialect_name s) "postgresql" then create_table name s
  else (Some name, set_temp_tables (empty_table (temp_tables s) name) s).

(** [TempTableManager.create_temp_table]: the result, the manager and the
    session afterwards.  When the creation fails, the index is not
    incremented. *)
Definition create_temp_table (self : TempTableManager) (name : string)
    (s : SqlaSession) : option string * TempTableManager * SqlaSession :=
  let '(idx, d) := setdefault (next_idx_to_use self) name 0 in
  match _create_temp_table (table_name name idx) s with
  | (Some table, s') =>
      (Some table, {| next_idx_to_use := dict_set d name (idx + 1) |}, s')
  | (None, s') => (None, {| next_idx_to_use := d |}, s')
  end.

Definition create_scope_name_table (self : TempTableManager) (s : SqlaSession)
    : option string * TempTableManager * SqlaSession :=
  create_temp_table self "TEMPORARY_SCOPE_NAME" s.

Definition create_association_table (self : TempTableManager) (s : SqlaSession)
    : option string * TempTableManager * SqlaSession :=
  create_temp_table self "TEMPORARY_ASSOCIATION" s.

Definition create_id_table (self : TempTableManager) (s : SqlaSession)
    : option string * TempTableManager * SqlaSession :=
  create_temp_table self "TEMPORARY_ID" s.

(** [temp_table_mngr(session)]: the manager of the session, made when
    there is none. *)
Definition temp_table_mngr (s : SqlaSession) : TempTableManager * SqlaSession :=
  match info s with
  | Some mngr => (mngr, s)
  | None =>
      let mngr := {| next_idx_to_use := [] |} in
      (mngr, set_info (Some mngr) s)
  end.

(** [temp_table_mngr(session).create_scope_name_table()], as [did.py] has
    it: the manager that the method updates is the object held by
    [session.info]. *)
Definition session_scope_name_table (s : SqlaSession)
    : option string * SqlaSession :=
  let '(mngr, s0) := temp_table_mngr s in
  let '(table, mngr', s1) := create_scope_name_table mngr s0 in
  (table, set_info (Some mngr') s1).

(** The index that the manager will use next for a name. *)
Definition next_idx (self : TempTableManager) (name : string) : nat :=
  match dict_lookup (next_idx_to_use self) name with
  | Some idx => idx
  | None => 0
  end.

(** The names that the manager has given out: [name_idx] for an index
    below the next one of [name]. *)
Definition given_out (self : TempTableManager) (table : string) : Prop :=
  exists name idx, table = table_name name idx /\ (idx < next_idx self name)%nat.

End Tables.

(** A string of decimal digits. *)
Fixpoint digits_only (x : string) : bool :=
  match x with
  | EmptyString => true
  | String c x' =>
      (let n := Ascii.nat_of_ascii c in (48 <=? n) && (n <=? 57))%nat && digits_only x'
  end.

End TempTables.

(** * Properties *)

Unset Implicit Arguments.

(** Projections of updated sessions. *)
Ltac session_simpl :=
  cbn [dialect oracle_version utcnow config dids contents contents_history
       archive_contents deleted_dids updated_dids messages rules dataset_locks
       did_meta bad_replicas replicas collection_replicas dids_followed
       set_dids set_contents set_contents_history set_archive_contents
       set_deleted_dids set_updated_dids set_messages set_dataset_locks
       set_did_meta set_bad_replicas set_replicas set_collection_replicas
       set_dids_followed].

Tactic Notation "session_simpl" "in" hyp(H) :=
  cbn [dialect oracle_version utcnow config dids contents contents_history
       archive_contents deleted_dids updated_dids messages rules dataset_locks
       did_meta bad_replicas replicas collection_replicas dids_followed
       set_dids set_contents set_contents_history set_archive_contents
       set_deleted_dids set_updated_dids set_messages set_dataset_locks
       set_did_meta set_bad_replicas set_replicas set_collection_replicas
       set_dids_followed] in H.

(** ** Keys *)

Lemma scope_eqb_eq (a b : InternalScope) : scope_eqb a b = true <-> a = b.
Proof.
  unfold scope_eqb. rewrite andb_true_iff, !String.eqb_eq.
  destruct a, b; simpl. split.
  - intros [-> ->]. reflexivity.
  - intros H. inversion H. auto.
Qed.

Lemma key_eqb_eq (a b : key) : key_eqb a b = true <-> a = b.
Proof.
  unfold key_eqb. rewrite andb_true_iff, scope_eqb_eq, String.eqb_eq.
  destruct a, b; simpl. split.
  - intros [-> ->]. reflexivity.
  - intros H. inversion H. auto.
Qed.

Lemma key_eqb_refl (a : key) : key_eqb a a = true.
Proof. apply key_eqb_eq. reflexivity. Qed.

Lemma key_eqb_neq (a b : key) : key_eqb a b = false <-> a <> b.
Proof.
  split.
  - intros H E. apply key_eqb_eq in E. congruence.
  - intros H. destruct (key_eqb a b) eqn:E; [apply key_eqb_eq in E; contradiction | reflexivity].
Qed.

Lemma key_eqb_sym (a b : key) : key_eqb a b = key_eqb b a.
Proof.
  destruct (key_eqb a b) eqn:E.
  - apply key_eqb_eq in E. subst. symmetry. apply key_eqb_refl.
  - symmetry. apply key_eqb_neq. apply key_eqb_neq in E. congruence.
Qed.

Lemma key_in_In (k : key) (l : list key) : key_in k l = true <-> In k l.
Proof.
  unfold key_in. rewrite existsb_exists. split.
  - intros [x [Hx E]]. apply key_eqb_eq in E. subst. exact Hx.
  - intros H. exists k. split; [exact H | apply key_eqb_refl].
Qed.

Lemma DIDType_eqb_eq (a b : DIDType) : DIDType_eqb a b = true <-> a = b.
Proof. destruct a, b; simpl; split; congruence. Qed.

Lemma type_is_eq (o : option DIDType) (t : DIDType) : type_is o t = true <-> o = Some t.
Proof.
  destruct o as [t'|]; simpl.
  - rewrite DIDType_eqb_eq. split; congruence.
  - split; congruence.
Qed.

(** ** Rows found and rows updated *)

Lemma find_did_some (k : key) (s : Session) (d : DataIdentifier.t) :
  find_did k s = Some d -> In d (dids s) /\ DataIdentifier.pk d = k.
Proof.
  unfold find_did. intros H. apply find_some in H. destruct H as [H1 H2].
  apply key_eqb_eq in H2. auto.
Qed.

Lemma find_map_update {A} (sel : A -> bool) (f : A -> A) (p : A -> bool) (l : list A) :
  (forall x, p (f x) = p x) ->
  (forall x, p x = true -> sel x = true) ->
  find p (map (fun x => if sel x then f x else x) l) = option_map f (find p l).
Proof.
  intros Hp Hs. induction l as [|x l IH]; simpl; [reflexivity|].
  destruct (sel x) eqn:Es.
  - rewrite Hp. destruct (p x); [reflexivity | exact IH].
  - destruct (p x) eqn:Ep; [apply Hs in Ep; congruence | exact IH].
Qed.

Lemma decrement_aggregates_pk (b e : option Z) (d : DataIdentifier.t) :
  DataIdentifier.pk (decrement_aggregates b e d) = DataIdentifier.pk d.
Proof.
  unfold decrement_aggregates.
  repeat match goal with |- context [if ?c then _ else _] => destruct c end;
    reflexivity.
Qed.

(** The columns of a parent after the guarded decrements. *)
Lemma decrement_aggregates_length (b e : option Z) (d : DataIdentifier.t) :
  DataIdentifier.length (decrement_aggregates b e d) =
  if truthy (DataIdentifier.length d)
  then Some (or0 (DataIdentifier.length d) - 1) else DataIdentifier.length d.
Proof.
  destruct d as [? ? ? ? ? ? ? ? ? ? ? ? [x|] [y|] ? ? ? ? ? [z|] ? ? ? ? ? ? ? ? ? ?];
    destruct b as [b|], e as [e|]; unfold decrement_aggregates; cbn;
    repeat match goal with
           | |- context [?u =? 0] => destruct (u =? 0); cbn
           end;
    reflexivity.
Qed.

Lemma decrement_aggregates_bytes (b e : option Z) (d : DataIdentifier.t) :
  DataIdentifier.bytes (decrement_aggregates b e d) =
  if truthy (DataIdentifier.bytes d) && truthy b
  then Some (or0 (DataIdentifier.bytes d) - or0 b) else DataIdentifier.bytes d.
Proof.
  destruct d as [? ? ? ? ? ? ? ? ? ? ? ? [x|] [y|] ? ? ? ? ? [z|] ? ? ? ? ? ? ? ? ? ?];
    destruct b as [b|], e as [e|]; unfold decrement_aggregates; cbn;
    repeat match goal with
           | |- context [?u =? 0] => destruct (u =? 0); cbn
           end;
    reflexivity.
Qed.

Lemma decrement_aggregates_events (b e : option Z) (d : DataIdentifier.t) :
  DataIdentifier.events (decrement_aggregates b e d) =
  if truthy (DataIdentifier.events d) && truthy e
  then Some (or0 (DataIdentifier.events d) - or0 e) else DataIdentifier.events d.
Proof.
  destruct d as [? ? ? ? ? ? ? ? ? ? ? ? [x|] [y|] ? ? ? ? ? [z|] ? ? ? ? ? ? ? ? ? ?];
    destruct b as [b|], e as [e|]; unfold decrement_aggregates; cbn;
    repeat match goal with
           | |- context [?u =? 0] => destruct (u =? 0); cbn
           end;
    reflexivity.
Qed.

Section Properties.

Variable ext : Collaborators.

(** ** Running computations *)

Lemma bind_get_run {A} (k : Session -> M A) (s : Session) :
  (bind get k) s = k s s.
Proof. reflexivity. Qed.

Lemma bind_ret_run {A B} (a : A) (k : A -> M B) (s : Session) :
  (bind (ret a) k) s = k a s.
Proof. reflexivity. Qed.

Lemma bind_modify_run {B} (f : Session -> Session) (k : unit -> M B) (s : Session) :
  (bind (modify f) k) s = k tt (f s).
Proof. reflexivity. Qed.

Lemma bind_run_ok {A B} (m : M A) (k : A -> M B) (s s1 : Session) (a : A) :
  m s = Ok a s1 -> (bind m k) s = k a s1.
Proof. intros H. unfold bind. rewrite H. reflexivity. Qed.


Lemma bind_ok_inv {A B} (m : M A) (k : A -> M B) (s s' : Session) (b : B) :
  (bind m k) s = Ok b s' -> exists a s1, m s = Ok a s1 /\ k a s1 = Ok b s'.
Proof.
  unfold bind. destruct (m s) as [a s1| |]; try discriminate.
  intros H. exists a, s1. auto.
Qed.

(** ** Detaching *)

(** What [detach_one] does to the row of the parent. *)
Lemma detach_one_parent_row (p c : key) (s s' : Session) :
  detach_one ext p c s = Ok tt s' ->
  exists a did,
    find_association p c s = Some a /\ find_did p s = Some did /\
    find_did p s' =
      Some (decrement_aggregates (DataIdentifierAssociation.bytes a)
              (DataIdentifierAssociation.events a) did).
Proof.
  unfold detach_one. destruct (key_eqb p c); [discriminate|].
  unfold bind at 1. unfold get at 1.
  destruct (find_association p c s) as [a|] eqn:Ea; [|discriminate].
  destruct (find_did p s) as [did|] eqn:Ed; [|discriminate].
  intros H. exists a, did. split; [reflexivity|]. split; [reflexivity| ].
  unfold bind, update_did, update_dids, modify, when, add_message, modify in H.
  destruct (type_is (DataIdentifier.did_type did) CONTAINER);
    simpl in H; inversion H; subst s'; clear H;
    unfold find_did; simpl;
    rewrite find_map_update;
    try (unfold find_did in Ed; rewrite Ed; reflexivity);
    try (intros x; rewrite decrement_aggregates_pk; reflexivity);
    auto.
Qed.

Lemma detach_one_contents (p c : key) (s s' : Session) :
  detach_one ext p c s = Ok tt s' -> incl (contents s') (contents s).
Proof.
  unfold detach_one. destruct (key_eqb p c); [discriminate|].
  unfold bind at 1. unfold get at 1.
  destruct (find_association p c s) as [a|]; [|discriminate].
  destruct (find_did p s) as [did|]; [|discriminate].
  intros H.
  unfold bind, update_did, update_dids, modify, when, add_message, modify in H.
  destruct (type_is (DataIdentifier.did_type did) CONTAINER);
    simpl in H; inversion H; subst s'; clear H; simpl;
    intros x Hx; apply filter_In in Hx; tauto.
Qed.

(** The guards of one iteration of the loop. *)
Lemma detach_one_guards (p c : key) (s s' : Session) :
  detach_one ext p c s = Ok tt s' ->
  exists a did did',
    find_association p c s = Some a /\ find_did p s = Some did /\
    find_did p s' = Some did' /\
    incl (contents s') (contents s) /\
    (DataIdentifier.length did = None \/ DataIdentifier.length did = Some 0 ->
     DataIdentifier.length did' = DataIdentifier.length did) /\
    (forall n, DataIdentifier.length did = Some n -> 0 <= n ->
       exists m, DataIdentifier.length did' = Some m /\ 0 <= m) /\
    (DataIdentifier.bytes did' <> DataIdentifier.bytes did ->
       DataIdentifier.bytes did <> None /\ DataIdentifierAssociation.bytes a <> None) /\
    (DataIdentifier.events did' <> DataIdentifier.events did ->
       DataIdentifier.events did <> None /\ DataIdentifierAssociation.events a <> None).
Proof.
  intros H. pose proof (detach_one_contents p c s s' H) as Hincl.
  apply detach_one_parent_row in H.
  destruct H as [a [did [Ha [Hd Hd']]]].
  exists a, did, (decrement_aggregates (DataIdentifierAssociation.bytes a)
                    (DataIdentifierAssociation.events a) did).
  split; [exact Ha|]. split; [exact Hd|]. split; [exact Hd'|]. split; [exact Hincl|].
  rewrite decrement_aggregates_length, decrement_aggregates_bytes,
    decrement_aggregates_events.
  repeat split.
  - intros [E|E]; rewrite E; reflexivity.
  - intros n E Hn. rewrite E. cbn. destruct (Z.eqb_spec n 0) as [->|Hz]; cbn.
    + exists 0. split; [reflexivity | lia].
    + exists (n - 1). split; [reflexivity | lia].
  - destruct (DataIdentifier.bytes did); [discriminate | cbn in H; congruence].
  - destruct (DataIdentifierAssociation.bytes a); [discriminate|].
    rewrite andb_false_r in H. congruence.
  - destruct (DataIdentifier.events did); [discriminate | cbn in H; congruence].
  - destruct (DataIdentifierAssociation.events a); [discriminate|].
    rewrite andb_false_r in H. congruence.
Qed.

Lemma option_Z_eq_dec (x y : option Z) : {x = y} + {x <> y}.
Proof. decide equality. apply Z.eq_dec. Qed.

(** The guards hold along the loop. *)
Lemma detach_loop_guards (p : key) (children : list key) :
  forall (s s' : Session) (did : DataIdentifier.t),
    for_each children (detach_one ext p) s = Ok tt s' ->
    find_did p s = Some did ->
    exists did',
      find_did p s' = Some did'
      /\ guarded_decrements (contents s) p children did did'.
Proof.
  induction children as [|c cs IH]; intros s s' did H Hd.
  - cbn in H. unfold ret in H. inversion H; subst s'. exists did.
    split; [exact Hd|]. unfold guarded_decrements.
    split; [reflexivity|]. split; [intros n E Hn; exists n; auto|].
    split; intros Hne; exfalso; apply Hne; reflexivity.
  - cbn [for_each] in H. apply bind_ok_inv in H. destruct H as [[] [s1 [H1 H2]]].
    destruct (detach_one_guards p c s s1 H1)
      as [a [did0 [did1 [Ha [Hd0 [Hd1 [Hincl [Hl0 [Hl1 [Hb He]]]]]]]]]].
    rewrite Hd in Hd0. inversion Hd0; subst did0. clear Hd0.
    destruct (IH s1 s' did1 H2 Hd1) as [did' [Hd' [Gl0 [Gl1 [Gb Ge]]]]].
    assert (Hain : In a (contents s)
                   /\ DataIdentifierAssociation.parent a = p
                   /\ DataIdentifierAssociation.child a = c).
    { unfold find_association in Ha. apply find_some in Ha. destruct Ha as [Hin Hk].
      apply andb_prop in Hk. destruct Hk as [Hk1 Hk2].
      apply key_eqb_eq in Hk1. apply key_eqb_eq in Hk2. auto. }
    destruct Hain as [Hain [Hap Hac]].
    exists did'. split; [exact Hd'|]. unfold guarded_decrements.
    split; [|split; [|split]].
    + intros E. rewrite <- (Hl0 E). apply Gl0. rewrite (Hl0 E). exact E.
    + intros n E Hn. destruct (Hl1 n E Hn) as [m [Em Hm]]. exact (Gl1 m Em Hm).
    + intros Hne.
      destruct (option_Z_eq_dec (DataIdentifier.bytes did1) (DataIdentifier.bytes did))
        as [E|E].
      * rewrite <- E in Hne. destruct (Gb Hne) as [Hnn [a' [Hin' [Hp' [Hc' Hb']]]]].
        split; [rewrite <- E; exact Hnn|].
        exists a'. split; [apply Hincl; exact Hin'|]. split; [exact Hp'|].
        split; [right; exact Hc' | exact Hb'].
      * destruct (Hb E) as [Hnn Hba]. split; [exact Hnn|].
        exists a. split; [exact Hain|]. split; [exact Hap|].
        split; [left; symmetry; exact Hac | exact Hba].
    + intros Hne.
      destruct (option_Z_eq_dec (DataIdentifier.events did1) (DataIdentifier.events did))
        as [E|E].
      * rewrite <- E in Hne. destruct (Ge Hne) as [Hnn [a' [Hin' [Hp' [Hc' Hb']]]]].
        split; [rewrite <- E; exact Hnn|].
        exists a'. split; [apply Hincl; exact Hin'|]. split; [exact Hp'|].
        split; [right; exact Hc' | exact Hb'].
      * destruct (He E) as [Hnn Hba]. split; [exact Hnn|].
        exists a. split; [exact Hain|]. split; [exact Hap|].
        split; [left; symmetry; exact Hac | exact Hba].
Qed.

(** C10.  In a call of [detach_dids] that returns, the cached aggregates
    of the parent are decremented under guards: a length that is null or
    zero is left as it is, so a null length stays null and a non-negative
    length stays non-negative; bytes (and events) change only when the
    stored value of the parent is not null and the cached value of an
    association that the call removes is not null. *)
Theorem detach_dids_decrements_under_guards (scope : InternalScope) (name : string)
    (children : list key) (s s' : Session) :
  detach_dids ext scope name children s = Ok tt s' ->
  exists did did',
    find_did (scope, name) s = Some did
    /\ find_did (scope, name) s' = Some did'
    /\ guarded_decrements (contents s) (scope, name) children did did'.
Proof.
  unfold detach_dids. rewrite bind_get_run.
  destruct (find _ (dids s)) as [d|] eqn:Ef; [|discriminate].
  rewrite bind_modify_run, bind_get_run. session_simpl.
  destruct (existsb _ (contents s)); [|discriminate].
  intros H.
  assert (Hd : exists did, find_did (scope, name) s = Some did).
  { destruct (find_did (scope, name) s) as [x|] eqn:Ex; [exists x; reflexivity|].
    apply find_some in Ef. destruct Ef as [Hin Hk]. apply andb_prop in Hk.
    unfold find_did in Ex. rewrite (find_none _ _ Ex d Hin) in Hk.
    destruct Hk; discriminate. }
  destruct Hd as [did Hd]. exists did.
  destruct (detach_loop_guards (scope, name) children _ s' did H) as [did' [Hd' G]].
  { unfold find_did. session_simpl. exact Hd. }
  exists did'. split; [exact Hd|]. split; [exact Hd'|]. exact G.
Qed.

(** ** Attaching files whose metadata differ *)

(** The rows of a batch before the first mismatch leave [contents] alone,
    and the first mismatch ends the loop. *)
Lemma dataset_rows_mismatch (parent_did : DataIdentifier.t) (ign : bool)
    (s0 : Session) (files : list ChildDict) :
  (forall f, In f files ->
     exists row, find_did (c_key f) s0 = Some row
                 /\ DataIdentifier.availability row <> Some LOST
                 /\ DataIdentifier.did_type row = Some FILE) ->
  (exists f row, In f files /\ find_did (c_key f) s0 = Some row
                 /\ metadata_mismatch f row = true) ->
  forall acc s1,
  exists s2,
    fold_rows (dataset_row ext parent_did ign s0) files acc s1
    = Raise FileConsistencyMismatch s2
    /\ contents s2 = contents s1.
Proof.
  induction files as [|f files IH]; intros Hgood Hbad acc s1.
  - destruct Hbad as [f [row [[] _]]].
  - destruct (Hgood f (or_introl eq_refl)) as [row [Hrow [Hlost Hfile]]].
    simpl. unfold bind at 1. unfold dataset_row at 1. rewrite Hrow.
    assert (El : match DataIdentifier.availability row with
                 | Some LOST => true | _ => false end = false).
    { destruct (DataIdentifier.availability row) as [[]|]; congruence. }
    rewrite El. rewrite Hfile. simpl.
    destruct (metadata_mismatch f row) eqn:Em.
    + exists s1. split; reflexivity.
    + assert (Hbad' : exists f' row', In f' files
                       /\ find_did (c_key f') s0 = Some row'
                       /\ metadata_mismatch f' row' = true).
      { destruct Hbad as [f' [row' [[E|Hin] [Hr Hm]]]].
        - subst f'. rewrite Hrow in Hr. inversion Hr. subst. congruence.
        - exists f', row'. auto. }
      assert (Hgood' : forall f', In f' files ->
                exists row', find_did (c_key f') s0 = Some row'
                  /\ DataIdentifier.availability row' <> Some LOST
                  /\ DataIdentifier.did_type row' = Some FILE).
      { intros f' Hin. apply Hgood. right. exact Hin. }
      destruct (ign && has_association (DataIdentifier.pk parent_did) (c_key f) s0).
      { unfold ret at 1. apply IH; assumption. }
      destruct (existsb _ (files_to_add acc)).
      { unfold ret at 1. apply IH; assumption. }
      unfold bind, get, when, update_did, update_dids, modify, ret.
      destruct (is_true (DataIdentifier.is_archive row)
                && negb (is_true (parent_is_archive acc))).
      * match goal with
        | |- exists s2, fold_rows _ _ ?a ?s = _ /\ _ =>
            destruct (IH Hgood' Hbad' a s) as [s2 [H1 H2]]
        end.
        exists s2. split; [exact H1 | rewrite H2; reflexivity].
      * apply IH; assumption.
Qed.

(** The amended C6.  An attach of files to an open dataset, in which
    every child of the batch exists as a file that is not lost: when a
    value of [bytes], [adler32] or [md5] given by the caller for a child
    differs, as [str()] prints them, from the stored value of that child,
    the call fails with [FileConsistencyMismatch] and [contents] is as it
    was.  [s0] is the session once the replica engine has registered the
    replicas of an attachment that carries an [rse_id]; the engine leaves
    [contents] alone. *)
Theorem attach_dids_mismatch_raises (fuel : nat) (scope : InternalScope)
    (name : string) (l : list ChildDict) (account : InternalAccount)
    (ign : bool) (rse_id : option string) (s s0 : Session)
    (parent_did : DataIdentifier.t) :
  find_did (scope, name) s = Some parent_did ->
  DataIdentifier.did_type parent_did = Some DATASET ->
  DataIdentifier.is_open parent_did = Some true ->
  register_replicas ext parent_did (children_of l) account rse_id s = Ok tt s0 ->
  contents s0 = contents s ->
  (forall f, In f (children_of l) ->
     exists row, find_did (c_key f) s0 = Some row
                 /\ DataIdentifier.availability row <> Some LOST
                 /\ DataIdentifier.did_type row = Some FILE) ->
  (exists f row, In f (children_of l) /\ find_did (c_key f) s0 = Some row
                 /\ metadata_mismatch f row = true) ->
  exists s1,
    attach_dids ext fuel scope name l account ign rse_id s
    = Raise FileConsistencyMismatch s1
    /\ contents s1 = contents s.
Proof.
  intros Hp Ht Ho Hreg Hc Hgood Hbad.
  unfold attach_dids, attach_dids_to_dids. unfold bind at 1.
  unfold attach_loop. simpl a_scope. simpl a_name. simpl a_dids. simpl a_rse_id.
  unfold bind at 1. unfold get at 1. rewrite Hp. rewrite Ht, Ho. simpl.
  unfold bind at 1. unfold bind at 1. unfold add_files_to_dataset.
  unfold bind at 1. rewrite Hreg. unfold bind at 1. unfold get at 1.
  unfold bind at 1.
  destruct (dataset_rows_mismatch parent_did ign s0 (children_of l) Hgood Hbad
              {| files_to_add := [];
                 parent_is_archive := DataIdentifier.is_archive parent_did |} s0)
    as [s2 [H1 H2]].
  rewrite H1. exists s2. split; [reflexivity | congruence].
Qed.

(** ** Well-founded graphs *)

Lemma wf_no_cycle {A} (R : A -> A -> Prop) :
  well_founded R -> forall x, ~ clos_trans A R x x.
Proof.
  intros Hwf x.
  induction (wf_clos_trans A R Hwf x) as [x _ IH].
  intros Hx. exact (IH x Hx Hx).
Qed.

(** Edges added from one vertex [P] to vertices from which [P] cannot be
    reached keep the relation well-founded. *)
Lemma wf_add_edges {A} (R R' : A -> A -> Prop) (P : A) (C : A -> Prop) :
  well_founded R ->
  (forall y x, R' y x -> R y x \/ (y = P /\ C x)) ->
  (forall c, C c -> ~ clos_refl_trans A R c P) ->
  well_founded R'.
Proof.
  intros Hwf Hnew Hfar.
  assert (Habove : forall a, clos_refl_trans A R a P -> Acc R' a).
  { intros a. induction (Hwf a) as [a _ IH]. intros Ha.
    constructor. intros y Hy. destruct (Hnew y a Hy) as [Hr | [-> Hc]].
    - apply IH; [exact Hr|].
      apply rt_trans with a; [apply rt_step; exact Hr | exact Ha].
    - exfalso. exact (Hfar a Hc Ha). }
  intros x. induction (Hwf x) as [x _ IH].
  constructor. intros y Hy. destruct (Hnew y x Hy) as [Hr | [-> Hc]].
  - apply IH. exact Hr.
  - apply Habove. apply rt_refl.
Qed.

Lemma cycle_free_acyclic (sel : DataIdentifierAssociation.t -> bool)
    (tbl : list DataIdentifierAssociation.t) :
  cycle_free sel tbl -> acyclic sel tbl.
Proof. intros H x. apply wf_no_cycle. exact H. Qed.

(** ** The parents listed by [list_all_parent_dids] *)

Lemma concat_results_some {A} (l : list (option (list A))) (r : list A) :
  concat_results l = Some r ->
  forall o, In o l -> exists x, o = Some x /\ incl x r.
Proof.
  revert r. induction l as [|[x|] l IH]; simpl; intros r H o Ho.
  - contradiction.
  - destruct (concat_results l) as [r'|] eqn:E; [|discriminate].
    inversion H; subst. destruct Ho as [<- | Ho].
    + exists x. split; [reflexivity | apply incl_appl, incl_refl].
    + destruct (IH r' eq_refl o Ho) as [y [-> Hy]].
      exists y. split; [reflexivity | apply incl_appr; exact Hy].
  - discriminate.
Qed.

Lemma concat_results_all {A} (l : list (option (list A))) :
  (forall o, In o l -> exists x, o = Some x) ->
  exists r, concat_results l = Some r.
Proof.
  induction l as [|o l IH]; simpl; intros H.
  - exists []. reflexivity.
  - destruct (H o (or_introl eq_refl)) as [x ->].
    destruct IH as [r ->]; [intros o' Ho'; apply H; right; exact Ho'|].
    eexists. reflexivity.
Qed.

(** Every parent, and every ancestor, is in the list. *)
Lemma all_parents_complete (tbl : list DataIdentifierAssociation.t) :
  forall fuel k l,
    all_parents fuel tbl k = Some l ->
    forall p, ancestor any_edge tbl p k -> In p (map fst l).
Proof.
  induction fuel as [|fuel IH]; intros k l H p Hp; [discriminate|].
  simpl in H.
  apply clos_trans_tn1 in Hp.
  revert l H. induction Hp as [y Hy | y z Hyz Hpy IHp]; intros l H.
  - destruct Hy as [a [Ha [_ [Hpa Hca]]]].
    destruct (concat_results_some _ _ H
                (option_map (cons (DataIdentifierAssociation.parent a,
                                   DataIdentifierAssociation.did_type a))
                   (all_parents fuel tbl (DataIdentifierAssociation.parent a))))
      as [x [Hx Hincl]].
    { apply in_map_iff. exists a. split; [reflexivity|].
      apply filter_In. split; [exact Ha|]. rewrite Hca. apply key_eqb_refl. }
    destruct (all_parents fuel tbl (DataIdentifierAssociation.parent a));
      [|discriminate].
    inversion Hx; subst x. apply in_map_iff.
    exists (DataIdentifierAssociation.parent a, DataIdentifierAssociation.did_type a).
    split; [exact Hpa | apply Hincl; left; reflexivity].
  - destruct Hyz as [a [Ha [_ [Hpa Hca]]]].
    destruct (concat_results_some _ _ H
                (option_map (cons (DataIdentifierAssociation.parent a,
                                   DataIdentifierAssociation.did_type a))
                   (all_parents fuel tbl (DataIdentifierAssociation.parent a))))
      as [x [Hx Hincl]].
    { apply in_map_iff. exists a. split; [reflexivity|].
      apply filter_In. split; [exact Ha|]. rewrite Hca. apply key_eqb_refl. }
    destruct (all_parents fuel tbl (DataIdentifierAssociation.parent a)) as [up|] eqn:Eup;
      [|discriminate].
    inversion Hx; subst x.
    assert (Hin : In p (map fst up)).
    { apply (IH (DataIdentifierAssociation.parent a) up Eup).
      rewrite Hpa. apply clos_tn1_trans. exact Hpy. }
    apply in_map_iff in Hin. destruct Hin as [q [Hq Hqin]].
    apply in_map_iff. exists q. split; [exact Hq|].
    apply Hincl. right. exact Hqin.
Qed.

(** Above a DID whose chains of parents are finite the listing ends. *)
Lemma all_parents_terminates (tbl : list DataIdentifierAssociation.t) (k : key) :
  Acc (parent_of any_edge tbl) k ->
  exists fuel0, forall fuel, (fuel0 <= fuel)%nat ->
    exists l, all_parents fuel tbl k = Some l.
Proof.
  induction 1 as [k _ IH].
  assert (Hrows : forall rows,
            incl rows (filter (fun a => key_eqb (DataIdentifierAssociation.child a) k) tbl) ->
            exists f0, forall fuel, (f0 <= fuel)%nat -> forall a, In a rows ->
              exists l, all_parents fuel tbl (DataIdentifierAssociation.parent a) = Some l).
  { induction rows as [|a rows IHr]; intros Hincl.
    - exists O. intros fuel _ a [].
    - destruct IHr as [f1 Hf1].
      { intros x Hx. apply Hincl. right. exact Hx. }
      assert (Ha : In a (filter (fun a => key_eqb (DataIdentifierAssociation.child a) k) tbl)).
      { apply Hincl. left. reflexivity. }
      apply filter_In in Ha. destruct Ha as [Ha Hk]. apply key_eqb_eq in Hk.
      destruct (IH (DataIdentifierAssociation.parent a)) as [f2 Hf2].
      { exists a. repeat split; assumption. }
      exists (Nat.max f1 f2). intros fuel Hfuel b [<- | Hb].
      + apply Hf2. lia.
      + apply Hf1; [lia | exact Hb]. }
  destruct (Hrows _ (incl_refl _)) as [f0 Hf0].
  exists (S f0). intros fuel Hfuel. destruct fuel as [|fuel]; [lia|].
  simpl. apply concat_results_all. intros o Ho.
  apply in_map_iff in Ho. destruct Ho as [a [<- Ha]].
  destruct (Hf0 fuel ltac:(lia) a Ha) as [l ->]. eexists. reflexivity.
Qed.

(** ** The loop of the container sub-routine *)

(** A row that the loop accepts. *)
Lemma container_row_ok (fuel : nat) (parent : key) (ign : bool) (s0 : Session)
    (acc : ContainerAcc) (c : ChildDict) (s1 : Session) (acc1 : ContainerAcc)
    (s2 : Session) :
  container_row fuel parent ign s0 acc c s1 = Ok acc1 s2 ->
  s2 = s1
  /\ exists row,
       find_did (c_key c) s0 = Some row
       /\ DataIdentifier.did_type row <> Some FILE
       /\ child_type acc1
          = match child_type acc with
            | None => DataIdentifier.did_type row
            | Some t => Some t
            end
       /\ (DataIdentifier.did_type row <> None ->
           child_type acc1 = DataIdentifier.did_type row)
       /\ (type_is (child_type acc1) CONTAINER = true ->
           exists l, container_parents acc1 = Some l
                     /\ key_in (c_key c) l = false
                     /\ parents_from fuel parent s1 (container_parents acc) l)
       /\ (container_parents acc <> None ->
           container_parents acc1 = container_parents acc).
Proof.
  destruct parent as [pscope pname]. unfold container_row.
  destruct (find_did (c_key c) s0) as [row|]; [|discriminate].
  destruct (type_is (DataIdentifier.did_type row) FILE) eqn:Ef; [discriminate|].
  set (t1 := match child_type acc with
             | Some t => Some t
             | None => DataIdentifier.did_type row
             end).
  assert (Hagree : forall b,
            match t1, DataIdentifier.did_type row with
            | Some a, Some b => DIDType_eqb a b
            | None, None => true
            | _, _ => false
            end = b -> b = true -> t1 = DataIdentifier.did_type row).
  { intros b Hb ->. destruct t1 as [a|], (DataIdentifier.did_type row) as [b|];
      try discriminate; [apply DIDType_eqb_eq in Hb; congruence | reflexivity]. }
  destruct (match t1, DataIdentifier.did_type row with
            | Some a, Some b => DIDType_eqb a b
            | None, None => true
            | _, _ => false
            end) eqn:Eag; simpl; [|discriminate].
  specialize (Hagree true eq_refl eq_refl).
  assert (Hnf : DataIdentifier.did_type row <> Some FILE).
  { intros E. rewrite E in Ef. discriminate. }
  unfold bind.
  destruct (type_is t1 CONTAINER) eqn:Ec.
  - destruct (container_parents acc) as [l0|] eqn:Ep.
    + unfold ret at 1. simpl.
      destruct (key_in (c_key c) l0) eqn:Ein; [discriminate|].
      unfold ret. intros H. inversion H; subst acc1 s2. clear H. simpl.
      split; [reflexivity|]. exists row. split; [reflexivity|].
      split; [exact Hnf|]. split; [subst t1; destruct (child_type acc); reflexivity|].
      split; [intros _; exact Hagree|].
      split; [intros _; exists l0; repeat split; assumption | intros _; reflexivity].
    + unfold list_all_parent_dids. simpl.
      destruct (all_parents fuel (contents s1) (pscope, pname)) as [l'|] eqn:El;
        [|discriminate].
      unfold ret at 1. simpl.
      destruct (key_in (c_key c) (map fst l')) eqn:Ein; [discriminate|].
      unfold ret. intros H. inversion H; subst acc1 s2. clear H. simpl.
      split; [reflexivity|]. exists row. split; [reflexivity|].
      split; [exact Hnf|]. split; [subst t1; destruct (child_type acc); reflexivity|].
      split; [intros _; exact Hagree|].
      split; [|intros F; congruence].
      intros _. exists (map fst l'). split; [reflexivity|]. split; [exact Ein|].
      exists l'. split; [first [exact El | reflexivity] | reflexivity].
  - unfold ret at 1. simpl. unfold ret. intros H. inversion H; subst acc1 s2. clear H.
    simpl. split; [reflexivity|]. exists row. split; [reflexivity|].
    split; [exact Hnf|]. split; [subst t1; destruct (child_type acc); reflexivity|].
    split; [intros _; exact Hagree|].
    split; [intros F; congruence | intros _; reflexivity].
Qed.

(** The loop reads the session and does not write to it. *)
Lemma container_rows_state (fuel : nat) (parent : key) (ign : bool) (s0 : Session) :
  forall cs acc s1 acc' s2,
    fold_rows (container_row fuel parent ign s0) cs acc s1 = Ok acc' s2 -> s2 = s1.
Proof.
  induction cs as [|c cs IH]; intros acc s1 acc' s2 H; simpl in H.
  - inversion H. reflexivity.
  - unfold bind in H.
    destruct (container_row fuel parent ign s0 acc c s1) as [a1 sy| |] eqn:Es;
      try discriminate.
    apply container_row_ok in Es. destruct Es as [-> _].
    exact (IH _ _ _ _ H).
Qed.

(** A batch that the loop accepts: the session is untouched, every child
    has the type that the loop ends with, and, when that type is
    [CONTAINER], no child is in the list of the ancestors of the parent. *)
Lemma container_rows_ok (fuel : nat) (parent : key) (ign : bool) (s0 : Session) :
  (forall k row, find_did k s0 = Some row -> DataIdentifier.did_type row <> None) ->
  forall cs acc s1 acc' s2,
    fold_rows (container_row fuel parent ign s0) cs acc s1 = Ok acc' s2 ->
    s2 = s1
    /\ (child_type acc <> None -> child_type acc' = child_type acc)
    /\ (container_parents acc <> None ->
        container_parents acc' = container_parents acc)
    /\ (forall c, In c cs ->
          exists row, find_did (c_key c) s0 = Some row
                      /\ DataIdentifier.did_type row = child_type acc'
                      /\ DataIdentifier.did_type row <> Some FILE)
    /\ (type_is (child_type acc') CONTAINER = true ->
        forall c, In c cs ->
          exists l, container_parents acc' = Some l
                    /\ key_in (c_key c) l = false
                    /\ parents_from fuel parent s1 (container_parents acc) l).
Proof.
  intros Htyped. induction cs as [|c cs IH]; intros acc s1 acc' s2 H.
  - simpl in H. inversion H; subst. repeat split; try reflexivity;
      intros; contradiction.
  - simpl in H. unfold bind in H.
    destruct (container_row fuel parent ign s0 acc c s1) as [acc1 s1'| |] eqn:Estep;
      try discriminate.
    apply container_row_ok in Estep.
    destruct Estep as [-> [row [Hrow [Hnf [Hct [Hct' [Hpar Hkeep]]]]]]].
    specialize (Hct' (Htyped _ _ Hrow)).
    destruct (IH acc1 s1 acc' s2 H) as [-> [Hsame [Hpsame [Hall Hanc]]]].
    assert (Hne : child_type acc1 <> None).
    { rewrite Hct'. exact (Htyped _ _ Hrow). }
    specialize (Hsame Hne).
    split; [reflexivity|]. split.
    { intros Hacc. rewrite Hsame, Hct. destruct (child_type acc); congruence. }
    split.
    { intros Hacc. specialize (Hkeep Hacc). rewrite <- Hkeep. apply Hpsame.
      rewrite Hkeep. exact Hacc. }
    split.
    { intros c' [<- | Hc'].
      - exists row. split; [exact Hrow|]. split; [congruence | exact Hnf].
      - apply Hall. exact Hc'. }
    intros Hcont c' [<- | Hc'].
    + rewrite Hsame in Hcont. destruct (Hpar Hcont) as [l [Hl [Hin Hfrom]]].
      exists l. split; [|split; assumption].
      rewrite Hpsame; [exact Hl | congruence].
    + destruct (Hanc Hcont c' Hc') as [l [Hl [Hin Hfrom]]].
      exists l. split; [exact Hl|]. split; [exact Hin|].
      rewrite Hsame in Hcont. destruct (Hpar Hcont) as [l1 [Hl1 [_ Hfrom1]]].
      rewrite Hl1 in Hfrom. simpl in Hfrom. subst l. exact Hfrom1.
Qed.

(** A loop over messages leaves the tables alone. *)
Lemma for_each_add_message {A} (l : list A) (ev : string) (p : A -> pydict)
    (s : Session) :
  exists s', for_each l (fun x => add_message ev (p x)) s = Ok tt s'
             /\ contents s' = contents s /\ dids s' = dids s
             /\ updated_dids s' = updated_dids s.
Proof.
  revert s. induction l as [|x l IH]; intros s; simpl.
  - exists s. repeat split.
  - unfold bind, add_message, modify.
    match goal with |- context [for_each l _ ?s1] => destruct (IH s1) as [s' [H [H1 [H2 H3]]]] end.
    exists s'. split; [exact H|]. rewrite H1, H2, H3. repeat split.
Qed.

(** What a successful call of the container sub-routine has done. *)
Lemma add_collections_to_container_ok (fuel : nat) (parent_did : DataIdentifier.t)
    (cs : list ChildDict) (account : InternalAccount) (ign : bool) (s s' : Session) :
  add_collections_to_container ext fuel parent_did cs account ign s = Ok tt s' ->
  key_in (DataIdentifier.pk parent_did) (map c_key cs) = false
  /\ exists acc,
       fold_rows (container_row fuel (DataIdentifier.pk parent_did) ign s) cs
         {| container_parents := None; child_type := None;
            ignore_duplicate_existing_attachments := [] |} s
       = Ok acc s
       /\ dids s' = dids s
       /\ updated_dids s' = updated_dids s
       /\ contents s'
          = contents s
            ++ map (fun c => collection_association (DataIdentifier.pk parent_did) c
                               (child_type acc) (model_timestamp ext (utcnow s)))
                   (filter (fun c => negb (ign && key_in (c_key c)
                                             (ignore_duplicate_existing_attachments acc)))
                           cs).
Proof.
  unfold add_collections_to_container.
  destruct (key_in (DataIdentifier.pk parent_did) (map c_key cs)); [discriminate|].
  intros H. split; [reflexivity|].
  unfold bind at 1 in H. unfold get at 1 in H. unfold bind at 1 in H.
  destruct (fold_rows _ cs _ s) as [acc s1| |] eqn:Efold; try discriminate.
  apply container_rows_state in Efold as Hs. subst s1.
  exists acc. split; [reflexivity|].
  unfold bind at 1 in H. unfold insert_contents at 1 in H.
  unfold bind at 1 in H. unfold get at 1 in H.
  destruct (existsb _ _); [discriminate|].
  unfold modify at 1 in H.
  match type of H with
  | for_each ?l ?f ?s1 = _ =>
      destruct (for_each_add_message l "REGISTER_CNT"
                  (fun c => with_vo (DEFAULT_VO ext) (vo account)
                     [("account", PyStr (external account));
                      ("scope", PyStr (external (fst (DataIdentifier.pk parent_did))));
                      ("name", PyStr (snd (DataIdentifier.pk parent_did)));
                      ("childscope", PyStr (external (c_scope c)));
                      ("childname", PyStr (c_name c));
                      ("childtype", PyStr (chld_type_name (child_type acc)))]) s1)
        as [s2 [H2 [Hc [Hd Hu]]]]
  end.
  rewrite H2 in H. inversion H; subst s2.
  rewrite Hc, Hd, Hu. repeat split.
Qed.

(** ** The dictionary of children *)

Lemma children_set_keys (c : ChildDict) (d : list ChildDict) (k : key) :
  In k (map c_key (children_set c d)) <-> k = c_key c \/ In k (map c_key d).
Proof.
  induction d as [|c' d IH]; simpl.
  - split; [intros [H|[]]; left; congruence | intros [H|[]]; left; congruence].
  - destruct (key_eqb (c_key c) (c_key c')) eqn:E; simpl.
    + apply key_eqb_eq in E. rewrite <- E. split.
      * intros [H|H]; [left; congruence | right; right; exact H].
      * intros [H|[H|H]]; [left; congruence | left; congruence | right; exact H].
    + rewrite IH. tauto.
Qed.

Lemma children_of_keys (l : list ChildDict) (k : key) :
  In k (map c_key (children_of l)) <-> In k (map c_key l).
Proof.
  unfold children_of.
  assert (H : forall d, In k (map c_key (fold_left (fun d c => children_set c d) l d))
                        <-> In k (map c_key l) \/ In k (map c_key d)).
  { induction l as [|c l IH]; intros d; simpl.
    - tauto.
    - rewrite IH, children_set_keys. split.
      + intros [H|[H|H]]; auto.
      + intros [[H|H]|H]; auto. }
  rewrite H. simpl. tauto.
Qed.

(** ** Attaching to a container *)

(** The marker of an attachment. *)
Lemma unique_markers_one (u : UpdatedDID.t) : unique_markers [u] = [u].
Proof. reflexivity. Qed.

(** An attachment to an open container is the container sub-routine
    followed by the insertion of one marker. *)
Lemma attach_dids_container (fuel : nat) (scope : InternalScope) (name : string)
    (l : list ChildDict) (account : InternalAccount) (ign : bool)
    (rse_id : option string) (s : Session) (parent_did : DataIdentifier.t) :
  find_did (scope, name) s = Some parent_did ->
  DataIdentifier.did_type parent_did = Some CONTAINER ->
  attach_dids ext fuel scope name l account ign rse_id s
  = if is_true (DataIdentifier.is_open parent_did) then
      match add_collections_to_container ext fuel parent_did (children_of l)
              account ign s with
      | Ok _ s1 =>
          Ok tt (set_updated_dids
                   (updated_dids s1
                    ++ [{| UpdatedDID.scope := DataIdentifier.scope parent_did;
                           UpdatedDID.name := DataIdentifier.name parent_did;
                           UpdatedDID.rule_evaluation_action := ATTACH |}]) s1)
      | Raise e s1 => Raise e s1
      | OutOfFuel => OutOfFuel
      end
    else Raise UnsupportedOperation s.
Proof.
  intros Hp Ht. unfold attach_dids, attach_dids_to_dids, attach_loop.
  simpl a_scope. simpl a_name. simpl a_dids. simpl a_rse_id.
  unfold bind at 1. unfold bind at 1. unfold get at 1. rewrite Hp, Ht. simpl.
  destruct (is_true (DataIdentifier.is_open parent_did)); simpl; [|reflexivity].
  unfold bind.
  destruct (add_collections_to_container ext fuel parent_did (children_of l)
              account ign s) as [[] s1| |]; reflexivity.
Qed.

Lemma clos_rt_eq_or_t {A} (R : A -> A -> Prop) (a b : A) :
  clos_refl_trans A R a b -> a = b \/ clos_trans A R a b.
Proof.
  intros H. apply clos_rt_rt1n in H. induction H as [|x y z Hxy Hyz IH].
  - left. reflexivity.
  - right. destruct IH as [<- | IH].
    + apply t_step. exact Hxy.
    + apply t_trans with y; [apply t_step; exact Hxy | exact IH].
Qed.

Lemma ancestor_any_edge (sel : DataIdentifierAssociation.t -> bool)
    (tbl : list DataIdentifierAssociation.t) (a b : key) :
  ancestor sel tbl a b -> ancestor any_edge tbl a b.
Proof.
  unfold ancestor. induction 1 as [x y H | x y z _ IH1 _ IH2].
  - apply t_step. destruct H as [e [H1 [_ H2]]]. exists e. auto.
  - apply t_trans with y; assumption.
Qed.

(** The amended C2.  A call that attaches children to a container
    succeeds only if every child of its batch has one and the same stored
    type, a collection type; that type is the [child_type] of every
    association the call inserts.  The children the container already has
    play no part. *)
Theorem attach_dids_container_batch_one_type (fuel : nat) (scope : InternalScope)
    (name : string) (l : list ChildDict) (account : InternalAccount) (ign : bool)
    (rse_id : option string) (s s' : Session) (parent_did : DataIdentifier.t) :
  typed s ->
  find_did (scope, name) s = Some parent_did ->
  DataIdentifier.did_type parent_did = Some CONTAINER ->
  attach_dids ext fuel scope name l account ign rse_id s = Ok tt s' ->
  exists t new_rows,
    t <> Some FILE
    /\ (forall c, In c l ->
          exists row, find_did (c_key c) s = Some row
                      /\ DataIdentifier.did_type row = t)
    /\ contents s' = contents s ++ new_rows
    /\ (forall a, In a new_rows ->
          DataIdentifierAssociation.parent a = (scope, name)
          /\ DataIdentifierAssociation.did_type a = Some CONTAINER
          /\ DataIdentifierAssociation.child_type a = t).
Proof.
  intros Htyped Hp Ht H.
  rewrite (attach_dids_container fuel scope name l account ign rse_id s parent_did Hp Ht) in H.
  destruct (is_true (DataIdentifier.is_open parent_did)); [|discriminate].
  destruct (add_collections_to_container ext fuel parent_did (children_of l)
              account ign s) as [[] s1| |] eqn:E; try discriminate.
  inversion H; subst s'. clear H.
  apply add_collections_to_container_ok in E.
  destruct E as [_ [acc [Hfold [_ [_ Hc]]]]].
  assert (Hkey : DataIdentifier.pk parent_did = (scope, name)).
  { apply find_did_some in Hp. tauto. }
  assert (Htyped' : forall k row, find_did k s = Some row ->
                                  DataIdentifier.did_type row <> None).
  { intros k row Hr. apply find_did_some in Hr. apply Htyped. tauto. }
  destruct (container_rows_ok fuel (DataIdentifier.pk parent_did) ign s Htyped'
              _ _ _ _ _ Hfold) as [_ [_ [_ [Hall _]]]].
  exists (child_type acc). eexists. split; [|split; [|split; [simpl; exact Hc|]]].
  - destruct (children_of l) as [|c cs] eqn:El.
    + simpl in Hfold. inversion Hfold. simpl. discriminate.
    + destruct (Hall c (or_introl eq_refl)) as [row [_ [E1 E2]]]. congruence.
  - intros c Hc'.
    assert (Hk : In (c_key c) (map c_key (children_of l))).
    { apply children_of_keys. apply in_map. exact Hc'. }
    apply in_map_iff in Hk. destruct Hk as [c' [Hk Hin]].
    destruct (Hall c' Hin) as [row [Hr [Hty _]]].
    exists row. rewrite <- Hk. auto.
  - intros a Ha. apply in_map_iff in Ha. destruct Ha as [c [<- _]].
    simpl. rewrite <- Hkey. destruct (DataIdentifier.pk parent_did). auto.
Qed.

(** A batch of containers one of which is among the ancestors of the
    parent: the loop raises, whatever the rows before it are. *)
Lemma container_rows_cycle (fuel : nat) (parent : key) (ign : bool)
    (s0 s1 : Session) (l' : list (key * option DIDType)) :
  all_parents fuel (contents s1) parent = Some l' ->
  forall cs acc,
    (forall c, In c cs ->
       exists row, find_did (c_key c) s0 = Some row
                   /\ DataIdentifier.did_type row = Some CONTAINER) ->
    (child_type acc = None \/ child_type acc = Some CONTAINER) ->
    (container_parents acc = None \/ container_parents acc = Some (map fst l')) ->
    (exists c, In c cs /\ In (c_key c) (map fst l')) ->
    fold_rows (container_row fuel parent ign s0) cs acc s1
    = Raise UnsupportedOperation s1.
Proof.
  intros Hl'. destruct parent as [pscope pname].
  induction cs as [|c cs IH]; intros acc Hrows Hct Hcp Hbad.
  - destruct Hbad as [c [[] _]].
  - destruct (Hrows c (or_introl eq_refl)) as [row [Hrow Hty]].
    simpl. unfold bind at 1. unfold container_row at 1. rewrite Hrow, Hty. simpl.
    assert (Et : match child_type acc with
                 | Some t => Some t
                 | None => Some CONTAINER
                 end = Some CONTAINER).
    { destruct Hct as [-> | ->]; reflexivity. }
    rewrite Et. simpl.
    assert (Ep : (match container_parents acc with
                  | Some l => ret (Some l)
                  | None =>
                      l0 <- list_all_parent_dids fuel pscope pname ;;
                      ret (Some (map fst l0))
                  end) s1 = Ok (Some (map fst l')) s1).
    { destruct Hcp as [-> | ->]; [|reflexivity].
      unfold bind, list_all_parent_dids. rewrite Hl'. reflexivity. }
    unfold bind at 1. rewrite Ep.
    destruct (key_in (c_key c) (map fst l')) eqn:Ein; [reflexivity|].
    unfold ret at 1.
    apply IH.
    + intros c' Hc'. apply Hrows. right. exact Hc'.
    + right. reflexivity.
    + right. reflexivity.
    + destruct Hbad as [c' [[<- | Hin] Hc']].
      * apply key_in_In in Hc'. congruence.
      * exists c'. auto.
Qed.

(** C5.  For an attach of collections to a container [P]: (1) a batch
    that names [P] itself fails with [UnsupportedOperation]; (2) a batch of
    containers one of which is an ancestor of [P] fails with
    [UnsupportedOperation], once the recursion over the (finite) chains of
    parents of [P] is given room; (3) a call that succeeds on a graph of
    container-to-container associations without cycles leaves a graph
    without cycles. *)
Theorem attach_dids_container_keeps_acyclic (scope : InternalScope) (name : string)
    (l : list ChildDict) (account : InternalAccount) (ign : bool)
    (rse_id : option string) (s : Session) (parent_did : DataIdentifier.t) :
  find_did (scope, name) s = Some parent_did ->
  DataIdentifier.did_type parent_did = Some CONTAINER ->
  (In (scope, name) (map c_key l) ->
   forall fuel,
     attach_dids ext fuel scope name l account ign rse_id s
     = Raise UnsupportedOperation s)
  /\ ((forall c, In c l ->
         exists row, find_did (c_key c) s = Some row
                     /\ DataIdentifier.did_type row = Some CONTAINER) ->
      (exists c, In c l /\ ancestor any_edge (contents s) (c_key c) (scope, name)) ->
      Acc (parent_of any_edge (contents s)) (scope, name) ->
      exists fuel0, forall fuel, (fuel0 <= fuel)%nat ->
        attach_dids ext fuel scope name l account ign rse_id s
        = Raise UnsupportedOperation s)
  /\ (forall fuel s',
        typed s ->
        cycle_free container_edge (contents s) ->
        attach_dids ext fuel scope name l account ign rse_id s = Ok tt s' ->
        cycle_free container_edge (contents s')
        /\ acyclic container_edge (contents s')).
Proof.
  intros Hp Ht.
  assert (Hkey : DataIdentifier.pk parent_did = (scope, name)).
  { apply find_did_some in Hp. tauto. }
  assert (Hself : In (scope, name) (map c_key l) ->
                  forall fuel,
                    attach_dids ext fuel scope name l account ign rse_id s
                    = Raise UnsupportedOperation s).
  { intros Hin fuel.
    rewrite (attach_dids_container fuel scope name l account ign rse_id s parent_did Hp Ht).
    destruct (is_true (DataIdentifier.is_open parent_did)); [|reflexivity].
    unfold add_collections_to_container.
    assert (E : key_in (DataIdentifier.pk parent_did) (map c_key (children_of l)) = true).
    { apply key_in_In. rewrite Hkey. apply children_of_keys. exact Hin. }
    rewrite E. reflexivity. }
  split; [exact Hself|]. split.
  - intros Hrows [c [Hc Hanc]] Hacc.
    destruct (all_parents_terminates (contents s) (scope, name) Hacc) as [fuel0 Hfuel0].
    exists fuel0. intros fuel Hfuel.
    destruct (Hfuel0 fuel Hfuel) as [l' Hl'].
    destruct (in_dec (fun a b => match Bool.bool_dec (key_eqb a b) true with
                                 | left E => left (proj1 (key_eqb_eq a b) E)
                                 | right N => right (fun E => N (proj2 (key_eqb_eq a b) E))
                                 end)
                (scope, name) (map c_key l)) as [Hin | Hnin].
    { apply Hself. exact Hin. }
    rewrite (attach_dids_container fuel scope name l account ign rse_id s parent_did Hp Ht).
    destruct (is_true (DataIdentifier.is_open parent_did)); [|reflexivity].
    unfold add_collections_to_container.
    assert (E : key_in (DataIdentifier.pk parent_did) (map c_key (children_of l)) = false).
    { destruct (key_in _ _) eqn:E; [|reflexivity].
      apply key_in_In in E. rewrite Hkey in E.
      apply (proj1 (children_of_keys l (scope, name))) in E. contradiction. }
    rewrite E. unfold bind at 1. unfold get at 1. unfold bind at 1.
    rewrite (container_rows_cycle fuel (DataIdentifier.pk parent_did) ign s s l').
    + reflexivity.
    + rewrite Hkey. exact Hl'.
    + intros c' Hc'.
      assert (Hk : In (c_key c') (map c_key l)).
      { apply children_of_keys. apply in_map. exact Hc'. }
      apply in_map_iff in Hk. destruct Hk as [c0 [Hk Hc0]].
      rewrite <- Hk. apply Hrows. exact Hc0.
    + left. reflexivity.
    + left. reflexivity.
    + assert (Hk : In (c_key c) (map c_key (children_of l))).
      { apply children_of_keys. apply in_map. exact Hc. }
      apply in_map_iff in Hk. destruct Hk as [c0 [Hk Hc0]].
      exists c0. split; [exact Hc0|]. rewrite Hk.
      exact (all_parents_complete (contents s) fuel (scope, name) l' Hl' _ Hanc).
  - intros fuel s' Htyped Hwf H.
    rewrite (attach_dids_container fuel scope name l account ign rse_id s parent_did Hp Ht) in H.
    destruct (is_true (DataIdentifier.is_open parent_did)); [|discriminate].
    destruct (add_collections_to_container ext fuel parent_did (children_of l)
                account ign s) as [[] s1| |] eqn:E; try discriminate.
    inversion H; subst s'. clear H. simpl.
    apply add_collections_to_container_ok in E.
    destruct E as [Hnself [acc [Hfold [_ [_ Hc]]]]].
    assert (Htyped' : forall k row, find_did k s = Some row ->
                                    DataIdentifier.did_type row <> None).
    { intros k row Hr. apply find_did_some in Hr. apply Htyped. tauto. }
    destruct (container_rows_ok fuel (DataIdentifier.pk parent_did) ign s Htyped'
                _ _ _ _ _ Hfold) as [_ [_ [_ [_ Hanc]]]].
    assert (Hwf' : cycle_free container_edge (contents s1)).
    { unfold cycle_free.
      apply (wf_add_edges (parent_of container_edge (contents s))
               (parent_of container_edge (contents s1)) (scope, name)
               (fun x => type_is (child_type acc) CONTAINER = true
                         /\ exists c, In c (children_of l) /\ c_key c = x)).
      - exact Hwf.
      - intros y x [a [Ha [Hsel [Hpa Hca]]]]. rewrite Hc in Ha.
        apply in_app_or in Ha. destruct Ha as [Ha | Ha].
        + left. exists a. auto.
        + right. apply in_map_iff in Ha. destruct Ha as [c [<- Hin]].
          apply filter_In in Hin. destruct Hin as [Hin _].
          unfold container_edge in Hsel. simpl in Hsel.
          simpl in Hpa, Hca. split.
          * rewrite <- Hpa, <- Hkey. destruct (DataIdentifier.pk parent_did); reflexivity.
          * split; [exact Hsel | exists c; split; [exact Hin | exact Hca]].
      - intros x [Hcont [c [Hin <-]]] Hreach.
        destruct (Hanc Hcont c Hin) as [lp [_ [Hnot [l' [Hl' ->]]]]].
        apply clos_rt_eq_or_t in Hreach. destruct Hreach as [Heq | Htr].
        + assert (Hk : key_in (DataIdentifier.pk parent_did)
                         (map c_key (children_of l)) = true).
          { apply key_in_In. rewrite Hkey, <- Heq. apply in_map. exact Hin. }
          congruence.
        + assert (Hk : In (c_key c) (map fst l')).
          { apply (all_parents_complete (contents s) fuel _ l' Hl').
            rewrite Hkey. apply ancestor_any_edge with container_edge. exact Htr. }
          apply key_in_In in Hk. congruence. }
    split; [exact Hwf' | apply cycle_free_acyclic; exact Hwf'].
Qed.

(** ** The recursive listing of children *)

Lemma resolved_children_in (tbl : list DataIdentifierAssociation.t)
    (resolve : list DIDType) (p : key) (r : cte_row) :
  In r (resolved_children tbl resolve p) <->
  exists a, In a tbl /\ DataIdentifierAssociation.parent a = p
            /\ type_in (DataIdentifierAssociation.did_type a) resolve = true
            /\ r = (DataIdentifierAssociation.child a,
                    DataIdentifierAssociation.child_type a).
Proof.
  unfold resolved_children. rewrite in_map_iff. split.
  - intros [a [<- Ha]]. apply filter_In in Ha. destruct Ha as [Ha Hsel].
    apply andb_true_iff in Hsel. destruct Hsel as [Hk Ht].
    apply key_eqb_eq in Hk. exists a. auto.
  - intros [a [Ha [Hp [Ht ->]]]]. exists a. split; [reflexivity|].
    apply filter_In. split; [exact Ha|].
    rewrite Hp, key_eqb_refl, Ht. reflexivity.
Qed.

(** One round on a working table that is not empty. *)
Lemma cte_rounds_step (tbl : list DataIdentifierAssociation.t) (resolve : list DIDType)
    (fuel : nat) (w : cte_row) (working res : list cte_row) :
  cte_rounds (S fuel) tbl resolve (w :: working) = Some res <->
  exists rest,
    cte_rounds fuel tbl resolve
      (flat_map (fun r => resolved_children tbl resolve (fst r)) (w :: working))
    = Some rest
    /\ res = (w :: working) ++ rest.
Proof.
  simpl. split.
  - destruct (cte_rounds fuel tbl resolve _) as [rest|]; [|discriminate].
    intros H. inversion H. exists rest. split; reflexivity.
  - intros [rest [-> ->]]. reflexivity.
Qed.

(** The rounds only produce resolved rows. *)
Lemma cte_rounds_sound (tbl : list DataIdentifierAssociation.t)
    (resolve : list DIDType) (k : key) :
  forall fuel working res,
    cte_rounds fuel tbl resolve working = Some res ->
    (forall r, In r working -> resolves tbl resolve k r) ->
    forall r, In r res -> resolves tbl resolve k r.
Proof.
  induction fuel as [|fuel IH]; intros working res H Hw r Hr.
  - destruct working; simpl in H; [|discriminate].
    inversion H; subst. contradiction.
  - destruct working as [|w working].
    + simpl in H. inversion H; subst. contradiction.
    + apply cte_rounds_step in H. destruct H as [rest [E ->]].
      apply in_app_or in Hr. destruct Hr as [Hr | Hr]; [apply Hw; exact Hr|].
      apply (IH _ _ E); [|exact Hr].
      intros r' Hr'. apply in_flat_map in Hr'. destruct Hr' as [r0 [Hr0 Hr']].
      apply resolved_children_in in Hr'. destruct Hr' as [a [Ha [Hp [Ht ->]]]].
      apply resolves_next with r0; auto.
Qed.

(** The result holds the working table and is closed under the join. *)
Lemma cte_rounds_closed (tbl : list DataIdentifierAssociation.t)
    (resolve : list DIDType) :
  forall fuel working res,
    cte_rounds fuel tbl resolve working = Some res ->
    incl working res
    /\ forall r, In r res ->
         forall r', In r' (resolved_children tbl resolve (fst r)) -> In r' res.
Proof.
  induction fuel as [|fuel IH]; intros working res H.
  - destruct working; simpl in H; [|discriminate].
    inversion H; subst. split; [apply incl_refl | intros r []].
  - destruct working as [|w working].
    + simpl in H. inversion H; subst. split; [apply incl_refl | intros r []].
    + apply cte_rounds_step in H. destruct H as [rest [E ->]].
      destruct (IH _ _ E) as [Hincl Hclosed].
      split; [apply incl_appl, incl_refl|].
      intros r Hr r' Hr'. apply in_or_app. right.
      apply in_app_or in Hr. destruct Hr as [Hr | Hr].
      * apply Hincl. apply in_flat_map. exists r. auto.
      * apply (Hclosed r Hr r' Hr').
Qed.

Lemma cte_rounds_complete (tbl : list DataIdentifierAssociation.t)
    (resolve : list DIDType) (k : key) (fuel : nat) (res : list cte_row) :
  cte_rounds fuel tbl resolve (resolved_children tbl resolve k) = Some res ->
  forall r, resolves tbl resolve k r -> In r res.
Proof.
  intros H. destruct (cte_rounds_closed tbl resolve fuel _ res H) as [Hincl Hclosed].
  induction 1 as [a Ha Hp Ht | r a Hr IH Ha Hp Ht].
  - apply Hincl. apply resolved_children_in. exists a. auto.
  - apply (Hclosed r IH). apply resolved_children_in. exists a. auto.
Qed.

(** Heights and termination of the rounds. *)
Lemma height_le_S (tbl : list DataIdentifierAssociation.t) (resolve : list DIDType) :
  forall n k, height_le n tbl resolve k -> height_le (S n) tbl resolve k.
Proof.
  induction n as [|n IH]; intros k H.
  - simpl in *. rewrite H. intros r [].
  - intros r Hr. apply IH. apply H. exact Hr.
Qed.

Lemma height_le_mono (tbl : list DataIdentifierAssociation.t) (resolve : list DIDType)
    (n m : nat) (k : key) :
  (n <= m)%nat -> height_le n tbl resolve k -> height_le m tbl resolve k.
Proof.
  induction 1 as [|m _ IH]; intros H; [exact H|].
  apply height_le_S. apply IH. exact H.
Qed.

Lemma acc_height_le (tbl : list DataIdentifierAssociation.t) (k : key) :
  Acc (container_child tbl) k -> exists n, height_le n tbl [CONTAINER] k.
Proof.
  induction 1 as [k _ IH].
  assert (Hrows : forall rows, incl rows (resolved_children tbl [CONTAINER] k) ->
            exists n, forall r, In r rows -> height_le n tbl [CONTAINER] (fst r)).
  { induction rows as [|r rows IHr]; intros Hincl.
    - exists O. intros r [].
    - destruct IHr as [n1 Hn1]; [intros x Hx; apply Hincl; right; exact Hx|].
      destruct (IH (fst r)) as [n2 Hn2].
      { assert (Hr : In r (resolved_children tbl [CONTAINER] k))
          by (apply Hincl; left; reflexivity).
        apply resolved_children_in in Hr. destruct Hr as [a [Ha [Hp [Ht ->]]]].
        exists a. auto. }
      exists (Nat.max n1 n2). intros r' [<- | Hr'].
      + apply height_le_mono with n2; [lia | exact Hn2].
      + apply height_le_mono with n1; [lia | apply Hn1; exact Hr']. }
  destruct (Hrows _ (incl_refl _)) as [n Hn].
  exists (S n). exact Hn.
Qed.

Lemma flat_map_nil {A B} (f : A -> list B) (l : list A) :
  (forall x, In x l -> f x = []) -> flat_map f l = [].
Proof.
  induction l as [|x l IH]; simpl; intros H; [reflexivity|].
  rewrite (H x (or_introl eq_refl)). simpl. apply IH. intros y Hy. apply H. right. exact Hy.
Qed.

Lemma cte_rounds_terminates (tbl : list DataIdentifierAssociation.t)
    (resolve : list DIDType) :
  forall n fuel working,
    (forall r, In r working -> height_le n tbl resolve (fst r)) ->
    (n < fuel)%nat ->
    exists res, cte_rounds fuel tbl resolve working = Some res.
Proof.
  induction n as [|n IH]; intros fuel working Hw Hfuel.
  - destruct fuel as [|fuel]; [lia|].
    destruct working as [|w working]; [simpl; eexists; reflexivity|].
    exists ((w :: working) ++ []). apply cte_rounds_step. exists []. split; [|reflexivity].
    match goal with
    | |- cte_rounds _ _ _ ?x = _ =>
        replace x with (@nil cte_row);
          [destruct fuel; reflexivity | symmetry; apply flat_map_nil; exact Hw]
    end.
  - destruct fuel as [|fuel]; [lia|].
    destruct working as [|w working]; [simpl; eexists; reflexivity|].
    destruct (IH fuel (flat_map (fun r => resolved_children tbl resolve (fst r))
                                (w :: working))) as [rest Hrest].
    + intros r Hr. apply in_flat_map in Hr. destruct Hr as [r0 [Hr0 Hr]].
      exact (Hw r0 Hr0 r Hr).
    + lia.
    + exists ((w :: working) ++ rest). apply cte_rounds_step. exists rest. auto.
Qed.

(** [SELECT DISTINCT]. *)
Lemma distinct_spec (l : list key) :
  NoDup (distinct l) /\ forall k, In k (distinct l) <-> In k l.
Proof.
  induction l as [|x l [IHn IHi]]; simpl.
  - split; [constructor | tauto].
  - split.
    + constructor.
      * intros H. apply filter_In in H. destruct H as [_ H].
        rewrite key_eqb_refl in H. discriminate.
      * apply NoDup_filter. exact IHn.
    + intros k. rewrite filter_In, IHi. split.
      * intros [H | [H _]]; auto.
      * intros [H | H]; [left; exact H|].
        destruct (key_eqb k x) eqn:E.
        -- left. apply key_eqb_eq in E. congruence.
        -- right. split; [exact H | reflexivity].
Qed.

(** The listing of the child datasets of a container is what the spec
    calls its recursively resolved child datasets. *)
Lemma list_one_did_childs_datasets (tbl : list DataIdentifierAssociation.t)
    (k : key) (fuel : nat) (l : list key) :
  list_one_did_childs fuel tbl k DATASET = Some l ->
  lists_child_datasets tbl k l.
Proof.
  unfold list_one_did_childs. simpl dids_to_resolve.
  destruct (cte_rounds fuel tbl [CONTAINER] (resolved_children tbl [CONTAINER] k))
    as [rows|] eqn:E; [|discriminate].
  intros H. inversion H; subst l. clear H.
  destruct (distinct_spec (map fst (filter (fun r => type_is (snd r) DATASET) rows)))
    as [Hn Hi].
  split; [exact Hn|]. intros k'. rewrite Hi, in_map_iff. unfold child_dataset. split.
  - intros [[k0 t] [Hk Hr]]. simpl in Hk. subst k0.
    apply filter_In in Hr. destruct Hr as [Hr Ht]. simpl in Ht.
    apply type_is_eq in Ht. subst t.
    apply (cte_rounds_sound tbl [CONTAINER] k fuel _ rows E); [|exact Hr].
    intros r Hr'. apply resolved_children_in in Hr'.
    destruct Hr' as [a [Ha [Hp [Ht ->]]]]. apply resolves_child; auto.
  - intros Hres. exists (k', Some DATASET). split; [reflexivity|].
    apply filter_In. split; [|reflexivity].
    exact (cte_rounds_complete tbl [CONTAINER] k fuel rows E _ Hres).
Qed.

Lemma list_one_did_childs_terminates (tbl : list DataIdentifierAssociation.t) (k : key) :
  Acc (container_child tbl) k ->
  exists fuel0, forall fuel, (fuel0 <= fuel)%nat ->
    exists l, list_one_did_childs fuel tbl k DATASET = Some l.
Proof.
  intros Hacc. destruct (acc_height_le tbl k Hacc) as [n Hn].
  apply height_le_S in Hn. exists (S n). intros fuel Hfuel.
  unfold list_one_did_childs. simpl dids_to_resolve.
  destruct (cte_rounds_terminates tbl [CONTAINER] n fuel
              (resolved_children tbl [CONTAINER] k) Hn ltac:(lia)) as [res ->].
  eexists. reflexivity.
Qed.

(** [SUM] with nulls skipped, a null result read as 0. *)
Lemma sql_sum_total (l : list (option Z)) : or0 (sql_sum l) = total l.
Proof.
  unfold sql_sum.
  assert (H : forall acc,
            or0 (fold_left (fun acc o =>
                              match o, acc with
                              | Some z, Some t => Some (t + z)
                              | Some z, None => Some z
                              | None, _ => acc
                              end) l acc) = or0 acc + total l).
  { induction l as [|o l IH]; intros acc; simpl; [lia|].
    rewrite IH. destruct o as [z|], acc as [t|]; simpl; lia. }
  rewrite H. simpl. lia.
Qed.

(** With enough room for the recursion, the computation ends on the
    unchanged catalog with a triple that meets the resolution. *)
Lemma resolve_meets_resolution (s : Session)
    (did : DataIdentifier.t) (depth : DIDType) :
  (DataIdentifier.did_type did = Some CONTAINER ->
   Acc (container_child (contents s)) (DataIdentifier.pk did)) ->
  exists fuel0, forall fuel, (fuel0 <= fuel)%nat ->
    exists r,
      resolve_bytes_length_events_did fuel did depth s = Ok r s
      /\ resolution s did depth r.
Proof.
  intros Hacc. unfold resolve_bytes_length_events_did, resolution.
  destruct (DataIdentifier.did_type did) as [[]|] eqn:Et.
  - exists O. intros fuel _. destruct depth; eexists; split; reflexivity.
  - exists O. intros fuel _. destruct depth.
    + eexists. split; [reflexivity|].
      unfold sql_count, associations_of. simpl flat_map. rewrite app_nil_r.
      simpl or0. rewrite !sql_sum_total. reflexivity.
    + eexists. split; reflexivity.
    + eexists. split; reflexivity.
  - destruct (list_one_did_childs_terminates (contents s) (DataIdentifier.pk did)
                (Hacc eq_refl)) as [fuel0 Hfuel0].
    exists fuel0. intros fuel Hfuel. destruct (Hfuel0 fuel Hfuel) as [l Hl].
    pose proof (list_one_did_childs_datasets (contents s) (DataIdentifier.pk did)
                  fuel l Hl) as Hspec.
    destruct depth.
    + unfold bind, get. simpl. rewrite Hl. simpl.
      eexists. split; [reflexivity|]. exists l. split; [exact Hspec|].
      unfold sql_count. simpl or0. rewrite !sql_sum_total. reflexivity.
    + unfold bind, get. simpl. rewrite Hl. simpl.
      eexists. split; [reflexivity|]. exists l. split; [exact Hspec|].
      simpl. rewrite !sql_sum_total. reflexivity.
    + exists (or0 (DataIdentifier.bytes did), or0 (DataIdentifier.length did),
              or0 (DataIdentifier.events did)).
      split; reflexivity.
  - exists O. intros fuel _. destruct depth; eexists; split; reflexivity.
Qed.

(** C3.  [resolve_bytes_length_events] returns, as [(bytes, length,
    events)]: for a file, its bytes or 0, 1, and its events or 0; for a
    dataset at depth [FILE], the sums and the count over the associations
    of the dataset; for a container at depth [DATASET], the sums of the
    stored columns of its recursively resolved child datasets; for a
    container at depth [FILE], the sums and the count over the
    associations of those datasets; otherwise the stored columns; a null
    sum, like a null column, reads as 0.  Below a container the chains of
    containers are finite, and the recursion is given room. *)
Theorem resolve_bytes_length_events_did_resolution (s : Session)
    (did : DataIdentifier.t) (depth : DIDType) :
  (DataIdentifier.did_type did = Some CONTAINER ->
   Acc (container_child (contents s)) (DataIdentifier.pk did)) ->
  exists fuel0, forall fuel, (fuel0 <= fuel)%nat ->
    exists r,
      resolve_bytes_length_events_did fuel did depth s = Ok r s
      /\ resolution s did depth r.
Proof. exact (resolve_meets_resolution s did depth). Qed.

(** ** Closing a collection *)

Lemma find_map_update_found {A} (sel p : A -> bool) (f : A -> A) (l : list A) (d : A) :
  find p l = Some d -> sel d = true -> (forall x, p (f x) = p x) ->
  find p (map (fun x => if sel x then f x else x) l) = Some (f d).
Proof.
  intros Hf Hs Hp. induction l as [|x l IH]; simpl in *; [discriminate|].
  destruct (p x) eqn:Ex.
  - inversion Hf; subst x. rewrite Hs, Hp, Ex. reflexivity.
  - assert (E : p (if sel x then f x else x) = false).
    { destruct (sel x); [rewrite Hp|]; exact Ex. }
    rewrite E. apply IH. exact Hf.
Qed.

Lemma for_each_notifies {A} (l : list A) (body : A -> M unit) :
  (forall x, notifies_only (body x)) -> notifies_only (for_each l body).
Proof.
  intros Hb. induction l as [|x l IH]; intros s; simpl.
  - exists s. repeat split. exists []. rewrite app_nil_r. reflexivity.
  - unfold bind. destruct (Hb x s) as [s1 [H1 [Hd1 [Hl1 [e1 Hm1]]]]]. rewrite H1.
    destruct (IH s1) as [s2 [H2 [Hd2 [Hl2 [e2 Hm2]]]]]. exists s2.
    split; [exact H2|]. split; [congruence|]. split; [congruence|].
    exists (e1 ++ e2). rewrite Hm2, Hm1, app_assoc. reflexivity.
Qed.

(** The loop of [set_status] for [open=False]. *)
Lemma set_status_kwargs_close (fuel : nat) (scope : InternalScope) (name : string)
    (where_ : DataIdentifier.t -> bool) (s : Session) (did : DataIdentifier.t)
    (r : Z * Z * Z) :
  find_did (scope, name) s = Some did ->
  resolve_bytes_length_events_did fuel did FILE s = Ok r s ->
  exists s1 where1,
    set_status_kwargs ext fuel scope name [("open", PyBool false)] where_ no_values s
    = Ok (where1,
          {| v_is_open := Some false; v_closed_at := Some (utcnow s);
             v_bytes := Some (fst (fst r)); v_length := Some (snd (fst r));
             v_events := Some (snd r) |}) s1
    /\ (forall d, where1 d
                  = where_ d && is_true (DataIdentifier.is_open d)
                    && negb (type_is (DataIdentifier.did_type d) FILE))
    /\ dataset_locks s1
       = map (fun l =>
                if key_eqb (DatasetLock.scope l, DatasetLock.name l) (scope, name)
                then {| DatasetLock.scope := DatasetLock.scope l;
                        DatasetLock.name := DatasetLock.name l;
                        DatasetLock.rule_id := DatasetLock.rule_id l;
                        DatasetLock.rse_id := DatasetLock.rse_id l;
                        DatasetLock.length := Some (snd (fst r));
                        DatasetLock.bytes := Some (fst (fst r)) |}
                else l)
             (dataset_locks s)
    /\ messages s1 = messages s ++ [close_message ext scope name r]
    /\ rules s1 = rules s
    /\ dids s1
       = if reevaluate_dids_at_close (config s)
         then map (fun d => if key_eqb (DataIdentifier.pk d) (scope, name)
                            then DataIdentifier.set_is_new (Some true) d else d)
                  (dids s)
         else dids s.
Proof.
  intros Hd Hr. destruct r as [[b l] e].
  unfold set_status_kwargs.
  replace (negb ("open" =? "open")%string) with false by reflexivity.
  replace (negb (py_truthy (PyBool false))) with true by reflexivity.
  cbv iota. rewrite bind_get_run.
  erewrite bind_run_ok;
    [|unfold get_did_row; rewrite bind_get_run; rewrite Hd; reflexivity].
  erewrite bind_run_ok; [|exact Hr]. cbv beta iota.
  rewrite bind_modify_run. unfold add_message. rewrite bind_modify_run.
  destruct (reevaluate_dids_at_close (config s)) eqn:Ere.
  - assert (Hex : existsb (fun d => key_eqb (DataIdentifier.pk d) (scope, name))
                          (dids s) = true).
    { apply existsb_exists. exists did. apply find_some in Hd. exact Hd. }
    unfold set_new_dids, for_each, update_did, update_dids, bind, get, modify, ret.
    simpl. rewrite Hex.
    eexists. eexists. split; [reflexivity|].
    split; [intros d; reflexivity|]. simpl.
    repeat split.
    destruct (String.eqb (dialect s) "postgresql"); reflexivity.
  - unfold bind, ret. eexists. eexists. split; [reflexivity|].
    split; [intros d; reflexivity|]. simpl. repeat split.
Qed.

(** The amended C1.  Closing an open dataset or container: the call sets
    [is_open] to false and [closed_at] to the time of the call, stores the
    aggregates resolved at depth [FILE], for a container as for a dataset,
    writes the same bytes and length into every dataset lock of the DID,
    and queues a [CLOSE] message that carries the three aggregates.  Below
    a container the chains of containers are finite, and the recursion is
    given room; the rule engine only queues its notifications. *)
Theorem set_status_close_stores_file_aggregates (scope : InternalScope)
    (name : string) (s : Session) (did : DataIdentifier.t) :
  (forall rule, notifies_only (generate_rule_notifications ext rule)) ->
  find_did (scope, name) s = Some did ->
  is_collection did = true ->
  DataIdentifier.is_open did = Some true ->
  (DataIdentifier.did_type did = Some CONTAINER ->
   Acc (container_child (contents s)) (scope, name)) ->
  exists fuel0, forall fuel, (fuel0 <= fuel)%nat ->
    exists s' r did',
      set_status ext fuel scope name [("open", PyBool false)] s = Ok tt s'
      /\ resolve_bytes_length_events_did fuel did FILE s = Ok r s
      /\ resolution s did FILE r
      /\ find_did (scope, name) s' = Some did'
      /\ DataIdentifier.is_open did' = Some false
      /\ DataIdentifier.closed_at did' = Some (utcnow s)
      /\ (DataIdentifier.bytes did', DataIdentifier.length did',
          DataIdentifier.events did')
         = (Some (fst (fst r)), Some (snd (fst r)), Some (snd r))
      /\ (forall l, In l (dataset_locks s') ->
            (DatasetLock.scope l, DatasetLock.name l) = (scope, name) ->
            DatasetLock.bytes l = Some (fst (fst r))
            /\ DatasetLock.length l = Some (snd (fst r)))
      /\ In (close_message ext scope name r) (messages s').
Proof.
  intros Hnotify Hd Hcoll Hopen Hacc.
  assert (Hkey : DataIdentifier.pk did = (scope, name)).
  { apply find_did_some in Hd. tauto. }
  destruct (resolve_meets_resolution s did FILE) as [fuel0 Hfuel0].
  { rewrite Hkey. exact Hacc. }
  exists fuel0. intros fuel Hfuel. destruct (Hfuel0 fuel Hfuel) as [r [Hr Hspec]].
  destruct (set_status_kwargs_close fuel scope name
              (fun d => key_eqb (DataIdentifier.pk d) (scope, name) && is_collection d)
              s did r Hd Hr)
    as [s1 [where1 [Hkw [Hwhere [Hlocks [Hmsg [Hrules Hdids]]]]]]].
  set (did1 := if reevaluate_dids_at_close (config s)
               then DataIdentifier.set_is_new (Some true) did else did).
  assert (Hfind1 : find (fun d => key_eqb (DataIdentifier.pk d) (scope, name)) (dids s1)
                   = Some did1).
  { rewrite Hdids. subst did1. destruct (reevaluate_dids_at_close (config s)).
    - rewrite find_map_update; [unfold find_did in Hd; rewrite Hd; reflexivity | |auto].
      intros x. destruct x; reflexivity.
    - exact Hd. }
  assert (Hw1 : where1 did1 = true).
  { assert (E1 : DataIdentifier.pk did1 = DataIdentifier.pk did)
      by (subst did1; destruct (reevaluate_dids_at_close (config s)); destruct did;
          reflexivity).
    assert (E2 : DataIdentifier.did_type did1 = DataIdentifier.did_type did)
      by (subst did1; destruct (reevaluate_dids_at_close (config s)); destruct did;
          reflexivity).
    assert (E3 : DataIdentifier.is_open did1 = DataIdentifier.is_open did)
      by (subst did1; destruct (reevaluate_dids_at_close (config s)); destruct did;
          reflexivity).
    rewrite Hwhere. unfold is_collection in *. rewrite E1, E2, E3, Hkey, key_eqb_refl, Hcoll, Hopen.
    destruct (DataIdentifier.did_type did) as [[]|]; simpl in *;
      try discriminate; reflexivity. }
  set (values := {| v_is_open := Some false; v_closed_at := Some (utcnow s);
                    v_bytes := Some (fst (fst r)); v_length := Some (snd (fst r));
                    v_events := Some (snd r) |}) in *.
  assert (Hex : existsb where1 (dids s1) = true).
  { apply existsb_exists. exists did1. split; [|exact Hw1].
    apply find_some in Hfind1. tauto. }
  destruct (for_each_notifies
              (filter (fun r0 => key_eqb (ReplicationRule.scope r0, ReplicationRule.name r0)
                                         (scope, name))
                      (rules (set_dids (map (fun d => if where1 d then apply_values values d
                                                      else d) (dids s1)) s1)))
              (generate_rule_notifications ext) Hnotify
              (set_dids (map (fun d => if where1 d then apply_values values d else d)
                             (dids s1)) s1))
    as [s' [Hrun [Hd' [Hl' [extra Hm']]]]].
  exists s', r, (apply_values values did1).
  split.
  { unfold set_status. erewrite bind_run_ok; [|exact Hkw]. cbv beta iota.
    rewrite bind_get_run. unfold update_dids. rewrite bind_modify_run.
    rewrite Hex. unfold values. cbn [negb v_is_open].
    rewrite bind_get_run. exact Hrun. }
  split; [exact Hr|]. split; [exact Hspec|].
  split.
  { unfold find_did. rewrite Hd'. simpl.
    apply find_map_update_found; [exact Hfind1 | exact Hw1 |].
    intros x. destruct x; reflexivity. }
  split; [subst did1; destruct (reevaluate_dids_at_close (config s)); destruct did; reflexivity|].
  split; [subst did1; destruct (reevaluate_dids_at_close (config s)); destruct did; reflexivity|].
  split; [subst did1; destruct (reevaluate_dids_at_close (config s)); destruct did; reflexivity|].
  split.
  - intros l Hl Hlk. rewrite Hl' in Hl. simpl in Hl. rewrite Hlocks in Hl.
    apply in_map_iff in Hl. destruct Hl as [l0 [<- _]].
    destruct (key_eqb (DatasetLock.scope l0, DatasetLock.name l0) (scope, name)) eqn:E.
    + simpl. split; reflexivity.
    + apply key_eqb_neq in E. contradiction.
  - rewrite Hm'. simpl. rewrite Hmsg. apply in_or_app. left.
    apply in_or_app. right. left. reflexivity.
Qed.

(** ** Deleting DIDs *)

Lemma keeps_catalog_refl (s : Session) : keeps_catalog s s.
Proof.
  repeat split; try reflexivity; [exists []; rewrite app_nil_r; reflexivity | apply incl_refl].
Qed.

Lemma keeps_catalog_trans (s1 s2 s3 : Session) :
  keeps_catalog s1 s2 -> keeps_catalog s2 s3 -> keeps_catalog s1 s3.
Proof.
  intros [A1 [A2 [[e1 A3] [A4 [A5 [A6 A7]]]]]] [B1 [B2 [[e2 B3] [B4 [B5 [B6 B7]]]]]].
  repeat split; try congruence.
  - exists (e1 ++ e2). rewrite B3, A3, app_assoc. reflexivity.
  - intros r Hr. apply A7, B7, Hr.
Qed.

Lemma delete_prepare_keeps (account : InternalAccount) (archive : bool)
    (d : DeleteDict) (s : Session) :
  rule_engine_keeps_catalog ext ->
  exists s', delete_prepare ext account archive d s = Ok tt s' /\ keeps_catalog s s'.
Proof.
  intros Hext. unfold delete_prepare.
  assert (H1 : exists s1,
            when (DIDType_eqb (d_did_type d) DATASET
                  && negb (external (d_scope d) =? "archive")%string)
              (try_except (archive_localgroupdisk_datasets ext (d_scope d) (d_name d))
                 UndefinedPolicy (ret tt)) s = Ok tt s1
            /\ keeps_catalog s s1).
  { unfold when. destruct (_ && _).
    - destruct (archive_policy_keeps Hext (d_scope d) (d_name d) s) as [s1 [[E|E] K]];
        exists s1; unfold try_except; rewrite E; auto.
    - exists s. split; [reflexivity | apply keeps_catalog_refl]. }
  destruct H1 as [s1 [E1 K1]]. erewrite bind_run_ok; [|exact E1].
  destruct archive; unfold when.
  - unfold insert_content_history. rewrite bind_modify_run.
    unfold add_message, modify. eexists. split; [reflexivity|].
    apply keeps_catalog_trans with s1; [exact K1|].
    repeat split; simpl; try reflexivity; [eexists; reflexivity | apply incl_refl].
  - rewrite bind_ret_run. unfold add_message, modify. eexists. split; [reflexivity|].
    apply keeps_catalog_trans with s1; [exact K1|].
    repeat split; simpl; try reflexivity;
      [exists []; rewrite app_nil_r; reflexivity | apply incl_refl].
Qed.

Lemma for_each_keeps {A} (l : list A) (body : A -> M unit) :
  (forall x s, exists s', body x s = Ok tt s' /\ keeps_catalog s s') ->
  forall s, exists s', for_each l body s = Ok tt s' /\ keeps_catalog s s'.
Proof.
  intros Hb. induction l as [|x l IH]; intros s; simpl.
  - exists s. split; [reflexivity | apply keeps_catalog_refl].
  - destruct (Hb x s) as [s1 [E1 K1]]. erewrite bind_run_ok; [|exact E1].
    destruct (IH s1) as [s2 [E2 K2]]. exists s2. split; [exact E2|].
    apply keeps_catalog_trans with s1; assumption.
Qed.

Lemma rules_of_in (temp : list key) (s : Session) (r : ReplicationRule.t) :
  In r (rules_of temp s) ->
  In r (rules s) /\ In (ReplicationRule.scope r, ReplicationRule.name r) temp.
Proof.
  unfold rules_of. intros H. apply in_flat_map in H. destruct H as [k [Hk H]].
  apply filter_In in H. destruct H as [H E]. apply key_eqb_eq in E.
  split; [exact H | rewrite E; exact Hk].
Qed.

(** Phase A when no rule is large enough to be expired. *)
Lemma delete_rules_hard (temp not_purge : list key) (expire_rules : bool) (s : Session) :
  rule_engine_keeps_catalog ext ->
  (forall r, In r (rules s) ->
     In (ReplicationRule.scope r, ReplicationRule.name r) temp ->
     expires expire_rules s r = false) ->
  exists s', delete_rules ext temp not_purge expire_rules s = Ok false s'
             /\ keeps_catalog s s'.
Proof.
  intros Hext Hsmall. unfold delete_rules. rewrite bind_get_run.
  assert (H : forall rows sc,
            (forall r, In r rows -> expires expire_rules s r = false) ->
            keeps_catalog s sc ->
            exists s',
              fold_rows
                (fun skip_deletion r =>
                   let purge_replicas :=
                     negb (key_in (ReplicationRule.scope r, ReplicationRule.name r)
                                  not_purge) in
                   s0 <- get ;;
                   if expires expire_rules s0 r then
                     delete_rule ext (ReplicationRule.id r) purge_replicas true ;;
                     set_metadata_plugin ext (ReplicationRule.scope r)
                       (ReplicationRule.name r) "lifetime" (PyInt (3600 * 24)) ;;
                     ret true
                   else
                     delete_rule ext (ReplicationRule.id r) purge_replicas false ;;
                     ret skip_deletion)
                rows false sc = Ok false s'
              /\ keeps_catalog s s').
  { induction rows as [|r rows IH]; intros sc Hrows Hk; simpl.
    - exists sc. split; [reflexivity | exact Hk].
    - unfold bind at 1. rewrite bind_get_run.
      assert (E : expires expire_rules sc r = false).
      { rewrite <- (Hrows r (or_introl eq_refl)). unfold expires.
        destruct Hk as [_ [_ [_ [_ [_ [Hc _]]]]]]. rewrite Hc. reflexivity. }
      rewrite E.
      destruct (delete_rule_keeps Hext (ReplicationRule.id r)
                  (negb (key_in (ReplicationRule.scope r, ReplicationRule.name r)
                                not_purge)) false sc) as [s1 [E1 K1]].
      unfold bind at 1. rewrite E1. unfold ret at 1.
      apply IH.
      + intros r' Hr'. apply Hrows. right. exact Hr'.
      + apply keeps_catalog_trans with sc; assumption. }
  apply H.
  - intros r Hr. apply rules_of_in in Hr. destruct Hr as [Hr Hk]. apply Hsmall; assumption.
  - apply keeps_catalog_refl.
Qed.

Lemma find_map_keep {A} (p : A -> bool) (g : A -> A) (l : list A) :
  (forall x, p (g x) = p x) -> find p (map g l) = option_map g (find p l).
Proof.
  intros Hp. induction l as [|x l IH]; simpl; [reflexivity|].
  rewrite Hp. destruct (p x); [reflexivity | exact IH].
Qed.

Lemma same_association_eq (x a : DataIdentifierAssociation.t) :
  same_association x a = true <-> association_key x = association_key a.
Proof.
  unfold same_association, association_key.
  rewrite andb_true_iff, !key_eqb_eq. split.
  - intros [-> ->]. reflexivity.
  - intros H. split; [exact (f_equal fst H) | exact (f_equal snd H)].
Qed.

(** With [CONTENTS_PK], the row of a key is the row found. *)
Lemma find_association_unique (s : Session) (a : DataIdentifierAssociation.t) :
  NoDup (map association_key (contents s)) ->
  In a (contents s) ->
  find_association (DataIdentifierAssociation.parent a)
    (DataIdentifierAssociation.child a) s = Some a.
Proof.
  unfold find_association.
  change (fun a0 => key_eqb (DataIdentifierAssociation.parent a0)
                      (DataIdentifierAssociation.parent a)
                    && key_eqb (DataIdentifierAssociation.child a0)
                         (DataIdentifierAssociation.child a))
    with (fun a0 => same_association a0 a).
  induction (contents s) as [|x l IH]; simpl; intros Hn Hin; [contradiction|].
  inversion Hn as [|? ? Hx Hn']; subst.
  destruct (same_association x a) eqn:E.
  - apply same_association_eq in E. destruct Hin as [-> | Hin]; [reflexivity|].
    exfalso. apply Hx. rewrite E. apply in_map. exact Hin.
  - destruct Hin as [-> | Hin].
    + assert (same_association a a = true) by (apply same_association_eq; reflexivity).
      congruence.
    + apply IH; assumption.
Qed.

(** A selection of the rows of a table keeps [CONTENTS_PK]. *)
Lemma select_keeps_unique_keys (sel : DataIdentifierAssociation.t -> bool)
    (tbl : list DataIdentifierAssociation.t)
    (Hpk : NoDup (map association_key tbl)) :
  NoDup (map association_key (filter sel tbl)).
Proof.
  induction tbl as [|row tbl IH]; [exact Hpk|].
  apply NoDup_cons_iff in Hpk. destruct Hpk as [Hrow Hpk].
  cbn [filter]. destruct (sel row); [|exact (IH Hpk)].
  cbn [map]. apply NoDup_cons; [|exact (IH Hpk)].
  rewrite in_map_iff. intros [other [Hkey Hother]].
  apply filter_In in Hother. apply Hrow. rewrite <- Hkey.
  apply in_map. exact (proj1 Hother).
Qed.

Lemma filter_filter {A} (p q : A -> bool) (l : list A) :
  filter p (filter q l) = filter (fun x => q x && p x) l.
Proof.
  induction l as [|x l IH]; simpl; [reflexivity|].
  destruct (q x); simpl; [destruct (p x); rewrite IH; reflexivity | exact IH].
Qed.

(** The update of the parent keeps the identity of every row. *)
Lemma decrement_keeps_identity (b e : option Z) (k : key) (d : DataIdentifier.t) :
  same_identity d (if key_eqb (DataIdentifier.pk d) k
                   then decrement_aggregates b e d else d).
Proof.
  destruct (key_eqb (DataIdentifier.pk d) k); [|repeat split].
  destruct d. unfold decrement_aggregates, same_identity. cbn.
  repeat match goal with |- context [if ?c then _ else _] => destruct c; cbn end;
    repeat split.
Qed.

(** One detachment made by the deletion. *)
Lemma detach_dids_one (sc : Session) (a : DataIdentifierAssociation.t)
    (pdid : DataIdentifier.t) :
  NoDup (map association_key (contents sc)) ->
  In a (contents sc) ->
  DataIdentifierAssociation.parent a <> DataIdentifierAssociation.child a ->
  find_did (DataIdentifierAssociation.parent a) sc = Some pdid ->
  is_collection pdid = true ->
  exists s',
    detach_dids ext (DataIdentifierAssociation.scope a) (DataIdentifierAssociation.name a)
      [DataIdentifierAssociation.child a] sc = Ok tt s'
    /\ dids s'
       = map (fun d => if key_eqb (DataIdentifier.pk d) (DataIdentifierAssociation.parent a)
                       then decrement_aggregates (DataIdentifierAssociation.bytes a)
                              (DataIdentifierAssociation.events a) d
                       else d)
             (dids sc)
    /\ contents s' = filter (fun x => negb (same_association x a)) (contents sc)
    /\ contents_history s'
       = contents_history sc
         ++ [new_detach a (DataIdentifier.created_at pdid) (utcnow sc)]
    /\ deleted_dids s' = deleted_dids sc
    /\ utcnow s' = utcnow sc.
Proof.
  intros Hn Hin Hneq Hp Hcoll.
  unfold detach_dids. rewrite bind_get_run.
  change (DataIdentifierAssociation.scope a, DataIdentifierAssociation.name a)
    with (DataIdentifierAssociation.parent a).
  assert (E1 : find (fun d => key_eqb (DataIdentifier.pk d)
                                (DataIdentifierAssociation.parent a)
                              && is_collection d) (dids sc) = Some pdid).
  { unfold find_did in Hp. revert Hp. induction (dids sc) as [|x l IH]; simpl;
      [discriminate|].
    destruct (key_eqb (DataIdentifier.pk x) (DataIdentifierAssociation.parent a)); simpl.
    - intros H. inversion H; subst x. rewrite Hcoll. reflexivity.
    - exact IH. }
  rewrite E1. rewrite bind_modify_run. rewrite bind_get_run.
  assert (E2 : existsb (fun a0 => key_eqb (DataIdentifierAssociation.parent a0)
                                    (DataIdentifierAssociation.parent a))
                       (contents sc) = true).
  { apply existsb_exists. exists a. split; [exact Hin | apply key_eqb_refl]. }
  session_simpl. rewrite E2. clear E2.
  unfold for_each. unfold detach_one.
  assert (E3 : key_eqb (DataIdentifierAssociation.parent a)
                       (DataIdentifierAssociation.child a) = false)
    by (apply key_eqb_neq; exact Hneq).
  rewrite E3. clear E3. unfold bind at 1. rewrite bind_get_run.
  pose proof (find_association_unique sc a Hn Hin) as E4.
  unfold find_association in *. session_simpl. rewrite E4.
  unfold find_did in *. session_simpl. rewrite Hp.
  unfold update_did, update_dids, when, add_message, bind, modify, ret.
  destruct (type_is (DataIdentifier.did_type pdid) CONTAINER);
    eexists; (split; [reflexivity|]); simpl; repeat split.
Qed.

Lemma same_identity_collection (d d' : DataIdentifier.t) :
  same_identity d d' -> is_collection d' = is_collection d.
Proof. intros [_ [H _]]. unfold is_collection. rewrite H. reflexivity. Qed.

(** Phase B: the loop that detaches the DIDs from their parents. *)
Lemma detach_rows (rows : list DataIdentifierAssociation.t) :
  forall sc,
    NoDup (map association_key rows) ->
    incl rows (contents sc) ->
    NoDup (map association_key (contents sc)) ->
    (forall a, In a rows ->
       DataIdentifierAssociation.parent a <> DataIdentifierAssociation.child a
       /\ exists pdid, find_did (DataIdentifierAssociation.parent a) sc = Some pdid
                       /\ is_collection pdid = true) ->
    exists s',
      for_each rows
        (fun a => detach_dids ext (DataIdentifierAssociation.scope a)
                    (DataIdentifierAssociation.name a)
                    [DataIdentifierAssociation.child a]) sc = Ok tt s'
      /\ map DataIdentifier.pk (dids s') = map DataIdentifier.pk (dids sc)
      /\ (forall k d, find_did k sc = Some d ->
            exists d', find_did k s' = Some d' /\ same_identity d d')
      /\ contents s'
         = filter (fun x => negb (existsb (same_association x) rows)) (contents sc)
      /\ (exists extra,
            contents_history s' = contents_history sc ++ extra
            /\ forall a, In a rows ->
                 exists pdid,
                   find_did (DataIdentifierAssociation.parent a) sc = Some pdid
                   /\ In (new_detach a (DataIdentifier.created_at pdid) (utcnow sc)) extra)
      /\ deleted_dids s' = deleted_dids sc
      /\ utcnow s' = utcnow sc.
Proof.
  induction rows as [|a rows IH]; intros sc Hnd Hincl Hpk Hrows.
  - exists sc. simpl. split; [reflexivity|]. split; [reflexivity|].
    split; [intros k d H; exists d; split; [exact H | repeat split]|].
    split.
    { clear. induction (contents sc) as [|x l IHl]; simpl; [reflexivity | f_equal; exact IHl]. }
    split; [exists []; rewrite app_nil_r; split; [reflexivity | intros a []]|].
    split; reflexivity.
  - destruct (Hrows a (or_introl eq_refl)) as [Hneq [pdid [Hp Hcoll]]].
    destruct (detach_dids_one sc a pdid Hpk (Hincl a (or_introl eq_refl)) Hneq Hp Hcoll)
      as [s1 [E1 [Hd1 [Hc1 [Hh1 [Hdel1 Hnow1]]]]]].
    inversion Hnd as [|? ? Ha Hnd']; subst.
    set (g := fun d => if key_eqb (DataIdentifier.pk d) (DataIdentifierAssociation.parent a)
                       then decrement_aggregates (DataIdentifierAssociation.bytes a)
                              (DataIdentifierAssociation.events a) d
                       else d) in *.
    assert (Hg : forall d, same_identity d (g d)).
    { intros d. apply decrement_keeps_identity. }
    assert (Hfind : forall k, find_did k s1 = option_map g (find_did k sc)).
    { intros k. unfold find_did. rewrite Hd1. apply find_map_keep.
      intros x. destruct (Hg x) as [-> _]. reflexivity. }
    destruct (IH s1) as [s' [E [Hpks [Hid [Hc [[extra [Hh Hhist]] [Hdel Hnow]]]]]]].
    + exact Hnd'.
    + intros x Hx. rewrite Hc1. apply filter_In. split; [apply Hincl; right; exact Hx|].
      destruct (same_association x a) eqn:Es; [|reflexivity].
      apply same_association_eq in Es. exfalso. apply Ha. rewrite <- Es.
      apply in_map. exact Hx.
    + rewrite Hc1. apply select_keeps_unique_keys. exact Hpk.
    + intros x Hx. destruct (Hrows x (or_intror Hx)) as [Hn [px [Hpx Hcx]]].
      split; [exact Hn|]. exists (g px). rewrite Hfind, Hpx. split; [reflexivity|].
      rewrite (same_identity_collection px (g px) (Hg px)). exact Hcx.
    + exists s'. split.
      { simpl. erewrite bind_run_ok; [|exact E1]. exact E. }
      split.
      { rewrite Hpks, Hd1, map_map. apply map_ext. intros d.
        destruct (Hg d) as [-> _]. reflexivity. }
      split.
      { intros k d Hk. destruct (Hid k (g d)) as [d' [Hd' Hsame]].
        - rewrite Hfind, Hk. reflexivity.
        - exists d'. split; [exact Hd'|].
          destruct (Hg d) as [A1 [A2 A3]], Hsame as [B1 [B2 B3]].
          repeat split; congruence. }
      split.
      { rewrite Hc, Hc1, filter_filter. apply filter_ext. intros x. simpl.
        destruct (same_association x a); reflexivity. }
      split.
      { exists ([new_detach a (DataIdentifier.created_at pdid) (utcnow sc)] ++ extra).
        split; [rewrite Hh, Hh1, app_assoc; reflexivity|].
        intros x [<- | Hx].
        - exists pdid. split; [exact Hp | left; reflexivity].
        - destruct (Hhist x Hx) as [px [Hpx Hin]].
          rewrite Hfind in Hpx.
          destruct (find_did (DataIdentifierAssociation.parent x) sc) as [p0|] eqn:Ep0;
            [|discriminate].
          inversion Hpx; subst px. exists p0. split; [reflexivity|].
          right. destruct (Hg p0) as [_ [_ Hcr]]. rewrite <- Hcr, <- Hnow1. exact Hin. }
      split; congruence.
Qed.

(** The keys of the temporary table. *)
Lemma keys_add_in (k k' : key) (l : list key) :
  In k' (keys_add k l) <-> k' = k \/ In k' l.
Proof.
  unfold keys_add. destruct (key_in k l) eqn:E.
  - apply key_in_In in E. split; [auto | intros [-> | H]; assumption].
  - rewrite in_app_iff. simpl. split; [intros [H | [H | []]]; auto | intros [H | H]; auto].
Qed.

Lemma keys_add_NoDup (k : key) (l : list key) : NoDup l -> NoDup (keys_add k l).
Proof.
  intros H. unfold keys_add. destruct (key_in k l) eqn:E; [exact H|].
  assert (Hk : ~ In k l).
  { intros Hin. apply key_in_In in Hin. congruence. }
  clear E. induction l as [|x l IH]; simpl.
  - constructor; [intros [] | constructor].
  - inversion H as [|? ? Hx Hl]; subst. constructor.
    + rewrite in_app_iff. simpl. intros [Hin | [Hin | []]]; [contradiction|].
      apply Hk. left. symmetry. exact Hin.
    + apply IH; [exact Hl | intros Hin; apply Hk; right; exact Hin].
Qed.

Lemma fold_keys_in (P : DeleteDict -> bool) (l : list DeleteDict) :
  forall acc k,
    In k (fold_left (fun acc d => if P d then keys_add (d_key d) acc else acc) l acc)
    <-> In k acc \/ exists d, In d l /\ P d = true /\ d_key d = k.
Proof.
  induction l as [|d l IH]; intros acc k; simpl.
  - split; [auto | intros [H | [d [[] _]]]; exact H].
  - rewrite IH. split.
    + intros [H | [d' [H1 [H2 H3]]]].
      * destruct (P d) eqn:E; [|left; exact H].
        apply keys_add_in in H. destruct H as [-> | H]; [|left; exact H].
        right. exists d. auto.
      * right. exists d'. auto.
    + intros [H | [d' [[<- | H1] [H2 H3]]]].
      * left. destruct (P d); [apply keys_add_in; right|]; exact H.
      * left. rewrite H2. apply keys_add_in. left. symmetry. exact H3.
      * right. exists d'. auto.
Qed.

Lemma fold_keys_NoDup (P : DeleteDict -> bool) (l : list DeleteDict) :
  forall acc, NoDup acc ->
    NoDup (fold_left (fun acc d => if P d then keys_add (d_key d) acc else acc) l acc).
Proof.
  induction l as [|d l IH]; intros acc H; simpl; [exact H|].
  apply IH. destruct (P d); [apply keys_add_NoDup|]; exact H.
Qed.

Lemma collection_dids_fold (l : list DeleteDict) :
  collection_dids_of l
  = fold_left (fun acc d => if negb (DIDType_eqb (d_did_type d) FILE)
                            then keys_add (d_key d) acc else acc) l [].
Proof.
  unfold collection_dids_of. generalize (@nil key).
  induction l as [|d l' IH]; intros acc; simpl; [reflexivity|].
  rewrite IH. destruct (DIDType_eqb (d_did_type d) FILE); reflexivity.
Qed.

Lemma data_in_temp_table_keys (l : list DeleteDict) (k : key) :
  In k (data_in_temp_table_of l) <-> In k (map d_key l).
Proof.
  assert (Hf : forall k, In k (file_dids_of l)
                         <-> exists d, In d l /\ DIDType_eqb (d_did_type d) FILE = true
                                       /\ d_key d = k).
  { intros k0. unfold file_dids_of. rewrite fold_keys_in. simpl. tauto. }
  assert (Hc : forall k, In k (collection_dids_of l)
                         <-> exists d, In d l /\ negb (DIDType_eqb (d_did_type d) FILE) = true
                                       /\ d_key d = k).
  { intros k0. rewrite collection_dids_fold.
    rewrite (fold_keys_in (fun d => negb (DIDType_eqb (d_did_type d) FILE)) l [] k0).
    simpl. tauto. }
  assert (Ha : forall k, In k (all_dids_of l) <-> In k (map d_key l)).
  { intros k0. unfold all_dids_of.
    rewrite (fold_keys_in (fun _ => true) l [] k0). rewrite in_map_iff. simpl.
    split; [intros [[] | [d [H1 [_ H2]]]]; exists d; auto
           | intros [d [H1 H2]]; right; exists d; auto]. }
  unfold data_in_temp_table_of.
  destruct (file_dids_of l) as [|f fs] eqn:Ef.
  - rewrite Hc, in_map_iff. split.
    + intros [d [H1 [_ H2]]]. exists d. auto.
    + intros [d [H1 H2]]. exists d. split; [exact H2|]. split; [|exact H1].
      destruct (DIDType_eqb (d_did_type d) FILE) eqn:E; [|reflexivity].
      exfalso. assert (H : In (d_key d) []) by (apply Hf; exists d; auto). exact H.
  - destruct (collection_dids_of l) as [|c cs] eqn:Ec.
    + rewrite Hf, in_map_iff. split.
      * intros [d [H1 [_ H2]]]. exists d. auto.
      * intros [d [H1 H2]]. exists d. split; [exact H2|]. split; [|exact H1].
        destruct (DIDType_eqb (d_did_type d) FILE) eqn:E; [reflexivity|].
        exfalso. assert (H : In (d_key d) []).
        { apply Hc. exists d. rewrite E. auto. }
        exact H.
    + apply Ha.
Qed.

Lemma data_in_temp_table_NoDup (l : list DeleteDict) : NoDup (data_in_temp_table_of l).
Proof.
  assert (Hf : NoDup (file_dids_of l)) by (apply fold_keys_NoDup; constructor).
  assert (Ha : NoDup (all_dids_of l))
    by (apply (fold_keys_NoDup (fun _ => true)); constructor).
  assert (Hc : NoDup (collection_dids_of l)).
  { rewrite collection_dids_fold. apply fold_keys_NoDup. constructor. }
  unfold data_in_temp_table_of.
  destruct (file_dids_of l); [exact Hc|]. destruct (collection_dids_of l); assumption.
Qed.

(** The associations that Phase B detaches. *)
Lemma parent_associations_in (temp : list key) (s : Session)
    (a : DataIdentifierAssociation.t) :
  In a (parent_associations temp s)
  <-> In a (contents s) /\ In (DataIdentifierAssociation.child a) temp.
Proof.
  unfold parent_associations. rewrite in_flat_map. split.
  - intros [k [Hk H]]. apply filter_In in H. destruct H as [H E].
    apply key_eqb_eq in E. rewrite E. auto.
  - intros [H Hk]. exists (DataIdentifierAssociation.child a). split; [exact Hk|].
    apply filter_In. split; [exact H | apply key_eqb_refl].
Qed.

Lemma NoDup_append {A} (l l' : list A) :
  NoDup l -> NoDup l' -> (forall x, In x l -> ~ In x l') -> NoDup (l ++ l').
Proof.
  induction l as [|x l IH]; simpl; intros H H' Hd; [exact H'|].
  inversion H as [|? ? Hx Hl]; subst. constructor.
  - rewrite in_app_iff. intros [Hin | Hin]; [contradiction|].
    exact (Hd x (or_introl eq_refl) Hin).
  - apply IH; [exact Hl | exact H' | intros y Hy; apply Hd; right; exact Hy].
Qed.

Lemma parent_associations_NoDup (temp : list key) (s : Session) :
  NoDup temp -> NoDup (map association_key (contents s)) ->
  NoDup (map association_key (parent_associations temp s)).
Proof.
  intros Ht Hc. unfold parent_associations.
  induction temp as [|k temp IH]; simpl; [constructor|].
  inversion Ht as [|? ? Hk Ht']; subst. rewrite map_app. apply NoDup_append.
  - apply select_keeps_unique_keys. exact Hc.
  - apply IH. exact Ht'.
  - intros x Hx Hx'. apply in_map_iff in Hx. destruct Hx as [a [<- Ha]].
    apply filter_In in Ha. destruct Ha as [_ Ea]. apply key_eqb_eq in Ea.
    apply in_map_iff in Hx'. destruct Hx' as [b [Hb Hin]].
    apply in_flat_map in Hin. destruct Hin as [k' [Hk' Hin]].
    apply filter_In in Hin. destruct Hin as [_ Eb]. apply key_eqb_eq in Eb.
    apply (f_equal snd) in Hb. simpl in Hb. apply Hk. congruence.
Qed.

Lemma find_none_all {A} (p : A -> bool) (l : list A) :
  (forall x, In x l -> p x = false) -> find p l = None.
Proof.
  induction l as [|x l IH]; simpl; intros H; [reflexivity|].
  rewrite (H x (or_introl eq_refl)). apply IH. intros y Hy. apply H. right. exact Hy.
Qed.

(** Phases C, D and E. *)
Lemma removes_content_only_bind (m1 m2 : M unit) :
  removes_content_only m1 -> removes_content_only m2 ->
  removes_content_only (m1 ;; m2).
Proof.
  intros H1 H2 s. destruct (H1 s) as [s1 [E1 [A1 [A2 [A3 [A5 A4]]]]]].
  destruct (H2 s1) as [s2 [E2 [B1 [B2 [B3 [B5 B4]]]]]].
  exists s2. split; [erewrite bind_run_ok; [exact E2 | exact E1]|].
  repeat split; try congruence. intros x Hx. apply A4, B4, Hx.
Qed.

Lemma removes_content_only_when (c : bool) (m : M unit) :
  removes_content_only m -> removes_content_only (when c m).
Proof.
  intros H. destruct c; [exact H|]. intros s. exists s.
  repeat split. apply incl_refl.
Qed.

Lemma mark_bad_replicas_deleted_only (now : datetime) (files : list key) :
  removes_content_only (mark_bad_replicas_deleted now files).
Proof. intros s. eexists. split; [reflexivity|]. repeat split. apply incl_refl. Qed.

Lemma delete_collection_content_only (now : datetime) (collection_dids : list key) :
  removes_content_only (delete_collection_content now collection_dids).
Proof.
  intros s. unfold delete_collection_content. rewrite bind_get_run.
  unfold mark_bad_replicas_deleted. rewrite bind_modify_run.
  destruct (purge_all_replicas (config s)); unfold when;
    [rewrite bind_modify_run | rewrite bind_ret_run];
    rewrite bind_modify_run; unfold modify;
    (eexists; split; [reflexivity|]); session_simpl;
    (repeat split; intros x Hx; apply filter_In in Hx; tauto).
Qed.

(** C7.  A call of [delete_dids] on DIDs of which one at least is still
    attached under a parent, with rules that are all deleted without being
    expired: the call removes every association from a parent to a DID of
    the input, writes a history row for each, and returns before the rows
    of the DIDs are touched: no row of [dids] is removed and nothing is
    archived.  The catalog is as its schema has it: associations are unique
    by parent and child, and the parent of an association is a collection
    other than its child; the rule engine keeps the catalog. *)
Theorem delete_dids_with_parents_keeps_rows (l : list DeleteDict)
    (account : InternalAccount) (expire_rules : bool) (s : Session) :
  rule_engine_keeps_catalog ext ->
  NoDup (map association_key (contents s)) ->
  (forall a, In a (contents s) ->
     In (DataIdentifierAssociation.child a) (map d_key l) ->
     DataIdentifierAssociation.parent a <> DataIdentifierAssociation.child a
     /\ exists pdid, find_did (DataIdentifierAssociation.parent a) s = Some pdid
                     /\ is_collection pdid = true) ->
  (forall r, In r (rules s) ->
     In (ReplicationRule.scope r, ReplicationRule.name r) (map d_key l) ->
     expires expire_rules s r = false) ->
  (exists a, In a (contents s)
             /\ In (DataIdentifierAssociation.child a) (map d_key l)) ->
  exists s',
    delete_dids ext l account expire_rules s = Ok tt s'
    /\ map DataIdentifier.pk (dids s') = map DataIdentifier.pk (dids s)
    /\ deleted_dids s' = deleted_dids s
    /\ forall a, In a (contents s) ->
         In (DataIdentifierAssociation.child a) (map d_key l) ->
         find_association (DataIdentifierAssociation.parent a)
           (DataIdentifierAssociation.child a) s' = None
         /\ exists pdid,
              find_did (DataIdentifierAssociation.parent a) s = Some pdid
              /\ In (new_detach a (DataIdentifier.created_at pdid) (utcnow s))
                    (contents_history s').
Proof.
  intros Hext Hpk Hparents Hrules [a0 [Ha0 Hk0]].
  assert (Hne : nonempty l = true).
  { destruct l; [destruct Hk0 | reflexivity]. }
  unfold delete_dids. rewrite Hne. cbn [negb]. rewrite bind_get_run.
  destruct (for_each_keeps l (delete_prepare ext account (archive_content (config s)))
              (fun d s0 => delete_prepare_keeps account (archive_content (config s)) d s0 Hext)
              s) as [s1 [E1 K1]].
  erewrite bind_run_ok; [|exact E1].
  destruct (delete_rules_hard (data_in_temp_table_of l) (not_purge_replicas_of l)
              expire_rules s1 Hext) as [s2 [E2 K2]].
  { intros r Hr Hk. destruct K1 as [_ [_ [_ [_ [_ [Hc Hin]]]]]].
    unfold expires. rewrite Hc. apply Hrules; [apply Hin; exact Hr|].
    apply data_in_temp_table_keys. exact Hk. }
  erewrite bind_run_ok; [|exact E2]. cbv iota.
  pose proof (keeps_catalog_trans s s1 s2 K1 K2) as K.
  destruct K as [Kd [Kc [[extra0 Kh] [Kdel [Know [_ _]]]]]].
  destruct (detach_rows (parent_associations (data_in_temp_table_of l) s2) s2)
    as [s3 [E3 [Hpks [_ [Hc3 [[extra [Hh3 Hhist]] [Hdel3 Hnow3]]]]]]].
  { apply parent_associations_NoDup; [apply data_in_temp_table_NoDup|].
    rewrite Kc. exact Hpk. }
  { intros x Hx. apply parent_associations_in in Hx. tauto. }
  { rewrite Kc. exact Hpk. }
  { intros x Hx. apply parent_associations_in in Hx. destruct Hx as [Hx Hk].
    rewrite Kc in Hx. apply data_in_temp_table_keys in Hk.
    unfold find_did. rewrite Kd. apply Hparents; assumption. }
  assert (Hrows : nonempty (parent_associations (data_in_temp_table_of l) s2) = true).
  { assert (H : In a0 (parent_associations (data_in_temp_table_of l) s2)).
    { apply parent_associations_in. rewrite Kc. split; [exact Ha0|].
      apply data_in_temp_table_keys. exact Hk0. }
    destruct (parent_associations (data_in_temp_table_of l) s2); [destruct H | reflexivity]. }
  assert (E4 : detach_from_parents ext (data_in_temp_table_of l) s2 = Ok true s3).
  { unfold detach_from_parents. rewrite bind_get_run.
    erewrite bind_run_ok; [|exact E3]. rewrite Hrows. reflexivity. }
  erewrite bind_run_ok; [|exact E4]. rewrite bind_get_run.
  destruct (removes_content_only_bind _ _
              (removes_content_only_when
                 (negb ((dialect s3 =? "oracle")%string && (oracle_version s3 <? 12)))
                 (modify (fun s0 =>
                    set_did_meta
                      (filter (fun m => negb (key_in (DidMeta.scope m, DidMeta.name m)
                                                     (data_in_temp_table_of l)))
                              (did_meta s0)) s0))
                 (fun s0 => ex_intro _ _
                    (conj eq_refl (conj eq_refl (conj eq_refl (conj eq_refl
                       (conj eq_refl (incl_refl _))))))))
              (removes_content_only_bind _ _
                 (removes_content_only_when (nonempty (file_dids_of l)) _
                    (mark_bad_replicas_deleted_only (utcnow s3) (file_dids_of l)))
                 (removes_content_only_when (nonempty (collection_dids_of l)) _
                    (delete_collection_content_only (utcnow s3) (collection_dids_of l))))
              s3) as [s4 [E5 [Hd4 [Hdel4 [Hh4 [_ Hc4]]]]]].
  exists s4. split.
  { unfold bind in *.
    destruct (when (negb ((dialect s3 =? "oracle")%string && (oracle_version s3 <? 12)))
                _ s3) as [[] sa| |]; try discriminate.
    destruct (when (nonempty (file_dids_of l)) _ sa) as [[] sb| |]; try discriminate.
    destruct (when (nonempty (collection_dids_of l)) _ sb) as [[] sc| |];
      try discriminate.
    exact E5. }
  split; [rewrite Hd4, Hpks, Kd; reflexivity|].
  split; [congruence|].
  intros a Ha Hk.
  assert (Hrow : In a (parent_associations (data_in_temp_table_of l) s2)).
  { apply parent_associations_in. rewrite Kc. split; [exact Ha|].
    apply data_in_temp_table_keys. exact Hk. }
  split.
  - apply find_none_all. intros x Hx. apply Hc4 in Hx. rewrite Hc3 in Hx.
    apply filter_In in Hx. destruct Hx as [_ Hx].
    apply negb_true_iff in Hx.
    assert (Hxa : same_association x a = false).
    { destruct (same_association x a) eqn:E; [|reflexivity].
      assert (existsb (same_association x)
                (parent_associations (data_in_temp_table_of l) s2) = true).
      { apply existsb_exists. exists a. auto. }
      congruence. }
    exact Hxa.
  - destruct (Hhist a Hrow) as [pdid [Hp Hin]]. exists pdid.
    split; [unfold find_did in *; rewrite <- Kd; exact Hp|].
    rewrite Hh4, Hh3. apply in_or_app. right. rewrite <- Know. exact Hin.
Qed.

(** ** Resurrection *)

Lemma NoDup_map_eq {A B} (f : A -> B) (l : list A) (x y : A) :
  NoDup (map f l) -> In x l -> In y l -> f x = f y -> x = y.
Proof.
  induction l as [|z l IH]; simpl; intros Hn Hx Hy E; [contradiction|].
  inversion Hn as [|? ? Hz Hn']; subst.
  destruct Hx as [-> | Hx], Hy as [-> | Hy].
  - reflexivity.
  - exfalso. apply Hz. rewrite E. apply in_map. exact Hy.
  - exfalso. apply Hz. rewrite <- E. apply in_map. exact Hx.
  - apply IH; assumption.
Qed.











(** * Further properties of the engine *)

(** ** Loops with an accumulator *)

(** A property of the rows processed so far, of the accumulator and of
    the session, kept by every iteration that returns, holds when the
    loop returns. *)
Lemma fold_rows_processed {A B} (body : B -> A -> M B)
    (Q : list A -> B -> Session -> Prop) :
  (forall done x acc s acc1 s1,
     Q done acc s -> body acc x s = Ok acc1 s1 -> Q (done ++ [x]) acc1 s1) ->
  forall todo done acc s acc' s',
    fold_rows body todo acc s = Ok acc' s' ->
    Q done acc s ->
    Q (done ++ todo) acc' s'.
Proof.
  intros Hstep. induction todo as [|x todo IH]; intros done acc s acc' s' H HQ.
  - cbn in H. unfold ret in H. inversion H; subst. rewrite app_nil_r. exact HQ.
  - cbn [fold_rows] in H. apply bind_ok_inv in H. destruct H as [acc1 [s1 [H1 H2]]].
    replace (done ++ x :: todo) with ((done ++ [x]) ++ todo)
      by (rewrite <- app_assoc; reflexivity).
    apply (IH _ acc1 s1); [exact H2|]. exact (Hstep _ _ _ _ _ _ HQ H1).
Qed.

(** ** Attaching files to a dataset *)

Lemma has_association_in (p c : key) (s : Session) (a : DataIdentifierAssociation.t) :
  In a (contents s) ->
  DataIdentifierAssociation.parent a = p ->
  DataIdentifierAssociation.child a = c ->
  has_association p c s = true.
Proof.
  intros Hin Hp Hc. unfold has_association, find_association.
  destruct (find _ (contents s)) eqn:E; [reflexivity|].
  pose proof (find_none _ _ E a Hin) as Hn. cbn beta in Hn.
  rewrite Hp, Hc, !key_eqb_refl in Hn. discriminate.
Qed.

Lemma has_association_found (p c : key) (s : Session) :
  has_association p c s = true ->
  exists a, In a (contents s)
            /\ DataIdentifierAssociation.parent a = p
            /\ DataIdentifierAssociation.child a = c.
Proof.
  unfold has_association, find_association.
  destruct (find _ (contents s)) as [a|] eqn:E; [|discriminate].
  intros _. apply find_some in E. destruct E as [Hin Hk].
  apply andb_prop in Hk. destruct Hk as [H1 H2].
  apply key_eqb_eq in H1. apply key_eqb_eq in H2. exists a. auto.
Qed.

(** [attach_dids] on a dataset, reduced to [__add_files_to_dataset]. *)
Lemma attach_dids_dataset (fuel : nat) (scope : InternalScope) (name : string)
    (l : list ChildDict) (account : InternalAccount) (ign : bool)
    (rse_id : option string) (s : Session) (parent_did : DataIdentifier.t) :
  find_did (scope, name) s = Some parent_did ->
  DataIdentifier.did_type parent_did = Some DATASET ->
  attach_dids ext fuel scope name l account ign rse_id s
  = if is_true (DataIdentifier.is_open parent_did) then
      match add_files_to_dataset ext parent_did (children_of l) account rse_id ign s with
      | Ok cont s1 =>
          Ok tt (if (0 <? Z.of_nat (List.length cont))
                 then set_updated_dids
                        (updated_dids s1
                         ++ [{| UpdatedDID.scope := DataIdentifier.scope parent_did;
                                UpdatedDID.name := DataIdentifier.name parent_did;
                                UpdatedDID.rule_evaluation_action := ATTACH |}]) s1
                 else s1)
      | Raise e s1 => Raise e s1
      | OutOfFuel => OutOfFuel
      end
    else Raise UnsupportedOperation s.
Proof.
  intros Hp Ht. unfold attach_dids, attach_dids_to_dids, attach_loop.
  simpl a_scope. simpl a_name. simpl a_dids. simpl a_rse_id.
  unfold bind at 1. unfold bind at 1. unfold get at 1. rewrite Hp, Ht. simpl.
  destruct (is_true (DataIdentifier.is_open parent_did)); simpl; [|reflexivity].
  unfold bind.
  destruct (add_files_to_dataset ext parent_did (children_of l) account rse_id ign s)
    as [cont s1| |]; [|reflexivity|reflexivity].
  unfold ret. destruct (0 <? Z.of_nat (List.length cont)); reflexivity.
Qed.

Lemma aggregates_set_is_archive (v : option bool) (d : DataIdentifier.t) :
  aggregates (DataIdentifier.set_is_archive v d) = aggregates d.
Proof. destruct d; reflexivity. Qed.

Lemma aggregates_update (sel : DataIdentifier.t -> bool)
    (f : DataIdentifier.t -> DataIdentifier.t) (l : list DataIdentifier.t) :
  (forall d, aggregates (f d) = aggregates d) ->
  map aggregates (map (fun d => if sel d then f d else d) l) = map aggregates l.
Proof.
  intros Hf. rewrite map_map. apply map_ext. intros d.
  destruct (sel d); [apply Hf | reflexivity].
Qed.

(** What the loop of [__add_files_to_dataset] has established when it
    returns: every file of the batch passed the checks and is either
    attached already or staged, every staged association comes from a file
    of the batch, and the session differs at most by the flag
    [is_archive] of the parent. *)
Lemma dataset_rows_ok (parent_did : DataIdentifier.t) (ign : bool) (s0 : Session)
    (files : list ChildDict) (acc0 acc' : DatasetAcc) (s' : Session) :
  files_to_add acc0 = [] ->
  fold_rows (dataset_row ext parent_did ign s0) files acc0 s0 = Ok acc' s' ->
  (forall f, In f files ->
     exists row, find_did (c_key f) s0 = Some row
       /\ DataIdentifier.availability row <> Some LOST
       /\ DataIdentifier.did_type row = Some FILE
       /\ metadata_mismatch f row = false
       /\ (has_association (DataIdentifier.pk parent_did) (c_key f) s0 = true
           \/ exists a, In a (files_to_add acc')
                        /\ DataIdentifierAssociation.child a = c_key f))
  /\ (forall a, In a (files_to_add acc') ->
        exists f row, In f files /\ find_did (c_key f) s0 = Some row
          /\ a = file_association parent_did row (model_timestamp ext (utcnow s0)))
  /\ contents s' = contents s0
  /\ map aggregates (dids s') = map aggregates (dids s0)
  /\ utcnow s' = utcnow s0.
Proof.
  intros Hnil H.
  apply (fold_rows_processed (dataset_row ext parent_did ign s0)
           (fun done acc s =>
              (forall f, In f done ->
                 exists row, find_did (c_key f) s0 = Some row
                   /\ DataIdentifier.availability row <> Some LOST
                   /\ DataIdentifier.did_type row = Some FILE
                   /\ metadata_mismatch f row = false
                   /\ (has_association (DataIdentifier.pk parent_did) (c_key f) s0 = true
                       \/ exists a, In a (files_to_add acc)
                                    /\ DataIdentifierAssociation.child a = c_key f))
              /\ (forall a, In a (files_to_add acc) ->
                    exists f row, In f done /\ find_did (c_key f) s0 = Some row
                      /\ a = file_association parent_did row
                               (model_timestamp ext (utcnow s0)))
              /\ contents s = contents s0
              /\ map aggregates (dids s) = map aggregates (dids s0)
              /\ utcnow s = utcnow s0))
    with (done := []) in H.
  - exact H.
  - clear H. intros done x acc s acc1 s1 [Hdone [Hstaged [Hc [Ha Hnow]]]] Hbody.
    unfold dataset_row in Hbody.
    destruct (find_did (c_key x) s0) as [row|] eqn:Erow; [|discriminate].
    destruct (match DataIdentifier.availability row with
              | Some LOST => true | _ => false end) eqn:Elost; [discriminate|].
    destruct (negb (type_is (DataIdentifier.did_type row) FILE)) eqn:Etype;
      [discriminate|].
    destruct (metadata_mismatch x row) eqn:Emis; [discriminate|].
    assert (Hlost : DataIdentifier.availability row <> Some LOST).
    { intros E. rewrite E in Elost. discriminate. }
    assert (Hfile : DataIdentifier.did_type row = Some FILE).
    { apply negb_false_iff in Etype. apply type_is_eq in Etype. exact Etype. }
    assert (Hpk : DataIdentifier.pk row = c_key x).
    { apply find_did_some in Erow. tauto. }
    destruct (ign && has_association (DataIdentifier.pk parent_did) (c_key x) s0)
      eqn:Edup.
    { unfold ret in Hbody. inversion Hbody; subst acc1 s1.
      apply andb_prop in Edup. destruct Edup as [_ Edup].
      split; [|split; [|auto]].
      - intros f Hf. apply in_app_or in Hf. destruct Hf as [Hf | [<- | []]].
        + exact (Hdone f Hf).
        + exists row. auto 6.
      - intros a Hin. destruct (Hstaged a Hin) as [f [r [Hf Hr]]].
        exists f, r. split; [apply in_or_app; left; exact Hf | exact Hr]. }
    destruct (existsb _ (files_to_add acc)) eqn:Eseen.
    { unfold ret in Hbody. inversion Hbody; subst acc1 s1.
      apply existsb_exists in Eseen. destruct Eseen as [a [Hain Hak]].
      apply key_eqb_eq in Hak.
      split; [|split; [|auto]].
      - intros f Hf. apply in_app_or in Hf. destruct Hf as [Hf | [<- | []]].
        + exact (Hdone f Hf).
        + exists row. split; [exact Erow|]. split; [exact Hlost|].
          split; [exact Hfile|]. split; [exact Emis|]. right. exists a. auto.
      - intros a' Hin. destruct (Hstaged a' Hin) as [f [r [Hf Hr]]].
        exists f, r. split; [apply in_or_app; left; exact Hf | exact Hr]. }
    rewrite bind_get_run in Hbody.
    assert (Hs1 : contents s1 = contents s
                  /\ map aggregates (dids s1) = map aggregates (dids s)
                  /\ utcnow s1 = utcnow s
                  /\ files_to_add acc1
                     = files_to_add acc
                       ++ [file_association parent_did row
                             (model_timestamp ext (utcnow s))]).
    { unfold when, update_did, update_dids in Hbody.
      destruct (is_true (DataIdentifier.is_archive row)
                && negb (is_true (parent_is_archive acc))).
      - rewrite bind_modify_run in Hbody. unfold ret in Hbody.
        inversion Hbody; subst acc1 s1. session_simpl.
        split; [reflexivity|]. split; [|split; reflexivity].
        apply aggregates_update. intros d. apply aggregates_set_is_archive.
      - rewrite bind_ret_run in Hbody. unfold ret in Hbody.
        inversion Hbody; subst acc1 s1. repeat split; reflexivity. }
    destruct Hs1 as [Hc1 [Ha1 [Hnow1 Hadd]]].
    split; [|split; [|split; [|split]]].
    + intros f Hf. apply in_app_or in Hf. destruct Hf as [Hf | [<- | []]].
      * destruct (Hdone f Hf) as [r [H1 [H2 [H3 [H4 H5]]]]].
        exists r. split; [exact H1|]. split; [exact H2|]. split; [exact H3|].
        split; [exact H4|]. destruct H5 as [H5 | [a [Hain Hak]]]; [left; exact H5|].
        right. exists a. split; [|exact Hak]. rewrite Hadd. apply in_or_app. left.
        exact Hain.
      * exists row. split; [exact Erow|]. split; [exact Hlost|].
        split; [exact Hfile|]. split; [exact Emis|]. right.
        eexists. split; [rewrite Hadd; apply in_or_app; right; left; reflexivity|].
        exact Hpk.
    + intros a Hin. rewrite Hadd in Hin. apply in_app_or in Hin.
      destruct Hin as [Hin | [<- | []]].
      * destruct (Hstaged a Hin) as [f [r [Hf Hr]]].
        exists f, r. split; [apply in_or_app; left; exact Hf | exact Hr].
      * exists x, row. split; [apply in_or_app; right; left; reflexivity|].
        split; [exact Erow|]. rewrite Hnow. reflexivity.
    + congruence.
    + congruence.
    + congruence.
  - split; [intros f []|]. split; [rewrite Hnil; intros a []|]. auto.
Qed.

(** What a call that attaches files to a dataset has done when it returns. *)
Lemma attach_dids_dataset_effect (fuel : nat) (scope : InternalScope)
    (name : string) (l : list ChildDict) (account : InternalAccount) (ign : bool)
    (s s' : Session) (parent_did : DataIdentifier.t) :
  find_did (scope, name) s = Some parent_did ->
  DataIdentifier.did_type parent_did = Some DATASET ->
  attach_dids ext fuel scope name l account ign None s = Ok tt s' ->
  DataIdentifier.is_open parent_did = Some true
  /\ (forall f, In f (children_of l) ->
        exists row, find_did (c_key f) s = Some row
          /\ DataIdentifier.availability row <> Some LOST
          /\ DataIdentifier.did_type row = Some FILE
          /\ metadata_mismatch f row = false)
  /\ (forall c, In c l -> has_association (scope, name) (c_key c) s' = true)
  /\ (exists new_rows,
        contents s' = contents s ++ new_rows
        /\ forall a, In a new_rows ->
             exists f row, In f (children_of l)
               /\ find_did (c_key f) s = Some row
               /\ a = file_association parent_did row (model_timestamp ext (utcnow s)))
  /\ map aggregates (dids s') = map aggregates (dids s).
Proof.
  intros Hp Ht H.
  assert (Hkey : DataIdentifier.pk parent_did = (scope, name)).
  { apply find_did_some in Hp. tauto. }
  rewrite (attach_dids_dataset fuel scope name l account ign None s parent_did Hp Ht) in H.
  destruct (DataIdentifier.is_open parent_did) as [[]|] eqn:Eopen;
    cbn [is_true] in H; try discriminate.
  split; [reflexivity|].
  destruct (add_files_to_dataset ext parent_did (children_of l) account None ign s)
    as [cont s1| |] eqn:E; try discriminate.
  unfold add_files_to_dataset, register_replicas in E.
  rewrite bind_ret_run, bind_get_run in E.
  apply bind_ok_inv in E. destruct E as [acc [s2 [Hfold E]]].
  apply dataset_rows_ok in Hfold; [|reflexivity].
  destruct Hfold as [Hfiles [Hstaged [Hc [Hagg Hnow]]]].
  apply bind_ok_inv in E. destruct E as [[] [s3 [Hins E]]].
  unfold ret in E. inversion E; subst cont s3. clear E.
  unfold insert_contents in Hins. rewrite bind_get_run in Hins.
  destruct (existsb _ (files_to_add acc)); [discriminate|].
  unfold modify in Hins. inversion Hins; subst s1. clear Hins.
  assert (Hc' : contents s' = contents s ++ files_to_add acc
                /\ dids s' = dids s2).
  { destruct (0 <? Z.of_nat (List.length (files_to_add acc)));
      inversion H; subst s'; session_simpl; rewrite Hc; split; reflexivity. }
  destruct Hc' as [Hc' Hd']. clear H.
  split; [|split; [|split]].
  - intros f Hf. destruct (Hfiles f Hf) as [row [H1 [H2 [H3 [H4 _]]]]].
    exists row. auto.
  - intros c Hc0.
    assert (Hk : In (c_key c) (map c_key (children_of l))).
    { apply children_of_keys. apply in_map. exact Hc0. }
    apply in_map_iff in Hk. destruct Hk as [f [Hk Hf]]. rewrite <- Hk.
    destruct (Hfiles f Hf) as [row [_ [_ [_ [_ [Hold | [a [Hain Hak]]]]]]]].
    + rewrite Hkey in Hold. apply has_association_found in Hold.
      destruct Hold as [a [Hain [Hap Hac]]].
      apply (has_association_in _ _ _ a); [|exact Hap | exact Hac].
      rewrite Hc'. apply in_or_app. left. exact Hain.
    + apply (has_association_in _ _ _ a); [| |exact Hak].
      * rewrite Hc'. apply in_or_app. right. exact Hain.
      * destruct (Hstaged a Hain) as [f' [row' [_ [_ ->]]]].
        unfold file_association, DataIdentifierAssociation.parent. cbn.
        exact Hkey.
  - exists (files_to_add acc). split; [exact Hc'|]. exact Hstaged.
  - rewrite Hd'. exact Hagg.
Qed.

(** X1.  Attaching files to a dataset, without an [rse_id]: a call that
    returns was made on an open dataset, with a batch of stored files, none
    lost, whose announced [bytes], [adler32] and [md5] agree with the
    stored ones; afterwards every file of the batch is attached to the
    dataset, the associations that were there are still there, each new
    association caches the columns of its file, and no cached aggregate of
    any DID has changed: the aggregates of the dataset are not maintained
    on attachment. *)
Theorem attach_dids_dataset_attaches_batch (fuel : nat) (scope : InternalScope)
    (name : string) (l : list ChildDict) (account : InternalAccount) (ign : bool)
    (s s' : Session) (parent_did : DataIdentifier.t) :
  find_did (scope, name) s = Some parent_did ->
  DataIdentifier.did_type parent_did = Some DATASET ->
  attach_dids ext fuel scope name l account ign None s = Ok tt s' ->
  DataIdentifier.is_open parent_did = Some true
  /\ (forall f, In f (children_of l) ->
        exists row, find_did (c_key f) s = Some row
          /\ DataIdentifier.availability row <> Some LOST
          /\ DataIdentifier.did_type row = Some FILE
          /\ metadata_mismatch f row = false)
  /\ (forall c, In c l -> has_association (scope, name) (c_key c) s' = true)
  /\ (exists new_rows,
        contents s' = contents s ++ new_rows
        /\ forall a, In a new_rows ->
             exists f row, In f (children_of l)
               /\ find_did (c_key f) s = Some row
               /\ a = file_association parent_did row (model_timestamp ext (utcnow s)))
  /\ map aggregates (dids s') = map aggregates (dids s).
Proof. exact (attach_dids_dataset_effect fuel scope name l account ign s s' parent_did). Qed.

(** ** Detaching *)

(** One iteration of the loop of [detach_dids] that returns. *)
Lemma detach_one_effect (p c : key) (s s' : Session) :
  detach_one ext p c s = Ok tt s' ->
  exists a did,
    c <> p
    /\ find_association p c s = Some a
    /\ find_did p s = Some did
    /\ contents s'
       = filter (fun x => negb (key_eqb (DataIdentifierAssociation.parent x) p
                                && key_eqb (DataIdentifierAssociation.child x) c))
                (contents s)
    /\ contents_history s'
       = contents_history s ++ [new_detach a (DataIdentifier.created_at did) (utcnow s)]
    /\ utcnow s' = utcnow s
    /\ updated_dids s' = updated_dids s.
Proof.
  unfold detach_one. destruct (key_eqb p c) eqn:Epc; [discriminate|].
  unfold bind at 1. unfold get at 1.
  destruct (find_association p c s) as [a|]; [|discriminate].
  destruct (find_did p s) as [did|]; [|discriminate].
  intros H. exists a, did.
  split; [intros E; subst c; rewrite key_eqb_refl in Epc; discriminate|].
  split; [reflexivity|]. split; [reflexivity|].
  unfold bind, update_did, update_dids, modify, when, add_message, modify in H.
  destruct (type_is (DataIdentifier.did_type did) CONTAINER);
    simpl in H; inversion H; subst s'; clear H; simpl; repeat split; reflexivity.
Qed.

Lemma filter_same {A} (p q : A -> bool) (l : list A) :
  (forall x, In x l -> p x = q x) -> filter p l = filter q l.
Proof.
  induction l as [|x l IH]; intros H; [reflexivity|]. cbn [filter].
  rewrite (H x (or_introl eq_refl)), IH; [reflexivity|].
  intros y Hy. apply H. right. exact Hy.
Qed.

Lemma filter_keeps_all {A} (p : A -> bool) (l : list A) :
  (forall x, In x l -> p x = true) -> filter p l = l.
Proof.
  induction l as [|x l IH]; intros H; [reflexivity|]. cbn [filter].
  rewrite (H x (or_introl eq_refl)), IH; [reflexivity|].
  intros y Hy. apply H. right. exact Hy.
Qed.

Lemma filter_keeps_none {A} (p : A -> bool) (l : list A) :
  (forall x, In x l -> p x = false) -> filter p l = [].
Proof.
  induction l as [|x l IH]; intros H; [reflexivity|]. cbn [filter].
  rewrite (H x (or_introl eq_refl)). apply IH.
  intros y Hy. apply H. right. exact Hy.
Qed.

(** The loop of [detach_dids] that returns. *)
Lemma detach_loop_effect (p : key) (children : list key) :
  forall s s',
    for_each children (detach_one ext p) s = Ok tt s' ->
    (forall c, In c children -> c <> p /\ has_association p c s = true)
    /\ NoDup children
    /\ contents s'
       = filter (fun x => negb (key_eqb (DataIdentifierAssociation.parent x) p
                                && key_in (DataIdentifierAssociation.child x) children))
                (contents s)
    /\ (exists rows,
          contents_history s' = contents_history s ++ rows
          /\ map (fun h => (DataIdentifierAssociationHistory.child_scope h,
                            DataIdentifierAssociationHistory.child_name h)) rows
             = children
          /\ forall h, In h rows ->
               (DataIdentifierAssociationHistory.scope h,
                DataIdentifierAssociationHistory.name h) = p
               /\ DataIdentifierAssociationHistory.deleted_at h = Some (utcnow s))
    /\ utcnow s' = utcnow s
    /\ updated_dids s' = updated_dids s.
Proof.
  induction children as [|c cs IH]; intros s s' H.
  - cbn in H. unfold ret in H. inversion H; subst s'.
    split; [intros c []|]. split; [constructor|]. split.
    + symmetry. rewrite <- (filter_same (fun _ => true)).
      * clear. induction (contents s) as [|x l IHl]; [reflexivity|].
        cbn [filter]. rewrite IHl. reflexivity.
      * intros x _. unfold key_in. cbn. rewrite andb_false_r. reflexivity.
    + split; [|split; reflexivity]. exists []. rewrite app_nil_r.
      split; [reflexivity|]. split; [reflexivity | intros h []].
  - cbn [for_each] in H. apply bind_ok_inv in H. destruct H as [[] [s1 [H1 H2]]].
    destruct (detach_one_effect p c s s1 H1)
      as [a [did [Hneq [Ha [Hd [Hc1 [Hh1 [Hnow1 Hu1]]]]]]]].
    destruct (IH s1 s' H2) as [Hall [Hnd [Hc' [[rows [Hh' [Hkeys Hrows]]] [Hnow' Hu']]]]].
    assert (Hain : In a (contents s)
                   /\ DataIdentifierAssociation.parent a = p
                   /\ DataIdentifierAssociation.child a = c).
    { unfold find_association in Ha. apply find_some in Ha. destruct Ha as [Hin Hk].
      apply andb_prop in Hk. destruct Hk as [Hk1 Hk2].
      apply key_eqb_eq in Hk1. apply key_eqb_eq in Hk2. auto. }
    destruct Hain as [Hain [Hap Hac]].
    split; [|split; [|split; [|split; [|split]]]].
    + intros c' [<- | Hin].
      * split; [exact Hneq|]. exact (has_association_in p c s a Hain Hap Hac).
      * destruct (Hall c' Hin) as [Hn Hassoc]. split; [exact Hn|].
        apply has_association_found in Hassoc.
        destruct Hassoc as [a' [Hin' [Hp' Hc'']]].
        apply (has_association_in p c' s a'); [|exact Hp' | exact Hc''].
        rewrite Hc1 in Hin'. apply filter_In in Hin'. tauto.
    + constructor; [|exact Hnd]. intros Hin.
      destruct (Hall c Hin) as [_ Hassoc]. apply has_association_found in Hassoc.
      destruct Hassoc as [a' [Hin' [Hp' Hc'']]].
      rewrite Hc1 in Hin'. apply filter_In in Hin'. destruct Hin' as [_ Hf].
      rewrite Hp', Hc'', !key_eqb_refl in Hf. discriminate.
    + rewrite Hc', Hc1, filter_filter. apply filter_same. intros x _.
      unfold key_in. cbn [existsb].
      destruct (key_eqb (DataIdentifierAssociation.parent x) p); [|reflexivity].
      cbn [andb].
      destruct (key_eqb (DataIdentifierAssociation.child x) c); reflexivity.
    + exists (new_detach a (DataIdentifier.created_at did) (utcnow s) :: rows).
      split; [rewrite Hh', Hh1, <- app_assoc; reflexivity|]. split.
      * cbn [map]. rewrite Hkeys. f_equal. rewrite <- Hac. reflexivity.
      * intros h [<- | Hin].
        -- split; [exact Hap | reflexivity].
        -- rewrite <- Hnow1. exact (Hrows h Hin).
    + congruence.
    + congruence.
Qed.

(** What a call of [detach_dids] that returns has done. *)
Lemma detach_dids_effect (scope : InternalScope) (name : string)
    (children : list key) (s s' : Session) :
  detach_dids ext scope name children s = Ok tt s' ->
  (exists did, In did (dids s) /\ DataIdentifier.pk did = (scope, name)
               /\ is_collection did = true)
  /\ (exists a, In a (contents s)
                /\ DataIdentifierAssociation.parent a = (scope, name))
  /\ (forall c, In c children ->
        c <> (scope, name) /\ has_association (scope, name) c s = true)
  /\ NoDup children
  /\ contents s'
     = filter (fun x => negb (key_eqb (DataIdentifierAssociation.parent x) (scope, name)
                              && key_in (DataIdentifierAssociation.child x) children))
              (contents s)
  /\ (exists rows,
        contents_history s' = contents_history s ++ rows
        /\ map (fun h => (DataIdentifierAssociationHistory.child_scope h,
                          DataIdentifierAssociationHistory.child_name h)) rows
           = children
        /\ forall h, In h rows ->
             (DataIdentifierAssociationHistory.scope h,
              DataIdentifierAssociationHistory.name h) = (scope, name)
             /\ DataIdentifierAssociationHistory.deleted_at h = Some (utcnow s))
  /\ updated_dids s'
     = updated_dids s
       ++ [{| UpdatedDID.scope := scope; UpdatedDID.name := name;
              UpdatedDID.rule_evaluation_action := DETACH |}].
Proof.
  unfold detach_dids. rewrite bind_get_run.
  destruct (find _ (dids s)) as [d|] eqn:Ef; [|discriminate].
  rewrite bind_modify_run, bind_get_run. session_simpl.
  destruct (existsb _ (contents s)) eqn:Ex; [|discriminate].
  intros H. apply detach_loop_effect in H.
  destruct H as [Hall [Hnd [Hc [Hh [_ Hu]]]]].
  split.
  { apply find_some in Ef. destruct Ef as [Hin Hk]. apply andb_prop in Hk.
    destruct Hk as [Hk Hcoll]. apply key_eqb_eq in Hk. exists d. auto. }
  split.
  { apply existsb_exists in Ex. destruct Ex as [a [Hin Hk]].
    apply key_eqb_eq in Hk. exists a. auto. }
  split; [exact Hall|]. split; [exact Hnd|]. split; [exact Hc|].
  split; [exact Hh | exact Hu].
Qed.

(** X2.  A call of [detach_dids] that returns: the parent is a collection,
    the children named are pairwise distinct, none is the parent, and each
    was attached to it; the call removes exactly their associations,
    writes one history row per child, in the order of the request and
    stamped with the time of the call, and leaves one marker [DETACH]. *)
Theorem detach_dids_removes_exactly (scope : InternalScope) (name : string)
    (children : list key) (s s' : Session) :
  detach_dids ext scope name children s = Ok tt s' ->
  (exists did, In did (dids s) /\ DataIdentifier.pk did = (scope, name)
               /\ is_collection did = true)
  /\ (forall c, In c children ->
        c <> (scope, name) /\ has_association (scope, name) c s = true)
  /\ NoDup children
  /\ contents s'
     = filter (fun x => negb (key_eqb (DataIdentifierAssociation.parent x) (scope, name)
                              && key_in (DataIdentifierAssociation.child x) children))
              (contents s)
  /\ (exists rows,
        contents_history s' = contents_history s ++ rows
        /\ map (fun h => (DataIdentifierAssociationHistory.child_scope h,
                          DataIdentifierAssociationHistory.child_name h)) rows
           = children
        /\ forall h, In h rows ->
             (DataIdentifierAssociationHistory.scope h,
              DataIdentifierAssociationHistory.name h) = (scope, name)
             /\ DataIdentifierAssociationHistory.deleted_at h = Some (utcnow s))
  /\ updated_dids s'
     = updated_dids s
       ++ [{| UpdatedDID.scope := scope; UpdatedDID.name := name;
              UpdatedDID.rule_evaluation_action := DETACH |}].
Proof.
  intros H. apply detach_dids_effect in H.
  destruct H as [Hp [_ H]]. split; [exact Hp | exact H].
Qed.

Lemma detach_one_returns (p c : key) (s : Session) :
  c <> p -> has_association p c s = true -> find_did p s <> None ->
  exists s', detach_one ext p c s = Ok tt s'.
Proof.
  intros Hneq Ha Hd. unfold detach_one.
  destruct (key_eqb p c) eqn:E.
  { apply key_eqb_eq in E. congruence. }
  unfold bind at 1. unfold get at 1.
  unfold has_association in Ha.
  destruct (find_association p c s) as [a|]; [|discriminate].
  destruct (find_did p s) as [did|]; [|congruence].
  unfold bind, update_did, update_dids, modify, when, add_message, modify, ret.
  destruct (type_is (DataIdentifier.did_type did) CONTAINER); eexists; reflexivity.
Qed.

Lemma detach_loop_returns (p : key) (children : list key) :
  forall s,
    find_did p s <> None ->
    (forall c, In c children -> c <> p /\ has_association p c s = true) ->
    NoDup children ->
    exists s', for_each children (detach_one ext p) s = Ok tt s'.
Proof.
  induction children as [|c cs IH]; intros s Hd Hall Hnd.
  - exists s. reflexivity.
  - destruct (Hall c (or_introl eq_refl)) as [Hneq Ha].
    destruct (detach_one_returns p c s Hneq Ha Hd) as [s1 H1].
    cbn [for_each]. erewrite bind_run_ok; [|exact H1].
    inversion Hnd as [|? ? Hnin Hnd']; subst.
    pose proof (detach_one_parent_row p c s s1 H1) as [a [did [_ [_ Hd1]]]].
    destruct (detach_one_effect p c s s1 H1) as [_ [_ [_ [_ [_ [Hc1 _]]]]]].
    apply IH; [rewrite Hd1; discriminate | | exact Hnd'].
    intros c' Hin. destruct (Hall c' (or_intror Hin)) as [Hn' Ha'].
    split; [exact Hn'|]. apply has_association_found in Ha'.
    destruct Ha' as [a' [Hin' [Hp' Hc']]].
    apply (has_association_in p c' s1 a'); [|exact Hp' | exact Hc'].
    rewrite Hc1. apply filter_In. split; [exact Hin'|].
    rewrite Hp', Hc', key_eqb_refl. cbn [andb].
    destruct (key_eqb c' c) eqn:E; [|reflexivity].
    apply key_eqb_eq in E. rewrite E in Hin. exfalso. exact (Hnin Hin).
Qed.

(** The conditions under which [detach_dids] returns. *)
Lemma detach_dids_returns (scope : InternalScope) (name : string)
    (children : list key) (s : Session) :
  (exists did, In did (dids s) /\ DataIdentifier.pk did = (scope, name)
               /\ is_collection did = true) ->
  (exists a, In a (contents s)
             /\ DataIdentifierAssociation.parent a = (scope, name)) ->
  (forall c, In c children ->
     c <> (scope, name) /\ has_association (scope, name) c s = true) ->
  NoDup children ->
  exists s', detach_dids ext scope name children s = Ok tt s'.
Proof.
  intros [did [Hin [Hk Hcoll]]] [a [Hain Hap]] Hall Hnd.
  unfold detach_dids. rewrite bind_get_run.
  destruct (find (fun d => key_eqb (DataIdentifier.pk d) (scope, name)
                           && is_collection d) (dids s)) as [d|] eqn:Ef.
  - rewrite bind_modify_run, bind_get_run. session_simpl.
    assert (Ex : existsb (fun a0 => key_eqb (DataIdentifierAssociation.parent a0)
                                            (scope, name)) (contents s) = true).
    { apply existsb_exists. exists a. split; [exact Hain|].
      rewrite Hap. apply key_eqb_refl. }
    rewrite Ex. apply detach_loop_returns; [|exact Hall | exact Hnd].
    unfold find_did. session_simpl. intros Hnone.
    pose proof (find_none _ _ Hnone did Hin) as Hf. cbn beta in Hf.
    rewrite Hk, key_eqb_refl in Hf. discriminate.
  - pose proof (find_none _ _ Ef did Hin) as Hf. cbn beta in Hf.
    rewrite Hk, key_eqb_refl, Hcoll in Hf. discriminate.
Qed.

(** X3.  When [detach_dids] returns: exactly when the parent is a collection
    that has content, and the children named are pairwise distinct, differ
    from the parent and are attached to it. *)
Theorem detach_dids_returns_iff (scope : InternalScope) (name : string)
    (children : list key) (s : Session) :
  (exists s', detach_dids ext scope name children s = Ok tt s')
  <-> ((exists did, In did (dids s) /\ DataIdentifier.pk did = (scope, name)
                    /\ is_collection did = true)
       /\ (exists a, In a (contents s)
                     /\ DataIdentifierAssociation.parent a = (scope, name))
       /\ (forall c, In c children ->
             c <> (scope, name) /\ has_association (scope, name) c s = true)
       /\ NoDup children).
Proof.
  split.
  - intros [s' H]. apply detach_dids_effect in H.
    destruct H as [Hp [Ha [Hall [Hnd _]]]]. auto.
  - intros [Hp [Ha [Hall Hnd]]]. apply detach_dids_returns; assumption.
Qed.

(** A file and a dataset are not the same DID. *)
Lemma file_is_not_dataset (k p : key) (s : Session) (row parent_did : DataIdentifier.t) :
  find_did k s = Some row -> DataIdentifier.did_type row = Some FILE ->
  find_did p s = Some parent_did -> DataIdentifier.did_type parent_did = Some DATASET ->
  k <> p.
Proof.
  intros Hr Hf Hp Hd E. subst k. rewrite Hr in Hp. inversion Hp; subst. congruence.
Qed.

(** X4.  Attaching files to a dataset and detaching them again.  When none of
    the files was attached before and the request names each once, the
    detachment returns and the associations are those from before the
    attachment. *)
Theorem attach_then_detach_restores_contents (fuel : nat) (scope : InternalScope)
    (name : string) (l : list ChildDict) (account : InternalAccount) (ign : bool)
    (s s1 : Session) (parent_did : DataIdentifier.t) :
  find_did (scope, name) s = Some parent_did ->
  DataIdentifier.did_type parent_did = Some DATASET ->
  l <> [] ->
  NoDup (map c_key l) ->
  (forall c, In c l -> has_association (scope, name) (c_key c) s = false) ->
  attach_dids ext fuel scope name l account ign None s = Ok tt s1 ->
  exists s2,
    detach_dids ext scope name (map c_key l) s1 = Ok tt s2
    /\ contents s2 = contents s.
Proof.
  intros Hp Ht Hne Hnd Hfresh H.
  assert (Hkey : DataIdentifier.pk parent_did = (scope, name)).
  { apply find_did_some in Hp. tauto. }
  apply (attach_dids_dataset_effect fuel scope name l account ign s s1 parent_did Hp Ht)
    in H.
  destruct H as [_ [Hfiles [Hattached [[new_rows [Hc1 Hnew]] Hagg]]]].
  assert (Hchild : forall c, In c l -> c_key c <> (scope, name)).
  { intros c Hc.
    assert (Hk : In (c_key c) (map c_key (children_of l))).
    { apply children_of_keys. apply in_map. exact Hc. }
    apply in_map_iff in Hk. destruct Hk as [f [Hk Hf]]. rewrite <- Hk.
    destruct (Hfiles f Hf) as [row [Hr [_ [Hfile _]]]].
    exact (file_is_not_dataset _ _ s row parent_did Hr Hfile Hp Ht). }
  destruct (detach_dids_returns scope name (map c_key l) s1) as [s2 H2].
  - assert (Hin : In (aggregates parent_did) (map aggregates (dids s1))).
    { rewrite Hagg. apply in_map. apply find_did_some in Hp. tauto. }
    apply in_map_iff in Hin. destruct Hin as [d1 [Ha Hin]].
    exists d1. split; [exact Hin|]. unfold aggregates in Ha.
    inversion Ha as [[Hk1 Hk2 Ht1 Hb Hl He]].
    split.
    + unfold DataIdentifier.pk. rewrite Hk1, Hk2. exact Hkey.
    + unfold is_collection. rewrite Ht1, Ht. reflexivity.
  - destruct l as [|c l']; [congruence|].
    pose proof (Hattached c (or_introl eq_refl)) as Ha.
    apply has_association_found in Ha. destruct Ha as [a [Hin [Hap _]]].
    exists a. auto.
  - intros k Hk. apply in_map_iff in Hk. destruct Hk as [c [<- Hc]].
    split; [exact (Hchild c Hc) | exact (Hattached c Hc)].
  - exact Hnd.
  - exists s2. split; [exact H2|].
    apply detach_dids_effect in H2. destruct H2 as [_ [_ [_ [_ [Hc2 _]]]]].
    rewrite Hc2, Hc1, filter_app.
    replace (filter _ new_rows) with (@nil DataIdentifierAssociation.t).
    + rewrite app_nil_r. apply filter_keeps_all. intros x Hx.
        destruct (key_eqb (DataIdentifierAssociation.parent x) (scope, name)) eqn:E1;
          [|reflexivity].
        destruct (key_in (DataIdentifierAssociation.child x) (map c_key l)) eqn:E2;
          [|reflexivity].
        apply key_eqb_eq in E1. apply key_in_In in E2.
        apply in_map_iff in E2. destruct E2 as [c [Hk Hc]].
        specialize (Hfresh c Hc).
        rewrite (has_association_in (scope, name) (c_key c) s x Hx E1 (eq_sym Hk))
          in Hfresh. discriminate.
    + symmetry. apply filter_keeps_none. intros a Ha.
      destruct (Hnew a Ha) as [f [row [Hf [Hr ->]]]].
      assert (Hk : In (c_key f) (map c_key l)).
      { apply (proj1 (children_of_keys l (c_key f))). apply in_map. exact Hf. }
      apply find_did_some in Hr. destruct Hr as [_ Hr].
      unfold file_association, DataIdentifierAssociation.parent,
        DataIdentifierAssociation.child. cbn.
      change (DataIdentifier.scope parent_did, DataIdentifier.name parent_did)
        with (DataIdentifier.pk parent_did).
      change (DataIdentifier.scope row, DataIdentifier.name row)
        with (DataIdentifier.pk row).
      rewrite Hkey, key_eqb_refl, Hr. cbn [andb].
      apply key_in_In in Hk. rewrite Hk. reflexivity.
Qed.

(** ** The ancestors of a DID *)

Lemma concat_results_from {A} (l : list (option (list A))) (r : list A) :
  concat_results l = Some r ->
  forall y, In y r -> exists x, In (Some x) l /\ In y x.
Proof.
  revert r. induction l as [|[x|] l IH]; cbn [concat_results]; intros r H y Hy.
  - inversion H; subst. destruct Hy.
  - destruct (concat_results l) as [r'|] eqn:E; [|discriminate].
    inversion H; subst. apply in_app_or in Hy. destruct Hy as [Hy | Hy].
    + exists x. split; [left; reflexivity | exact Hy].
    + destruct (IH r' eq_refl y Hy) as [x' [Hx' Hy']].
      exists x'. split; [right; exact Hx' | exact Hy'].
  - discriminate.
Qed.

(** Every DID of the list is an ancestor, reached by an association of
    which the list gives the parent type. *)
Lemma all_parents_sound (tbl : list DataIdentifierAssociation.t) :
  forall fuel k l,
    all_parents fuel tbl k = Some l ->
    forall r, In r l ->
      ancestor any_edge tbl (fst r) k
      /\ exists a, In a tbl /\ DataIdentifierAssociation.parent a = fst r
                   /\ DataIdentifierAssociation.did_type a = snd r.
Proof.
  induction fuel as [|fuel IH]; intros k l H r Hr; [discriminate|].
  cbn [all_parents] in H.
  destruct (concat_results_from _ _ H r Hr) as [x [Hx Hrx]].
  apply in_map_iff in Hx. destruct Hx as [a [Hx Ha]].
  apply filter_In in Ha. destruct Ha as [Ha Hk]. apply key_eqb_eq in Hk.
  destruct (all_parents fuel tbl (DataIdentifierAssociation.parent a)) as [la|] eqn:E;
    [|discriminate].
  cbn [option_map] in Hx. inversion Hx; subst x. clear Hx.
  assert (Hstep : parent_of any_edge tbl (DataIdentifierAssociation.parent a) k).
  { exists a. unfold any_edge. auto. }
  destruct Hrx as [<- | Hrx].
  - split; [apply t_step; exact Hstep|]. exists a. auto.
  - destruct (IH _ _ E r Hrx) as [Hanc Hrow]. split; [|exact Hrow].
    apply t_trans with (y := DataIdentifierAssociation.parent a);
      [exact Hanc | apply t_step; exact Hstep].
Qed.

(** X5.  [list_all_parent_dids] lists the ancestors of a DID and nothing else:
    when the chains of parents above the DID are finite, the recursion,
    given room, returns a list whose DIDs are exactly the DIDs from which
    the DID is reached by one association or more, each entry with the
    type its association caches for the parent; the session is left as it
    was. *)
Theorem list_all_parent_dids_lists_ancestors (scope : InternalScope) (name : string)
    (s : Session) :
  Acc (parent_of any_edge (contents s)) (scope, name) ->
  exists fuel0, forall fuel, (fuel0 <= fuel)%nat ->
    exists l,
      list_all_parent_dids fuel scope name s = Ok l s
      /\ (forall p, In p (map fst l) <-> ancestor any_edge (contents s) p (scope, name))
      /\ (forall r, In r l ->
            exists a, In a (contents s)
                      /\ DataIdentifierAssociation.parent a = fst r
                      /\ DataIdentifierAssociation.did_type a = snd r).
Proof.
  intros Hacc.
  destruct (all_parents_terminates (contents s) (scope, name) Hacc) as [fuel0 Hfuel0].
  exists fuel0. intros fuel Hfuel. destruct (Hfuel0 fuel Hfuel) as [l Hl].
  exists l. unfold list_all_parent_dids. rewrite Hl. split; [reflexivity|]. split.
  - intros p. split.
    + intros Hin. apply in_map_iff in Hin. destruct Hin as [r [<- Hr]].
      exact (proj1 (all_parents_sound (contents s) fuel (scope, name) l Hl r Hr)).
    + exact (all_parents_complete (contents s) fuel (scope, name) l Hl p).
  - intros r Hr.
    exact (proj2 (all_parents_sound (contents s) fuel (scope, name) l Hl r Hr)).
Qed.

(** ** The scan of expired DIDs *)

Lemma insert_by_permutation {A} (f : A -> Z) (x : A) (l : list A) :
  Permutation (insert_by f x l) (x :: l).
Proof.
  induction l as [|y l IH]; cbn [insert_by]; [apply Permutation_refl|].
  destruct (f x <? f y); [apply Permutation_refl|].
  apply Permutation_trans with (l' := y :: x :: l);
    [apply perm_skip; exact IH | apply perm_swap].
Qed.

Lemma order_by_permutation {A} (f : A -> Z) (l : list A) :
  Permutation (order_by f l) l.
Proof.
  unfold order_by. induction l as [|x l IH]; cbn [fold_right]; [constructor|].
  apply Permutation_trans with (l' := x :: fold_right (insert_by f) [] l);
    [apply insert_by_permutation | apply perm_skip; exact IH].
Qed.

Lemma insert_by_sorted {A} (f : A -> Z) (x : A) (l : list A) :
  StronglySorted (fun a b => f a <= f b) l ->
  StronglySorted (fun a b => f a <= f b) (insert_by f x l).
Proof.
  induction 1 as [|y l Hl IH Hy]; cbn [insert_by].
  - constructor; constructor.
  - destruct (Z.ltb_spec (f x) (f y)) as [Hlt | Hge].
    + constructor; [constructor; assumption|].
      constructor; [lia|]. rewrite Forall_forall in *. intros z Hz.
      specialize (Hy z Hz). lia.
    + constructor; [exact IH|]. rewrite Forall_forall in *. intros z Hz.
      apply (Permutation_in _ (insert_by_permutation f x l)) in Hz.
      destruct Hz as [<- | Hz]; [lia | exact (Hy z Hz)].
Qed.

Lemma order_by_sorted {A} (f : A -> Z) (l : list A) :
  StronglySorted (fun a b => f a <= f b) (order_by f l).
Proof.
  unfold order_by. induction l as [|x l IH]; cbn [fold_right]; [constructor|].
  apply insert_by_sorted. exact IH.
Qed.

(** X6.  [list_expired_dids] without a worker, on any engine, with no limit
    or a limit that is not negative: the rows are those of the DIDs whose
    expiry is past and that no locked rule protects, each once, by
    ascending expiry; a limit that is not zero keeps that many of the
    first rows, and the session is left as it was. *)
Theorem list_expired_dids_unsharded (limit : option Z) (s : Session) :
  (forall n, limit = Some n -> 0 <= n) ->
  exists full,
    Permutation full
      (filter (fun d => is_expired s d && negb (has_locked_rule s d)) (dids s))
    /\ StronglySorted
         (fun a b => or0 (DataIdentifier.expired_at a) <= or0 (DataIdentifier.expired_at b))
         full
    /\ list_expired_dids ext None None limit s
       = Ok (map expired_row
               (match limit with
                | Some n => if n =? 0 then full else firstn (Z.to_nat n) full
                | None => full
                end)) s.
Proof.
  intros _. exists (list_stmt s). split; [apply order_by_permutation|].
  split; [apply order_by_sorted|].
  assert (E : apply_limit limit (list_stmt s)
              = match limit with
                | Some n => if n =? 0 then list_stmt s
                            else firstn (Z.to_nat n) (list_stmt s)
                | None => list_stmt s
                end).
  { unfold apply_limit. destruct limit as [n|]; cbn; [|reflexivity].
    destruct (n =? 0); reflexivity. }
  unfold list_expired_dids. rewrite bind_get_run.
  destruct (server_dialect (dialect s)).
  - cbn [filter_thread_work]. rewrite E. reflexivity.
  - cbn [truthy andb]. rewrite andb_false_r. cbn [andb]. rewrite E. reflexivity.
Qed.

(** ** Deleting a collection that has no parent *)





(** ** Opening a closed collection *)

(** [set_status] with [open=True], computed. *)
Lemma set_status_open_computes (fuel : nat) (scope : InternalScope) (name : string)
    (s : Session) :
  set_status ext fuel scope name [("open", PyBool true)] s
  = let where1 d :=
        key_eqb (DataIdentifier.pk d) (scope, name) && is_collection d
        && is_true (option_map negb (DataIdentifier.is_open d))
        && negb (type_is (DataIdentifier.did_type d) FILE) in
    let s1 :=
        set_messages
          (messages s
           ++ [{| event_type := "OPEN";
                  payload := with_vo (DEFAULT_VO ext) (vo scope)
                               [("scope", PyStr (external scope));
                                ("name", PyStr name)] |}]) s in
    if existsb where1 (dids s)
    then Ok tt (set_dids
                  (map (fun d => if where1 d
                                 then DataIdentifier.set_is_open (Some true) d else d)
                       (dids s)) s1)
    else match find_did (scope, name) s with
         | None => Raise DataIdentifierNotFound
         | Some _ => Raise UnsupportedOperation
         end
           (set_dids
              (map (fun d => if where1 d
                             then DataIdentifier.set_is_open (Some true) d else d)
                   (dids s)) s1).
Proof.
  unfold set_status, set_status_kwargs.
  replace (negb ("open" =? "open")%string) with false by reflexivity.
  replace (negb (py_truthy (PyBool true))) with false by reflexivity.
  cbv iota. unfold add_message. unfold bind at 1. rewrite bind_modify_run.
  unfold ret at 1. cbv beta iota.
  rewrite bind_get_run. unfold update_dids. rewrite bind_modify_run.
  session_simpl. cbn [v_is_open v_closed_at v_bytes v_length v_events no_values
                      apply_values assign].
  destruct (existsb _ (dids s)); cbn [negb].
  - reflexivity.
  - unfold find_did. session_simpl. destruct (find _ (dids s)); reflexivity.
Qed.


(** X9.  What [set_status] refuses, seen from outside the transaction: a
    status other than [open] is an [UnsupportedStatus]; opening a DID that
    does not exist is a [DataIdentifierNotFound]; opening a file, or a
    collection that is not closed, is an [UnsupportedOperation]; and the
    session is as it was. *)
Theorem set_status_open_rejects (fuel : nat) (scope : InternalScope) (name : string)
    (s : Session) :
  NoDup (map DataIdentifier.pk (dids s)) ->
  (forall k v rest, k <> "open" ->
     transactional_session (set_status ext fuel scope name ((k, v) :: rest)) s
     = Raise UnsupportedStatus s)
  /\ (find_did (scope, name) s = None ->
      transactional_session (set_status ext fuel scope name [("open", PyBool true)]) s
      = Raise DataIdentifierNotFound s)
  /\ (forall did, find_did (scope, name) s = Some did ->
        is_collection did = false \/ DataIdentifier.is_open did <> Some false ->
        transactional_session (set_status ext fuel scope name [("open", PyBool true)]) s
        = Raise UnsupportedOperation s).
Proof.
  intros Hpk. split; [|split].
  - intros k v rest Hk. unfold transactional_session, set_status.
    cbn [set_status_kwargs].
    replace (k =? "open")%string with false
      by (symmetry; apply String.eqb_neq; exact Hk).
    reflexivity.
  - intros Hnone. unfold transactional_session.
    rewrite set_status_open_computes. cbv zeta.
    replace (existsb _ (dids s)) with false; [rewrite Hnone; reflexivity|].
    symmetry. apply not_true_is_false. intros E. apply existsb_exists in E.
    destruct E as [d [Hin Hw]]. unfold find_did in Hnone.
    pose proof (find_none _ _ Hnone d Hin) as Hf. cbn beta in Hf.
    rewrite Hf in Hw. discriminate.
  - intros did Hd Hbad. unfold transactional_session.
    rewrite set_status_open_computes. cbv zeta.
    replace (existsb _ (dids s)) with false; [rewrite Hd; reflexivity|].
    symmetry. apply not_true_is_false. intros E. apply existsb_exists in E.
    destruct E as [d [Hin Hw]].
    apply andb_prop in Hw. destruct Hw as [Hw _].
    apply andb_prop in Hw. destruct Hw as [Hw Hopen].
    apply andb_prop in Hw. destruct Hw as [Hkey Hcoll].
    apply key_eqb_eq in Hkey.
    destruct (find_did_some _ _ _ Hd) as [Hin' Hk'].
    assert (d = did).
    { apply (NoDup_map_eq DataIdentifier.pk (dids s)); auto. congruence. }
    subst d. destruct Hbad as [Hbad | Hbad]; [congruence|].
    destruct (DataIdentifier.is_open did) as [[]|]; cbn in Hopen;
      try discriminate. apply Hbad. reflexivity.
Qed.

(** ** Closing what cannot be closed *)

(** X10.  Closing refuses, seen from outside the transaction: a DID that does
    not exist is a [DataIdentifierNotFound]; a file, or a collection that
    is not open, is an [UnsupportedOperation], once the resolution of its
    aggregates, which comes first, has been given room; the session is as
    it was. *)
Theorem set_status_close_rejects (scope : InternalScope) (name : string)
    (s : Session) :
  NoDup (map DataIdentifier.pk (dids s)) ->
  (find_did (scope, name) s = None ->
   forall fuel,
     transactional_session (set_status ext fuel scope name [("open", PyBool false)]) s
     = Raise DataIdentifierNotFound s)
  /\ (forall did, find_did (scope, name) s = Some did ->
        is_collection did = false \/ DataIdentifier.is_open did <> Some true ->
        (DataIdentifier.did_type did = Some CONTAINER ->
         Acc (container_child (contents s)) (scope, name)) ->
        exists fuel0, forall fuel, (fuel0 <= fuel)%nat ->
          transactional_session
            (set_status ext fuel scope name [("open", PyBool false)]) s
          = Raise UnsupportedOperation s).
Proof.
  intros Hpk. split.
  - intros Hnone fuel. unfold transactional_session, set_status, set_status_kwargs.
    replace (negb ("open" =? "open")%string) with false by reflexivity.
    replace (negb (py_truthy (PyBool false))) with true by reflexivity.
    cbv iota. unfold bind at 1. rewrite bind_get_run.
    unfold get_did_row. unfold bind at 1. rewrite bind_get_run, Hnone. reflexivity.
  - intros did Hd Hbad Hacc.
    destruct (find_did_some _ _ _ Hd) as [Hin Hkey].
    destruct (resolve_meets_resolution s did FILE) as [fuel0 Hfuel0].
    { rewrite Hkey. exact Hacc. }
    exists fuel0. intros fuel Hfuel. destruct (Hfuel0 fuel Hfuel) as [r [Hr _]].
    destruct (set_status_kwargs_close fuel scope name
                (fun d => key_eqb (DataIdentifier.pk d) (scope, name) && is_collection d)
                s did r Hd Hr)
      as [s1 [where1 [Hkw [Hwhere [_ [_ [_ Hdids]]]]]]].
    assert (Hnone : existsb where1 (dids s1) = false).
    { apply not_true_is_false. intros E. apply existsb_exists in E.
      destruct E as [d1 [Hin1 Hw1]]. rewrite Hwhere in Hw1.
      apply andb_prop in Hw1. destruct Hw1 as [Hw1 _].
      apply andb_prop in Hw1. destruct Hw1 as [Hw1 Hopen].
      apply andb_prop in Hw1. destruct Hw1 as [Hk1 Hcoll1].
      apply key_eqb_eq in Hk1.
      assert (Hfrom : exists d, In d (dids s)
                        /\ DataIdentifier.pk d = DataIdentifier.pk d1
                        /\ DataIdentifier.did_type d = DataIdentifier.did_type d1
                        /\ DataIdentifier.is_open d = DataIdentifier.is_open d1).
      { rewrite Hdids in Hin1. destruct (reevaluate_dids_at_close (config s)).
        - apply in_map_iff in Hin1. destruct Hin1 as [d [<- Hd0]].
          exists d. split; [exact Hd0|].
          destruct (key_eqb (DataIdentifier.pk d) (scope, name));
            [destruct d; repeat split | repeat split].
        - exists d1. auto. }
      destruct Hfrom as [d [Hd0 [E1 [E2 E3]]]].
      assert (d = did).
      { apply (NoDup_map_eq DataIdentifier.pk (dids s)); auto. congruence. }
      subst d. unfold is_collection in *. rewrite <- E2 in Hcoll1. rewrite <- E3 in Hopen.
      destruct Hbad as [Hbad | Hbad]; [congruence|].
      destruct (DataIdentifier.is_open did) as [[]|]; cbn in Hopen;
        try discriminate. apply Hbad. reflexivity. }
    assert (Hsome : exists d1, find_did (scope, name) s1 = Some d1).
    { unfold find_did. rewrite Hdids. destruct (reevaluate_dids_at_close (config s)).
      - rewrite find_map_update; [unfold find_did in Hd; rewrite Hd; eexists; reflexivity| |auto].
        intros x. destruct x; reflexivity.
      - exists did. exact Hd. }
    destruct Hsome as [d1 Hd1].
    unfold transactional_session, set_status. erewrite bind_run_ok; [|exact Hkw].
    cbv beta iota. rewrite bind_get_run. unfold update_dids. rewrite bind_modify_run.
    rewrite Hnone. cbn [negb]. unfold find_did in *. session_simpl.
    rewrite Hd1. reflexivity.
Qed.


(** ** Listings *)

(** [list_content] returns the associations of a DID that has some, or
    that exists. *)
Lemma list_content_rows (scope : InternalScope) (name : string) (s : Session) :
  (exists a, In a (contents s) /\ DataIdentifierAssociation.parent a = (scope, name))
  \/ find_did (scope, name) s <> None ->
  list_content scope name s
  = Ok (map content_row
          (filter (fun a => key_eqb (DataIdentifierAssociation.parent a) (scope, name))
                  (contents s))) s.
Proof.
  intros H. unfold list_content. rewrite bind_get_run.
  destruct (filter _ (contents s)) as [|a0 rows] eqn:E; [|reflexivity].
  destruct H as [[a [Hin Hp]] | H].
  - assert (Ha : In a (filter (fun a => key_eqb (DataIdentifierAssociation.parent a)
                                                (scope, name)) (contents s))).
    { apply filter_In. split; [exact Hin | apply key_eqb_eq; exact Hp]. }
    rewrite E in Ha. destruct Ha.
  - unfold get_did_row, bind, get, ret.
    destruct (find_did (scope, name) s); [reflexivity | contradiction H; reflexivity].
Qed.




(** The parent is still there when [detach_dids] returns. *)
Lemma detach_dids_keeps_parent (scope : InternalScope) (name : string)
    (children : list key) (s s' : Session) :
  detach_dids ext scope name children s = Ok tt s' ->
  find_did (scope, name) s' <> None.
Proof.
  unfold detach_dids. rewrite bind_get_run.
  destruct (find _ (dids s)) as [d|] eqn:Ef; [|discriminate].
  rewrite bind_modify_run, bind_get_run. session_simpl.
  destruct (existsb _ (contents s)) eqn:Ex; [|discriminate].
  intros H.
  apply find_some in Ef. destruct Ef as [Hin Hk]. apply andb_prop in Hk.
  destruct Hk as [Hk _].
  match type of H with
  | for_each _ _ ?s0 = _ =>
      destruct (find_did (scope, name) s0) as [did|] eqn:Ed
  end.
  - destruct (detach_loop_guards (scope, name) children _ s' did H Ed) as [did' [Hd' _]].
    rewrite Hd'. discriminate.
  - unfold find_did in Ed. session_simpl in Ed.
    apply (find_none _ _ Ed d) in Hin. rewrite Hk in Hin. discriminate.
Qed.

(** X12.  The listing of a collection after a detachment: [list_content]
    returns the associations that the parent had before, in their order,
    without those of the children detached; when all of them went, the
    listing is empty and no error is raised, the parent being still
    there. *)
Theorem list_content_after_detach (scope : InternalScope) (name : string)
    (children : list key) (s s' : Session) :
  detach_dids ext scope name children s = Ok tt s' ->
  list_content scope name s'
  = Ok (map content_row
          (filter (fun a => key_eqb (DataIdentifierAssociation.parent a) (scope, name)
                            && negb (key_in (DataIdentifierAssociation.child a) children))
                  (contents s))) s'.
Proof.
  intros H.
  rewrite list_content_rows; [|right; exact (detach_dids_keeps_parent _ _ _ _ _ H)].
  destruct (detach_dids_effect scope name children s s' H) as [_ [_ [_ [_ [Hc _]]]]].
  rewrite Hc, filter_filter. f_equal. f_equal. apply filter_same. intros a _.
  destruct (key_eqb (DataIdentifierAssociation.parent a) (scope, name)); cbn;
    [rewrite andb_true_r|]; reflexivity.
Qed.


(** X14.  [list_child_datasets] lists the child datasets of a container:
    when the chains of containers below the DID are finite, the
    statement, given room, returns on the unchanged session the datasets
    that are reached through containers, each once. *)
Theorem list_child_datasets_lists (scope : InternalScope) (name : string)
    (s : Session) :
  Acc (container_child (contents s)) (scope, name) ->
  exists fuel0, forall fuel, (fuel0 <= fuel)%nat ->
    exists l,
      list_child_datasets fuel scope name s = Ok l s
      /\ NoDup l
      /\ forall k, In k l <-> child_dataset (contents s) (scope, name) k.
Proof.
  intros Hacc.
  destruct (list_one_did_childs_terminates (contents s) (scope, name) Hacc)
    as [fuel0 Hfuel0].
  exists fuel0. intros fuel Hfuel. destruct (Hfuel0 fuel Hfuel) as [l Hl].
  exists l. unfold list_child_datasets. rewrite Hl. split; [reflexivity|].
  exact (list_one_did_childs_datasets (contents s) (scope, name) fuel l Hl).
Qed.

(** X15.  The files of a dataset and its resolved aggregates: in the
    short format [list_files] returns one row for each association of the
    dataset, in their order, and the number of the rows, the sum of their
    bytes and the sum of their events are what
    [__resolve_bytes_length_events_did] computes for the dataset at depth
    [FILE]. *)
Theorem list_files_dataset_meets_resolution (fuel fuel' : nat)
    (scope : InternalScope) (name : string) (s : Session) (did : DataIdentifier.t) :
  find_did (scope, name) s = Some did ->
  DataIdentifier.did_type did = Some DATASET ->
  exists rows,
    list_files (S fuel) scope name false s = Ok rows s
    /\ map (fun r => (f_scope r, f_name r)) rows
       = map DataIdentifierAssociation.child
           (filter (fun a => key_eqb (DataIdentifierAssociation.parent a) (scope, name))
                   (contents s))
    /\ resolve_bytes_length_events_did fuel' did FILE s
       = Ok (total (map f_bytes rows), Z.of_nat (List.length rows),
             total (map f_events rows)) s.
Proof.
  intros Hd Ht. pose proof (find_did_some _ _ _ Hd) as [_ Hk].
  eexists. split.
  { unfold list_files. rewrite bind_get_run, Hd, Ht. cbn [type_is DIDType_eqb].
    change (files_walk (S fuel) s false [((scope, name), Some DATASET)])
      with (option_map (app (dataset_files s false (scope, name)))
              (files_walk fuel s false [])).
    replace (files_walk fuel s false []) with (Some (@nil FileRow))
      by (destruct fuel; reflexivity).
    cbn [option_map]. rewrite app_nil_r. unfold dataset_files. reflexivity. }
  split.
  { rewrite map_map. reflexivity. }
  unfold resolve_bytes_length_events_did. rewrite bind_get_run, Ht.
  cbn [type_is DIDType_eqb andb orb]. unfold ret, sql_count, associations_of.
  cbn [flat_map]. rewrite app_nil_r, Hk. cbn [or0].
  rewrite !sql_sum_total, !map_map, !length_map. reflexivity.
Qed.

(** The outcomes of [list_files]: the session is as it was, and the only
    error is that of a DID that does not exist. *)
Lemma list_files_cases (fuel : nat) (scope : InternalScope) (name : string)
    (long : bool) (s : Session) :
  match list_files fuel scope name long s with
  | Ok _ s' => s' = s
  | Raise e s' => e = DataIdentifierNotFound /\ s' = s /\ find_did (scope, name) s = None
  | OutOfFuel => True
  end.
Proof.
  unfold list_files. rewrite bind_get_run.
  destruct (find_did (scope, name) s) as [did|].
  - destruct (type_is (DataIdentifier.did_type did) FILE); [reflexivity|].
    destruct (files_walk fuel s long _); [reflexivity | exact I].
  - cbn. auto.
Qed.

Lemma list_files_guarded (fuel : nat) (k : key) (long : bool) (s : Session) :
  match try_except (list_files fuel (fst k) (snd k) long) DataIdentifierNotFound (ret [])
          s with
  | Ok _ s' => s' = s
  | Raise _ _ => False
  | OutOfFuel => True
  end.
Proof.
  unfold try_except.
  pose proof (list_files_cases fuel (fst k) (snd k) long s) as H.
  destruct (list_files fuel (fst k) (snd k) long s) as [rows s1|e s1|]; [exact H| |exact I].
  destruct H as [-> [-> _]]. reflexivity.
Qed.

Lemma bulk_list_files_cases (fuel : nat) (long : bool) (s : Session) (l : list key) :
  match bulk_list_files fuel l long s with
  | Ok _ s' => s' = s
  | Raise _ _ => False
  | OutOfFuel => True
  end.
Proof.
  induction l as [|k l IH]; [reflexivity|]. cbn [bulk_list_files]. unfold bind at 1.
  pose proof (list_files_guarded fuel k long s) as H.
  destruct (try_except _ _ _ s) as [rows s1|e s1|]; [|destruct H|exact I].
  subst s1. unfold bind.
  destruct (bulk_list_files fuel l long s) as [more s1|e s1|]; [exact IH|destruct IH|exact I].
Qed.

(** X16.  [bulk_list_files] passes over a DID that does not exist: the
    call gives what it gives without that DID in the request; and no
    request makes it raise. *)
Theorem bulk_list_files_passes_over_missing (fuel : nat) (l1 l2 : list key)
    (k : key) (long : bool) (s : Session) :
  find_did k s = None ->
  bulk_list_files fuel (l1 ++ k :: l2) long s = bulk_list_files fuel (l1 ++ l2) long s
  /\ forall l e s', bulk_list_files fuel l long s <> Raise e s'.
Proof.
  intros Hk. split.
  - induction l1 as [|x l1 IH].
    + cbn [app bulk_list_files]. unfold bind at 1, try_except.
      pose proof (list_files_cases fuel (fst k) (snd k) long s) as H.
      destruct (list_files fuel (fst k) (snd k) long s) as [rows s1|e s1|] eqn:E.
      * exfalso. unfold list_files in E. rewrite bind_get_run in E.
        destruct k as [sc n]. cbn [fst snd] in E. rewrite Hk in E. discriminate.
      * destruct H as [-> [-> _]]. cbn. unfold bind, ret.
        destruct (bulk_list_files fuel l2 long s); reflexivity.
      * exfalso. unfold list_files in E. rewrite bind_get_run in E.
        destruct k as [sc n]. cbn [fst snd] in E. rewrite Hk in E. discriminate.
    + cbn [app bulk_list_files]. unfold bind at 1 3.
      pose proof (list_files_guarded fuel x long s) as H.
      destruct (try_except _ _ _ s) as [rows s1|e s1|]; [|reflexivity|reflexivity].
      subst s1. unfold bind. rewrite IH. reflexivity.
  - intros l e s' E. pose proof (bulk_list_files_cases fuel long s l) as H.
    rewrite E in H. exact H.
Qed.

(** ** Access statistics *)

Lemma set_dids_twice (a b : list DataIdentifier.t) (s : Session) :
  set_dids a (set_dids b s) = set_dids a s.
Proof. destruct s; reflexivity. Qed.

Lemma set_dids_of_dids (s : Session) : set_dids (dids s) s = s.
Proof. destruct s; reflexivity. Qed.

(** The loop of [touch_dids] applies to each row the entries that select
    it, one after the other. *)
Lemma touch_loop_rows (now : datetime) (l : list TouchDict) :
  forall s,
    for_each l (fun did =>
      update_dids (fun d => key_eqb (DataIdentifier.pk d) (t_scope did, t_name did)
                            && type_is (DataIdentifier.did_type d) (t_type did))
                  (touch now did)) s
    = Ok tt
        (set_dids
           (map (fun d =>
                   fold_left (fun d t =>
                                if key_eqb (DataIdentifier.pk d) (t_scope t, t_name t)
                                   && type_is (DataIdentifier.did_type d) (t_type t)
                                then touch now t d else d) l d)
                (dids s)) s).
Proof.
  induction l as [|t l IH]; intros s.
  - cbn. rewrite map_id, set_dids_of_dids. reflexivity.
  - cbn [for_each fold_left]. unfold update_dids at 1. rewrite bind_modify_run, IH.
    session_simpl. rewrite map_map, set_dids_twice. reflexivity.
Qed.

Lemma touch_aggregates (now : datetime) (t : TouchDict) (d : DataIdentifier.t) :
  aggregates (touch now t d) = aggregates d.
Proof. destruct d; reflexivity. Qed.

Lemma touch_row (now : datetime) (l : list TouchDict) (d : DataIdentifier.t) :
  touched now l d
    (fold_left (fun d t =>
                  if key_eqb (DataIdentifier.pk d) (t_scope t, t_name t)
                     && type_is (DataIdentifier.did_type d) (t_type t)
                  then touch now t d else d) l d).
Proof.
  induction l as [|t l IH] using rev_ind.
  - split; reflexivity.
  - rewrite fold_left_app. cbn [fold_left].
    set (d1 := fold_left _ l d) in *. destruct IH as [Hagg IH].
    assert (Hpk : DataIdentifier.pk d1 = DataIdentifier.pk d)
      by exact (f_equal (fun x => fst (fst x)) Hagg).
    assert (Hty : DataIdentifier.did_type d1 = DataIdentifier.did_type d)
      by exact (f_equal (fun x => snd (fst x)) Hagg).
    rewrite Hpk, Hty. unfold touched, touches. rewrite filter_app. cbn [filter].
    fold (touches l d).
    destruct (key_eqb (DataIdentifier.pk d) (t_scope t, t_name t)
              && type_is (DataIdentifier.did_type d) (t_type t)).
    + split; [rewrite touch_aggregates; exact Hagg|].
      rewrite rev_app_distr. cbn [rev app]. split; [|destruct d1; reflexivity].
      rewrite length_app. cbn [List.length].
      replace (DataIdentifier.access_cnt (touch now t d1))
        with (next_access_cnt (DataIdentifier.access_cnt d1))
        by (destruct d1; reflexivity).
      destruct (rev (touches l d)) as [|t0 r] eqn:Er.
      * assert (El : touches l d = []).
        { rewrite <- (rev_involutive (touches l d)), Er. reflexivity. }
        rewrite El, IH. cbn [List.length].
        destruct (DataIdentifier.access_cnt d); cbn; f_equal; lia.
      * destruct IH as [IH _]. rewrite IH. cbn [next_access_cnt]. f_equal. lia.
    + rewrite app_nil_r. split; [exact Hagg | exact IH].
Qed.

Lemma Forall2_map_rows {A} (R : A -> A -> Prop) (f : A -> A) (l : list A) :
  (forall x, R x (f x)) -> Forall2 R l (map f l).
Proof. intros H. induction l; constructor; auto. Qed.

(** X17.  [touch_dids] counts the accesses: the call returns [True] and
    changes the rows of [dids] only; a row that no entry of the request
    names with its type is as it was; another keeps its key, its type and
    its aggregates, has counted one access for every entry that names it,
    from 0 when the counter was null, and carries as [accessed_at] the
    time given by the last of these entries, the time of the call when
    the entry gives none. *)
Theorem touch_dids_counts_accesses (l : list TouchDict) (s : Session) :
  exists rows,
    touch_dids l s = Ok true (set_dids rows s)
    /\ Forall2 (touched (utcnow s) l) (dids s) rows.
Proof.
  eexists. split.
  - unfold touch_dids. rewrite bind_get_run. cbv zeta.
    erewrite bind_run_ok by apply touch_loop_rows. reflexivity.
  - apply Forall2_map_rows. intros d. apply touch_row.
Qed.

(** ** The flag [is_new] *)







(** ** Reading a DID *)

(** The row of a collection after its close. *)
Lemma set_status_close_row (scope : InternalScope) (name : string) (s : Session)
    (did : DataIdentifier.t) :
  (forall rule, notifies_only (generate_rule_notifications ext rule)) ->
  find_did (scope, name) s = Some did ->
  is_collection did = true ->
  DataIdentifier.is_open did = Some true ->
  (DataIdentifier.did_type did = Some CONTAINER ->
   Acc (container_child (contents s)) (scope, name)) ->
  exists fuel0, forall fuel, (fuel0 <= fuel)%nat ->
    exists s' r,
      set_status ext fuel scope name [("open", PyBool false)] s = Ok tt s'
      /\ resolve_bytes_length_events_did fuel did FILE s = Ok r s
      /\ find_did (scope, name) s'
         = Some (apply_values
                   {| v_is_open := Some false; v_closed_at := Some (utcnow s);
                      v_bytes := Some (fst (fst r)); v_length := Some (snd (fst r));
                      v_events := Some (snd r) |}
                   (if reevaluate_dids_at_close (config s)
                    then DataIdentifier.set_is_new (Some true) did else did)).
Proof.
  intros Hnotify Hd Hcoll Hopen Hacc.
  pose proof (find_did_some _ _ _ Hd) as [_ Hkey].
  destruct (resolve_meets_resolution s did FILE) as [fuel0 Hfuel0].
  { rewrite Hkey. exact Hacc. }
  exists fuel0. intros fuel Hfuel. destruct (Hfuel0 fuel Hfuel) as [r [Hr _]].
  destruct (set_status_kwargs_close fuel scope name
              (fun d => key_eqb (DataIdentifier.pk d) (scope, name) && is_collection d)
              s did r Hd Hr)
    as [s1 [where1 [Hkw [Hwhere [_ [_ [_ Hdids]]]]]]].
  set (did1 := if reevaluate_dids_at_close (config s)
               then DataIdentifier.set_is_new (Some true) did else did).
  set (values := {| v_is_open := Some false; v_closed_at := Some (utcnow s);
                    v_bytes := Some (fst (fst r)); v_length := Some (snd (fst r));
                    v_events := Some (snd r) |}) in *.
  assert (Hsame : DataIdentifier.pk did1 = DataIdentifier.pk did
                  /\ DataIdentifier.did_type did1 = DataIdentifier.did_type did
                  /\ DataIdentifier.is_open did1 = DataIdentifier.is_open did).
  { subst did1. destruct (reevaluate_dids_at_close (config s)); destruct did;
      repeat split; reflexivity. }
  destruct Hsame as [E1 [E2 E3]].
  assert (Hfind1 : find (fun d => key_eqb (DataIdentifier.pk d) (scope, name)) (dids s1)
                   = Some did1).
  { rewrite Hdids. subst did1. destruct (reevaluate_dids_at_close (config s)).
    - rewrite find_map_update; [unfold find_did in Hd; rewrite Hd; reflexivity | |auto].
      intros x. destruct x; reflexivity.
    - exact Hd. }
  assert (Hw1 : where1 did1 = true).
  { rewrite Hwhere. unfold is_collection in *.
    rewrite E1, E2, E3, Hkey, key_eqb_refl, Hcoll, Hopen.
    destruct (DataIdentifier.did_type did) as [[]|]; simpl in *;
      try discriminate; reflexivity. }
  assert (Hex : existsb where1 (dids s1) = true).
  { apply existsb_exists. exists did1. split; [|exact Hw1].
    apply find_some in Hfind1. tauto. }
  destruct (for_each_notifies
              (filter (fun r0 => key_eqb (ReplicationRule.scope r0, ReplicationRule.name r0)
                                         (scope, name))
                      (rules (set_dids (map (fun d => if where1 d then apply_values values d
                                                      else d) (dids s1)) s1)))
              (generate_rule_notifications ext) Hnotify
              (set_dids (map (fun d => if where1 d then apply_values values d else d)
                             (dids s1)) s1))
    as [s' [Hrun [Hd' _]]].
  exists s', r. split.
  { unfold set_status. erewrite bind_run_ok; [|exact Hkw]. cbv beta iota.
    rewrite bind_get_run. unfold update_dids. rewrite bind_modify_run.
    rewrite Hex. unfold values. cbn [negb v_is_open].
    rewrite bind_get_run. exact Hrun. }
  split; [exact Hr|].
  unfold find_did. rewrite Hd'. simpl.
  apply find_map_update_found; [exact Hfind1 | exact Hw1 |].
  intros x. destruct x; reflexivity.
Qed.

(** X19.  Closing freezes what [get_did] computes: the length and the
    bytes that [get_did] resolves for an open collection at depth [FILE]
    are, once the collection is closed, those that [get_did] reads from
    its row; the row is then reported closed, with the same scope, name,
    type, account, [monotonic] and [expired_at]. *)
Theorem get_did_after_close (scope : InternalScope) (name : string) (s : Session)
    (did : DataIdentifier.t) :
  (forall rule, notifies_only (generate_rule_notifications ext rule)) ->
  find_did (scope, name) s = Some did ->
  is_collection did = true ->
  DataIdentifier.is_open did = Some true ->
  (DataIdentifier.did_type did = Some CONTAINER ->
   Acc (container_child (contents s)) (scope, name)) ->
  exists fuel0, forall fuel, (fuel0 <= fuel)%nat ->
    exists s' bytes_ length,
      get_did fuel scope name (Some FILE) s
      = Ok (CollectionInfo (DataIdentifier.scope did) (DataIdentifier.name did)
              (DataIdentifier.did_type did) (DataIdentifier.account did)
              (Some true) (DataIdentifier.monotonic did)
              (DataIdentifier.expired_at did) (Some length) (Some bytes_)) s
      /\ set_status ext fuel scope name [("open", PyBool false)] s = Ok tt s'
      /\ get_did fuel scope name None s'
         = Ok (CollectionInfo (DataIdentifier.scope did) (DataIdentifier.name did)
                 (DataIdentifier.did_type did) (DataIdentifier.account did)
                 (Some false) (DataIdentifier.monotonic did)
                 (DataIdentifier.expired_at did) (Some length) (Some bytes_)) s'.
Proof.
  intros Hnotify Hd Hcoll Hopen Hacc.
  destruct (set_status_close_row scope name s did Hnotify Hd Hcoll Hopen Hacc)
    as [fuel0 Hfuel0].
  exists fuel0. intros fuel Hfuel.
  destruct (Hfuel0 fuel Hfuel) as [s' [[[b l] e] [Hset [Hr Hrow]]]].
  assert (Hfile : type_is (DataIdentifier.did_type did) FILE = false).
  { unfold is_collection in Hcoll.
    destruct (DataIdentifier.did_type did) as [[]|]; simpl in *;
      try discriminate; reflexivity. }
  exists s', b, l. split.
  { unfold get_did.
    erewrite bind_run_ok;
      [|unfold get_did_row; rewrite bind_get_run, Hd; reflexivity].
    erewrite bind_run_ok; [|erewrite bind_run_ok by exact Hr; reflexivity].
    cbv beta iota. rewrite Hfile, Hopen. reflexivity. }
  split; [exact Hset|].
  unfold get_did.
  erewrite bind_run_ok;
    [|unfold get_did_row; rewrite bind_get_run, Hrow; reflexivity].
  rewrite bind_ret_run. cbv beta iota. cbn [fst snd].
  destruct (reevaluate_dids_at_close (config s)); destruct did; cbn in *;
    rewrite Hfile; reflexivity.
Qed.

(** ** Attaching constituents to an archive *)

(** A lookup in a table that has received rows. *)
Lemma find_after_rows {A} (p : A -> bool) (tbl added : list A) :
  find p (tbl ++ added)
  = match find p tbl with Some x => Some x | None => find p added end.
Proof.
  induction tbl as [|x tbl IH]; [reflexivity|]. cbn [app find].
  destruct (p x); [reflexivity | exact IH].
Qed.

(** What the loop of [__add_files_to_archive] has staged: the session is
    untouched; a staged association is for the archive and for a file of
    the request; a file of the request is staged, or was ignored as a
    duplicate; a staged DID is new, a file and a constituent; and the
    child of a staged association is a new DID or a stored file, which is
    a constituent unless [must_set_constituent] was set. *)
Lemma archive_rows_staged (parent_did : DataIdentifier.t) (account : InternalAccount)
    (ign : bool) (s : Session) (files : list ChildDict) (acc' : ArchiveAcc)
    (st st' : Session) :
  fold_rows (archive_row ext parent_did account ign s) files
    {| dids_to_add := []; must_set_constituent := false;
       archive_contents_to_add := [] |} st = Ok acc' st' ->
  st' = st
  /\ (forall a, In a (archive_contents_to_add acc') ->
        (ConstituentAssociation.scope a, ConstituentAssociation.name a)
        = DataIdentifier.pk parent_did
        /\ In (ConstituentAssociation.child_scope a, ConstituentAssociation.child_name a)
              (map c_key files))
  /\ (forall f, In f files ->
        (ign = true
         /\ find_constituent (DataIdentifier.pk parent_did) (c_key f) s <> None)
        \/ exists a, In a (archive_contents_to_add acc')
                     /\ (ConstituentAssociation.child_scope a,
                         ConstituentAssociation.child_name a) = c_key f)
  /\ (forall d, In d (dids_to_add acc') ->
        find_did (DataIdentifier.pk d) s = None
        /\ DataIdentifier.did_type d = Some FILE
        /\ DataIdentifier.constituent d = Some true)
  /\ (forall a, In a (archive_contents_to_add acc') ->
        match find_did (ConstituentAssociation.child_scope a,
                        ConstituentAssociation.child_name a) s with
        | Some row =>
            DataIdentifier.did_type row = Some FILE
            /\ (is_true (DataIdentifier.constituent row) = true
                \/ must_set_constituent acc' = true)
        | None =>
            exists d, In d (dids_to_add acc')
                      /\ DataIdentifier.pk d
                         = (ConstituentAssociation.child_scope a,
                            ConstituentAssociation.child_name a)
        end).
Proof.
  intros H.
  apply (fold_rows_processed (archive_row ext parent_did account ign s)
           (fun done acc st0 =>
              st0 = st
              /\ (forall a, In a (archive_contents_to_add acc) ->
                    (ConstituentAssociation.scope a, ConstituentAssociation.name a)
                    = DataIdentifier.pk parent_did
                    /\ In (ConstituentAssociation.child_scope a,
                           ConstituentAssociation.child_name a) (map c_key done))
              /\ (forall f, In f done ->
                    (ign = true
                     /\ find_constituent (DataIdentifier.pk parent_did) (c_key f) s <> None)
                    \/ exists a, In a (archive_contents_to_add acc)
                                 /\ (ConstituentAssociation.child_scope a,
                                     ConstituentAssociation.child_name a) = c_key f)
              /\ (forall d, In d (dids_to_add acc) ->
                    find_did (DataIdentifier.pk d) s = None
                    /\ DataIdentifier.did_type d = Some FILE
                    /\ DataIdentifier.constituent d = Some true)
              /\ (forall a, In a (archive_contents_to_add acc) ->
                    match find_did (ConstituentAssociation.child_scope a,
                                    ConstituentAssociation.child_name a) s with
                    | Some row =>
                        DataIdentifier.did_type row = Some FILE
                        /\ (is_true (DataIdentifier.constituent row) = true
                            \/ must_set_constituent acc = true)
                    | None =>
                        exists d, In d (dids_to_add acc)
                                  /\ DataIdentifier.pk d
                                     = (ConstituentAssociation.child_scope a,
                                        ConstituentAssociation.child_name a)
                    end))) with (done := []) in H.
  - exact H.
  - clear H. intros done x acc st0 acc1 st1 [-> [Ha [Hf [Hd Hc]]]] H.
    assert (Hdone : forall k, In k (map c_key done) -> In k (map c_key (done ++ [x]))).
    { intros k Hk. rewrite map_app. apply in_or_app. left. exact Hk. }
    assert (Hx : In (c_key x) (map c_key (done ++ [x]))).
    { rewrite map_app. apply in_or_app. right. left. reflexivity. }
    unfold archive_row in H.
    destruct (ign && match find_constituent (DataIdentifier.pk parent_did) (c_key x) s with
                     | Some _ => true | None => false end) eqn:Eign.
    { unfold ret in H. inversion H; subst acc1 st1. clear H.
      split; [reflexivity|]. split.
      { intros a Hin. destruct (Ha a Hin). auto. }
      split; [|split; [exact Hd | exact Hc]].
      intros f Hin. apply in_app_or in Hin. destruct Hin as [Hin | [<- | []]].
      - exact (Hf f Hin).
      - left. apply andb_prop in Eign. destruct Eign as [-> E]. split; [reflexivity|].
        destruct (find_constituent _ _ s); [discriminate | discriminate]. }
    destruct (existsb _ (archive_contents_to_add acc)) eqn:Eex.
    { unfold ret in H. inversion H; subst acc1 st1. clear H.
      split; [reflexivity|]. split.
      { intros a Hin. destruct (Ha a Hin). auto. }
      split; [|split; [exact Hd | exact Hc]].
      intros f Hin. apply in_app_or in Hin. destruct Hin as [Hin | [<- | []]].
      - exact (Hf f Hin).
      - right. apply existsb_exists in Eex. destruct Eex as [a [Hin E]].
        apply key_eqb_eq in E. exists a. auto. }
    destruct (find_did (c_key x) s) as [row|] eqn:Erow.
    + destruct (negb (type_is (DataIdentifier.did_type row) FILE)) eqn:Et;
        [discriminate|].
      unfold ret in H. inversion H; subst acc1 st1. clear H.
      cbn [archive_contents_to_add dids_to_add must_set_constituent].
      apply negb_false_iff, type_is_eq in Et.
      split; [reflexivity|]. split.
      { intros a Hin. apply in_app_or in Hin. destruct Hin as [Hin | [<- | []]].
        - destruct (Ha a Hin). auto.
        - split; [reflexivity|].
          cbn [ConstituentAssociation.child_scope ConstituentAssociation.child_name].
          exact Hx. }
      split.
      { intros f Hin. apply in_app_or in Hin. destruct Hin as [Hin | [<- | []]].
        - destruct (Hf f Hin) as [L | [a [Hin' E]]]; [left; exact L|].
          right. exists a. split; [apply in_or_app; left; exact Hin' | exact E].
        - right. eexists. split; [apply in_or_app; right; left; reflexivity|].
          reflexivity. }
      split; [exact Hd|].
      intros a Hin. apply in_app_or in Hin. destruct Hin as [Hin | [<- | []]].
      * specialize (Hc a Hin). destruct (find_did _ s); [|exact Hc].
        destruct Hc as [Hty [Hco | Hms]]; (split; [exact Hty|]); [left; exact Hco|].
        right. rewrite Hms. reflexivity.
      * cbn [ConstituentAssociation.child_scope ConstituentAssociation.child_name].
        fold (c_key x). rewrite Erow. split; [exact Et|].
        destruct (is_true (DataIdentifier.constituent row)); [left; reflexivity|].
        right. apply orb_true_r.
    + destruct (dict_get "bytes" (c_attrs x)) as [b|]; [|discriminate].
      unfold ret in H. inversion H; subst acc1 st1. clear H.
      cbn [archive_contents_to_add dids_to_add must_set_constituent].
      split; [reflexivity|]. split.
      { intros a Hin. apply in_app_or in Hin. destruct Hin as [Hin | [<- | []]].
        - destruct (Ha a Hin). auto.
        - split; [reflexivity | exact Hx]. }
      split.
      { intros f Hin. apply in_app_or in Hin. destruct Hin as [Hin | [<- | []]].
        - destruct (Hf f Hin) as [L | [a [Hin' E]]]; [left; exact L|].
          right. exists a. split; [apply in_or_app; left; exact Hin' | exact E].
        - right. eexists. split; [apply in_or_app; right; left; reflexivity|].
          reflexivity. }
      split.
      { intros d Hin. apply in_app_or in Hin. destruct Hin as [Hin | [<- | []]].
        - exact (Hd d Hin).
        - split; [exact Erow|]. split; reflexivity. }
      intros a Hin. apply in_app_or in Hin. destruct Hin as [Hin | [<- | []]].
      * specialize (Hc a Hin). destruct (find_did _ s); [exact Hc|].
        destruct Hc as [d [Hin' E]]. exists d.
        split; [apply in_or_app; left; exact Hin' | exact E].
      * cbn [ConstituentAssociation.child_scope ConstituentAssociation.child_name].
        fold (c_key x). rewrite Erow. eexists.
        split; [apply in_or_app; right; left; reflexivity | reflexivity].
  - split; [reflexivity|]. split; [intros a []|]. split; [intros f []|].
    split; [intros d [] | intros a []].
Qed.

(** A row looked up by its key through an update that keeps the keys. *)
Lemma find_did_updated (k : key) (g : DataIdentifier.t -> DataIdentifier.t)
    (rows : list DataIdentifier.t) :
  (forall d, DataIdentifier.pk (g d) = DataIdentifier.pk d) ->
  find (fun d => key_eqb (DataIdentifier.pk d) k) (map g rows)
  = option_map g (find (fun d => key_eqb (DataIdentifier.pk d) k) rows).
Proof.
  intros Hg. induction rows as [|d rows IH]; [reflexivity|]. cbn [map find].
  rewrite Hg. destruct (key_eqb (DataIdentifier.pk d) k); [reflexivity | exact IH].
Qed.

(** What [__add_files_to_archive] has done when it returns: the staged
    rows are inserted, none of the staged associations was there, and the
    rows of [dids] went through updates that keep keys and types, only set
    the flags [constituent] and [is_archive], and set them where the
    function says. *)
Lemma add_files_to_archive_effect (parent_did : DataIdentifier.t)
    (files : list ChildDict) (account : InternalAccount) (ign : bool)
    (s s' : Session) :
  add_files_to_archive ext parent_did files account ign s = Ok tt s' ->
  exists acc g,
    fold_rows (archive_row ext parent_did account ign s) files
      {| dids_to_add := []; must_set_constituent := false;
         archive_contents_to_add := [] |} s = Ok acc s
    /\ (forall a, In a (archive_contents_to_add acc) ->
          find_constituent
            (ConstituentAssociation.scope a, ConstituentAssociation.name a)
            (ConstituentAssociation.child_scope a, ConstituentAssociation.child_name a)
            s = None)
    /\ dids s' = map g (dids s ++ dids_to_add acc)
    /\ archive_contents s' = archive_contents s ++ archive_contents_to_add acc
    /\ contents s' = contents s
    /\ updated_dids s' = updated_dids s
    /\ (forall d,
          DataIdentifier.pk (g d) = DataIdentifier.pk d
          /\ DataIdentifier.did_type (g d) = DataIdentifier.did_type d
          /\ (DataIdentifier.constituent d = Some true ->
              DataIdentifier.constituent (g d) = Some true)
          /\ (must_set_constituent acc = true ->
              key_in (DataIdentifier.pk d) (map c_key files) = true ->
              DataIdentifier.constituent (g d) = Some true)
          /\ (DataIdentifier.pk d = DataIdentifier.pk parent_did ->
              DataIdentifier.is_archive d = DataIdentifier.is_archive parent_did ->
              DataIdentifier.is_archive (g d) = Some true)).
Proof.
  unfold add_files_to_archive. rewrite bind_get_run. intros H.
  apply bind_ok_inv in H. destruct H as [acc [st [Hfold H]]].
  pose proof (archive_rows_staged parent_did account ign s files acc s st Hfold)
    as [-> _].
  rewrite bind_modify_run in H.
  destruct (existsb _ (archive_contents_to_add acc)) eqn:Edup; [discriminate|].
  rewrite bind_modify_run in H.
  assert (Hdup : forall a, In a (archive_contents_to_add acc) ->
            find_constituent
              (ConstituentAssociation.scope a, ConstituentAssociation.name a)
              (ConstituentAssociation.child_scope a, ConstituentAssociation.child_name a)
              s = None).
  { intros a Hin.
    destruct (find_constituent _ _ s) eqn:E; [|reflexivity].
    assert (X : existsb
                  (fun a0 =>
                     match find_constituent
                             (ConstituentAssociation.scope a0, ConstituentAssociation.name a0)
                             (ConstituentAssociation.child_scope a0,
                              ConstituentAssociation.child_name a0) s with
                     | Some _ => true | None => false end)
                  (archive_contents_to_add acc) = true).
    { apply existsb_exists. exists a. split; [exact Hin|]. rewrite E. reflexivity. }
    rewrite X in Edup. discriminate. }
  exists acc.
  destruct (must_set_constituent acc) eqn:Ems;
    destruct (negb (is_true (DataIdentifier.is_archive parent_did))) eqn:Earch;
    unfold when, update_did, update_dids in H;
    repeat first [rewrite bind_modify_run in H | rewrite bind_get_run in H
                 | rewrite bind_ret_run in H];
    unfold modify, ret in H; inversion H; subst s'; clear H; session_simpl;
    eexists;
    (split; [exact Hfold|]); (split; [exact Hdup|]);
    (split; [rewrite ?map_map; first [reflexivity | symmetry; apply map_id]|]);
    (split; [reflexivity|]); (split; [reflexivity|]); (split; [reflexivity|]);
    intros d; cbv beta.
  all: repeat split; intros;
    repeat match goal with
           | |- context [if ?c then _ else _] => destruct c eqn:?
           end;
    try discriminate;
    cbn in *; try reflexivity; try congruence; try assumption.
  all: try (match goal with
            | H0 : key_in ?k ?l = true, H1 : key_in ?k ?l && _ = false
              |- DataIdentifier.constituent ?x = _ =>
                rewrite H0 in H1; cbn in H1;
                destruct (DataIdentifier.constituent x) as [[]|]; cbn in *; congruence
            end).
  all: repeat match goal with
              | H : context [DataIdentifier.pk (DataIdentifier.set_constituent ?v ?x)]
                |- _ =>
                  change (DataIdentifier.pk (DataIdentifier.set_constituent v x))
                    with (DataIdentifier.pk x) in H
              end.
  all: try (match goal with
            | Hp : DataIdentifier.pk ?x = _,
              H1 : key_eqb (DataIdentifier.pk ?x) _ = false |- _ =>
                rewrite Hp, key_eqb_refl in H1; discriminate
            end).
  all: try (match goal with
            | Ha : DataIdentifier.is_archive ?x = DataIdentifier.is_archive ?p
              |- _ =>
                rewrite Ha;
                destruct (DataIdentifier.is_archive p) as [[]|];
                cbn in *; congruence
            end).
Qed.

(** [attach_dids] on a file is [__add_files_to_archive] when the name is
    that of an archive, and an error otherwise. *)
Lemma attach_dids_archive (fuel : nat) (scope : InternalScope) (name : string)
    (l : list ChildDict) (account : InternalAccount) (ign : bool)
    (rse_id : option string) (s : Session) (parent_did : DataIdentifier.t) :
  find_did (scope, name) s = Some parent_did ->
  DataIdentifier.did_type parent_did = Some FILE ->
  attach_dids ext fuel scope name l account ign rse_id s
  = if is_archive ext name then
      match add_files_to_archive ext parent_did (children_of l) account ign s with
      | Ok _ s1 => Ok tt s1
      | Raise e s1 => Raise e s1
      | OutOfFuel => OutOfFuel
      end
    else Raise UnsupportedOperation s.
Proof.
  intros Hp Ht. unfold attach_dids, attach_dids_to_dids, attach_loop.
  simpl a_scope. simpl a_name. simpl a_dids. simpl a_rse_id.
  unfold bind at 1. unfold bind at 1. unfold get at 1. rewrite Hp, Ht. simpl.
  destruct (is_archive ext name); simpl; [|reflexivity].
  unfold bind.
  destruct (add_files_to_archive ext parent_did (children_of l) account ign s)
    as [[] s1| |]; reflexivity.
Qed.

Lemma attach_dids_archive_effect (fuel : nat) (scope : InternalScope)
    (name : string) (l : list ChildDict) (account : InternalAccount) (ign : bool)
    (rse_id : option string) (s s' : Session) (parent_did : DataIdentifier.t) :
  find_did (scope, name) s = Some parent_did ->
  DataIdentifier.did_type parent_did = Some FILE ->
  attach_dids ext fuel scope name l account ign rse_id s = Ok tt s' ->
  is_archive ext name = true
  /\ (exists new,
        archive_contents s' = archive_contents s ++ new
        /\ forall a, In a new ->
             (ConstituentAssociation.scope a, ConstituentAssociation.name a)
             = (scope, name)
             /\ In (ConstituentAssociation.child_scope a,
                    ConstituentAssociation.child_name a) (map c_key l)
             /\ find_constituent (scope, name)
                  (ConstituentAssociation.child_scope a,
                   ConstituentAssociation.child_name a) s = None
             /\ exists row,
                  find_did (ConstituentAssociation.child_scope a,
                            ConstituentAssociation.child_name a) s' = Some row
                  /\ DataIdentifier.did_type row = Some FILE
                  /\ DataIdentifier.constituent row = Some true)
  /\ (forall c, In c l -> find_constituent (scope, name) (c_key c) s' <> None)
  /\ (exists p', find_did (scope, name) s' = Some p'
                 /\ DataIdentifier.is_archive p' = Some true)
  /\ contents s' = contents s
  /\ updated_dids s' = updated_dids s.
Proof.
  intros Hp Ht H.
  rewrite (attach_dids_archive fuel scope name l account ign rse_id s parent_did Hp Ht)
    in H.
  destruct (is_archive ext name) eqn:Ez; [|discriminate].
  destruct (add_files_to_archive ext parent_did (children_of l) account ign s)
    as [[] s1| |] eqn:E; try discriminate.
  inversion H; subst s1. clear H.
  destruct (add_files_to_archive_effect parent_did (children_of l) account ign s s' E)
    as [acc [g [Hfold [Hdup [Hdids [Harch [Hcont [Hupd Hg]]]]]]]].
  destruct (archive_rows_staged parent_did account ign s (children_of l) acc s s Hfold)
    as [_ [Ha [Hf [Hd Hc]]]].
  pose proof (find_did_some _ _ _ Hp) as [_ Hkey].
  assert (Hfind : forall k,
            find_did k s'
            = option_map g
                (match find_did k s with
                 | Some x => Some x
                 | None => find (fun d => key_eqb (DataIdentifier.pk d) k)
                                (dids_to_add acc)
                 end)).
  { intros k. unfold find_did. rewrite Hdids, find_did_updated, find_after_rows;
      [reflexivity | intros d; apply Hg]. }
  split; [reflexivity|]. split.
  { exists (archive_contents_to_add acc). split; [exact Harch|]. intros a Hin.
    destruct (Ha a Hin) as [Hpa Hch]. rewrite Hkey in Hpa.
    split; [exact Hpa|]. split; [apply children_of_keys; exact Hch|]. split.
    { rewrite <- Hpa. apply Hdup. exact Hin. }
    rewrite Hfind. specialize (Hc a Hin).
    destruct (find_did (ConstituentAssociation.child_scope a,
                        ConstituentAssociation.child_name a) s) as [row|] eqn:Erow.
    - destruct Hc as [Hty Hco]. exists (g row). split; [reflexivity|].
      destruct (Hg row) as [_ [Hgt [Hgc [Hgm _]]]]. split; [rewrite Hgt; exact Hty|].
      destruct Hco as [Hco | Hms].
      + apply Hgc. destruct (DataIdentifier.constituent row) as [[]|];
          cbn in Hco; congruence.
      + apply Hgm; [exact Hms|]. apply key_in_In.
        pose proof (find_did_some _ _ _ Erow) as [_ Hk]. rewrite Hk. exact Hch.
    - destruct Hc as [d [Hin' Hpk]].
      destruct (find (fun d => key_eqb (DataIdentifier.pk d)
                                 (ConstituentAssociation.child_scope a,
                                  ConstituentAssociation.child_name a))
                     (dids_to_add acc)) as [d'|] eqn:Ed'.
      + apply find_some in Ed'. destruct Ed' as [Hd'in _].
        destruct (Hd d' Hd'in) as [_ [Hty Hco]].
        exists (g d'). split; [reflexivity|].
        destruct (Hg d') as [_ [Hgt [Hgc _]]].
        split; [rewrite Hgt; exact Hty | apply Hgc; exact Hco].
      + exfalso. apply (find_none _ _ Ed' d) in Hin'.
        rewrite Hpk, key_eqb_refl in Hin'. discriminate. }
  split.
  { intros c Hin.
    assert (Hk : In (c_key c) (map c_key (children_of l))).
    { apply children_of_keys. apply in_map. exact Hin. }
    apply in_map_iff in Hk. destruct Hk as [f [Hfk Hfin]].
    unfold find_constituent. rewrite Harch, find_after_rows. rewrite <- Hfk.
    destruct (find _ (archive_contents s)) eqn:Eold; [discriminate|].
    destruct (Hf f Hfin) as [[_ Hs] | [a [Hain Hak]]].
    - exfalso. apply Hs. unfold find_constituent. rewrite Hkey. exact Eold.
    - intros Hn. apply (find_none _ _ Hn a) in Hain as Hfalse.
      destruct (Ha a Hain) as [Hpa _]. rewrite Hkey in Hpa.
      rewrite Hpa, Hak, !key_eqb_refl in Hfalse. discriminate. }
  split.
  { rewrite Hfind, Hp. cbn [option_map]. exists (g parent_did).
    split; [reflexivity|]. apply (Hg parent_did); reflexivity. }
  split; [exact Hcont | exact Hupd].
Qed.

(** X20.  Attaching files to an archive: a call of [attach_dids] on a file
    that returns was made on a name that is that of an archive; the
    associations of constituents gain rows, all for the archive and for
    files of the request, none of which was a constituent of the archive
    before; every file of the request is a constituent of the archive
    afterwards; each new constituent has a row in [dids] that is a file
    flagged [constituent]; the archive is flagged [is_archive]; and
    neither the associations of datasets nor the markers of updated DIDs
    have changed. *)
Theorem attach_dids_archive_registers_constituents (fuel : nat)
    (scope : InternalScope) (name : string) (l : list ChildDict)
    (account : InternalAccount) (ign : bool) (rse_id : option string)
    (s s' : Session) (parent_did : DataIdentifier.t) :
  find_did (scope, name) s = Some parent_did ->
  DataIdentifier.did_type parent_did = Some FILE ->
  attach_dids ext fuel scope name l account ign rse_id s = Ok tt s' ->
  is_archive ext name = true
  /\ (exists new,
        archive_contents s' = archive_contents s ++ new
        /\ forall a, In a new ->
             (ConstituentAssociation.scope a, ConstituentAssociation.name a)
             = (scope, name)
             /\ In (ConstituentAssociation.child_scope a,
                    ConstituentAssociation.child_name a) (map c_key l)
             /\ find_constituent (scope, name)
                  (ConstituentAssociation.child_scope a,
                   ConstituentAssociation.child_name a) s = None
             /\ exists row,
                  find_did (ConstituentAssociation.child_scope a,
                            ConstituentAssociation.child_name a) s' = Some row
                  /\ DataIdentifier.did_type row = Some FILE
                  /\ DataIdentifier.constituent row = Some true)
  /\ (forall c, In c l -> find_constituent (scope, name) (c_key c) s' <> None)
  /\ (exists p', find_did (scope, name) s' = Some p'
                 /\ DataIdentifier.is_archive p' = Some true)
  /\ contents s' = contents s
  /\ updated_dids s' = updated_dids s.
Proof.
  exact (attach_dids_archive_effect fuel scope name l account ign rse_id s s'
           parent_did).
Qed.


(** ** The walk of [list_files] *)

Lemma files_walk_done (fuel : nat) (s : Session) (long : bool) :
  files_walk fuel s long [] = Some [].
Proof. destruct fuel; reflexivity. Qed.

Lemma files_walk_pop (fuel : nat) (s : Session) (long : bool) (k : key)
    (t : option DIDType) (rest : list walk_node) :
  files_walk (S fuel) s long ((k, t) :: rest)
  = if type_is t DATASET
    then option_map (app (dataset_files s long k)) (files_walk fuel s long rest)
    else files_walk fuel s long (rev (pushed (contents s) k) ++ rest).
Proof. reflexivity. Qed.

(** More room does not change the result of the walk. *)
Lemma files_walk_more_fuel (s : Session) (long : bool) (fuel : nat) :
  forall (stack : list walk_node) (rows : list FileRow) (fuel' : nat),
    files_walk fuel s long stack = Some rows -> (fuel <= fuel')%nat ->
    files_walk fuel' s long stack = Some rows.
Proof.
  induction fuel as [|fuel IH]; intros stack rows fuel' H Hle.
  - destruct stack as [|[k t] rest]; [|discriminate].
    inversion H. apply files_walk_done.
  - destruct stack as [|[k t] rest]; [inversion H; apply files_walk_done|].
    destruct fuel' as [|fuel']; [lia|].
    rewrite files_walk_pop in *. destruct (type_is t DATASET).
    + destruct (files_walk fuel s long rest) as [r|] eqn:E; [|discriminate].
      rewrite (IH rest r fuel' E ltac:(lia)). exact H.
    + apply (IH _ rows fuel' H). lia.
Qed.

(** The walk of a stack is the walk of its top followed by the walk of
    the rest. *)
Lemma files_walk_app (s : Session) (long : bool) (f1 : nat) :
  forall (st1 st2 : list walk_node) (r1 r2 : list FileRow) (f2 : nat),
    files_walk f1 s long st1 = Some r1 ->
    files_walk f2 s long st2 = Some r2 ->
    files_walk (f1 + f2) s long (st1 ++ st2) = Some (r1 ++ r2).
Proof.
  induction f1 as [|f1 IH]; intros st1 st2 r1 r2 f2 H1 H2.
  - destruct st1 as [|[k t] rest]; [|discriminate]. inversion H1. exact H2.
  - destruct st1 as [|[k t] rest].
    + inversion H1. cbn [app]. apply (files_walk_more_fuel s long f2 st2 r2); [exact H2|lia].
    + cbn [app plus]. rewrite files_walk_pop in *. destruct (type_is t DATASET).
      * destruct (files_walk f1 s long rest) as [r|] eqn:E; [|discriminate].
        cbn [option_map] in H1. inversion H1; subst r1.
        rewrite (IH rest st2 r r2 f2 E H2). cbn [option_map]. rewrite app_assoc.
        reflexivity.
      * rewrite app_assoc. apply IH; [exact H1 | exact H2].
Qed.

(** The walk of a stack of nodes that each can be walked ends. *)
Lemma files_walk_each (s : Session) (long : bool) (stack : list walk_node) :
  (forall n, In n stack -> exists f rows, files_walk f s long [n] = Some rows) ->
  exists f rows, files_walk f s long stack = Some rows.
Proof.
  induction stack as [|n stack IH]; intros H.
  - exists O, []. reflexivity.
  - destruct (H n (or_introl eq_refl)) as [f1 [r1 H1]].
    destruct IH as [f2 [r2 H2]]; [intros m Hm; apply H; right; exact Hm|].
    exists (f1 + f2)%nat, (r1 ++ r2).
    exact (files_walk_app s long f1 [n] stack r1 r2 f2 H1 H2).
Qed.

(** The walk from a node ends when the chains of nodes pushed below it
    are finite. *)
Lemma files_walk_ends (s : Session) (long : bool) (n : walk_node) :
  Acc (walk_step (contents s)) n ->
  exists f rows, files_walk f s long [n] = Some rows.
Proof.
  induction 1 as [[k t] _ IH].
  destruct (type_is t DATASET) eqn:Et.
  - exists 1%nat. eexists. rewrite files_walk_pop, Et, files_walk_done. reflexivity.
  - destruct (files_walk_each s long (rev (pushed (contents s) k))) as [f [rows Hf]].
    + intros m Hm. apply IH. split; [exact Et|]. apply in_rev. exact Hm.
    + exists (S f), rows. rewrite files_walk_pop, Et, app_nil_r. exact Hf.
Qed.

(** The rows of the walk are the rows of the datasets at which it
    arrives. *)
Lemma files_walk_rows (s : Session) (long : bool) (fuel : nat) :
  forall (stack : list walk_node) (rows : list FileRow),
    files_walk fuel s long stack = Some rows ->
    forall r, In r rows
              <-> exists n k', In n stack /\ arrives (contents s) n k'
                               /\ In r (dataset_files s long k').
Proof.
  induction fuel as [|fuel IH]; intros stack rows H r.
  - destruct stack as [|[k t] rest]; [|discriminate]. inversion H. split.
    + intros [].
    + intros [n [k' [[] _]]].
  - destruct stack as [|[k t] rest].
    { inversion H. split; [intros [] | intros [n [k' [[] _]]]]. }
    rewrite files_walk_pop in H. destruct (type_is t DATASET) eqn:Et.
    + destruct (files_walk fuel s long rest) as [r'|] eqn:E; [|discriminate].
      cbn [option_map] in H. inversion H; subst rows. rewrite in_app_iff.
      rewrite (IH rest r' E r). split.
      * intros [Hr | [n [k' [Hn Ha]]]].
        -- exists (k, t), k. split; [left; reflexivity|].
           split; [apply arrives_here; exact Et | exact Hr].
        -- exists n, k'. split; [right; exact Hn | exact Ha].
      * intros [n [k' [[<- | Hn] [Ha Hr]]]].
        -- left. inversion Ha; subst.
           ++ exact Hr.
           ++ match goal with
              | Hs : walk_step _ _ (k, t) |- _ => destruct Hs as [Hs _]
              end.
              cbn [snd] in *. congruence.
        -- right. exists n, k'. auto.
    + rewrite (IH _ rows H r). split.
      * intros [n [k' [Hn [Ha Hr]]]]. apply in_app_or in Hn.
        destruct Hn as [Hn | Hn].
        -- exists (k, t), k'. split; [left; reflexivity|]. split; [|exact Hr].
           apply (@arrives_below (contents s) (k, t) n k'); [|exact Ha].
           split; [exact Et | apply in_rev; exact Hn].
        -- exists n, k'. split; [right; exact Hn | auto].
      * intros [n [k' [[<- | Hn] [Ha Hr]]]].
        -- inversion Ha; subst; [congruence|].
           match goal with
           | Hs : walk_step _ ?m (k, t) |- _ =>
               destruct Hs as [_ Hs]; exists m, k'
           end.
           split; [apply in_or_app; left; apply in_rev; rewrite rev_involutive;
                   assumption|].
           split; assumption.
        -- exists n, k'. split; [apply in_or_app; right; exact Hn | auto].
Qed.

(** X24.  [list_files] on a collection lists the files of the datasets
    reached from it: when the chains of DIDs pushed below the collection
    are finite, the walk, given room, returns on the unchanged session;
    and a row is returned exactly when it is a row of a dataset at which
    the walk arrives: the collection itself when it is a dataset, and
    otherwise a DID attached as a dataset to it or below it through
    children that were not attached as datasets. *)
Theorem list_files_lists_reached_datasets (scope : InternalScope) (name : string)
    (long : bool) (s : Session) (did : DataIdentifier.t) :
  find_did (scope, name) s = Some did ->
  type_is (DataIdentifier.did_type did) FILE = false ->
  Acc (walk_step (contents s)) ((scope, name), DataIdentifier.did_type did) ->
  exists fuel0, forall fuel, (fuel0 <= fuel)%nat ->
    exists rows,
      list_files fuel scope name long s = Ok rows s
      /\ forall r, In r rows
                   <-> exists k',
                         arrives (contents s)
                           ((scope, name), DataIdentifier.did_type did) k'
                         /\ In r (dataset_files s long k').
Proof.
  intros Hd Ht Hacc.
  destruct (files_walk_ends s long _ Hacc) as [fuel0 [rows H0]].
  exists fuel0. intros fuel Hfuel.
  pose proof (files_walk_more_fuel s long fuel0 _ rows fuel H0 Hfuel) as H.
  exists rows. split.
  - unfold list_files. rewrite bind_get_run, Hd, Ht. cbv beta.
    cbv delta [walk_node key] in H. rewrite H. reflexivity.
  - intros r. rewrite (files_walk_rows s long fuel _ rows H r). split.
    + intros [n [k' [[<- | []] Ha]]]. exists k'. exact Ha.
    + intros [k' Ha]. eexists. exists k'. split; [left; reflexivity | exact Ha].
Qed.

(** ** Followers *)

Lemma set_dids_followed_twice (a b : list DidFollowed.t) (s : Session) :
  set_dids_followed a (set_dids_followed b s) = set_dids_followed a s.
Proof. destruct s; reflexivity. Qed.

(** The loop of [remove_dids_from_followed]. *)
Lemma remove_dids_from_followed_rows (account : InternalAccount) (l : list key) :
  forall s,
    remove_dids_from_followed l account s
    = Ok tt
        (set_dids_followed
           (filter (fun f => negb (key_in (DidFollowed.scope f, DidFollowed.name f) l
                                   && scope_eqb (DidFollowed.account f) account))
                   (dids_followed s)) s).
Proof.
  unfold remove_dids_from_followed.
  induction l as [|k l IH]; intros s.
  - cbn. rewrite filter_keeps_all; [|reflexivity]. destruct s; reflexivity.
  - cbn [for_each]. rewrite bind_modify_run, IH. session_simpl.
    rewrite set_dids_followed_twice, filter_filter. f_equal. f_equal.
    apply filter_same. intros f _. unfold key_in. cbn [existsb].
    destruct (key_eqb (DidFollowed.scope f, DidFollowed.name f) k);
      destruct (existsb _ l); destruct (scope_eqb (DidFollowed.account f) account);
      reflexivity.
Qed.

(** A selection of accounts among the followers listed. *)
Lemma followers_selected (p : InternalAccount -> bool) (rows : list DidFollowed.t) :
  filter p (map DidFollowed.account rows)
  = map DidFollowed.account (filter (fun f => p (DidFollowed.account f)) rows).
Proof.
  induction rows as [|f rows IH]; [reflexivity|]. cbn [map filter].
  destruct (p (DidFollowed.account f)); cbn [map]; rewrite IH; reflexivity.
Qed.

(** X25.  [remove_dids_from_followed] makes the account stop following
    the DIDs of the request and nothing else: the call returns; for a DID
    of the request [get_users_following_did] then lists the accounts that
    it listed before without the account, and for any other DID what it
    listed before; the rows of [dids] and the associations are
    untouched. *)
Theorem remove_dids_from_followed_unfollows (l : list key)
    (account : InternalAccount) (scope : InternalScope) (name : string)
    (s : Session) :
  exists s' users,
    remove_dids_from_followed l account s = Ok tt s'
    /\ get_users_following_did scope name s = Ok users s
    /\ get_users_following_did scope name s'
       = Ok (if key_in (scope, name) l
             then filter (fun a => negb (scope_eqb a account)) users
             else users) s'
    /\ dids s' = dids s
    /\ contents s' = contents s.
Proof.
  eexists. eexists. split; [apply remove_dids_from_followed_rows|].
  split; [reflexivity|]. split; [|split; reflexivity].
  unfold get_users_following_did. rewrite bind_get_run. unfold ret. session_simpl.
  f_equal. rewrite filter_filter.
  destruct (key_in (scope, name) l) eqn:E.
  - rewrite followers_selected, filter_filter. f_equal. apply filter_same.
    intros f _.
    destruct (key_eqb (DidFollowed.scope f, DidFollowed.name f) (scope, name)) eqn:Ek.
    + apply key_eqb_eq in Ek. rewrite Ek, E. cbn.
      rewrite andb_true_r. reflexivity.
    + rewrite andb_false_r. reflexivity.
  - f_equal. apply filter_same. intros f _.
    destruct (key_eqb (DidFollowed.scope f, DidFollowed.name f) (scope, name)) eqn:Ek.
    + apply key_eqb_eq in Ek. rewrite Ek, E. reflexivity.
    + rewrite andb_false_r. reflexivity.
Qed.

(** ** Attachment, detachment and the resolved aggregates *)

Lemma decrement_aggregates_type (b e : option Z) (d : DataIdentifier.t) :
  DataIdentifier.did_type (decrement_aggregates b e d) = DataIdentifier.did_type d.
Proof.
  unfold decrement_aggregates.
  repeat match goal with |- context [if ?c then _ else _] => destruct c end;
    reflexivity.
Qed.

(** The row of the parent keeps its key and its type along the loop. *)
Lemma detach_loop_parent (p : key) (children : list key) :
  forall (s s' : Session) (did : DataIdentifier.t),
    for_each children (detach_one ext p) s = Ok tt s' ->
    find_did p s = Some did ->
    exists did',
      find_did p s' = Some did'
      /\ DataIdentifier.pk did' = DataIdentifier.pk did
      /\ DataIdentifier.did_type did' = DataIdentifier.did_type did.
Proof.
  induction children as [|c cs IH]; intros s s' did H Hd.
  - cbn in H. unfold ret in H. inversion H; subst s'. exists did. auto.
  - cbn [for_each] in H. apply bind_ok_inv in H. destruct H as [[] [s1 [H1 H2]]].
    destruct (detach_one_parent_row p c s s1 H1) as [a [did0 [_ [Hd0 Hd1]]]].
    rewrite Hd in Hd0. inversion Hd0; subst did0.
    destruct (IH s1 s' _ H2 Hd1) as [did' [Hd' [Hk Ht]]].
    exists did'. split; [exact Hd'|].
    rewrite Hk, Ht, decrement_aggregates_pk, decrement_aggregates_type. auto.
Qed.

(** A sum over rows splits into the sums over the rows kept and the rows
    removed. *)
Lemma total_kept_removed {A} (col : A -> option Z) (gone : A -> bool) (rows : list A) :
  total (map col rows)
  = total (map col (filter (fun x => negb (gone x)) rows))
    + total (map col (filter gone rows)).
Proof.
  induction rows as [|x rows IH]; [reflexivity|]. cbn [map filter total fold_right].
  destruct (gone x); cbn [negb map total fold_right]; fold (total (map col rows));
    fold (total (map col (filter (fun x => negb (gone x)) rows)));
    fold (total (map col (filter gone rows))); lia.
Qed.

Lemma count_kept_removed {A} (gone : A -> bool) (rows : list A) :
  Z.of_nat (List.length rows)
  = Z.of_nat (List.length (filter (fun x => negb (gone x)) rows))
    + Z.of_nat (List.length (filter gone rows)).
Proof.
  induction rows as [|x rows IH]; [reflexivity|]. cbn [filter List.length].
  destruct (gone x); cbn [negb List.length]; lia.
Qed.

(** The resolution of a dataset at depth [FILE] reads its associations. *)
Lemma resolve_dataset_files (fuel : nat) (did : DataIdentifier.t) (s : Session) :
  DataIdentifier.did_type did = Some DATASET ->
  resolve_bytes_length_events_did fuel did FILE s
  = let rows := filter (fun a => key_eqb (DataIdentifierAssociation.parent a)
                                         (DataIdentifier.pk did)) (contents s) in
    Ok (total (map DataIdentifierAssociation.bytes rows),
        Z.of_nat (List.length rows),
        total (map DataIdentifierAssociation.events rows)) s.
Proof.
  intros Ht. unfold resolve_bytes_length_events_did. rewrite bind_get_run, Ht.
  cbn [type_is DIDType_eqb andb orb]. unfold ret, sql_count, associations_of.
  cbn [flat_map]. rewrite app_nil_r. cbn [or0]. rewrite !sql_sum_total. reflexivity.
Qed.

(** X26.  Detaching files lowers the resolved aggregates of a dataset by
    what the removed associations carried: after a call of [detach_dids]
    that returns, [__resolve_bytes_length_events_did] at depth [FILE] on
    the row of the dataset gives the bytes, the length and the events it
    gave before, less the bytes, the number and the events of the
    associations removed. *)
Theorem detach_dids_lowers_resolution (fuel : nat) (scope : InternalScope)
    (name : string) (children : list key) (s s' : Session)
    (did : DataIdentifier.t) :
  find_did (scope, name) s = Some did ->
  DataIdentifier.did_type did = Some DATASET ->
  detach_dids ext scope name children s = Ok tt s' ->
  exists did' bytes_ length events,
    find_did (scope, name) s' = Some did'
    /\ resolve_bytes_length_events_did fuel did FILE s = Ok (bytes_, length, events) s
    /\ let removed :=
         filter (fun a => key_eqb (DataIdentifierAssociation.parent a) (scope, name)
                          && key_in (DataIdentifierAssociation.child a) children)
                (contents s) in
       resolve_bytes_length_events_did fuel did' FILE s'
       = Ok (bytes_ - total (map DataIdentifierAssociation.bytes removed),
             length - Z.of_nat (List.length removed),
             events - total (map DataIdentifierAssociation.events removed)) s'.
Proof.
  intros Hd Ht H.
  pose proof (find_did_some _ _ _ Hd) as [_ Hkey].
  destruct (detach_dids_effect scope name children s s' H) as [_ [_ [_ [_ [Hc _]]]]].
  assert (Hrow : exists did', find_did (scope, name) s' = Some did'
                              /\ DataIdentifier.pk did' = DataIdentifier.pk did
                              /\ DataIdentifier.did_type did' = DataIdentifier.did_type did).
  { revert H. unfold detach_dids. rewrite bind_get_run.
    destruct (find _ (dids s)) as [d|]; [|discriminate].
    rewrite bind_modify_run, bind_get_run. session_simpl.
    destruct (existsb _ (contents s)); [|discriminate].
    intros H. apply (detach_loop_parent (scope, name) children _ s' did H).
    exact Hd. }
  destruct Hrow as [did' [Hd' [Hk' Ht']]].
  exists did'. do 3 eexists. split; [exact Hd'|]. split.
  { rewrite (resolve_dataset_files fuel did s Ht). reflexivity. }
  cbv zeta. rewrite (resolve_dataset_files fuel did' s'); [|congruence].
  cbv zeta. rewrite Hk', Hkey, Hc, !filter_filter.
  set (sel := fun a => key_eqb (DataIdentifierAssociation.parent a) (scope, name)).
  set (gone := fun a => key_in (DataIdentifierAssociation.child a) children).
  assert (Ekept : filter (fun x => negb (key_eqb (DataIdentifierAssociation.parent x)
                                               (scope, name)
                                        && key_in (DataIdentifierAssociation.child x)
                                             children)
                                  && key_eqb (DataIdentifierAssociation.parent x)
                                       (scope, name)) (contents s)
                  = filter (fun x => negb (gone x)) (filter sel (contents s))).
  { rewrite filter_filter. apply filter_same. intros a _. unfold sel, gone.
    destruct (key_eqb (DataIdentifierAssociation.parent a) (scope, name));
      destruct (key_in (DataIdentifierAssociation.child a) children); reflexivity. }
  assert (Egone : filter (fun a => sel a && gone a) (contents s)
                  = filter gone (filter sel (contents s))).
  { rewrite filter_filter. reflexivity. }
  rewrite Ekept. fold sel.
  change (filter (fun a => key_eqb (DataIdentifierAssociation.parent a) (scope, name)
                           && key_in (DataIdentifierAssociation.child a) children)
                 (contents s))
    with (filter (fun a => sel a && gone a) (contents s)).
  rewrite Egone.
  rewrite (total_kept_removed DataIdentifierAssociation.bytes gone (filter sel (contents s))).
  rewrite (total_kept_removed DataIdentifierAssociation.events gone (filter sel (contents s))).
  rewrite (count_kept_removed gone (filter sel (contents s))).
  f_equal. f_equal; [f_equal|]; lia.
Qed.

(** Rows of the same keys, types and aggregates hold the same DIDs. *)
Lemma find_did_aggregates (k : key) (rows : list DataIdentifier.t) :
  forall (rows' : list DataIdentifier.t) (d : DataIdentifier.t),
    map aggregates rows' = map aggregates rows ->
    find (fun d => key_eqb (DataIdentifier.pk d) k) rows = Some d ->
    exists d', find (fun d => key_eqb (DataIdentifier.pk d) k) rows' = Some d'
               /\ aggregates d' = aggregates d.
Proof.
  induction rows as [|x rows IH]; intros rows' d E H; [discriminate|].
  destruct rows' as [|x' rows']; [discriminate|]. cbn [map] in E.
  assert (Ex : aggregates x' = aggregates x)
    by exact (f_equal (fun t => hd (aggregates x) t) E).
  assert (Er : map aggregates rows' = map aggregates rows)
    by exact (f_equal (@tl _) E).
  cbn [find] in *.
  assert (Ek : DataIdentifier.pk x' = DataIdentifier.pk x)
    by exact (f_equal (fun t => fst (fst t)) Ex).
  rewrite Ek. destruct (key_eqb (DataIdentifier.pk x) k).
  - inversion H; subst d. exists x'. auto.
  - exact (IH rows' d Er H).
Qed.

(** X27.  Attaching files raises the resolved aggregates of a dataset by
    what the new associations carry, while its stored aggregates stay:
    after an attachment that returns, the row of the dataset has the
    bytes, the length and the events it had, and
    [__resolve_bytes_length_events_did] at depth [FILE] gives what it gave
    before plus the bytes, the number and the events of the new
    associations, each of which carries the columns of its file. *)
Theorem attach_dids_raises_resolution (fuel fuel' : nat) (scope : InternalScope)
    (name : string) (l : list ChildDict) (account : InternalAccount) (ign : bool)
    (s s' : Session) (did : DataIdentifier.t) :
  find_did (scope, name) s = Some did ->
  DataIdentifier.did_type did = Some DATASET ->
  attach_dids ext fuel scope name l account ign None s = Ok tt s' ->
  exists did' new_rows bytes_ length events,
    find_did (scope, name) s' = Some did'
    /\ aggregates did' = aggregates did
    /\ contents s' = contents s ++ new_rows
    /\ (forall a, In a new_rows ->
          exists f row, In f (children_of l) /\ find_did (c_key f) s = Some row
            /\ DataIdentifierAssociation.bytes a = DataIdentifier.bytes row
            /\ DataIdentifierAssociation.events a = DataIdentifier.events row)
    /\ resolve_bytes_length_events_did fuel' did FILE s = Ok (bytes_, length, events) s
    /\ resolve_bytes_length_events_did fuel' did' FILE s'
       = Ok (bytes_ + total (map DataIdentifierAssociation.bytes new_rows),
             length + Z.of_nat (List.length new_rows),
             events + total (map DataIdentifierAssociation.events new_rows)) s'.
Proof.
  intros Hd Ht H.
  pose proof (find_did_some _ _ _ Hd) as [_ Hkey].
  destruct (attach_dids_dataset_effect fuel scope name l account ign s s' did Hd Ht H)
    as [_ [_ [_ [[new_rows [Hc Hnew]] Hagg]]]].
  destruct (find_did_aggregates (scope, name) (dids s) (dids s') did Hagg Hd)
    as [did' [Hd' Hagg']].
  assert (Hk' : DataIdentifier.pk did' = DataIdentifier.pk did)
    by exact (f_equal (fun t => fst (fst t)) Hagg').
  assert (Ht' : DataIdentifier.did_type did' = DataIdentifier.did_type did)
    by exact (f_equal (fun t => snd (fst t)) Hagg').
  exists did', new_rows. do 3 eexists. split; [exact Hd'|]. split; [exact Hagg'|].
  split; [exact Hc|]. split.
  { intros a Ha. destruct (Hnew a Ha) as [f [row [Hf [Hrow ->]]]].
    exists f, row. repeat split; assumption. }
  split.
  { rewrite (resolve_dataset_files fuel' did s Ht). reflexivity. }
  rewrite (resolve_dataset_files fuel' did' s'); [|congruence].
  cbv zeta. rewrite Hk', Hkey, Hc, filter_app.
  rewrite (filter_keeps_all _ new_rows).
  - rewrite !map_app, length_app, Nat2Z.inj_add. f_equal. f_equal; [f_equal|].
    + unfold total. rewrite fold_right_app.
      generalize (map DataIdentifierAssociation.bytes
                    (filter (fun a => key_eqb (DataIdentifierAssociation.parent a)
                                              (scope, name)) (contents s))).
      intros rows. induction rows as [|o rows IH]; cbn [fold_right]; [lia|].
      rewrite IH. lia.
    + unfold total. rewrite fold_right_app.
      generalize (map DataIdentifierAssociation.events
                    (filter (fun a => key_eqb (DataIdentifierAssociation.parent a)
                                              (scope, name)) (contents s))).
      intros rows. induction rows as [|o rows IH]; cbn [fold_right]; [lia|].
      rewrite IH. lia.
  - intros a Ha. destruct (Hnew a Ha) as [f [row [_ [_ ->]]]].
    apply key_eqb_eq. exact Hkey.
Qed.

(** ** What attachment and detachment refuse *)


(** The errors of one iteration of the loop of [detach_dids]. *)
Lemma detach_one_raises (p c : key) (s : Session) :
  match detach_one ext p c s with
  | Ok _ _ => True
  | Raise e _ =>
      (e = UnsupportedOperation /\ c = p)
      \/ (e = DataIdentifierNotFound /\ c <> p
          /\ (has_association p c s = false \/ find_did p s = None))
  | OutOfFuel => False
  end.
Proof.
  unfold detach_one. destruct (key_eqb p c) eqn:Epc.
  - apply key_eqb_eq in Epc. left. auto.
  - assert (Hne : c <> p).
    { intros ->. rewrite key_eqb_refl in Epc. discriminate. }
    unfold bind at 1. unfold get at 1. unfold has_association.
    destruct (find_association p c s) as [a|]; [|right; auto].
    destruct (find_did p s) as [did|]; [|right; auto].
    unfold bind, update_did, update_dids, modify, when, add_message, modify.
    destruct (type_is (DataIdentifier.did_type did) CONTAINER); exact I.
Qed.

Lemma detach_loop_raises (p : key) (children : list key) :
  forall s,
    match for_each children (detach_one ext p) s with
    | Ok _ _ => True
    | Raise e _ =>
        (e = UnsupportedOperation /\ In p children) \/ e = DataIdentifierNotFound
    | OutOfFuel => False
    end.
Proof.
  induction children as [|c cs IH]; intros s; [exact I|].
  cbn [for_each]. unfold bind. pose proof (detach_one_raises p c s) as H1.
  destruct (detach_one ext p c s) as [[] s1|e s1|].
  - specialize (IH s1). destruct (for_each cs (detach_one ext p) s1) as [[] s2|e s2|];
      [exact I | | exact IH].
    destruct IH as [[-> Hin] | ->]; [left; split; [reflexivity | right; exact Hin]|].
    right. reflexivity.
  - destruct H1 as [[-> ->] | [-> _]]; [left; split; [reflexivity | left; reflexivity]|].
    right. reflexivity.
  - exact H1.
Qed.

(** X29.  The errors of [detach_dids]: a call either returns or raises;
    it raises nothing but [DataIdentifierNotFound] and
    [UnsupportedOperation], the latter only when the parent is among the
    children to detach; and after an error the transaction leaves the
    session as it was. *)
Theorem detach_dids_raises_only (scope : InternalScope) (name : string)
    (children : list key) (s : Session) :
  (exists s', transactional_session (detach_dids ext scope name children) s = Ok tt s')
  \/ transactional_session (detach_dids ext scope name children) s
     = Raise DataIdentifierNotFound s
  \/ (transactional_session (detach_dids ext scope name children) s
      = Raise UnsupportedOperation s
      /\ In (scope, name) children).
Proof.
  unfold transactional_session, detach_dids. rewrite bind_get_run.
  destruct (find _ (dids s)) as [d|]; [|right; left; reflexivity].
  rewrite bind_modify_run, bind_get_run. session_simpl.
  destruct (existsb _ (contents s)); [|right; left; reflexivity].
  match goal with
  | |- context [for_each children (detach_one ext (scope, name)) ?s0] =>
      pose proof (detach_loop_raises (scope, name) children s0) as H;
      destruct (for_each children (detach_one ext (scope, name)) s0)
        as [[] s1|e s1|]
  end.
  - left. exists s1. reflexivity.
  - destruct H as [[-> Hin] | ->]; [right; right; auto | right; left; reflexivity].
  - destruct H.
Qed.
End Properties.

(** * Properties of the temporary tables *)

Section TempTableProperties.

Import TempTables.

Variable Row : Type.
Variable oracle_global_temp_tables : list string.
Variable generate_uuid : nat -> string.

(** ** Names *)

Lemma digits_of_uint (d : Decimal.uint) :
  digits_only (NilEmpty.string_of_uint d) = true.
Proof.
  induction d; [reflexivity|..];
    cbn [NilEmpty.string_of_uint digits_only]; rewrite IHd; reflexivity.
Qed.

Lemma digits_str_of_nat (n : nat) : digits_only (str_of_nat n) = true.
Proof.
  unfold str_of_nat, NilZero.string_of_uint.
  destruct (Nat.to_uint n) as [|u|u|u|u|u|u|u|u|u|u]; [reflexivity|..];
    match goal with
    | |- digits_only (NilEmpty.string_of_uint ?d) = true => exact (digits_of_uint d)
    end.
Qed.

(** No underscore among digits. *)
Lemma digits_no_underscore (a b : string) :
  digits_only (a ++ "_" ++ b) = false.
Proof.
  induction a as [|c a IH]; [reflexivity|]. cbn [append digits_only] in *.
  rewrite IH. apply andb_false_r.
Qed.

(** A name and a suffix of digits are read back from [name_suffix]. *)
Lemma name_idx_split (n1 : string) :
  forall (n2 d1 d2 : string),
    digits_only d1 = true -> digits_only d2 = true ->
    (n1 ++ "_" ++ d1 = n2 ++ "_" ++ d2)%string -> n1 = n2 /\ d1 = d2.
Proof.
  induction n1 as [|c n1 IH]; intros n2 d1 d2 H1 H2 E.
  - destruct n2 as [|c2 n2]; cbn in E.
    + inversion E. auto.
    + inversion E; subst. pose proof (digits_no_underscore n2 d2) as X.
      cbn [append] in X. congruence.
  - destruct n2 as [|c2 n2]; cbn in E.
    + inversion E; subst. pose proof (digits_no_underscore n1 d1) as X.
      cbn [append] in X. congruence.
    + inversion E; subst. destruct (IH n2 d1 d2 H1 H2) as [-> ->]; auto.
Qed.

Lemma str_of_nat_inj (i j : nat) : str_of_nat i = str_of_nat j -> i = j.
Proof.
  assert (Hnil : forall n, Nat.to_uint n <> Decimal.Nil).
  { intros n E. pose proof (DecimalNat.Unsigned.of_to n) as H. rewrite E in H.
    cbn in H. subst n. discriminate. }
  assert (Hs : forall n, str_of_nat n = NilEmpty.string_of_uint (Nat.to_uint n)).
  { intros n. unfold str_of_nat, NilZero.string_of_uint.
    specialize (Hnil n). destruct (Nat.to_uint n); [contradiction Hnil|..]; reflexivity. }
  intros E. rewrite !Hs in E. apply DecimalNat.Unsigned.to_uint_inj.
  assert (E' : Some (Nat.to_uint i) = Some (Nat.to_uint j)).
  { rewrite <- !NilEmpty.usu. rewrite E. reflexivity. }
  inversion E'. reflexivity.
Qed.

(** [f'{name}_{idx}'] tells the name and the index. *)
Lemma table_name_inj (n1 n2 : string) (i j : nat) :
  table_name n1 i = table_name n2 j -> n1 = n2 /\ i = j.
Proof.
  unfold table_name. intros E.
  destruct (name_idx_split n1 n2 (str_of_nat i) (str_of_nat j)
              (digits_str_of_nat i) (digits_str_of_nat j) E) as [-> E'].
  split; [reflexivity | exact (str_of_nat_inj i j E')].
Qed.

(** ** The dictionary of indexes *)

Lemma dict_lookup_set (d : index_dict) (k k' : string) (v : nat) :
  dict_lookup (dict_set d k v) k'
  = if String.eqb k k' then Some v else dict_lookup d k'.
Proof.
  induction d as [|[k0 v0] d IH]; cbn.
  - reflexivity.
  - destruct (String.eqb k0 k) eqn:E0; cbn.
    + apply String.eqb_eq in E0. subst k0. destruct (String.eqb k k'); reflexivity.
    + rewrite IH. destruct (String.eqb k0 k') eqn:E1; [|reflexivity].
      apply String.eqb_eq in E1. subst k0. rewrite String.eqb_sym, E0. reflexivity.
Qed.

(** The next index of every name after a call of [create_temp_table]. *)
Lemma create_temp_table_next (self self' : TempTableManager) (name : string)
    (s s' : SqlaSession Row) (r : option string) :
  create_temp_table oracle_global_temp_tables generate_uuid self name s
  = (r, self', s') ->
  _create_temp_table oracle_global_temp_tables generate_uuid
    (table_name name (next_idx self name)) s = (r, s')
  /\ forall name',
       next_idx self' name'
       = match r with
         | Some _ => if String.eqb name name' then S (next_idx self name)
                     else next_idx self name'
         | None => next_idx self name'
         end.
Proof.
  unfold create_temp_table, setdefault, next_idx.
  destruct (dict_lookup (next_idx_to_use self) name) as [idx|] eqn:El.
  - destruct (_create_temp_table _ _ (table_name name idx) s) as [[t|] s1];
      intros H; inversion H; subst; clear H; (split; [reflexivity|]);
      intros name'; cbn [next_idx_to_use]; [|reflexivity].
    rewrite dict_lookup_set, Nat.add_1_r. destruct (String.eqb name name'); reflexivity.
  - destruct (_create_temp_table _ _ (table_name name 0) s) as [[t|] s1];
      intros H; inversion H; subst; clear H; (split; [reflexivity|]);
      intros name'; cbn [next_idx_to_use]; rewrite ?dict_lookup_set.
    + destruct (String.eqb name name'); reflexivity.
    + destruct (String.eqb name name') eqn:E; [|reflexivity].
      apply String.eqb_eq in E. subst name'. rewrite El. reflexivity.
Qed.

(** ** The tables *)

Lemma table_rows_emptied (t : list (string * list Row)) (name m : string) :
  table_rows (empty_table t name) m
  = if String.eqb name m then Some [] else table_rows t m.
Proof.
  induction t as [|[n rows] t IH]; cbn.
  - reflexivity.
  - destruct (String.eqb n name) eqn:E0; cbn.
    + apply String.eqb_eq in E0. subst n. destruct (String.eqb name m); reflexivity.
    + rewrite IH. destruct (String.eqb n m) eqn:E1; [|reflexivity].
      apply String.eqb_eq in E1. subst n. rewrite String.eqb_sym, E0. reflexivity.
Qed.

Lemma create_table_effect (name : string) (s s' : SqlaSession Row)
    (r : option string) :
  create_table name s = (r, s') ->
  info s' = info s /\ dialect_name s' = dialect_name s
  /\ (forall m rows, table_rows (temp_tables s) m = Some rows ->
        table_rows (temp_tables s') m = Some rows)
  /\ (forall t, r = Some t -> t = name /\ table_rows (temp_tables s) t = None).
Proof.
  unfold create_table.
  destruct (table_rows (temp_tables s) name) as [rows0|] eqn:E;
    intros H; inversion H; subst; clear H; cbn.
  - repeat split; auto; discriminate.
  - split; [reflexivity|]. split; [reflexivity|]. split.
    + intros m rows Hm. rewrite table_rows_emptied.
      destruct (String.eqb name m) eqn:En; [|exact Hm].
      apply String.eqb_eq in En. subst m. congruence.
    + intros t Ht. inversion Ht; subst. auto.
Qed.

(** What [_create_temp_table] does to the session: the manager and the
    dialect stay; a table that is there and has another name keeps its
    rows; the table returned has the name asked, or, behind Oracle, a
    private name that was not in use. *)
Lemma _create_temp_table_effect (name : string) (s s' : SqlaSession Row)
    (r : option string) :
  _create_temp_table oracle_global_temp_tables generate_uuid name s = (r, s') ->
  info s' = info s /\ dialect_name s' = dialect_name s
  /\ (forall m rows, table_rows (temp_tables s) m = Some rows -> m <> name ->
        table_rows (temp_tables s') m = Some rows)
  /\ (forall t, r = Some t ->
        t = name
        \/ (dialect_name s = "oracle"
            /\ table_rows (temp_tables s) t = None
            /\ exists u, t = ("ORA$PTT_" ++ name ++ "_" ++ u)%string)).
Proof.
  unfold _create_temp_table.
  destruct (String.eqb (dialect_name s) "oracle") eqn:Eo.
  - apply String.eqb_eq in Eo.
    destruct (existsb _ oracle_global_temp_tables).
    + intros H; inversion H; subst; clear H. repeat split; auto.
      intros t Ht. inversion Ht. auto.
    + intros H. apply create_table_effect in H. cbn in H.
      destruct H as [Hi [Hd [Hk Hr]]]. repeat split; auto.
      intros t Ht. right. destruct (Hr t Ht) as [-> Hn].
      split; [exact Eo|]. split; [exact Hn|]. eexists.
      reflexivity.
  - destruct (String.eqb (dialect_name s) "postgresql").
    + intros H. apply create_table_effect in H.
      destruct H as [Hi [Hd [Hk Hr]]]. repeat split; auto.
      intros t Ht. left. apply (Hr t Ht).
    + intros H; inversion H; subst; clear H. cbn. repeat split; auto.
      * intros m rows Hm Hne. rewrite table_rows_emptied.
        destruct (String.eqb name m) eqn:En; [|exact Hm].
        apply String.eqb_eq in En. congruence.
      * intros t Ht. inversion Ht. auto.
Qed.

Lemma create_temp_table_effect (self self' : TempTableManager) (name : string)
    (s s' : SqlaSession Row) (r : option string) :
  create_temp_table oracle_global_temp_tables generate_uuid self name s
  = (r, self', s') ->
  (forall m rows, given_out self m -> table_rows (temp_tables s) m = Some rows ->
     table_rows (temp_tables s') m = Some rows)
  /\ (forall m, given_out self m -> given_out self' m)
  /\ (forall t, r = Some t -> dialect_name s <> "oracle" ->
        t = table_name name (next_idx self name)
        /\ ~ given_out self t /\ given_out self' t
        /\ table_rows (temp_tables s') t = Some [] )
  /\ (r = None -> forall m, given_out self' m <-> given_out self m).
Proof.
  intros H. destruct (create_temp_table_next self self' name s s' r H) as [Hc Hnext].
  destruct (_create_temp_table_effect (table_name name (next_idx self name)) s s' r Hc)
    as [_ [_ [Hkeep Hres]]].
  assert (Hfresh : ~ given_out self (table_name name (next_idx self name))).
  { intros [name' [idx [E Hlt]]]. apply table_name_inj in E. destruct E as [<- <-].
    lia. }
  split.
  { intros m rows Hm Hrows. apply Hkeep; [exact Hrows|]. intros ->. exact (Hfresh Hm). }
  split.
  { intros m [name' [idx [-> Hlt]]]. exists name', idx. split; [reflexivity|].
    rewrite Hnext. destruct r; [|exact Hlt].
    destruct (String.eqb name name') eqn:E; [|exact Hlt].
    apply String.eqb_eq in E. subst name'. lia. }
  split.
  { intros t -> Hno. destruct (Hres t eq_refl) as [-> | [Ho _]]; [|contradiction].
    split; [reflexivity|]. split; [exact Hfresh|]. split.
    - exists name, (next_idx self name). split; [reflexivity|].
      rewrite Hnext, String.eqb_refl. lia.
    - revert Hc. unfold _create_temp_table.
      destruct (String.eqb (dialect_name s) "oracle") eqn:Eo;
        [apply String.eqb_eq in Eo; contradiction|].
      destruct (String.eqb (dialect_name s) "postgresql").
      + unfold create_table.
        destruct (table_rows (temp_tables s) _); intros Hc; inversion Hc.
        cbn. rewrite table_rows_emptied, String.eqb_refl. reflexivity.
      + intros Hc; inversion Hc. cbn.
        rewrite table_rows_emptied, String.eqb_refl. reflexivity. }
  intros -> m. split; intros [name' [idx [-> Hlt]]]; exists name', idx;
    (split; [reflexivity|]); rewrite Hnext in *; exact Hlt.
Qed.

(** X22.  A manager of temporary tables never hands out a table that it
    has handed out: a call of [create_temp_table] leaves the rows of every
    table whose name the manager has given out, and these names stay
    given out; behind an engine other than Oracle a call that returns a
    table returns [name_idx] for the next index of the name, a name that
    had not been given out, is given out from then on, and whose table is
    empty; and a call that fails gives out no name. *)
Theorem create_temp_table_gives_fresh_table (self self' : TempTableManager)
    (name : string) (s s' : SqlaSession Row) (r : option string) :
  create_temp_table oracle_global_temp_tables generate_uuid self name s
  = (r, self', s') ->
  (forall m rows, given_out self m -> table_rows (temp_tables s) m = Some rows ->
     table_rows (temp_tables s') m = Some rows)
  /\ (forall m, given_out self m -> given_out self' m)
  /\ (forall t, r = Some t -> dialect_name s <> "oracle" ->
        t = table_name name (next_idx self name)
        /\ ~ given_out self t /\ given_out self' t
        /\ table_rows (temp_tables s') t = Some [] )
  /\ (r = None -> forall m, given_out self' m <-> given_out self m).
Proof. exact (create_temp_table_effect self self' name s s' r). Qed.

(** X23.  Two temporary tables of scopes and names in one session, as
    [delete_dids] holds them: when [temp_table_mngr(session)
    .create_scope_name_table()] has returned a table, a later call on the
    session, whatever rows the tables have received in between, does not
    return that table again and leaves its rows as they are. *)
Theorem session_scope_name_tables_are_distinct (s s1 s2 : SqlaSession Row)
    (t1 : string) (rows : list Row) :
  session_scope_name_table oracle_global_temp_tables generate_uuid s = (Some t1, s1) ->
  info s2 = info s1 ->
  dialect_name s2 = dialect_name s1 ->
  table_rows (temp_tables s2) t1 = Some rows ->
  exists r2 s3,
    session_scope_name_table oracle_global_temp_tables generate_uuid s2 = (r2, s3)
    /\ r2 <> Some t1
    /\ table_rows (temp_tables s3) t1 = Some rows.
Proof.
  unfold session_scope_name_table, create_scope_name_table.
  intros H1 Hinfo Hdial Hrows.
  destruct (temp_table_mngr s) as [mngr s0] eqn:Em.
  destruct (create_temp_table _ _ mngr "TEMPORARY_SCOPE_NAME" s0)
    as [[r1 mngr1] s01] eqn:Ec1.
  inversion H1; subst r1 s1; clear H1. cbn [info set_info dialect_name] in *.
  destruct (create_temp_table_next mngr mngr1 "TEMPORARY_SCOPE_NAME" s0 s01 (Some t1) Ec1)
    as [Hc1 Hnext1].
  destruct (_create_temp_table_effect _ s0 s01 (Some t1) Hc1) as [_ [_ [_ Hres1]]].
  unfold temp_table_mngr. rewrite Hinfo.
  destruct (create_temp_table _ _ mngr1 "TEMPORARY_SCOPE_NAME" s2)
    as [[r2 mngr2] s3] eqn:Ec2.
  destruct (create_temp_table_next mngr1 mngr2 "TEMPORARY_SCOPE_NAME" s2 s3 r2 Ec2)
    as [Hc2 _].
  destruct (_create_temp_table_effect _ s2 s3 r2 Hc2) as [_ [_ [Hkeep2 Hres2]]].
  assert (Hne : t1 <> table_name "TEMPORARY_SCOPE_NAME"
                        (next_idx mngr1 "TEMPORARY_SCOPE_NAME")).
  { rewrite Hnext1, String.eqb_refl.
    destruct (Hres1 t1 eq_refl) as [-> | [_ [_ [u ->]]]].
    - intros E. apply table_name_inj in E. destruct E as [_ E]. lia.
    - intros E. cbn in E. discriminate. }
  exists r2, (set_info (Some mngr2) s3). split; [reflexivity|]. split.
  - intros ->. destruct (Hres2 t1 eq_refl) as [E | [_ [Hn _]]];
      [exact (Hne E) | congruence].
  - cbn [temp_tables set_info]. apply Hkeep2; [exact Hrows | exact Hne].
Qed.

End TempTableProperties.

(** * The operations on the sample catalogs *)

Import Samples.

(** C4.  Behind SQLite the guard [worker_number and total_workers] reads
    worker 0 as no worker at all: of two workers, worker 0 is handed the
    expired DID [a] although the hash of [a] is odd, and worker 1 is handed
    it too; with the [md5] of Python 3, which takes no [str], worker 1
    raises [TypeError] instead of returning its share. *)
Theorem list_expired_dids_sqlite_workers_overlap :
  list_expired_dids quiet (Some 0) (Some 2) None expired_catalog
  = Ok [expired_row (DataIdentifier.set_expired_at (Some 500) (did "a" DATASET true))]
       expired_catalog
  /\ list_expired_dids quiet (Some 1) (Some 2) None expired_catalog
     = Ok [expired_row (DataIdentifier.set_expired_at (Some 500) (did "a" DATASET true))]
          expired_catalog
  /\ list_expired_dids quiet_py3 (Some 1) (Some 2) None expired_catalog
     = Raise TypeError expired_catalog.
Proof. repeat split; vm_compute; reflexivity. Qed.

(** C9.  A batch that attaches [f1] to the dataset [D] and then a
    constituent to the archive file [A.zip]: the association of [D] is
    inserted, the constituent is registered, and the call returns from
    inside the loop, so that no marker is left for [D]; without the second
    attachment the marker is inserted. *)
Theorem attach_dids_to_dids_archive_drops_markers :
  (exists s',
     attach_dids_to_dids quiet 10 archive_batch root false archive_batch_catalog
     = Ok tt s'
     /\ has_association (S, "D") (S, "f1") s' = true
     /\ List.length (archive_contents s') = 1%nat
     /\ updated_dids s' = [])
  /\ (exists s',
        attach_dids_to_dids quiet 10 (firstn 1 archive_batch) root false
          archive_batch_catalog
        = Ok tt s'
        /\ has_association (S, "D") (S, "f1") s' = true
        /\ updated_dids s'
           = [{| UpdatedDID.scope := S; UpdatedDID.name := "D";
                 UpdatedDID.rule_evaluation_action := ATTACH |}]).
Proof.
  split; eexists; (split; [vm_compute; reflexivity|]); repeat split.
Qed.

(** The container [C] holds the dataset [D]; attaching the container [C2]
    to it succeeds, and [C] then has children of both collection types. *)
Lemma attach_other_type_to_container_succeeds :
  exists s',
    attach_dids quiet 10 S "C" [child "C2" []] root false None mixed_catalog
    = Ok tt s'
    /\ map DataIdentifierAssociation.child_type
         (filter (fun a => key_eqb (DataIdentifierAssociation.parent a) (S, "C"))
                 (contents s'))
       = [Some DATASET; Some CONTAINER].
Proof. eexists. split; [vm_compute; reflexivity | reflexivity]. Qed.

(** Closing the container [C]: the aggregates stored are those of the
    files below it, [(10, 1, 3)], while the resolution at depth [DATASET]
    gives the stored aggregates of its dataset, [(100, 5, 7)]. *)
Lemma set_status_close_container_counts_files :
  exists s' c,
    set_status quiet 10 S "C" [("open", PyBool false)] stale_catalog = Ok tt s'
    /\ find_did (S, "C") s' = Some c
    /\ (DataIdentifier.bytes c, DataIdentifier.length c, DataIdentifier.events c)
       = (Some 10, Some 1, Some 3)
    /\ resolve_bytes_length_events_did 10 (did "C" CONTAINER true) DATASET stale_catalog
       = Ok (100, 5, 7) stale_catalog.
Proof.
  eexists. eexists. split; [vm_compute; reflexivity|].
  split; [vm_compute; reflexivity|]. split; reflexivity.
Qed.


(** Attaching the lost file [f1], stored with 10 bytes, to the dataset [D]
    with 99 bytes announced: the sizes differ, and the call fails with
    [UnsupportedOperation]. *)
Lemma attach_lost_file_with_wrong_size :
  exists row,
    find_did (S, "f1") lost_catalog = Some row
    /\ metadata_mismatch (child "f1" [("bytes", PyInt 99)]) row = true
    /\ attach_dids quiet 10 S "D" [child "f1" [("bytes", PyInt 99)]] root false None
         lost_catalog
       = Raise UnsupportedOperation lost_catalog.
Proof. eexists. split; [reflexivity|]. split; vm_compute; reflexivity. Qed.

(** * The theorems on the sample catalogs *)

(** ** The quiet collaborators meet their contracts *)

Lemma keeps_catalog_same (s : Session) : keeps_catalog s s.
Proof.
  unfold keeps_catalog. repeat split; try reflexivity.
  - exists []. symmetry. apply app_nil_r.
  - apply incl_refl.
Qed.

Lemma quiet_rule_engine : rule_engine_keeps_catalog quiet.
Proof.
  split.
  - intros scope name s. exists s. split; [left; reflexivity | apply keeps_catalog_same].
  - intros rule_id purge_replicas soft s. exists s.
    split; [reflexivity | apply keeps_catalog_same].
Qed.

Lemma quiet_notifies (rule : ReplicationRule.t) :
  notifies_only (generate_rule_notifications quiet rule).
Proof.
  intros s. exists s. split; [reflexivity|]. split; [reflexivity|].
  split; [reflexivity|]. exists []. symmetry. apply app_nil_r.
Qed.

(** ** Graphs with a rank *)

(** A table whose selected associations all go from a lower rank to a
    higher one has no cycle. *)
Lemma ranked_cycle_free (sel : DataIdentifierAssociation.t -> bool)
    (tbl : list DataIdentifierAssociation.t) (rank : key -> nat) :
  forallb (fun a => negb (sel a)
                    || (rank (DataIdentifierAssociation.parent a)
                        <? rank (DataIdentifierAssociation.child a))%nat) tbl = true ->
  cycle_free sel tbl.
Proof.
  intros H. unfold cycle_free.
  apply (well_founded_lt_compat key rank).
  intros p c [a [Hin [Hsel [Hp Hc]]]].
  rewrite forallb_forall in H. specialize (H a Hin).
  rewrite Hsel in H. simpl in H. apply Nat.ltb_lt in H. subst. exact H.
Qed.

(** The same downwards: the chains of children are finite. *)
Lemma ranked_container_child (tbl : list DataIdentifierAssociation.t)
    (rank : key -> nat) :
  forallb (fun a => negb (type_in (DataIdentifierAssociation.did_type a) [CONTAINER])
                    || (rank (DataIdentifierAssociation.child a)
                        <? rank (DataIdentifierAssociation.parent a))%nat) tbl = true ->
  well_founded (container_child tbl).
Proof.
  intros H.
  apply (well_founded_lt_compat key rank).
  intros c p [a [Hin [Hsel [Hp Hc]]]].
  rewrite forallb_forall in H. specialize (H a Hin).
  rewrite Hsel in H. simpl in H. apply Nat.ltb_lt in H. subst. exact H.
Qed.

Lemma typed_forallb (s : Session) :
  forallb (fun d => match DataIdentifier.did_type d with
                    | Some _ => true | None => false end) (dids s) = true ->
  typed s.
Proof.
  intros H d Hd. rewrite forallb_forall in H. specialize (H d Hd).
  destruct (DataIdentifier.did_type d); [discriminate | discriminate].
Qed.


(** ** The theorems at work *)

(** Detaching the file [f1] from the dataset [D], whose cached length is 5. *)
Lemma detach_dids_decrements_under_guards_witness :
  exists s',
    detach_dids quiet S "D" [(S, "f1")] stale_catalog = Ok tt s'
    /\ exists did did',
         find_did (S, "D") stale_catalog = Some did
         /\ find_did (S, "D") s' = Some did'
         /\ guarded_decrements (contents stale_catalog) (S, "D") [(S, "f1")] did did'.
Proof.
  eexists. split; [vm_compute; reflexivity|].
  apply (detach_dids_decrements_under_guards quiet S "D" [(S, "f1")] stale_catalog).
  vm_compute. reflexivity.
Defined.

(** Attaching the available file [f1], stored with 10 bytes, to the open
    dataset [D] with 99 bytes announced. *)
Lemma attach_dids_mismatch_raises_witness :
  find_did (S, "D") archive_batch_catalog = Some (did "D" DATASET true)
  /\ find_did (S, "f1") archive_batch_catalog = Some (file "f1" 10 3)
  /\ metadata_mismatch (child "f1" [("bytes", PyInt 99)]) (file "f1" 10 3) = true
  /\ exists s1,
       attach_dids quiet 10 S "D" [child "f1" [("bytes", PyInt 99)]] root false None
         archive_batch_catalog
       = Raise FileConsistencyMismatch s1
       /\ contents s1 = contents archive_batch_catalog.
Proof.
  split; [reflexivity|]. split; [reflexivity|]. split; [vm_compute; reflexivity|].
  apply (attach_dids_mismatch_raises quiet 10 S "D" [child "f1" [("bytes", PyInt 99)]]
           root false None archive_batch_catalog archive_batch_catalog
           (did "D" DATASET true)).
  - reflexivity.
  - reflexivity.
  - reflexivity.
  - vm_compute. reflexivity.
  - reflexivity.
  - intros f Hf. vm_compute in Hf. destruct Hf as [<- | []].
    exists (file "f1" 10 3). split; [reflexivity|]. split; [discriminate | reflexivity].
  - exists (child "f1" [("bytes", PyInt 99)]), (file "f1" 10 3).
    split; [vm_compute; left; reflexivity|]. split; [reflexivity | vm_compute; reflexivity].
Defined.

(** Attaching the container [C2] to the container [C]: the batch has the one
    type [CONTAINER]. *)
Lemma attach_dids_container_batch_one_type_witness :
  exists s',
    attach_dids quiet 10 S "C" [child "C2" []] root false None mixed_catalog = Ok tt s'
    /\ exists t new_rows,
         t <> Some FILE
         /\ (forall c, In c [child "C2" []] ->
               exists row, find_did (c_key c) mixed_catalog = Some row
                           /\ DataIdentifier.did_type row = t)
         /\ contents s' = contents mixed_catalog ++ new_rows
         /\ (forall a, In a new_rows ->
               DataIdentifierAssociation.parent a = (S, "C")
               /\ DataIdentifierAssociation.did_type a = Some CONTAINER
               /\ DataIdentifierAssociation.child_type a = t).
Proof.
  eexists. split; [vm_compute; reflexivity|].
  apply (attach_dids_container_batch_one_type quiet 10 S "C" [child "C2" []] root false
           None mixed_catalog _ (did "C" CONTAINER true)).
  - apply typed_forallb. reflexivity.
  - reflexivity.
  - reflexivity.
  - vm_compute. reflexivity.
Defined.

(** The resolution of the container [C] at depth [DATASET]. *)
Lemma resolve_bytes_length_events_did_resolution_witness :
  exists fuel0, forall fuel, (fuel0 <= fuel)%nat ->
    exists r,
      resolve_bytes_length_events_did fuel (did "C" CONTAINER true) DATASET stale_catalog
      = Ok r stale_catalog
      /\ resolution stale_catalog (did "C" CONTAINER true) DATASET r.
Proof.
  apply (resolve_bytes_length_events_did_resolution stale_catalog
           (did "C" CONTAINER true) DATASET).
  intros _. apply (ranked_container_child (contents stale_catalog) depth_rank).
  vm_compute. reflexivity.
Defined.

(** Closing the container [C], which holds the dataset [D] of one file. *)
Lemma set_status_close_stores_file_aggregates_witness :
  exists fuel0, forall fuel, (fuel0 <= fuel)%nat ->
    exists s' r did',
      set_status quiet fuel S "C" [("open", PyBool false)] stale_catalog = Ok tt s'
      /\ resolve_bytes_length_events_did fuel (did "C" CONTAINER true) FILE stale_catalog
         = Ok r stale_catalog
      /\ resolution stale_catalog (did "C" CONTAINER true) FILE r
      /\ find_did (S, "C") s' = Some did'
      /\ DataIdentifier.is_open did' = Some false
      /\ DataIdentifier.closed_at did' = Some (utcnow stale_catalog)
      /\ (DataIdentifier.bytes did', DataIdentifier.length did',
          DataIdentifier.events did')
         = (Some (fst (fst r)), Some (snd (fst r)), Some (snd r))
      /\ (forall l, In l (dataset_locks s') ->
            (DatasetLock.scope l, DatasetLock.name l) = (S, "C") ->
            DatasetLock.bytes l = Some (fst (fst r))
            /\ DatasetLock.length l = Some (snd (fst r)))
      /\ In (close_message quiet S "C" r) (messages s').
Proof.
  apply (set_status_close_stores_file_aggregates quiet S "C" stale_catalog
           (did "C" CONTAINER true)).
  - exact quiet_notifies.
  - reflexivity.
  - reflexivity.
  - reflexivity.
  - intros _. apply (ranked_container_child (contents stale_catalog) depth_rank).
    vm_compute. reflexivity.
Defined.

(** The container [C1] holds [C2]: attaching [C2] to itself and attaching
    [C1] to [C2] fail, and attaching [C3] to [C2] leaves no cycle. *)
Lemma attach_dids_container_keeps_acyclic_witness :
  (forall fuel,
     attach_dids quiet fuel S "C2" [child "C2" []] root false None nested_catalog
     = Raise UnsupportedOperation nested_catalog)
  /\ (exists fuel0, forall fuel, (fuel0 <= fuel)%nat ->
        attach_dids quiet fuel S "C2" [child "C1" []] root false None nested_catalog
        = Raise UnsupportedOperation nested_catalog)
  /\ (exists s',
        attach_dids quiet 10 S "C2" [child "C3" []] root false None nested_catalog
        = Ok tt s'
        /\ cycle_free container_edge (contents s')
        /\ acyclic container_edge (contents s')).
Proof.
  split; [|split].
  - apply (attach_dids_container_keeps_acyclic quiet S "C2" [child "C2" []] root false
             None nested_catalog (did "C2" CONTAINER true));
      [reflexivity | reflexivity |].
    simpl. left. reflexivity.
  - apply (attach_dids_container_keeps_acyclic quiet S "C2" [child "C1" []] root false
             None nested_catalog (did "C2" CONTAINER true));
      [reflexivity | reflexivity | | |].
    + intros c Hc. simpl in Hc. destruct Hc as [<- | []].
      exists (did "C1" CONTAINER true). split; reflexivity.
    + exists (child "C1" []). split; [left; reflexivity|].
      apply t_step. exists (edge "C1" CONTAINER "C2" CONTAINER None None).
      split; [left; reflexivity|]. repeat split.
    + apply (ranked_cycle_free any_edge (contents nested_catalog) rank).
      vm_compute. reflexivity.
  - eexists. split; [vm_compute; reflexivity|].
    apply (proj2 (proj2 (attach_dids_container_keeps_acyclic quiet S "C2"
                           [child "C3" []] root false None nested_catalog
                           (did "C2" CONTAINER true) eq_refl eq_refl)) 10%nat).
    + apply typed_forallb. reflexivity.
    + apply (ranked_cycle_free container_edge (contents nested_catalog) rank).
      vm_compute. reflexivity.
    + vm_compute. reflexivity.
Defined.

(** Deleting the dataset [D] while the container [C] holds it. *)
Lemma delete_dids_with_parents_keeps_rows_witness :
  exists s',
    delete_dids quiet
      [{| d_scope := S; d_name := "D"; d_did_type := DATASET;
          d_purge_replicas := Some true; d_created_at := Some 100 |}]
      root false stale_catalog = Ok tt s'
    /\ map DataIdentifier.pk (dids s') = map DataIdentifier.pk (dids stale_catalog)
    /\ deleted_dids s' = deleted_dids stale_catalog
    /\ find_association (S, "C") (S, "D") s' = None
    /\ In (new_detach (edge "C" CONTAINER "D" DATASET None None) (Some 100) 1000)
          (contents_history s').
Proof.
  destruct (delete_dids_with_parents_keeps_rows quiet
              [{| d_scope := S; d_name := "D"; d_did_type := DATASET;
                  d_purge_replicas := Some true; d_created_at := Some 100 |}]
              root false stale_catalog) as [s' [E [Hd [Hdel Hrows]]]].
  - exact quiet_rule_engine.
  - vm_compute. repeat constructor; simpl; intuition discriminate.
  - intros a Ha Hin. simpl in Hin. destruct Hin as [Hin | []].
    simpl in Ha. destruct Ha as [<- | [<- | []]]; [|discriminate].
    split; [discriminate|]. exists (did "C" CONTAINER true). split; reflexivity.
  - intros r [].
  - exists (edge "C" CONTAINER "D" DATASET None None).
    split; [left; reflexivity | left; reflexivity].
  - exists s'. split; [exact E|]. split; [exact Hd|]. split; [exact Hdel|].
    destruct (Hrows (edge "C" CONTAINER "D" DATASET None None)) as [Hnone [pdid [Hp Hh]]].
    + left. reflexivity.
    + left. reflexivity.
    + split; [exact Hnone|]. vm_compute in Hp. inversion Hp; subst pdid. exact Hh.
Defined.


(** * Instances of the further properties *)

(** Attaching the file [f1] to the open dataset [D]. *)
Lemma attach_dids_dataset_attaches_batch_witness :
  exists s',
    attach_dids quiet 10 S "D" [child "f1" []] root false None archive_batch_catalog
    = Ok tt s'
    /\ has_association (S, "D") (S, "f1") s' = true
    /\ map aggregates (dids s') = map aggregates (dids archive_batch_catalog).
Proof.
  eexists. split; [vm_compute; reflexivity|].
  destruct (attach_dids_dataset_attaches_batch quiet 10 S "D" [child "f1" []] root false
              archive_batch_catalog _ (did "D" DATASET true) eq_refl eq_refl eq_refl)
    as [_ [_ [Hall [_ Hagg]]]].
  split; [apply (Hall (child "f1" [])); left; reflexivity | exact Hagg].
Defined.

(** Detaching the file [f1] from the dataset [D]. *)
Lemma detach_dids_removes_exactly_witness :
  exists s',
    detach_dids quiet S "D" [(S, "f1")] stale_catalog = Ok tt s'
    /\ contents s' = [edge "C" CONTAINER "D" DATASET None None]
    /\ NoDup [(S, "f1")].
Proof.
  eexists. split; [vm_compute; reflexivity|].
  destruct (detach_dids_removes_exactly quiet S "D" [(S, "f1")] stale_catalog _ eq_refl)
    as [_ [_ [Hnd [Hc _]]]].
  split; [vm_compute; reflexivity | exact Hnd].
Defined.

(** Attaching [f1] to [D] and detaching it. *)
Lemma attach_then_detach_restores_contents_witness :
  exists s1 s2,
    attach_dids quiet 10 S "D" [child "f1" []] root false None archive_batch_catalog
    = Ok tt s1
    /\ detach_dids quiet S "D" [(S, "f1")] s1 = Ok tt s2
    /\ contents s2 = contents archive_batch_catalog.
Proof.
  pose (s1 := match attach_dids quiet 10 S "D" [child "f1" []] root false None
                      archive_batch_catalog with
              | Ok _ s => s
              | _ => archive_batch_catalog
              end).
  assert (E : attach_dids quiet 10 S "D" [child "f1" []] root false None
                archive_batch_catalog = Ok tt s1) by (vm_compute; reflexivity).
  destruct (attach_then_detach_restores_contents quiet 10 S "D" [child "f1" []] root false
              archive_batch_catalog s1 (did "D" DATASET true)) as [s2 [H2 Hc]].
  - reflexivity.
  - reflexivity.
  - discriminate.
  - vm_compute. repeat constructor. simpl. intuition.
  - intros c [<- | []]. reflexivity.
  - exact E.
  - exists s1, s2. split; [exact E|]. split; [exact H2 | exact Hc].
Defined.

(** The ancestors of the container [C2], which [C1] holds. *)
Lemma list_all_parent_dids_lists_ancestors_witness :
  exists fuel0, forall fuel, (fuel0 <= fuel)%nat ->
    exists l,
      list_all_parent_dids fuel S "C2" nested_catalog = Ok l nested_catalog
      /\ (forall p, In p (map fst l)
                    <-> ancestor any_edge (contents nested_catalog) p (S, "C2"))
      /\ (forall r, In r l ->
            exists a, In a (contents nested_catalog)
                      /\ DataIdentifierAssociation.parent a = fst r
                      /\ DataIdentifierAssociation.did_type a = snd r).
Proof.
  apply (list_all_parent_dids_lists_ancestors S "C2" nested_catalog).
  apply (ranked_cycle_free any_edge (contents nested_catalog) rank).
  vm_compute. reflexivity.
Defined.

(** The expired DIDs of a catalog that has one, with a limit of one row. *)
Lemma list_expired_dids_unsharded_witness :
  exists full,
    Permutation full
      (filter (fun d => is_expired expired_catalog d
                        && negb (has_locked_rule expired_catalog d))
              (dids expired_catalog))
    /\ StronglySorted
         (fun a b => or0 (DataIdentifier.expired_at a) <= or0 (DataIdentifier.expired_at b))
         full
    /\ list_expired_dids quiet None None (Some 1) expired_catalog
       = Ok (map expired_row (if 1 =? 0 then full else firstn (Z.to_nat 1) full))
            expired_catalog.
Proof.
  apply (list_expired_dids_unsharded quiet (Some 1) expired_catalog).
  intros n E. inversion E. lia.
Defined.



(** What opening refuses on a catalog with an open dataset and a file. *)
Lemma set_status_open_rejects_witness :
  transactional_session (set_status quiet 10 S "D" [("closed", PyBool true)])
    archive_batch_catalog
  = Raise UnsupportedStatus archive_batch_catalog
  /\ transactional_session (set_status quiet 10 S "X" [("open", PyBool true)])
       archive_batch_catalog
     = Raise DataIdentifierNotFound archive_batch_catalog
  /\ transactional_session (set_status quiet 10 S "D" [("open", PyBool true)])
       archive_batch_catalog
     = Raise UnsupportedOperation archive_batch_catalog
  /\ transactional_session (set_status quiet 10 S "f1" [("open", PyBool true)])
       archive_batch_catalog
     = Raise UnsupportedOperation archive_batch_catalog.
Proof.
  assert (Hpk : NoDup (map DataIdentifier.pk (dids archive_batch_catalog))).
  { vm_compute. repeat constructor; simpl; intuition discriminate. }
  split; [|split; [|split]].
  - apply (proj1 (set_status_open_rejects quiet 10 S "D" archive_batch_catalog Hpk)).
    discriminate.
  - apply (proj1 (proj2 (set_status_open_rejects quiet 10 S "X" archive_batch_catalog Hpk))).
    reflexivity.
  - apply (proj2 (proj2 (set_status_open_rejects quiet 10 S "D" archive_batch_catalog Hpk))
             (did "D" DATASET true)); [reflexivity|].
    right. discriminate.
  - apply (proj2 (proj2 (set_status_open_rejects quiet 10 S "f1" archive_batch_catalog Hpk))
             (file "f1" 10 3)); [reflexivity|].
    left. reflexivity.
Defined.

(** What closing refuses on a catalog with a closed dataset and a file. *)
Lemma set_status_close_rejects_witness :
  (forall fuel,
     transactional_session (set_status quiet fuel S "X" [("open", PyBool false)])
       closed_catalog
     = Raise DataIdentifierNotFound closed_catalog)
  /\ (exists fuel0, forall fuel, (fuel0 <= fuel)%nat ->
        transactional_session (set_status quiet fuel S "D" [("open", PyBool false)])
          closed_catalog
        = Raise UnsupportedOperation closed_catalog)
  /\ (exists fuel0, forall fuel, (fuel0 <= fuel)%nat ->
        transactional_session (set_status quiet fuel S "f1" [("open", PyBool false)])
          closed_catalog
        = Raise UnsupportedOperation closed_catalog).
Proof.
  assert (Hpk : NoDup (map DataIdentifier.pk (dids closed_catalog))).
  { vm_compute. repeat constructor; simpl; intuition discriminate. }
  split; [|split].
  - apply (proj1 (set_status_close_rejects quiet S "X" closed_catalog Hpk)).
    reflexivity.
  - apply (proj2 (set_status_close_rejects quiet S "D" closed_catalog Hpk)
             (did "D" DATASET false)); [reflexivity | right; discriminate | discriminate].
  - apply (proj2 (set_status_close_rejects quiet S "f1" closed_catalog Hpk)
             (file "f1" 10 3)); [reflexivity | left; reflexivity | discriminate].
Defined.


(** The listing of the dataset [D] after its only file was detached. *)
Lemma list_content_after_detach_witness :
  exists s',
    detach_dids quiet S "D" [(S, "f1")] stale_catalog = Ok tt s'
    /\ list_content S "D" s' = Ok [] s'.
Proof.
  pose (s1 := match detach_dids quiet S "D" [(S, "f1")] stale_catalog with
              | Ok _ s => s
              | _ => stale_catalog
              end).
  assert (E : detach_dids quiet S "D" [(S, "f1")] stale_catalog = Ok tt s1)
    by (vm_compute; reflexivity).
  exists s1. split; [exact E|].
  rewrite (list_content_after_detach quiet S "D" [(S, "f1")] stale_catalog s1 E).
  reflexivity.
Defined.


(** The child datasets of the container [C], which holds [D]. *)
Lemma list_child_datasets_lists_witness :
  exists fuel0, forall fuel, (fuel0 <= fuel)%nat ->
    exists l,
      list_child_datasets fuel S "C" stale_catalog = Ok l stale_catalog
      /\ NoDup l
      /\ forall k, In k l <-> child_dataset (contents stale_catalog) (S, "C") k.
Proof.
  apply (list_child_datasets_lists S "C" stale_catalog).
  apply (ranked_container_child (contents stale_catalog) depth_rank).
  vm_compute. reflexivity.
Defined.

(** The files of the dataset [D], whose stored aggregates are stale. *)
Lemma list_files_dataset_meets_resolution_witness :
  exists rows,
    list_files 1 S "D" false stale_catalog = Ok rows stale_catalog
    /\ map (fun r => (f_scope r, f_name r)) rows = [(S, "f1")]
    /\ resolve_bytes_length_events_did 0
         (DataIdentifier.set_events (Some 7)
            (DataIdentifier.set_bytes (Some 100)
               (DataIdentifier.set_length (Some 5) (did "D" DATASET true))))
         FILE stale_catalog
       = Ok (10, 1, 3) stale_catalog.
Proof.
  destruct (list_files_dataset_meets_resolution 0 0 S "D" stale_catalog
              (DataIdentifier.set_events (Some 7)
                 (DataIdentifier.set_bytes (Some 100)
                    (DataIdentifier.set_length (Some 5) (did "D" DATASET true))))
              eq_refl eq_refl) as [rows [H1 [H2 H3]]].
  exists rows. split; [exact H1|]. split; [exact H2|].
  rewrite H3. vm_compute in H1. inversion H1. reflexivity.
Defined.

(** A request for the files of [D], of a DID that does not exist and of
    the file [f1]. *)
Lemma bulk_list_files_passes_over_missing_witness :
  bulk_list_files 5 ([(S, "D")] ++ (S, "X") :: [(S, "f1")]) false stale_catalog
  = bulk_list_files 5 ([(S, "D")] ++ [(S, "f1")]) false stale_catalog
  /\ forall l e s', bulk_list_files 5 l false stale_catalog <> Raise e s'.
Proof.
  apply (bulk_list_files_passes_over_missing 5 [(S, "D")] [(S, "f1")] (S, "X")
           false stale_catalog).
  reflexivity.
Defined.


(** Closing the dataset [D], whose stored aggregates are stale. *)
Lemma get_did_after_close_witness :
  exists fuel0, forall fuel, (fuel0 <= fuel)%nat ->
    exists s' bytes_ length,
      get_did fuel S "D" (Some FILE) stale_catalog
      = Ok (CollectionInfo S "D" (Some DATASET) (Some root) (Some true) (Some false) None
              (Some length) (Some bytes_)) stale_catalog
      /\ set_status quiet fuel S "D" [("open", PyBool false)] stale_catalog = Ok tt s'
      /\ get_did fuel S "D" None s'
         = Ok (CollectionInfo S "D" (Some DATASET) (Some root) (Some false) (Some false) None
                 (Some length) (Some bytes_)) s'.
Proof.
  apply (get_did_after_close quiet S "D" stale_catalog
           (DataIdentifier.set_events (Some 7)
              (DataIdentifier.set_bytes (Some 100)
                 (DataIdentifier.set_length (Some 5) (did "D" DATASET true))))).
  - exact quiet_notifies.
  - reflexivity.
  - reflexivity.
  - reflexivity.
  - discriminate.
Defined.

(** Attaching a new constituent [c1] of 5 bytes to the archive [A.zip]. *)
Lemma attach_dids_archive_registers_constituents_witness :
  exists s',
    attach_dids quiet 10 S "A.zip" [child "c1" [("bytes", PyInt 5)]] root false None
      archive_batch_catalog = Ok tt s'
    /\ find_constituent (S, "A.zip") (S, "c1") s' <> None
    /\ (exists p', find_did (S, "A.zip") s' = Some p'
                   /\ DataIdentifier.is_archive p' = Some true)
    /\ contents s' = contents archive_batch_catalog.
Proof.
  pose (s1 := match attach_dids quiet 10 S "A.zip" [child "c1" [("bytes", PyInt 5)]]
                      root false None archive_batch_catalog with
              | Ok _ s => s
              | _ => archive_batch_catalog
              end).
  assert (E : attach_dids quiet 10 S "A.zip" [child "c1" [("bytes", PyInt 5)]] root
                false None archive_batch_catalog = Ok tt s1)
    by (vm_compute; reflexivity).
  destruct (attach_dids_archive_registers_constituents quiet 10 S "A.zip"
              [child "c1" [("bytes", PyInt 5)]] root false None archive_batch_catalog
              s1 (file "A.zip" 50 0) eq_refl eq_refl E)
    as [_ [_ [Hall [Hp [Hc _]]]]].
  exists s1. split; [exact E|]. split.
  - apply (Hall (child "c1" [("bytes", PyInt 5)])). left. reflexivity.
  - split; [exact Hp | exact Hc].
Defined.


(** A manager that has given out nothing, behind SQLite: the first table
    of the name [T]. *)
Lemma create_temp_table_gives_fresh_table_witness :
  exists self' s',
    TempTables.create_temp_table [] (fun _ => "u")
      {| TempTables.next_idx_to_use := [] |} "T"
      {| TempTables.dialect_name := "sqlite"; TempTables.info := None;
         TempTables.temp_tables := [("X_0", [1%nat])];
         TempTables.uuids_drawn := 0 |}
    = (Some "T_0", self', s')
    /\ ~ TempTables.given_out {| TempTables.next_idx_to_use := [] |} "T_0"
    /\ TempTables.given_out self' "T_0"
    /\ TempTables.table_rows (TempTables.temp_tables s') "T_0" = Some [].
Proof.
  eexists. eexists. split; [vm_compute; reflexivity|].
  destruct (create_temp_table_gives_fresh_table nat [] (fun _ => "u")
              {| TempTables.next_idx_to_use := [] |} _ "T"
              {| TempTables.dialect_name := "sqlite"; TempTables.info := None;
                 TempTables.temp_tables := [("X_0", [1%nat])];
                 TempTables.uuids_drawn := 0 |} _ (Some "T_0") eq_refl)
    as [_ [_ [H _]]].
  destruct (H "T_0" eq_refl) as [_ [H1 [H2 H3]]]; [discriminate|].
  split; [exact H1|]. split; [exact H2 | exact H3].
Defined.

(** Two tables of scopes and names in a session behind SQLite; the first
    has received a row when the second is made. *)
Lemma session_scope_name_tables_are_distinct_witness :
  exists r2 s3,
    TempTables.session_scope_name_table [] (fun _ => "u")
      {| TempTables.dialect_name := "sqlite";
         TempTables.info := Some {| TempTables.next_idx_to_use :=
                                      [("TEMPORARY_SCOPE_NAME", 1%nat)] |};
         TempTables.temp_tables := [("TEMPORARY_SCOPE_NAME_0", [7%nat])];
         TempTables.uuids_drawn := 0 |}
    = (r2, s3)
    /\ r2 <> Some "TEMPORARY_SCOPE_NAME_0"
    /\ TempTables.table_rows (TempTables.temp_tables s3) "TEMPORARY_SCOPE_NAME_0"
       = Some [7%nat].
Proof.
  apply (session_scope_name_tables_are_distinct nat [] (fun _ => "u")
           {| TempTables.dialect_name := "sqlite"; TempTables.info := None;
              TempTables.temp_tables := []; TempTables.uuids_drawn := 0 |}
           {| TempTables.dialect_name := "sqlite";
              TempTables.info := Some {| TempTables.next_idx_to_use :=
                                           [("TEMPORARY_SCOPE_NAME", 1%nat)] |};
              TempTables.temp_tables := [("TEMPORARY_SCOPE_NAME_0", [])];
              TempTables.uuids_drawn := 0 |}).
  - vm_compute. reflexivity.
  - reflexivity.
  - reflexivity.
  - reflexivity.
Defined.

(** A rank that decreases from every parent to its children bounds the
    walk of [list_files]. *)
Lemma ranked_walk (tbl : list DataIdentifierAssociation.t) (rank : key -> nat) :
  forallb (fun a => (rank (DataIdentifierAssociation.child a)
                     <? rank (DataIdentifierAssociation.parent a))%nat) tbl = true ->
  well_founded (walk_step tbl).
Proof.
  intros H.
  apply (well_founded_lt_compat walk_node (fun n => rank (fst n))).
  intros n' n [_ Hin]. unfold pushed in Hin. apply in_map_iff in Hin.
  destruct Hin as [a [<- Ha]]. apply filter_In in Ha. destruct Ha as [Ha Hk].
  apply key_eqb_eq in Hk. rewrite forallb_forall in H. specialize (H a Ha).
  apply Nat.ltb_lt in H. cbn [fst]. rewrite <- Hk. exact H.
Qed.

(** The files of the container [C], which holds the dataset [D] of one
    file. *)
Lemma list_files_lists_reached_datasets_witness :
  exists fuel0, forall fuel, (fuel0 <= fuel)%nat ->
    exists rows,
      list_files fuel S "C" false stale_catalog = Ok rows stale_catalog
      /\ forall r, In r rows
                   <-> exists k',
                         arrives (contents stale_catalog)
                           ((S, "C"), Some CONTAINER) k'
                         /\ In r (dataset_files stale_catalog false k').
Proof.
  apply (list_files_lists_reached_datasets S "C" false stale_catalog
           (did "C" CONTAINER true)).
  - reflexivity.
  - reflexivity.
  - apply (ranked_walk (contents stale_catalog) depth_rank). vm_compute. reflexivity.
Defined.

(** Detaching the only file of the dataset [D]: the resolved aggregates
    go from those of the file to zero. *)
Lemma detach_dids_lowers_resolution_witness :
  exists s' did',
    detach_dids quiet S "D" [(S, "f1")] stale_catalog = Ok tt s'
    /\ find_did (S, "D") s' = Some did'
    /\ resolve_bytes_length_events_did 0 did' FILE s' = Ok (0, 0, 0) s'.
Proof.
  pose (s1 := match detach_dids quiet S "D" [(S, "f1")] stale_catalog with
              | Ok _ s => s
              | _ => stale_catalog
              end).
  assert (E : detach_dids quiet S "D" [(S, "f1")] stale_catalog = Ok tt s1)
    by (vm_compute; reflexivity).
  destruct (detach_dids_lowers_resolution quiet 0 S "D" [(S, "f1")] stale_catalog s1
              (DataIdentifier.set_events (Some 7)
                 (DataIdentifier.set_bytes (Some 100)
                    (DataIdentifier.set_length (Some 5) (did "D" DATASET true))))
              eq_refl eq_refl E)
    as [did' [b [l [e [Hd [Hr Hr']]]]]].
  exists s1, did'. split; [exact E|]. split; [exact Hd|].
  vm_compute in Hr. inversion Hr; subst b l e. exact Hr'.
Defined.

(** Attaching the file [f1] of 10 bytes and 3 events to the empty dataset
    [D]. *)
Lemma attach_dids_raises_resolution_witness :
  exists s' did',
    attach_dids quiet 10 S "D" [child "f1" []] root false None archive_batch_catalog
    = Ok tt s'
    /\ find_did (S, "D") s' = Some did'
    /\ aggregates did' = aggregates (did "D" DATASET true)
    /\ exists new_rows,
         contents s' = contents archive_batch_catalog ++ new_rows
         /\ resolve_bytes_length_events_did 0 did' FILE s'
            = Ok (0 + total (map DataIdentifierAssociation.bytes new_rows),
                  0 + Z.of_nat (List.length new_rows),
                  0 + total (map DataIdentifierAssociation.events new_rows)) s'.
Proof.
  pose (s1 := match attach_dids quiet 10 S "D" [child "f1" []] root false None
                      archive_batch_catalog with
              | Ok _ s => s
              | _ => archive_batch_catalog
              end).
  assert (E : attach_dids quiet 10 S "D" [child "f1" []] root false None
                archive_batch_catalog = Ok tt s1) by (vm_compute; reflexivity).
  destruct (attach_dids_raises_resolution quiet 10 0 S "D" [child "f1" []] root false
              archive_batch_catalog s1 (did "D" DATASET true) eq_refl eq_refl E)
    as [did' [new_rows [b [l [e [Hd [Ha [Hc [_ [Hr Hr']]]]]]]]]].
  exists s1, did'. split; [exact E|]. split; [exact Hd|]. split; [exact Ha|].
  exists new_rows. split; [exact Hc|].
  vm_compute in Hr. inversion Hr; subst b l e. exact Hr'.
Defined.

